(** * pybtrfs.mkfs: filesystem creation

    A shallow embedding of the creation logic of [src/mkfs/mkfs.c]: the
    helpers copied from btrfs-progs ([create_one_raid_group],
    [create_raid_groups], [is_temp_block_group], [next_block_group],
    [cleanup_temp_chunks], ...) and the Python entry point [pybtrfs_mkfs].

    The vendored btrfs-progs library is not part of the translated sources.
    Its calls are kept as events of a trace, their return codes and output
    parameters come from an environment, and the constants of its headers
    are the fields of a class. *)

From Stdlib Require Import ZArith List Bool Lia String Ascii Sorted Permutation.
Import ListNotations.
Open Scope Z_scope.

(** ** Machine integers *)

(** [u64] arithmetic wraps around. *)
Definition u64_modulus : Z := 2 ^ 64.
Definition u64_add (a b : Z) : Z := (a + b) mod u64_modulus.
Definition u64_sub (a b : Z) : Z := (a - b) mod u64_modulus.
Definition is_u64 (a : Z) : Prop := 0 <= a < u64_modulus.

(** ** Constants of the btrfs-progs and kernel headers

    The headers ([kernel-shared/uapi/btrfs_tree.h], [kernel-shared/ctree.h],
    [mkfs/common.h]) are not among the translated sources, so their macros
    are parameters. *)
Class btrfs_uapi : Type := {
  BTRFS_BLOCK_GROUP_DATA : Z;
  BTRFS_BLOCK_GROUP_SYSTEM : Z;
  BTRFS_BLOCK_GROUP_METADATA : Z;
  BTRFS_BLOCK_GROUP_METADATA_REMAP : Z;
  BTRFS_BLOCK_GROUP_RAID5 : Z;
  BTRFS_BLOCK_GROUP_RAID6 : Z;
  BTRFS_BLOCK_GROUP_RAID1C3 : Z;
  BTRFS_BLOCK_GROUP_RAID1C4 : Z;
  BTRFS_BLOCK_GROUP_TYPE_MASK : Z;
  BTRFS_BLOCK_GROUP_PROFILE_MASK : Z;
  BTRFS_BLOCK_GROUP_RAID56_MASK : Z;
  BTRFS_BLOCK_GROUP_ITEM_KEY : Z;
  BTRFS_FEATURE_INCOMPAT_MIXED_GROUPS : Z;
  BTRFS_FEATURE_INCOMPAT_BIG_METADATA : Z;
  BTRFS_FEATURE_INCOMPAT_RAID56 : Z;
  BTRFS_FEATURE_INCOMPAT_RAID1C34 : Z;
  BTRFS_FEATURE_INCOMPAT_RAID_STRIPE_TREE : Z;
  BTRFS_FEATURE_INCOMPAT_REMAP_TREE : Z;
  BTRFS_FEATURE_INCOMPAT_EXTENT_TREE_V2 : Z;
  BTRFS_MKFS_DEFAULT_META_ONE_DEVICE : Z;
  BTRFS_MKFS_DEFAULT_META_MULTI_DEVICE : Z;
  BTRFS_MKFS_DEFAULT_DATA_MULTI_DEVICE : Z;
  BTRFS_MKFS_SYSTEM_GROUP_SIZE : Z;
  BTRFS_DATA_RELOC_TREE_OBJECTID : Z;
  BTRFS_RAID_STRIPE_TREE_OBJECTID : Z;
  BTRFS_REMAP_TREE_OBJECTID : Z;
  BTRFS_SUPER_INFO_OFFSET : Z;
  BTRFS_LABEL_SIZE : Z;
  BTRFS_UUID_UNPARSED_SIZE : Z;
  (* the default incompat set of [btrfs_mkfs_default_features] *)
  btrfs_mkfs_default_incompat : Z
}.

(** [<errno.h>], Linux values. *)
Definition EIO : Z := 5.
Definition ENOMEM : Z := 12.
Definition EINVAL : Z := 22.
Definition ENOSPC : Z := 28.

(** ** Data model *)

(** [struct mkfs_allocation], the allocation ledger. *)
Record mkfs_allocation : Type := {
  data : Z;
  metadata : Z;
  mixed : Z;
  system : Z;
  remap : Z
}.

Definition zero_allocation : mkfs_allocation :=
  {| data := 0; metadata := 0; mixed := 0; system := 0; remap := 0 |}.

(** [allocation->field += n] and [allocation->field -= n], on [u64]. *)
Definition add_data (n : Z) (a : mkfs_allocation) : mkfs_allocation :=
  {| data := u64_add (data a) n; metadata := metadata a; mixed := mixed a;
     system := system a; remap := remap a |}.
Definition add_metadata (n : Z) (a : mkfs_allocation) : mkfs_allocation :=
  {| data := data a; metadata := u64_add (metadata a) n; mixed := mixed a;
     system := system a; remap := remap a |}.
Definition add_mixed (n : Z) (a : mkfs_allocation) : mkfs_allocation :=
  {| data := data a; metadata := metadata a; mixed := u64_add (mixed a) n;
     system := system a; remap := remap a |}.
Definition add_system (n : Z) (a : mkfs_allocation) : mkfs_allocation :=
  {| data := data a; metadata := metadata a; mixed := mixed a;
     system := u64_add (system a) n; remap := remap a |}.
Definition add_remap (n : Z) (a : mkfs_allocation) : mkfs_allocation :=
  {| data := data a; metadata := metadata a; mixed := mixed a;
     system := system a; remap := u64_add (remap a) n |}.
Definition sub_data (n : Z) (a : mkfs_allocation) : mkfs_allocation :=
  {| data := u64_sub (data a) n; metadata := metadata a; mixed := mixed a;
     system := system a; remap := remap a |}.
Definition sub_metadata (n : Z) (a : mkfs_allocation) : mkfs_allocation :=
  {| data := data a; metadata := u64_sub (metadata a) n; mixed := mixed a;
     system := system a; remap := remap a |}.
Definition sub_mixed (n : Z) (a : mkfs_allocation) : mkfs_allocation :=
  {| data := data a; metadata := metadata a; mixed := u64_sub (mixed a) n;
     system := system a; remap := remap a |}.
Definition sub_system (n : Z) (a : mkfs_allocation) : mkfs_allocation :=
  {| data := data a; metadata := metadata a; mixed := mixed a;
     system := u64_sub (system a) n; remap := remap a |}.

Record btrfs_key : Type := {
  objectid : Z;
  type : Z;
  offset : Z
}.

(** The two fields of [struct btrfs_block_group_item] that the code reads. *)
Record btrfs_block_group_item : Type := {
  used : Z;
  flags : Z
}.

(** [struct prepare_device_progress], the context record of one
    preparation worker ([oflags] is always [O_RDWR]). *)
Record prepare_device_progress : Type := {
  fd : Z;
  file : string;
  dev_byte_count : Z;
  byte_count : Z;
  zero_end : bool;
  discard : bool;
  zoned : bool;
  prepare_ret : Z
}.

(** A positional argument of [mkfs]: a [str], a [str] that has no UTF-8
    encoding, or an object of another type. *)
Inductive py_object : Type :=
| PyUnicode (s : string)
| PyUnicodeNoUTF8
| PyOther.

(** The arguments of [mkfs] once [PyArg_ParseTupleAndKeywords] has
    succeeded. *)
Record mkfs_args : Type := {
  kw_devices : list py_object;
  kw_label : string;
  kw_nodesize : Z;
  kw_sectorsize : Z;
  kw_byte_count : Z;
  kw_metadata_profile : Z;
  kw_data_profile : Z;
  kw_mixed : bool;
  kw_features : Z;
  kw_csum_type : Z;
  kw_uuid : string;
  kw_force : bool;
  kw_no_discard : bool
}.

(** What [mkfs] hands back to Python: an exception or the result dict. *)
Inductive py_result : Type :=
| PyErr_ValueError
| PyErr_TypeError
| PyErr_NoMemory
| PyErr_Propagated
| PyErr_OSError (errno : Z)
| Py_BuildValue (uuid : string) (num_bytes : Z).

(** A leaf item of the block-group root: its key and its payload, read as a
    block-group item. *)
Record item : Type := {
  key : btrfs_key;
  bgi : btrfs_block_group_item
}.

(** [btrfs_comp_cpu_keys]: keys are ordered by objectid, then type, then
    offset. *)
Definition key_ltb (a b : btrfs_key) : bool :=
  (objectid a <? objectid b)
  || ((objectid a =? objectid b)
      && ((type a <? type b)
          || ((type a =? type b) && (offset a <? offset b)))).

Definition key_eqb (a b : btrfs_key) : bool :=
  (objectid a =? objectid b) && (type a =? type b) && (offset a =? offset b).

(** ** The library boundary *)

(** Calls into btrfs-progs, libc and libuuid made by the translated code. *)
Inductive lib_call : Type :=
| Calloc (nmemb : Z)
| UuidParse (s : string)
| Sysconf_PAGE_SIZE
| TestDevForMkfs (path : string) (force : bool)
| PthreadCreate (i : nat)
| PthreadJoin (i : nat)
| Open (path : string)
| PrepareDevice (fd : Z) (path : string) (byte_count : Z)
    (zero_end discard zoned : bool)
| Close (fd : Z)
| MakeBtrfs (fd : Z) (num_bytes : Z) (nodesize sectorsize : Z)
    (incompat_flags : Z) (csum_type : Z)
| OpenCtreeFsInfo (path : string)
| IsZoned
| UpdateSpaceInfo (flags : Z)
| StartTransaction
| AllocChunk (type : Z)
| MakeBlockGroup (type : Z) (chunk_start chunk_size : Z)
| CommitTransaction
| CreateTree (objectid : Z)
| MakeRootDir
| Sysconf_NPROCESSORS_ONLN
| CreateGlobalRoots (nr_global_roots : Z)
| DeviceAlreadyInRoot (fd : Z) (super_offset : Z)
| AddToFsid (fd : Z) (path : string) (device_total_bytes : Z)
    (sectorsize : Z)
| RecowRoots
| MakeSubvolume (objectid : Z)
| RebuildUuidTree
| SearchSlot (k : btrfs_key)
| NextItem
| RemoveBlockGroup (bytenr len : Z)
| SuperTotalBytes
| CloseCtree
| CloseAllDevices.

(** What a call gives back: its return code and up to two output
    parameters ([chunk_start] and [chunk_size] of [btrfs_alloc_chunk], the
    usable size of [btrfs_prepare_device], [errno] after a failed [open],
    the zone size of a zoned filesystem). *)
Record response : Type := {
  ret : Z;
  out1 : Z;
  out2 : Z
}.

(** Entries of the translated stage functions, with their arguments. *)
Inductive stage : Type :=
| CreateMetadataBlockGroups (incompat_flags metadata_profile : Z)
| CreateDataBlockGroups (mixed : bool)
| CreateRaidGroups (data_profile metadata_profile : Z) (mixed : bool)
| CleanupTempChunks (data_profile meta_profile sys_profile : Z)
    (do_discard : bool).

(** An event of a run: a library call with its answer, the entry of a
    stage, or the context record a preparation worker leaves behind. *)
Inductive event : Type :=
| Lib (c : lib_call) (r : response)
| Enter (s : stage)
| Prepared (i : nat) (p : prepare_device_progress).

Definition history : Type := list event.

(** The library sees the calls made so far, not the stage the caller is
    in. *)
Definition lib_history : Type := list (lib_call * response).

Fixpoint calls (h : history) : lib_history :=
  match h with
  | [] => []
  | Lib c r :: h' => (c, r) :: calls h'
  | _ :: h' => calls h'
  end.

(** The environment: how the library answers a call after the calls made so
    far, and which items the block-group root holds when the cleaner starts
    (they are written by [make_btrfs] and the chunk allocator). *)
Record environment : Type := {
  respond : lib_history -> lib_call -> response;
  block_groups_on_disk : lib_history -> list item;
  (* [cfg->fs_uuid] after [make_btrfs], which fills in an empty one *)
  fs_uuid_after_make_btrfs : lib_history -> string -> string
}.

(** The state threaded through the translated functions. *)
Record world : Type := {
  trace : history;
  allocation : mkfs_allocation;
  items : list item
}.

Definition call (E : environment) (c : lib_call) (w : world)
  : response * world :=
  let r := respond E (calls (trace w)) c in
  (r, {| trace := trace w ++ [Lib c r];
         allocation := allocation w;
         items := items w |}).

Definition record (e : event) (w : world) : world :=
  {| trace := trace w ++ [e];
     allocation := allocation w;
     items := items w |}.

Definition enter (s : stage) (w : world) : world := record (Enter s) w.

Definition set_allocation (a : mkfs_allocation) (w : world) : world :=
  {| trace := trace w; allocation := a; items := items w |}.

Definition set_items (l : list item) (w : world) : world :=
  {| trace := trace w; allocation := allocation w; items := l |}.

(** ** The RAID group planner and the temporary chunk cleaner *)

Section Mkfs.

Context {K : btrfs_uapi}.
Variable E : environment.

(** The classification of [create_one_raid_group]: the ledger field of a
    type mask grows by the chunk size; [None] is the [else] branch. *)
Definition account_chunk (type_mask chunk_size : Z) (a : mkfs_allocation)
  : option mkfs_allocation :=
  if type_mask =? BTRFS_BLOCK_GROUP_DATA then
    Some (add_data chunk_size a)
  else if type_mask =? BTRFS_BLOCK_GROUP_METADATA then
    Some (add_metadata chunk_size a)
  else if type_mask =? BTRFS_BLOCK_GROUP_SYSTEM then
    Some (add_system chunk_size a)
  else if type_mask =? Z.lor BTRFS_BLOCK_GROUP_METADATA
                             BTRFS_BLOCK_GROUP_DATA then
    Some (add_mixed chunk_size a)
  else None.

(** [create_one_raid_group].  The result of [btrfs_make_block_group] is
    kept in [ret] and returned unless the type mask is unrecognized. *)
Definition create_one_raid_group (type : Z) (w : world) : Z * world :=
  let (r, w) := call E (AllocChunk type) w in
  if ret r =? - ENOSPC then (- ENOSPC, w)
  else if negb (ret r =? 0) then (ret r, w)
  else
    let chunk_start := out1 r in
    let chunk_size := out2 r in
    let (r, w) := call E (MakeBlockGroup type chunk_start chunk_size) w in
    let type := Z.land type BTRFS_BLOCK_GROUP_TYPE_MASK in
    match account_chunk type chunk_size (allocation w) with
    | Some a => (ret r, set_allocation a w)
    | None => (- EINVAL, w)
    end.

(** [create_raid_groups]. *)
Definition create_raid_groups (data_profile metadata_profile : Z)
  (mixed : bool) (w : world) : Z * world :=
  let w := enter (CreateRaidGroups data_profile metadata_profile mixed) w in
  let continue (w : world) : Z * world :=
    if negb mixed && negb (data_profile =? 0) then
      create_one_raid_group
        (Z.lor BTRFS_BLOCK_GROUP_DATA data_profile) w
    else (0, w) in
  if negb (metadata_profile =? 0) then
    let meta_flags := BTRFS_BLOCK_GROUP_METADATA in
    let (r, w) :=
      create_one_raid_group
        (Z.lor BTRFS_BLOCK_GROUP_SYSTEM metadata_profile) w in
    if negb (r =? 0) then (r, w)
    else
      let meta_flags :=
        if mixed then Z.lor meta_flags BTRFS_BLOCK_GROUP_DATA
        else meta_flags in
      let (r, w) :=
        create_one_raid_group (Z.lor meta_flags metadata_profile) w in
      if negb (r =? 0) then (r, w)
      else continue w
  else continue w.

(** [is_temp_block_group]; the [switch] becomes a chain of tests on its
    case labels. *)
Definition is_temp_block_group (bgi : btrfs_block_group_item)
  (data_profile meta_profile sys_profile : Z) : bool :=
  let flag := flags bgi in
  let flag_type := Z.land flag BTRFS_BLOCK_GROUP_TYPE_MASK in
  let flag_profile := Z.land flag BTRFS_BLOCK_GROUP_PROFILE_MASK in
  if negb (used bgi =? 0) then false
  else if (flag_type =? BTRFS_BLOCK_GROUP_DATA)
          || (flag_type =? Z.lor BTRFS_BLOCK_GROUP_DATA
                                 BTRFS_BLOCK_GROUP_METADATA) then
    negb (flag_profile
          =? Z.land data_profile BTRFS_BLOCK_GROUP_PROFILE_MASK)
  else if flag_type =? BTRFS_BLOCK_GROUP_METADATA then
    negb (flag_profile
          =? Z.land meta_profile BTRFS_BLOCK_GROUP_PROFILE_MASK)
  else if flag_type =? BTRFS_BLOCK_GROUP_SYSTEM then
    negb (flag_profile
          =? Z.land sys_profile BTRFS_BLOCK_GROUP_PROFILE_MASK)
  else false.

(** *** The block-group root as a key-ordered list *)

(** A slot past the last item of the leaf reads as zeroes. *)
Definition zero_item : item :=
  {| key := {| objectid := 0; type := 0; offset := 0 |};
     bgi := {| used := 0; flags := 0 |} |}.

Definition item_at (l : list item) (slot : nat) : item :=
  nth slot l zero_item.

(** [btrfs_search_slot] without insertion or deletion: the path stops at
    the first item that is not below the searched key. *)
Fixpoint search_slot (l : list item) (k : btrfs_key) : nat :=
  match l with
  | [] => O
  | it :: l' => if key_ltb (key it) k then S (search_slot l' k) else O
  end.

(** What [btrfs_remove_block_group] does to the block-group root: the item
    of the group is deleted. *)
Definition delete_block_group (l : list item) (bytenr len : Z) : list item :=
  filter (fun it =>
            negb (key_eqb (key it)
                    {| objectid := bytenr;
                       type := BTRFS_BLOCK_GROUP_ITEM_KEY;
                       offset := len |})) l.

(** [next_block_group]: [btrfs_next_item] until a block-group item is
    reached; [rest] holds the items after the slot of the path.  The result
    is 0 with the new slot, 1 at the end of the tree, or a negative
    error. *)
Fixpoint next_block_group_from (rest : list item) (slot : nat) (w : world)
  : Z * nat * world :=
  let (r, w) := call E NextItem w in
  if ret r <? 0 then (ret r, slot, w)
  else
    match rest with
    | [] => (1, slot, w)
    | it :: rest' =>
        if type (key it) =? BTRFS_BLOCK_GROUP_ITEM_KEY
        then (0, S slot, w)
        else next_block_group_from rest' (S slot) w
    end.

Definition next_block_group (slot : nat) (w : world) : Z * nat * world :=
  next_block_group_from (skipn (S slot) (items w)) slot w.

(** The ledger update that follows a removal in [cleanup_temp_chunks]. *)
Definition unaccount_chunk (flags len : Z) (a : mkfs_allocation)
  : mkfs_allocation :=
  let type_mask := Z.land flags BTRFS_BLOCK_GROUP_TYPE_MASK in
  if type_mask =? BTRFS_BLOCK_GROUP_DATA then sub_data len a
  else if type_mask =? BTRFS_BLOCK_GROUP_METADATA then sub_metadata len a
  else if type_mask =? BTRFS_BLOCK_GROUP_SYSTEM then sub_system len a
  else if type_mask =? Z.lor BTRFS_BLOCK_GROUP_METADATA
                             BTRFS_BLOCK_GROUP_DATA then sub_mixed len a
  else a.

(** The [while (1)] loop of [cleanup_temp_chunks], started with
    [key.objectid]; [None] when the fuel runs out.  The result code is the
    value of [ret] at the label [out]. *)
Fixpoint cleanup_loop (fuel : nat) (data_profile meta_profile sys_profile : Z)
  (key_objectid : Z) (w : world) : option (Z * world) :=
  match fuel with
  | O => None
  | S fuel =>
      let k := {| objectid := key_objectid;
                  type := BTRFS_BLOCK_GROUP_ITEM_KEY;
                  offset := 0 |} in
      let (r, w) := call E (SearchSlot k) w in
      if ret r <? 0 then Some (ret r, w)
      else
        let slot := search_slot (items w) k in
        let found_key := key (item_at (items w) slot) in
        if objectid found_key <? key_objectid then Some (0, w)
        else
          let '(r, slot, w) :=
            if negb (type found_key =? BTRFS_BLOCK_GROUP_ITEM_KEY)
            then next_block_group slot w
            else (0, slot, w) in
          if r <? 0 then Some (r, w)
          else if r >? 0 then Some (0, w)
          else
            let found_key := key (item_at (items w) slot) in
            let bgi := bgi (item_at (items w) slot) in
            let next (w : world) :=
              cleanup_loop fuel data_profile meta_profile sys_profile
                (u64_add (objectid found_key) (offset found_key)) w in
            if is_temp_block_group bgi data_profile meta_profile sys_profile
            then
              let flags := flags bgi in
              let (r, w) :=
                call E (RemoveBlockGroup (objectid found_key)
                          (offset found_key)) w in
              if ret r <? 0 then Some (ret r, w)
              else
                let w :=
                  set_items (delete_block_group (items w)
                               (objectid found_key) (offset found_key)) w in
                next (set_allocation
                        (unaccount_chunk flags (offset found_key)
                           (allocation w)) w)
            else next w
  end.

(** [cleanup_temp_chunks].  [IS_ERR(trans)] is a nonzero code of
    [StartTransaction].  At [out] the transaction handle is never [NULL], so
    [ret] is always replaced by the result of the commit. *)
Definition cleanup_temp_chunks (fuel : nat)
  (data_profile meta_profile sys_profile : Z) (do_discard : bool)
  (w : world) : option (Z * world) :=
  let w := enter (CleanupTempChunks data_profile meta_profile sys_profile
                    do_discard) w in
  let (r, w) := call E StartTransaction w in
  if negb (ret r =? 0) then Some (ret r, w)
  else
    match cleanup_loop fuel data_profile meta_profile sys_profile 0 w with
    | None => None
    | Some (_, w) =>
        let (r, w) := call E CommitTransaction w in
        Some (ret r, w)
    end.

(** *** Bootstrap block groups *)

Definition update_allocation (f : mkfs_allocation -> mkfs_allocation)
  (w : world) : world :=
  set_allocation (f (allocation w)) w.

(** [create_metadata_block_groups].  [metadata_profile] is not used by the
    body.  [ret] still holds the result of [update_space_info] when it is
    tested after the system reservation is recorded. *)
Definition create_metadata_block_groups (incompat_flags metadata_profile : Z)
  (w : world) : Z * world :=
  let w := enter (CreateMetadataBlockGroups incompat_flags metadata_profile)
             w in
  let flags := BTRFS_BLOCK_GROUP_METADATA in
  let system_group_size := BTRFS_MKFS_SYSTEM_GROUP_SIZE in
  let mixed :=
    negb (Z.land incompat_flags BTRFS_FEATURE_INCOMPAT_MIXED_GROUPS =? 0) in
  let remap_tree :=
    negb (Z.land incompat_flags BTRFS_FEATURE_INCOMPAT_REMAP_TREE =? 0) in
  let (z, w) := call E IsZoned w in
  let system_group_size :=
    if negb (ret z =? 0) then out1 z else system_group_size in
  let flags :=
    if mixed then Z.lor flags BTRFS_BLOCK_GROUP_DATA else flags in
  let (u, w) := call E (UpdateSpaceInfo flags) w in
  if ret u <? 0 then (ret u, w)
  else
    let (t, w) := call E StartTransaction w in
    if negb (ret t =? 0) then (ret t, w)
    else
      let w := update_allocation (add_system system_group_size) w in
      if negb (ret u =? 0) then (ret u, w)
      else
        let finish (w : world) : Z * world :=
          let (c, w) := call E CommitTransaction w in (ret c, w) in
        let remap_step (w : world) : Z * world :=
          if remap_tree then
            let (r, w) :=
              call E (AllocChunk BTRFS_BLOCK_GROUP_METADATA_REMAP) w in
            if negb (ret r =? 0) then (ret r, w)
            else
              let (m, w) :=
                call E (MakeBlockGroup BTRFS_BLOCK_GROUP_METADATA_REMAP
                          (out1 r) (out2 r)) w in
              let w := update_allocation (add_remap (out2 r)) w in
              if negb (ret m =? 0) then (ret m, w) else finish w
          else finish w in
        if mixed then
          let ty := Z.lor BTRFS_BLOCK_GROUP_METADATA
                          BTRFS_BLOCK_GROUP_DATA in
          let (r, w) := call E (AllocChunk ty) w in
          if negb (ret r =? 0) then (ret r, w)
          else
            let (m, w) := call E (MakeBlockGroup ty (out1 r) (out2 r)) w in
            if negb (ret m =? 0) then (ret m, w)
            else remap_step (update_allocation (add_mixed (out2 r)) w)
        else
          let (r, w) := call E (AllocChunk BTRFS_BLOCK_GROUP_METADATA) w in
          if negb (ret r =? 0) then (ret r, w)
          else
            let (m, w) :=
              call E (MakeBlockGroup BTRFS_BLOCK_GROUP_METADATA
                        (out1 r) (out2 r)) w in
            let w := update_allocation (add_metadata (out2 r)) w in
            if negb (ret m =? 0) then (ret m, w) else remap_step w.

(** [create_data_block_groups]. *)
Definition create_data_block_groups (mixed : bool) (w : world) : Z * world :=
  let w := enter (CreateDataBlockGroups mixed) w in
  if negb mixed then
    let (u, w) := call E (UpdateSpaceInfo BTRFS_BLOCK_GROUP_DATA) w in
    if ret u <? 0 then (ret u, w)
    else
      let (r, w) := call E (AllocChunk BTRFS_BLOCK_GROUP_DATA) w in
      if negb (ret r =? 0) then (ret r, w)
      else
        let (m, w) :=
          call E (MakeBlockGroup BTRFS_BLOCK_GROUP_DATA
                    (out1 r) (out2 r)) w in
        (ret m, update_allocation (add_data (out2 r)) w)
  else (0, w).

(** [setup_raid_stripe_tree_root] and [setup_remap_tree_root]: a tree is
    created and committed in a transaction of its own. *)
Definition setup_tree_root (objectid : Z) (w : world) : Z * world :=
  let (t, w) := call E StartTransaction w in
  if negb (ret t =? 0) then (ret t, w)
  else
    let (c, w) := call E (CreateTree objectid) w in
    if negb (ret c =? 0) then (ret c, w)
    else
      let (c, w) := call E CommitTransaction w in (ret c, w).

(** *** Device preparation *)

(** [prepare_one_device], the worker body. *)
Definition prepare_one_device (p : prepare_device_progress) (w : world)
  : prepare_device_progress * world :=
  let (o, w) := call E (Open (file p)) w in
  if ret o <? 0 then
    ({| fd := ret o; file := file p; dev_byte_count := dev_byte_count p;
        byte_count := byte_count p; zero_end := zero_end p;
        discard := discard p; zoned := zoned p;
        prepare_ret := - out1 o |}, w)
  else
    let (r, w) :=
      call E (PrepareDevice (ret o) (file p) (byte_count p) (zero_end p)
                (discard p) (zoned p)) w in
    ({| fd := ret o; file := file p; dev_byte_count := out1 r;
        byte_count := byte_count p; zero_end := zero_end p;
        discard := discard p; zoned := zoned p;
        prepare_ret := ret r |}, w).

(** [if (fd >= 0) close(fd)] over a range of contexts. *)
Fixpoint close_devices (ctx : list prepare_device_progress) (w : world)
  : world :=
  match ctx with
  | [] => w
  | p :: ctx' =>
      let w := if 0 <=? fd p then snd (call E (Close (fd p)) w) else w in
      close_devices ctx' w
  end.

(** The recovery loop after a failed [pthread_create]: the workers already
    launched are joined and their descriptors closed. *)
Fixpoint join_and_close (ctx : list prepare_device_progress) (j : nat)
  (w : world) : world :=
  match ctx with
  | [] => w
  | p :: ctx' =>
      let (_, w) := call E (PthreadJoin j) w in
      let w := if 0 <=? fd p then snd (call E (Close (fd p)) w) else w in
      join_and_close ctx' (S j) w
  end.

(** The launch loop.  A worker shares nothing with the others, so it is run
    to completion when its thread is created: the trace shows one of the
    interleavings of the workers' calls, and the order between the calls of
    two workers is not meant.  The result is the contexts in device order,
    or the negated code of the failed [pthread_create]. *)
Fixpoint launch_workers (paths : list string) (i : nat)
  (launched : list prepare_device_progress) (byte_count : Z)
  (do_discard : bool) (w : world)
  : (Z + list prepare_device_progress) * world :=
  match paths with
  | [] => (inr launched, w)
  | path :: paths' =>
      let p := {| fd := 0; file := path; dev_byte_count := byte_count;
                  byte_count := byte_count;
                  zero_end := (byte_count =? 0); discard := do_discard;
                  zoned := false; prepare_ret := 0 |} in
      let (c, w) := call E (PthreadCreate i) w in
      if negb (ret c =? 0) then
        (inl (- ret c), join_and_close launched O w)
      else
        let (p, w) := prepare_one_device p w in
        launch_workers paths' (S i) (launched ++ [p]) byte_count
          do_discard (record (Prepared i p) w)
  end.

Fixpoint join_workers (n : nat) (i : nat) (w : world) : world :=
  match n with
  | O => w
  | S n' => join_workers n' (S i) (snd (call E (PthreadJoin i) w))
  end.

(** The validation loop that runs without [force]. *)
Fixpoint test_devices (paths : list string) (force : bool) (w : world)
  : Z * world :=
  match paths with
  | [] => (0, w)
  | path :: paths' =>
      let (t, w) := call E (TestDevForMkfs path force) w in
      if ret t =? 0 then (- EINVAL, w) else test_devices paths' force w
  end.

(** The attach loop over the devices after the first. *)
Fixpoint attach_devices (ctx : list prepare_device_progress)
  (sectorsize : Z) (w : world) : Z * world :=
  match ctx with
  | [] => (0, w)
  | p :: ctx' =>
      if negb (prepare_ret p =? 0) then (prepare_ret p, w)
      else
        let (r, w) :=
          call E (DeviceAlreadyInRoot (fd p) BTRFS_SUPER_INFO_OFFSET) w in
        if negb (ret r =? 0) then attach_devices ctx' sectorsize w
        else
          let (r, w) :=
            call E (AddToFsid (fd p) (file p) (dev_byte_count p)
                      sectorsize) w in
          if negb (ret r =? 0) then (ret r, w)
          else attach_devices ctx' sectorsize w
  end.

(** *** The entry point *)

(** Extraction of the device paths: the first argument that is not a [str]
    raises [TypeError]; one that [PyUnicode_AsUTF8] rejects leaves its own
    exception. *)
Fixpoint device_paths (l : list py_object) : py_result + list string :=
  match l with
  | [] => inr []
  | PyUnicode s :: l' =>
      match device_paths l' with
      | inl e => inl e
      | inr paths => inr (s :: paths)
      end
  | PyUnicodeNoUTF8 :: _ => inl PyErr_Propagated
  | PyOther :: _ => inl PyErr_TypeError
  end.

(** Automatic selection of the metadata profile. *)
Definition select_meta_profile (metadata_profile : Z) (mixed : bool)
  (device_count : Z) : Z :=
  if metadata_profile <? 0 then
    if negb mixed then
      if device_count >? 1
      then BTRFS_MKFS_DEFAULT_META_MULTI_DEVICE
      else BTRFS_MKFS_DEFAULT_META_ONE_DEVICE
    else 0
  else metadata_profile.

(** Automatic selection of the data profile. *)
Definition select_data_prof (data_profile : Z) (mixed : bool)
  (device_count : Z) : Z :=
  if negb mixed && (data_profile =? 0) && (device_count >? 1)
  then BTRFS_MKFS_DEFAULT_DATA_MULTI_DEVICE
  else data_profile.

(** The incompat feature flags handed to [make_btrfs]. *)
Definition mkfs_incompat_flags (features_arg : Z) (mixed : bool)
  (data_prof meta_profile : Z) (nodesize page_size : Z) : Z :=
  let f := Z.lor btrfs_mkfs_default_incompat features_arg in
  let f := if mixed then Z.lor f BTRFS_FEATURE_INCOMPAT_MIXED_GROUPS
           else f in
  let f := if negb (Z.land (Z.lor data_prof meta_profile)
                      BTRFS_BLOCK_GROUP_RAID56_MASK =? 0)
           then Z.lor f BTRFS_FEATURE_INCOMPAT_RAID56 else f in
  let f := if negb (Z.land (Z.lor data_prof meta_profile)
                      (Z.lor BTRFS_BLOCK_GROUP_RAID1C3
                             BTRFS_BLOCK_GROUP_RAID1C4) =? 0)
           then Z.lor f BTRFS_FEATURE_INCOMPAT_RAID1C34 else f in
  if nodesize >? page_size
  then Z.lor f BTRFS_FEATURE_INCOMPAT_BIG_METADATA else f.

(** A stage of the run: its result code and the new state, or [None] when
    the cleaner runs out of fuel. *)
Definition step : Type := world -> option (Z * world).

(** [ret = m; if (ret) goto out_ctree; k]. *)
Definition and_then (m k : step) : step :=
  fun w =>
    match m w with
    | Some (r, w') => if r =? 0 then k w' else Some (r, w')
    | None => None
    end.

Definition total (m : world -> Z * world) : step := fun w => Some (m w).

Definition lib (c : lib_call) : step :=
  fun w => let (r, w) := call E c w in Some (ret r, w).

Definition skip : step := fun w => Some (0, w).

Definition when (b : bool) (m : step) : step := if b then m else skip.

Definition has_flag (flags bit : Z) : bool := negb (Z.land flags bit =? 0).

Notation "m ;;; k" := (and_then m k) (at level 61, right associativity).

(** From the open filesystem to the label [out_ctree].  [make_root_dir],
    [create_global_roots] and [recow_roots] touch neither the ledger nor the
    block groups and are kept as one call each. *)
Definition mkfs_trees (fuel : nat) (incompat_flags data_prof meta_profile : Z)
  (mixed : bool) (sectorsize : Z) (do_discard : bool)
  (prepare_ctx : list prepare_device_progress) : step :=
  total (create_metadata_block_groups incompat_flags meta_profile) ;;;
  when (has_flag incompat_flags BTRFS_FEATURE_INCOMPAT_RAID_STRIPE_TREE)
    (total (setup_tree_root BTRFS_RAID_STRIPE_TREE_OBJECTID)) ;;;
  when (has_flag incompat_flags BTRFS_FEATURE_INCOMPAT_REMAP_TREE)
    (total (setup_tree_root BTRFS_REMAP_TREE_OBJECTID)) ;;;
  lib StartTransaction ;;;
  total (create_data_block_groups mixed) ;;;
  when (has_flag incompat_flags BTRFS_FEATURE_INCOMPAT_EXTENT_TREE_V2)
    (fun w =>
       let (n, w) := call E Sysconf_NPROCESSORS_ONLN w in
       lib (CreateGlobalRoots (ret n)) w) ;;;
  lib MakeRootDir ;;;
  lib CommitTransaction ;;;
  lib StartTransaction ;;;
  total (attach_devices (tl prepare_ctx) sectorsize) ;;;
  total (create_raid_groups data_prof meta_profile mixed) ;;;
  lib CommitTransaction ;;;
  lib StartTransaction ;;;
  lib RecowRoots ;;;
  when (negb (has_flag incompat_flags BTRFS_FEATURE_INCOMPAT_REMAP_TREE))
    (lib (MakeSubvolume BTRFS_DATA_RELOC_TREE_OBJECTID)) ;;;
  lib CommitTransaction ;;;
  lib RebuildUuidTree ;;;
  (fun w =>
     cleanup_temp_chunks fuel data_prof meta_profile meta_profile do_discard
       (set_items (block_groups_on_disk E (calls (trace w))) w)).

(** The label [out_free] and the conversion of [ret]. *)
Definition out_free (r : Z) (result_uuid : string) (result_num_bytes : Z)
  (w : world) : py_result * world :=
  let (_, w) := call E CloseAllDevices w in
  if negb (r =? 0) then (PyErr_OSError (- r), w)
  else (Py_BuildValue result_uuid result_num_bytes, w).

(** The label [out_close]. *)
Definition out_close (r : Z) (result_uuid : string) (result_num_bytes : Z)
  (prepare_ctx : list prepare_device_progress) (w : world)
  : py_result * world :=
  out_free r result_uuid result_num_bytes (close_devices prepare_ctx w).

(** The label [out_ctree]. *)
Definition out_ctree (r : Z) (result_uuid : string) (result_num_bytes : Z)
  (prepare_ctx : list prepare_device_progress) (w : world)
  : py_result * world :=
  let (c, w) := call E CloseCtree w in
  let r := if (r =? 0) && negb (ret c =? 0) then ret c else r in
  out_close r result_uuid result_num_bytes prepare_ctx w.

Definition default_progress : prepare_device_progress :=
  {| fd := 0; file := EmptyString; dev_byte_count := 0; byte_count := 0;
     zero_end := false; discard := false; zoned := false;
     prepare_ret := 0 |}.

(** [pybtrfs_mkfs] once the workers are joined: from the test of
    [prepare_ctx[0].ret] to the end. *)
Definition mkfs_prepared (fuel : nat) (a : mkfs_args) (paths : list string)
  (fs_uuid : string) (meta_profile data_prof incompat_flags nodesize : Z)
  (prepare_ctx : list prepare_device_progress) (w : world)
  : option (py_result * world) :=
  let sectorsize := kw_sectorsize a in
  let byte_count := kw_byte_count a in
  let do_discard := negb (kw_no_discard a) in
  let p0 := nth O prepare_ctx default_progress in
  if negb (prepare_ret p0 =? 0)
  then Some (out_close (prepare_ret p0) EmptyString 0 prepare_ctx w)
  else
    let dev_byte_count := dev_byte_count p0 in
    if negb (byte_count =? 0) && (byte_count >? dev_byte_count)
    then Some (out_close (- ENOSPC) EmptyString 0 prepare_ctx w)
    else
      let (m, w) :=
        call E (MakeBtrfs (fd p0) dev_byte_count nodesize sectorsize
                  incompat_flags (kw_csum_type a)) w in
      if negb (ret m =? 0)
      then Some (out_close (ret m) EmptyString 0 prepare_ctx w)
      else
        let cfg_uuid :=
          fs_uuid_after_make_btrfs E (calls (trace w)) fs_uuid in
        let (o, w) :=
          call E (OpenCtreeFsInfo (nth O paths EmptyString)) w in
        if ret o =? 0
        then Some (out_close (- EIO) EmptyString 0 prepare_ctx w)
        else
          match mkfs_trees fuel incompat_flags data_prof meta_profile
                  (kw_mixed a) sectorsize do_discard prepare_ctx w with
          | None => None
          | Some (r, w) =>
              if r =? 0 then
                let (n, w) := call E SuperTotalBytes w in
                Some (out_ctree 0 cfg_uuid (ret n) prepare_ctx w)
              else Some (out_ctree r EmptyString 0 prepare_ctx w)
          end.

(** The part of [pybtrfs_mkfs] that runs with the GIL released. *)
Definition mkfs_released (fuel : nat) (a : mkfs_args) (paths : list string)
  (fs_uuid : string) (meta_profile data_prof incompat_flags nodesize : Z)
  (w : world) : option (py_result * world) :=
  let device_count := Z.of_nat (List.length (kw_devices a)) in
  let byte_count := kw_byte_count a in
  let (r, w) :=
    if negb (kw_force a) then test_devices paths (kw_force a) w
    else (0, w) in
  if negb (r =? 0) then Some (out_free r EmptyString 0 w)
  else
    let (t, w) := call E (Calloc device_count) w in
    let (c, w) := call E (Calloc device_count) w in
    if (ret t =? 0) || (ret c =? 0)
    then Some (out_free (- ENOMEM) EmptyString 0 w)
    else
      let do_discard := negb (kw_no_discard a) in
      match launch_workers paths O [] byte_count do_discard w with
      | (inl e, w) => Some (out_free e EmptyString 0 w)
      | (inr prepare_ctx, w) =>
          mkfs_prepared fuel a paths fs_uuid meta_profile data_prof
            incompat_flags nodesize prepare_ctx
            (join_workers (List.length paths) O w)
      end.

(** [pybtrfs_mkfs], after the keyword arguments have been parsed. *)
Definition pybtrfs_mkfs (fuel : nat) (a : mkfs_args) (w : world)
  : option (py_result * world) :=
  let device_count := Z.of_nat (List.length (kw_devices a)) in
  if device_count <? 1 then Some (PyErr_ValueError, w)
  else
    let (c, w) := call E (Calloc device_count) w in
    if ret c =? 0 then Some (PyErr_NoMemory, w)
    else
      match device_paths (kw_devices a) with
      | inl e => Some (e, w)
      | inr paths =>
          if BTRFS_LABEL_SIZE <=? Z.of_nat (String.length (kw_label a))
          then Some (PyErr_ValueError, w)
          else
            let (bad_uuid, w) :=
              match kw_uuid a with
              | EmptyString => (false, w)
              | _ =>
                  let (u, w) := call E (UuidParse (kw_uuid a)) w in
                  (negb (ret u =? 0), w)
              end in
            if bad_uuid then Some (PyErr_ValueError, w)
            else
              let fs_uuid :=
                substring O (Z.to_nat (BTRFS_UUID_UNPARSED_SIZE - 1))
                  (kw_uuid a) in
              let mixed := kw_mixed a in
              let meta_profile :=
                select_meta_profile (kw_metadata_profile a) mixed
                  device_count in
              let data_prof :=
                select_data_prof (kw_data_profile a) mixed device_count in
              let (pg, w) := call E Sysconf_PAGE_SIZE w in
              let incompat_flags :=
                mkfs_incompat_flags (kw_features a) mixed data_prof
                  meta_profile (kw_nodesize a) (ret pg) in
              let nodesize :=
                if mixed && negb (kw_nodesize a =? kw_sectorsize a)
                then kw_sectorsize a else kw_nodesize a in
              mkfs_released fuel a paths fs_uuid meta_profile data_prof
                incompat_flags nodesize w
      end.

End Mkfs.

(** ** A concrete setting

    The values of the Linux and btrfs-progs headers at the time of writing,
    used to run the model on examples. *)

Definition linux_uapi : btrfs_uapi := {|
  BTRFS_BLOCK_GROUP_DATA := 1;
  BTRFS_BLOCK_GROUP_SYSTEM := 2;
  BTRFS_BLOCK_GROUP_METADATA := 4;
  BTRFS_BLOCK_GROUP_METADATA_REMAP := 4096;
  BTRFS_BLOCK_GROUP_RAID5 := 128;
  BTRFS_BLOCK_GROUP_RAID6 := 256;
  BTRFS_BLOCK_GROUP_RAID1C3 := 512;
  BTRFS_BLOCK_GROUP_RAID1C4 := 1024;
  BTRFS_BLOCK_GROUP_TYPE_MASK := 4103;
  BTRFS_BLOCK_GROUP_PROFILE_MASK := 2040;
  BTRFS_BLOCK_GROUP_RAID56_MASK := 384;
  BTRFS_BLOCK_GROUP_ITEM_KEY := 192;
  BTRFS_FEATURE_INCOMPAT_MIXED_GROUPS := 4;
  BTRFS_FEATURE_INCOMPAT_BIG_METADATA := 32;
  BTRFS_FEATURE_INCOMPAT_RAID56 := 128;
  BTRFS_FEATURE_INCOMPAT_RAID1C34 := 2048;
  BTRFS_FEATURE_INCOMPAT_RAID_STRIPE_TREE := 16384;
  BTRFS_FEATURE_INCOMPAT_REMAP_TREE := 131072;
  BTRFS_FEATURE_INCOMPAT_EXTENT_TREE_V2 := 8192;
  BTRFS_MKFS_DEFAULT_META_ONE_DEVICE := 32;
  BTRFS_MKFS_DEFAULT_META_MULTI_DEVICE := 16;
  BTRFS_MKFS_DEFAULT_DATA_MULTI_DEVICE := 0;
  BTRFS_MKFS_SYSTEM_GROUP_SIZE := 4194304;
  BTRFS_DATA_RELOC_TREE_OBJECTID := 18446744073709551607;
  BTRFS_RAID_STRIPE_TREE_OBJECTID := 12;
  BTRFS_REMAP_TREE_OBJECTID := 13;
  BTRFS_SUPER_INFO_OFFSET := 65536;
  BTRFS_LABEL_SIZE := 256;
  BTRFS_UUID_UNPARSED_SIZE := 37;
  btrfs_mkfs_default_incompat := 833
|}.

Definition RAID1 : Z := 16.
Definition DUP : Z := 32.

Definition answer (r : Z) (o1 o2 : Z) : response :=
  {| ret := r; out1 := o1; out2 := o2 |}.

Definition initial_world : world :=
  {| trace := []; allocation := zero_allocation; items := [] |}.

(** An environment in which every call succeeds: devices of 1 GiB open on
    descriptors 3, 4, ..., chunks of 8 MiB are handed out one after the
    other, and the cleaner finds the block groups [l]. *)
Definition count_opens (h : lib_history) : Z :=
  Z.of_nat (List.length
    (filter (fun e => match fst e with Open _ => true | _ => false end) h)).

Definition count_chunks (h : lib_history) : Z :=
  Z.of_nat (List.length
    (filter (fun e => match fst e with AllocChunk _ => true | _ => false end)
       h)).

Definition GiB : Z := 1073741824.
Definition MiB : Z := 1048576.

Definition obliging (h : lib_history) (c : lib_call) : response :=
  match c with
  | Calloc _ => answer 1 0 0
  | Sysconf_PAGE_SIZE => answer 4096 0 0
  | TestDevForMkfs _ _ => answer 1 0 0
  | Open _ => answer (3 + count_opens h) 0 0
  | PrepareDevice _ _ byte_count _ _ _ =>
      answer 0 (if byte_count =? 0 then GiB else Z.min GiB byte_count) 0
  | OpenCtreeFsInfo _ => answer 1 0 0
  | Sysconf_NPROCESSORS_ONLN => answer 4 0 0
  | AllocChunk _ => answer 0 (16 * MiB + 8 * MiB * count_chunks h) (8 * MiB)
  | SuperTotalBytes => answer (2 * GiB) 0 0
  | _ => answer 0 0 0
  end.

Definition obliging_env (l : list item) : environment :=
  {| respond := obliging;
     block_groups_on_disk := fun _ => l;
     fs_uuid_after_make_btrfs := fun _ s =>
       match s with
       | EmptyString => "0f0e0d0c-0b0a-0908-0706-050403020100"%string
       | _ => s
       end |}.

Definition block_group (start size flag used_bytes : Z) : item :=
  {| key := {| objectid := start; type := 192; offset := size |};
     bgi := {| used := used_bytes; flags := flag |} |}.

(** The block groups of a two-device filesystem before cleaning: the
    bootstrap SYSTEM, METADATA and DATA groups (single profile) and the RAID1
    groups of the planner. *)
Definition sample_groups : list item :=
  [ block_group (1 * MiB) (4 * MiB) 2 0;
    block_group (5 * MiB) (8 * MiB) 4 0;
    block_group (13 * MiB) (8 * MiB) 1 0;
    block_group (21 * MiB) (8 * MiB) (2 + 16) 16384;
    block_group (29 * MiB) (256 * MiB) (4 + 16) 114688;
    block_group (285 * MiB) (512 * MiB) (1 + 16) 0 ].

Definition sample_args (devs : list py_object) : mkfs_args :=
  {| kw_devices := devs;
     kw_label := EmptyString;
     kw_nodesize := 16384;
     kw_sectorsize := 4096;
     kw_byte_count := 0;
     kw_metadata_profile := -1;
     kw_data_profile := 0;
     kw_mixed := false;
     kw_features := 0;
     kw_csum_type := 0;
     kw_uuid := EmptyString;
     kw_force := true;
     kw_no_discard := false |}.

Definition two_devices : list py_object :=
  [PyUnicode "/dev/loop0"; PyUnicode "/dev/loop1"].

(** ** Vocabulary of the statements *)

Section Vocabulary.

Context {K : btrfs_uapi}.

Definition bg_key (k : Z) : btrfs_key :=
  {| objectid := k; type := BTRFS_BLOCK_GROUP_ITEM_KEY; offset := 0 |}.

Definition is_block_group (it : item) : bool :=
  type (key it) =? BTRFS_BLOCK_GROUP_ITEM_KEY.

(** The first byte after the chunk of a block group. *)
Definition group_end (it : item) : Z := objectid (key it) + offset (key it).

Definition range (it : item) : Z * Z := (objectid (key it), offset (key it)).

(** A temporary block group, as the cleaner decides it. *)
Definition temporary (data_profile meta_profile sys_profile : Z) (it : item)
  : bool :=
  is_block_group it
  && is_temp_block_group (bgi it) data_profile meta_profile sys_profile.

(** Order of the leaf: keys ascend, and the chunks of two block groups do
    not overlap. *)
Definition precedes (a b : item) : Prop :=
  key_ltb (key a) (key b) = true /\
  (is_block_group a = true -> is_block_group b = true ->
   group_end a <= objectid (key b)).

(** A block group covers a non-empty range of the [u64] address space. *)
Definition group_ok (it : item) : Prop :=
  is_block_group it = true ->
  0 <= objectid (key it) /\ 0 < offset (key it) /\ group_end it < u64_modulus.

(** The ledger after the removal of the groups [l], first to last. *)
Definition unaccount_all (l : list item) (a : mkfs_allocation)
  : mkfs_allocation :=
  fold_left
    (fun a it => unaccount_chunk (flags (bgi it)) (offset (key it)) a) l a.

Definition well_formed_tree (l : list item) : Prop :=
  StronglySorted precedes l /\ Forall group_ok l.

(** The case labels of the [switch] in [is_temp_block_group] are pairwise
    different, as C requires. *)
Definition switch_labels_distinct : Prop :=
  BTRFS_BLOCK_GROUP_DATA <> BTRFS_BLOCK_GROUP_METADATA /\
  BTRFS_BLOCK_GROUP_DATA <> BTRFS_BLOCK_GROUP_SYSTEM /\
  BTRFS_BLOCK_GROUP_DATA
    <> Z.lor BTRFS_BLOCK_GROUP_METADATA BTRFS_BLOCK_GROUP_DATA /\
  BTRFS_BLOCK_GROUP_METADATA <> BTRFS_BLOCK_GROUP_SYSTEM /\
  BTRFS_BLOCK_GROUP_METADATA
    <> Z.lor BTRFS_BLOCK_GROUP_METADATA BTRFS_BLOCK_GROUP_DATA /\
  BTRFS_BLOCK_GROUP_SYSTEM
    <> Z.lor BTRFS_BLOCK_GROUP_METADATA BTRFS_BLOCK_GROUP_DATA.

End Vocabulary.

(** The [btrfs_remove_block_group] calls of a trace, as (start, length):
    all of them, and those that succeeded. *)
Fixpoint removal_calls (h : history) : list (Z * Z) :=
  match h with
  | [] => []
  | Lib (RemoveBlockGroup b l) _ :: h' => (b, l) :: removal_calls h'
  | _ :: h' => removal_calls h'
  end.

Fixpoint removed_groups (h : history) : list (Z * Z) :=
  match h with
  | [] => []
  | Lib (RemoveBlockGroup b l) r :: h' =>
      if ret r <? 0 then removed_groups h' else (b, l) :: removed_groups h'
  | _ :: h' => removed_groups h'
  end.

(** No search, step or removal of the cleaner fails. *)
Definition tree_ops_succeed (E : environment) : Prop :=
  forall h c,
    match c with
    | SearchSlot _ | NextItem | RemoveBlockGroup _ _ =>
        0 <= ret (respond E h c)
    | _ => True
    end.

(** The events of the cleaner's loop. *)
Definition loop_event (e : event) : Prop :=
  match e with
  | Lib (SearchSlot _) _ | Lib NextItem _ | Lib (RemoveBlockGroup _ _) _ =>
      True
  | _ => False
  end.

(** The ledger fields are [u64] values. *)
Definition ledger_ok (a : mkfs_allocation) : Prop :=
  is_u64 (data a) /\ is_u64 (metadata a) /\ is_u64 (mixed a) /\
  is_u64 (system a) /\ is_u64 (remap a).

(** The chunk allocations of a stretch of trace, with their answers; the
    chunk types requested and the types of the block groups made. *)
Definition alloc_calls (h : history) : list (Z * response) :=
  flat_map (fun e => match e with
                     | Lib (AllocChunk ty) r => [(ty, r)]
                     | _ => []
                     end) h.

Definition requested_groups (h : history) : list Z :=
  map fst (alloc_calls h).

Definition created_groups (h : history) : list Z :=
  flat_map (fun e => match e with
                     | Lib (MakeBlockGroup ty _ _) _ => [ty]
                     | _ => []
                     end) h.

Section RaidGroupVocabulary.

Context {K : btrfs_uapi}.

(** A type mask that [create_one_raid_group] has a ledger field for. *)
Definition recognized (m : Z) : Prop :=
  m = BTRFS_BLOCK_GROUP_DATA \/ m = BTRFS_BLOCK_GROUP_METADATA \/
  m = BTRFS_BLOCK_GROUP_SYSTEM \/
  m = Z.lor BTRFS_BLOCK_GROUP_METADATA BTRFS_BLOCK_GROUP_DATA.

(** The metadata group type: METADATA, with DATA added when mixed. *)
Definition meta_group_type (mp : Z) (mixed : bool) : Z :=
  Z.lor (if mixed
         then Z.lor BTRFS_BLOCK_GROUP_METADATA BTRFS_BLOCK_GROUP_DATA
         else BTRFS_BLOCK_GROUP_METADATA) mp.

(** The order of creation as the specification words it: the SYSTEM group
    first, the metadata group next when the metadata profile is nonzero,
    the DATA group last when not mixed and the data profile is nonzero. *)
Definition claimed_raid_groups (dp mp : Z) (mixed : bool) : list Z :=
  [Z.lor BTRFS_BLOCK_GROUP_SYSTEM mp]
  ++ (if negb (mp =? 0) then [meta_group_type mp mixed] else [])
  ++ (if negb mixed && negb (dp =? 0)
      then [Z.lor BTRFS_BLOCK_GROUP_DATA dp] else []).

(** The same order with the SYSTEM group under the metadata profile's
    test too. *)
Definition planned_raid_groups (dp mp : Z) (mixed : bool) : list Z :=
  (if negb (mp =? 0)
   then [Z.lor BTRFS_BLOCK_GROUP_SYSTEM mp; meta_group_type mp mixed]
   else [])
  ++ (if negb mixed && negb (dp =? 0)
      then [Z.lor BTRFS_BLOCK_GROUP_DATA dp] else []).

End RaidGroupVocabulary.

(** *** Observations on a trace *)

(** The context records left by the preparation workers, with the index of
    their device. *)
Fixpoint prepared (h : history) : list (nat * prepare_device_progress) :=
  match h with
  | [] => []
  | Prepared i p :: h' => (i, p) :: prepared h'
  | _ :: h' => prepared h'
  end.

(** The descriptors that [open] returned, and those given to [close]. *)
Fixpoint opened (h : history) : list Z :=
  match h with
  | [] => []
  | Lib (Open _) r :: h' =>
      if ret r <? 0 then opened h' else ret r :: opened h'
  | _ :: h' => opened h'
  end.

Fixpoint closed (h : history) : list Z :=
  match h with
  | [] => []
  | Lib (Close d) _ :: h' => d :: closed h'
  | _ :: h' => closed h'
  end.

(** The descriptors held by a list of worker contexts. *)
Definition fds (ctx : list prepare_device_progress) : list Z :=
  map fd (filter (fun p => 0 <=? fd p) ctx).

(** The calls that write to the devices' trees: [make_btrfs] lays down the
    superblock and the first trees, a commit makes a transaction durable. *)
Definition mutation (e : event) : bool :=
  match e with
  | Lib (MakeBtrfs _ _ _ _ _ _) _ | Lib CommitTransaction _ => true
  | _ => false
  end.

Definition is_make_btrfs (e : event) : bool :=
  match e with
  | Lib (MakeBtrfs _ _ _ _ _ _) _ => true
  | _ => false
  end.

(** Events that are not observed by any statement below. *)
Definition quiet (e : event) : Prop :=
  match e with
  | Lib c _ =>
      match c with
      | Calloc _ | UuidParse _ | Sysconf_PAGE_SIZE | TestDevForMkfs _ _
      | PthreadCreate _ | PthreadJoin _ | PrepareDevice _ _ _ _ _ _
      | OpenCtreeFsInfo _ | SuperTotalBytes | CloseCtree
      | CloseAllDevices => True
      | _ => False
      end
  | _ => False
  end.

(** The library calls made on the open filesystem. *)
Definition tree_call (c : lib_call) : bool :=
  match c with
  | IsZoned | UpdateSpaceInfo _ | StartTransaction | AllocChunk _
  | MakeBlockGroup _ _ _ | CommitTransaction | CreateTree _ | MakeRootDir
  | Sysconf_NPROCESSORS_ONLN | CreateGlobalRoots _
  | DeviceAlreadyInRoot _ _ | AddToFsid _ _ _ _ | RecowRoots
  | MakeSubvolume _ | RebuildUuidTree | SearchSlot _ | NextItem
  | RemoveBlockGroup _ _ => true
  | _ => false
  end.

(** The events between [open_ctree_fs_info] and [out_ctree] of a run with
    the given feature flags and profiles. *)
Definition tree_event (incompat_flags data_prof meta_profile : Z)
  (mixed do_discard : bool) (e : event) : Prop :=
  match e with
  | Lib c _ => tree_call c = true
  | Enter s =>
      s = CreateMetadataBlockGroups incompat_flags meta_profile \/
      s = CreateDataBlockGroups mixed \/
      s = CreateRaidGroups data_prof meta_profile mixed \/
      s = CleanupTempChunks data_prof meta_profile meta_profile do_discard
  | Prepared _ _ => False
  end.

(** What a run with the given feature flags and profiles may show of
    them. *)
Definition planned_event (incompat_flags data_prof meta_profile : Z)
  (mixed do_discard : bool) (e : event) : Prop :=
  match e with
  | Lib (MakeBtrfs _ _ _ _ f _) _ => f = incompat_flags
  | Enter s =>
      s = CreateMetadataBlockGroups incompat_flags meta_profile \/
      s = CreateDataBlockGroups mixed \/
      s = CreateRaidGroups data_prof meta_profile mixed \/
      s = CleanupTempChunks data_prof meta_profile meta_profile do_discard
  | _ => True
  end.

(** [h'] continues [h] with events that satisfy [P]. *)
Definition extends (P : event -> Prop) (h h' : history) : Prop :=
  exists evs, h' = h ++ evs /\ Forall P evs.

(** Events that neither write to the trees nor reveal the plan. *)
Definition idle (e : event) : Prop :=
  match e with
  | Lib (MakeBtrfs _ _ _ _ _ _) _ | Lib CommitTransaction _ | Enter _ =>
      False
  | _ => True
  end.

(** What the closing of the contexts [ctx] leaves in a trace. *)
Definition closes (ctx : list prepare_device_progress) (evs : list event)
  : Prop :=
  Forall idle evs /\ prepared evs = [] /\ opened evs = [] /\
  closed evs = fds ctx.

(** How a run ends once the workers are joined, in terms of what the first
    worker recorded. *)
Definition prepared_outcome (a : mkfs_args)
  (ctx : list prepare_device_progress) (res : py_result)
  (evs : list event) : Prop :=
  let p0 := nth O ctx default_progress in
  (prepare_ret p0 <> 0 ->
   res = PyErr_OSError (- prepare_ret p0) /\
   Forall (fun e => mutation e = false) evs) /\
  (prepare_ret p0 = 0 -> kw_byte_count a <> 0 ->
   kw_byte_count a > dev_byte_count p0 ->
   res = PyErr_OSError ENOSPC /\
   Forall (fun e => mutation e = false) evs) /\
  (prepare_ret p0 = 0 ->
   ~ (kw_byte_count a <> 0 /\ kw_byte_count a > dev_byte_count p0) ->
   Exists (fun e => is_make_btrfs e = true) evs) /\
  (Exists (fun p => prepare_ret p <> 0) ctx ->
   exists e, e <> 0 /\ res = PyErr_OSError e).

(** A stretch of trace without worker records or opens, in which the
    contexts [ctx] are closed and the plan is respected. *)
Definition winds_up (incompat_flags data_prof meta_profile : Z)
  (mixed do_discard : bool) (ctx : list prepare_device_progress)
  (evs : list event) : Prop :=
  prepared evs = [] /\ opened evs = [] /\ closed evs = fds ctx /\
  Forall (planned_event incompat_flags data_prof meta_profile mixed
            do_discard) evs.

(** The result is an exception. *)
Definition raises (res : py_result) : Prop :=
  match res with
  | Py_BuildValue _ _ => False
  | PyErr_OSError e => e <> 0
  | _ => True
  end.

(** The two shapes of a run over [n] devices: it stops before every worker
    has run, with an exception and nothing written; or the workers leave the
    contexts [ctx] and the run goes on as [prepared_outcome] says. *)
Definition run_shape (a : mkfs_args) (n : nat) (res : py_result)
  (evs : list event) : Prop :=
  (((List.length (prepared evs) < n)%nat \/ prepared evs = []) /\
   raises res /\ Forall (fun e => mutation e = false) evs)
  \/
  (exists ctx evs1 evs2,
      evs = evs1 ++ evs2 /\
      prepared evs = combine (seq O n) ctx /\ List.length ctx = n /\
      Forall (fun e => mutation e = false) evs1 /\
      prepared_outcome a ctx res evs2).

(** The feature flags that an event shows, if any. *)
Definition feature_flags_of (e : event) : option Z :=
  match e with
  | Lib (MakeBtrfs _ _ _ _ f _) _ => Some f
  | Enter (CreateMetadataBlockGroups f _) => Some f
  | _ => None
  end.

Section ProfileVocabulary.

Context {K : btrfs_uapi}.

(** The profile selection as the specification words it: an unspecified
    (negative) metadata profile becomes none in mixed mode, the multi-device
    default with more than one device and the single-device default
    otherwise; an unspecified (zero) data profile becomes the multi-device
    default when not mixed with more than one device and stays 0
    otherwise. *)
Definition claimed_meta_profile (metadata_profile : Z) (mixed : bool)
  (devices : nat) : Z :=
  if metadata_profile <? 0 then
    if mixed then 0
    else if (1 <? devices)%nat then BTRFS_MKFS_DEFAULT_META_MULTI_DEVICE
         else BTRFS_MKFS_DEFAULT_META_ONE_DEVICE
  else metadata_profile.

Definition claimed_data_profile (data_profile : Z) (mixed : bool)
  (devices : nat) : Z :=
  if data_profile =? 0 then
    if negb mixed && (1 <? devices)%nat
    then BTRFS_MKFS_DEFAULT_DATA_MULTI_DEVICE
    else 0
  else data_profile.

(** The profile has one of the given bits. *)
Definition has_bit_of (profile bits : Z) : Prop := Z.land profile bits <> 0.

(** The profiles that a stage was entered with agree with [dp] and [mp]. *)
Definition stage_profiles (dp mp : Z) (s : stage) : Prop :=
  match s with
  | CreateMetadataBlockGroups _ m => m = mp
  | CreateDataBlockGroups _ => True
  | CreateRaidGroups d m _ => d = dp /\ m = mp
  | CleanupTempChunks d m s _ => d = dp /\ m = mp /\ s = mp
  end.

End ProfileVocabulary.

(** A stage that returns from every state. *)
Definition returns (m : world -> option (Z * world)) : Prop :=
  forall w, exists t, m w = Some t.

(** Two states with the same ledger, the same leaf and the same library
    calls behind them. *)
Definition same_view (w1 w2 : world) : Prop :=
  calls (trace w1) = calls (trace w2) /\
  allocation w1 = allocation w2 /\ items w1 = items w2.

(** Two runs with the same end: the same code and the same view, or no
    result in either. *)
Definition same_outcome (o1 o2 : option (Z * world)) : Prop :=
  match o1, o2 with
  | Some (r1, w1), Some (r2, w2) => r1 = r2 /\ same_view w1 w2
  | None, None => True
  | _, _ => False
  end.

(** A library call made on the open filesystem. *)
Definition tree_lib_event (e : event) : Prop :=
  match e with
  | Lib c _ => tree_call c = true
  | _ => False
  end.

(** Every run of the stage [m] extends the trace with events that satisfy
    [P]. *)
Definition step_extends (P : event -> Prop) (m : step) : Prop :=
  forall w r w', m w = Some (r, w') -> extends P (trace w) (trace w').

(** The conversion of [ret] at the end of [pybtrfs_mkfs]. *)
Definition result_of (r : Z) (u : string) (n : Z) : py_result :=
  if negb (r =? 0) then PyErr_OSError (- r) else Py_BuildValue u n.

(** An environment like the obliging one, except that every
    [btrfs_remove_block_group] fails with [-ENOMEM]. *)
Definition stubborn_env (l : list item) : environment :=
  {| respond := fun h c =>
       match c with
       | RemoveBlockGroup _ _ => answer (- ENOMEM) 0 0
       | _ => obliging h c
       end;
     block_groups_on_disk := fun _ => l;
     fs_uuid_after_make_btrfs :=
       fs_uuid_after_make_btrfs (obliging_env l) |}.

(** The state in which the cleaner is entered on the sample leaf. *)
Definition sample_world : world := set_items sample_groups initial_world.

(** An environment like the obliging one, except that the second device
    cannot be opened: [open] fails with [ENOENT]. *)
Definition late_failure_env (l : list item) : environment :=
  {| respond := fun h c =>
       match c with
       | Open f =>
           if String.eqb f "/dev/loop1" then answer (-1) 2 0
           else obliging h c
       | _ => obliging h c
       end;
     block_groups_on_disk := fun _ => l;
     fs_uuid_after_make_btrfs :=
       fs_uuid_after_make_btrfs (obliging_env l) |}.

(** An environment like the obliging one, except that the first device
    cannot be opened. *)
Definition early_failure_env (l : list item) : environment :=
  {| respond := fun h c =>
       match c with
       | Open f =>
           if String.eqb f "/dev/loop0" then answer (-1) 2 0
           else obliging h c
       | _ => obliging h c
       end;
     block_groups_on_disk := fun _ => l;
     fs_uuid_after_make_btrfs :=
       fs_uuid_after_make_btrfs (obliging_env l) |}.

(** The sample arguments with a requested size of 2 GiB, twice the size of
    the devices. *)
Definition oversized_args : mkfs_args :=
  {| kw_devices := two_devices;
     kw_label := kw_label (sample_args two_devices);
     kw_nodesize := 16384;
     kw_sectorsize := 4096;
     kw_byte_count := 2 * GiB;
     kw_metadata_profile := -1;
     kw_data_profile := 0;
     kw_mixed := false;
     kw_features := 0;
     kw_csum_type := 0;
     kw_uuid := kw_uuid (sample_args two_devices);
     kw_force := true;
     kw_no_discard := false |}.

(** The sample arguments with RAID5 asked for the data. *)
Definition raid5_args : mkfs_args :=
  {| kw_devices := two_devices;
     kw_label := kw_label (sample_args two_devices);
     kw_nodesize := 16384;
     kw_sectorsize := 4096;
     kw_byte_count := 0;
     kw_metadata_profile := -1;
     kw_data_profile := 128;
     kw_mixed := false;
     kw_features := 0;
     kw_csum_type := 0;
     kw_uuid := kw_uuid (sample_args two_devices);
     kw_force := true;
     kw_no_discard := false |}.

(** The result and final state of a run that returned. *)
Definition run_of (o : option (py_result * world)) : py_result * world :=
  match o with
  | Some t => t
  | None => (PyErr_Propagated, initial_world)
  end.

Definition run_of_cleaner (o : option (Z * world)) : Z * world :=
  match o with
  | Some t => t
  | None => (0, initial_world)
  end.

(** The sample runs: on two devices with every call succeeding; the same
    with RAID5 data; with a requested size larger than the devices; with
    the second device failing to open; and the cleaner alone on the sample
    leaf with RAID1 as every final profile. *)
Definition sample_run : option (py_result * world) :=
  pybtrfs_mkfs (K := linux_uapi) (obliging_env sample_groups) 10
    (sample_args two_devices) initial_world.

Definition raid5_run : option (py_result * world) :=
  pybtrfs_mkfs (K := linux_uapi) (obliging_env sample_groups) 10 raid5_args
    initial_world.

Definition oversized_run : option (py_result * world) :=
  pybtrfs_mkfs (K := linux_uapi) (obliging_env sample_groups) 10
    oversized_args initial_world.

Definition late_failure_run : option (py_result * world) :=
  pybtrfs_mkfs (K := linux_uapi) (late_failure_env sample_groups) 10
    (sample_args two_devices) initial_world.

Definition sample_cleanup : option (Z * world) :=
  cleanup_temp_chunks (K := linux_uapi) (obliging_env sample_groups) 10
    RAID1 RAID1 RAID1 true sample_world.

(** ** The vendored UUID routines

    [uuid_parse], which [pybtrfs_mkfs] calls to validate its [uuid] argument,
    and its companions.  A [uuid_t] is a list of 16 bytes; a C string is a
    [string] of characters other than NUL, without its terminating NUL, so
    that reading at its length yields the NUL. *)

Definition byte_of (c : ascii) : Z := Z.of_nat (nat_of_ascii c).

(** [in[i]]. *)
Definition char_at (s : string) (i : nat) : ascii :=
  match String.get i s with
  | Some c => c
  | None => zero
  end.

(** [uu[idx] = v]. *)
Fixpoint store (uu : list Z) (idx : nat) (v : Z) : list Z :=
  match uu, idx with
  | [], _ => []
  | _ :: uu', O => v :: uu'
  | b :: uu', S idx' => b :: store uu' idx' v
  end.

(** [hex_nibble]. *)
Definition hex_nibble (c : ascii) : Z :=
  let c := byte_of c in
  if (48 <=? c) && (c <=? 57) then c - 48
  else if (97 <=? c) && (c <=? 102) then c - 97 + 10
  else if (65 <=? c) && (c <=? 70) then c - 65 + 10
  else -1.

(** [i == 8 || i == 13 || i == 18 || i == 23]. *)
Definition dash_position (i : nat) : bool :=
  (i =? 8)%nat || (i =? 13)%nat || (i =? 18)%nat || (i =? 23)%nat.

(** The [for] loop of [uuid_parse], entered with [i] and [idx]; it runs at
    most 36 times. *)
Fixpoint uuid_parse_loop (fuel : nat) (s : string) (i idx : nat)
  (uu : list Z) : Z * list Z :=
  match fuel with
  | O => (0, uu)
  | S fuel =>
      if negb (i <? 36)%nat then (0, uu)
      else if dash_position i then uuid_parse_loop fuel s (S i) idx uu
      else
        let hi := hex_nibble (char_at s i) in
        let i := S i in
        let i := if dash_position i then S i else i in
        let lo := hex_nibble (char_at s i) in
        if (hi <? 0) || (lo <? 0) then (-1, uu)
        else
          uuid_parse_loop fuel s (S i) (S idx)
            (store uu idx (Z.lor (Z.shiftl hi 4) lo mod 256))
  end.

(** [uuid_parse]: the result code and the buffer [uu] afterwards. *)
Definition uuid_parse (s : string) (uu : list Z) : Z * list Z :=
  if negb (String.length s =? 36)%nat then (-1, uu)
  else if negb (Ascii.eqb (char_at s 8) "-")
          || negb (Ascii.eqb (char_at s 13) "-")
          || negb (Ascii.eqb (char_at s 18) "-")
          || negb (Ascii.eqb (char_at s 23) "-") then (-1, uu)
  else uuid_parse_loop 36 s 0 0 uu.

(** One hexadecimal digit, as [%x] or [%X] prints it. *)
Definition hex_digit (upper : bool) (d : Z) : ascii :=
  if d <? 10 then ascii_of_nat (Z.to_nat (48 + d))
  else ascii_of_nat (Z.to_nat ((if upper then 65 else 97) + (d - 10))).

(** [%02x] or [%02X] of an [unsigned char]. *)
Definition hex_byte (upper : bool) (b : Z) (rest : string) : string :=
  String (hex_digit upper (b / 16)) (String (hex_digit upper (b mod 16)) rest).

(** [uuid_fmt]: the bytes in groups of 4, 2, 2, 2 and 6, with dashes. *)
Definition uuid_fmt (uu : list Z) (upper : bool) : string :=
  let b (k : nat) := nth k uu 0 in
  let x := hex_byte upper in
  x (b 0%nat) (x (b 1%nat) (x (b 2%nat) (x (b 3%nat) (String "-"
  (x (b 4%nat) (x (b 5%nat) (String "-"
  (x (b 6%nat) (x (b 7%nat) (String "-"
  (x (b 8%nat) (x (b 9%nat) (String "-"
  (x (b 10%nat) (x (b 11%nat) (x (b 12%nat) (x (b 13%nat) (x (b 14%nat)
  (x (b 15%nat) EmptyString))))))))))))))))))).

Definition uuid_unparse (uu : list Z) : string := uuid_fmt uu false.

Definition uuid_unparse_upper (uu : list Z) : string := uuid_fmt uu true.

(** [uuid_clear] and [uuid_is_null]. *)
Definition uuid_clear (uu : list Z) : list Z := repeat 0 16.

Fixpoint uuid_is_null_from (uu : list Z) : Z :=
  match uu with
  | [] => 1
  | b :: uu' => if negb (b =? 0) then 0 else uuid_is_null_from uu'
  end.

Definition uuid_is_null (uu : list Z) : Z := uuid_is_null_from (firstn 16 uu).




(** The strings that the comment of [uuid_parse] describes: 36 characters,
    dashes at 8, 13, 18 and 23, hexadecimal digits elsewhere. *)
Definition is_hex (c : ascii) : bool :=
  let c := byte_of c in
  ((48 <=? c) && (c <=? 57)) || ((97 <=? c) && (c <=? 102))
  || ((65 <=? c) && (c <=? 70)).

Definition uuid_well_formed (s : string) : bool :=
  (String.length s =? 36)%nat
  && Ascii.eqb (char_at s 8) "-" && Ascii.eqb (char_at s 13) "-"
  && Ascii.eqb (char_at s 18) "-" && Ascii.eqb (char_at s 23) "-"
  && forallb (fun i => is_hex (char_at s i))
       (filter (fun i => negb (dash_position i)) (seq 0 36)).

(** [tolower] on one character. *)
Definition ascii_lower (c : ascii) : ascii :=
  let n := byte_of c in
  if (65 <=? n) && (n <=? 90) then ascii_of_nat (Z.to_nat (n + 32)) else c.

Fixpoint string_lower (s : string) : string :=
  match s with
  | EmptyString => EmptyString
  | String c s' => String (ascii_lower c) (string_lower s')
  end.

(** The bytes of a [uuid_t]. *)
Definition is_uuid (uu : list Z) : Prop :=
  List.length uu = 16%nat /\ Forall (fun b => 0 <= b < 256) uu.

(** The positions of the two digits of each byte, as the loop of
    [uuid_parse] visits them. *)
Definition uuid_pairs : list (nat * nat) :=
  [ (0, 1); (2, 3); (4, 5); (6, 7); (9, 10); (11, 12); (14, 15); (16, 17);
    (19, 20); (21, 22); (24, 25); (26, 27); (28, 29); (30, 31); (32, 33);
    (34, 35) ]%nat.

(** The byte that two digits stand for. *)
Definition byte_of_digits (s : string) (p : nat * nat) : Z :=
  Z.lor (Z.shiftl (hex_nibble (char_at s (fst p))) 4)
        (hex_nibble (char_at s (snd p))) mod 256.

(** The loop of [uuid_parse] with its counter unrolled over the digit
    pairs. *)
Fixpoint parse_pairs (s : string) (ps : list (nat * nat)) (idx : nat)
  (uu : list Z) : Z * list Z :=
  match ps with
  | [] => (0, uu)
  | p :: ps' =>
      if (hex_nibble (char_at s (fst p)) <? 0)
         || (hex_nibble (char_at s (snd p)) <? 0)
      then (-1, uu)
      else parse_pairs s ps' (S idx) (store uu idx (byte_of_digits s p))
  end.

Fixpoint string_of_list (l : list ascii) : string :=
  match l with
  | [] => EmptyString
  | c :: l' => String c (string_of_list l')
  end.

(** ** Vocabulary of the further statements *)

(** The node size that [pybtrfs_mkfs] hands on: in mixed mode it is the
    sector size. *)
Definition effective_nodesize (a : mkfs_args) : Z :=
  if kw_mixed a && negb (kw_nodesize a =? kw_sectorsize a)
  then kw_sectorsize a else kw_nodesize a.

(** What a run with the arguments [a], whose devices are [paths], may show
    of its dealings with the devices. *)
Definition device_event (a : mkfs_args) (paths : list string) (e : event)
  : Prop :=
  match e with
  | Lib c _ =>
      match c with
      | TestDevForMkfs p f =>
          kw_force a = false /\ f = false /\ In p paths
      | Open f => In f paths
      | PrepareDevice _ f bc ze dis z =>
          In f paths /\ bc = kw_byte_count a /\
          ze = (kw_byte_count a =? 0) /\ dis = negb (kw_no_discard a) /\
          z = false
      | MakeBtrfs _ _ ns ss _ ct =>
          ns = effective_nodesize a /\ ss = kw_sectorsize a /\
          ct = kw_csum_type a
      | OpenCtreeFsInfo p => p = nth O paths EmptyString
      | _ => True
      end
  | _ => True
  end.

(** The calls that wind a run up. *)
Definition closing_event (e : event) : Prop :=
  match e with
  | Lib c _ =>
      match c with
      | Close _ | PthreadJoin _ | CloseCtree | CloseAllDevices
      | SuperTotalBytes => True
      | _ => False
      end
  | _ => False
  end.

(** The thread indices given to [pthread_create] and to [pthread_join]. *)
Definition created (h : history) : list nat :=
  flat_map (fun e => match e with
                     | Lib (PthreadCreate i) _ => [i]
                     | _ => []
                     end) h.

Definition joined (h : history) : list nat :=
  flat_map (fun e => match e with
                     | Lib (PthreadJoin i) _ => [i]
                     | _ => []
                     end) h.

(** The devices that the attach loop looked up in the root, with the answer,
    and those it added, with their path, size and sector size. *)
Definition looked_up (h : history) : list (Z * Z) :=
  flat_map (fun e => match e with
                     | Lib (DeviceAlreadyInRoot d _) r => [(d, ret r)]
                     | _ => []
                     end) h.

Definition added (h : history) : list (Z * string * Z * Z) :=
  flat_map (fun e => match e with
                     | Lib (AddToFsid d f n s) _ => [(d, f, n, s)]
                     | _ => []
                     end) h.

(** The devices of [ctx] that the look-ups [l] did not find in the root, as
    the attach loop adds them. *)
Fixpoint to_add (sectorsize : Z) (l : list (Z * Z))
  (ctx : list prepare_device_progress) : list (Z * string * Z * Z) :=
  match l, ctx with
  | (_, r) :: l', p :: ctx' =>
      if r =? 0
      then (fd p, file p, dev_byte_count p, sectorsize)
           :: to_add sectorsize l' ctx'
      else to_add sectorsize l' ctx'
  | _, _ => []
  end.

(** The result is an exception raised before the devices are looked at. *)
Definition argument_error (res : py_result) : Prop :=
  res = PyErr_ValueError \/ res = PyErr_TypeError \/ res = PyErr_NoMemory \/
  res = PyErr_Propagated.

(** The result comes from the conversion of [ret] at the end of a run. *)
Definition converted_result (res : py_result) : Prop :=
  (exists e, res = PyErr_OSError e) \/ (exists u n, res = Py_BuildValue u n).

(** The calls made while the arguments are checked. *)
Definition checking_event (e : event) : Prop :=
  match e with
  | Lib (Calloc _) _ | Lib (UuidParse _) _ => True
  | _ => False
  end.

(** An environment whose [uuid_parse] is the vendored one, run on some
    buffer. *)
Definition vendored_uuid_parse (E : environment) : Prop :=
  forall (h : lib_history) (s : string),
  exists buf, ret (respond E h (UuidParse s)) = fst (uuid_parse s buf).

(** What a call shows of the devices it is made on. *)
Definition device_call (a : mkfs_args) (paths : list string) (c : lib_call)
  : Prop :=
  match c with
  | TestDevForMkfs p f => kw_force a = false /\ f = false /\ In p paths
  | Open f => In f paths
  | PrepareDevice _ f bc ze dis z =>
      In f paths /\ bc = kw_byte_count a /\
      ze = (kw_byte_count a =? 0) /\ dis = negb (kw_no_discard a) /\
      z = false
  | _ => True
  end.

(** What a call shows of the geometry of the new filesystem. *)
Definition geometry_call (a : mkfs_args) (paths : list string) (c : lib_call)
  : Prop :=
  match c with
  | MakeBtrfs _ _ ns ss _ ct =>
      ns = effective_nodesize a /\ ss = kw_sectorsize a /\
      ct = kw_csum_type a /\ (kw_mixed a = true -> ns = kw_sectorsize a)
  | OpenCtreeFsInfo p => p = nth O paths EmptyString
  | _ => True
  end.

(** ** Further sample runs *)

(** An environment like the obliging one, except that the thread of the
    second device cannot be created: [pthread_create] answers [EAGAIN]. *)
Definition thread_failure_env (l : list item) : environment :=
  {| respond := fun h c =>
       match c with
       | PthreadCreate (S O) => answer 11 0 0
       | _ => obliging h c
       end;
     block_groups_on_disk := fun _ => l;
     fs_uuid_after_make_btrfs :=
       fs_uuid_after_make_btrfs (obliging_env l) |}.

(** An environment like the obliging one, whose [uuid_parse] is the
    vendored one run on a zeroed buffer. *)
Definition vendored_env (l : list item) : environment :=
  {| respond := fun h c =>
       match c with
       | UuidParse s => answer (fst (uuid_parse s (repeat 0 16))) 0 0
       | _ => obliging h c
       end;
     block_groups_on_disk := fun _ => l;
     fs_uuid_after_make_btrfs :=
       fs_uuid_after_make_btrfs (obliging_env l) |}.

(** The sample arguments with a [uuid] that has a dash too early, and with
    the devices tested first. *)
Definition malformed_uuid_args : mkfs_args :=
  {| kw_devices := two_devices;
     kw_label := kw_label (sample_args two_devices);
     kw_nodesize := 16384;
     kw_sectorsize := 4096;
     kw_byte_count := 0;
     kw_metadata_profile := -1;
     kw_data_profile := 0;
     kw_mixed := false;
     kw_features := 0;
     kw_csum_type := 0;
     kw_uuid := "0f0e0d0-c0b0a-0908-0706-050403020100";
     kw_force := false;
     kw_no_discard := false |}.

(** The sample arguments in mixed mode with the devices tested first. *)
Definition mixed_args : mkfs_args :=
  {| kw_devices := two_devices;
     kw_label := kw_label (sample_args two_devices);
     kw_nodesize := 16384;
     kw_sectorsize := 4096;
     kw_byte_count := 0;
     kw_metadata_profile := -1;
     kw_data_profile := -1;
     kw_mixed := true;
     kw_features := 0;
     kw_csum_type := 0;
     kw_uuid := kw_uuid (sample_args two_devices);
     kw_force := false;
     kw_no_discard := true |}.

Definition thread_failure_launch
  : (Z + list prepare_device_progress) * world :=
  launch_workers (thread_failure_env sample_groups)
    ["/dev/loop0"%string; "/dev/loop1"%string] O [] 0 true initial_world.

Definition thread_failure_run : option (py_result * world) :=
  pybtrfs_mkfs (K := linux_uapi) (thread_failure_env sample_groups) 10
    (sample_args two_devices) initial_world.

Definition malformed_uuid_run : option (py_result * world) :=
  pybtrfs_mkfs (K := linux_uapi) (vendored_env sample_groups) 10
    malformed_uuid_args initial_world.

Definition mixed_run : option (py_result * world) :=
  pybtrfs_mkfs (K := linux_uapi) (obliging_env sample_groups) 10 mixed_args
    initial_world.

(** ** The transaction protocol *)

(** The calls that are given the transaction handle. *)
Definition takes_handle (c : lib_call) : bool :=
  match c with
  | AllocChunk _ | MakeBlockGroup _ _ _ | CreateTree _ | MakeRootDir
  | CreateGlobalRoots _ | AddToFsid _ _ _ _ | RecowRoots | MakeSubvolume _
  | SearchSlot _ | RemoveBlockGroup _ _ => true
  | _ => false
  end.

(** One event seen by the protocol: [open] tells whether a handle is live.
    A start while a handle is live, a commit without one, and a call that
    is given a handle which is not live, break the protocol. *)
Definition tx_step (open : bool) (e : event) : option bool :=
  match e with
  | Lib StartTransaction r => if open then None else Some (ret r =? 0)
  | Lib CommitTransaction _ => if open then Some false else None
  | Lib c _ => if takes_handle c && negb open then None else Some open
  | _ => Some open
  end.

Fixpoint tx_run (open : bool) (h : history) : option bool :=
  match h with
  | [] => Some open
  | e :: h' =>
      match tx_step open e with
      | Some open' => tx_run open' h'
      | None => None
      end
  end.

(** Events that neither start nor commit a transaction, and those that do
    not touch a handle at all. *)
Definition keeps_handle (e : event) : Prop :=
  match e with
  | Lib StartTransaction _ | Lib CommitTransaction _ => False
  | _ => True
  end.

Definition without_handle (e : event) : Prop :=
  match e with
  | Lib StartTransaction _ | Lib CommitTransaction _ => False
  | Lib c _ => takes_handle c = false
  | _ => True
  end.

(** A stage that keeps to the protocol: entered with the handle state [s],
    it leaves some state, which is [s'] when it returns 0. *)
Definition tx_stage (s s' : bool) (m : step) : Prop :=
  forall w r w',
    m w = Some (r, w') ->
    exists evs o,
      trace w' = trace w ++ evs /\ tx_run s evs = Some o /\
      (r = 0 -> o = s').

(** The result is the value, not an exception. *)
Definition is_value (res : py_result) : Prop :=
  exists u n, res = Py_BuildValue u n.

(** The [fs_uuid] buffer that [pybtrfs_mkfs] copies into the configuration
    of [make_btrfs]. *)
Definition requested_uuid {K : btrfs_uapi} (a : mkfs_args) : string :=
  substring O (Z.to_nat (BTRFS_UUID_UNPARSED_SIZE - 1)) (kw_uuid a).

(** How a run that returns the value [u], [n] ends: [make_btrfs] succeeded
    and left [u] in the configuration, the size [n] was read from the
    superblock, [close_ctree] returned 0 right after, and only closing
    calls followed. *)
Definition value_read_before_close {K : btrfs_uapi} (E : environment)
  (a : mkfs_args) (h : history) (evs : list event) (u : string) (n : Z)
  : Prop :=
  exists pre mk m mid t c after,
    evs = pre ++ Lib mk m :: mid
          ++ Lib SuperTotalBytes t :: Lib CloseCtree c :: after /\
    is_make_btrfs (Lib mk m) = true /\ ret m = 0 /\
    u = fs_uuid_after_make_btrfs E (calls (h ++ pre ++ [Lib mk m]))
          (requested_uuid a) /\
    n = ret t /\ ret c = 0 /\
    Forall (fun e => is_make_btrfs e = false) (pre ++ mid ++ after) /\
    Forall closing_event after.

(** ** The global roots of the extent tree v2

    [create_global_root] and [create_global_roots], which [pybtrfs_mkfs]
    calls when EXTENT_TREE_V2 is asked for.  The library is seen through
    the four calls they make; a root is named by the key it was created
    for. *)

(** Object ids and the key type of kernel-shared/uapi/btrfs_tree.h. *)
Class btrfs_tree_ids : Type := {
  BTRFS_EXTENT_TREE_OBJECTID : Z;
  BTRFS_CSUM_TREE_OBJECTID : Z;
  BTRFS_FREE_SPACE_TREE_OBJECTID : Z;
  BTRFS_ROOT_ITEM_KEY : Z
}.

Definition linux_tree_ids : btrfs_tree_ids := {|
  BTRFS_EXTENT_TREE_OBJECTID := 2;
  BTRFS_CSUM_TREE_OBJECTID := 7;
  BTRFS_FREE_SPACE_TREE_OBJECTID := 10;
  BTRFS_ROOT_ITEM_KEY := 132
|}.

Inductive root_call : Type :=
| BtrfsCreateTree (k : btrfs_key)
| GlobalRootInsert (k : btrfs_key)
| AbortTransaction (err : Z)
| SetSuperNrGlobalRoots (n : Z).

(** The calls made so far with their results: for [btrfs_create_tree], 0
    for a root and [PTR_ERR] otherwise. *)
Definition root_history : Type := list (root_call * Z).

Definition root_env : Type := root_history -> root_call -> Z.

Section GlobalRoots.

Context {T : btrfs_tree_ids}.
Variable R : root_env.

Definition ask (c : root_call) (h : root_history) : Z * root_history :=
  let r := R h c in (r, h ++ [(c, r)]).

Definition root_key (objectid root_id : Z) : btrfs_key :=
  {| objectid := objectid; type := BTRFS_ROOT_ITEM_KEY; offset := root_id |}.

(** [create_global_root]. *)
Definition create_global_root (objectid root_id : Z) (h : root_history)
  : Z * root_history :=
  let k := root_key objectid root_id in
  let (c, h) := ask (BtrfsCreateTree k) h in
  let (ret, h) :=
    if negb (c =? 0) then (c, h) else ask (GlobalRootInsert k) h in
  if negb (ret =? 0) then (ret, snd (ask (AbortTransaction ret) h))
  else (ret, h).

(** The body of the [for] loop of [create_global_roots], over the values
    that [i] takes. *)
Fixpoint global_roots_loop (ids : list Z) (h : root_history)
  : Z * root_history :=
  match ids with
  | [] => (0, h)
  | i :: ids' =>
      let (r, h) := create_global_root BTRFS_EXTENT_TREE_OBJECTID i h in
      if negb (r =? 0) then (r, h)
      else
        let (r, h) := create_global_root BTRFS_CSUM_TREE_OBJECTID i h in
        if negb (r =? 0) then (r, h)
        else
          let (r, h) :=
            create_global_root BTRFS_FREE_SPACE_TREE_OBJECTID i h in
          if negb (r =? 0) then (r, h)
          else global_roots_loop ids' h
  end.

(** [for (i = 1; i < nr_global_roots; i++)]. *)
Definition root_ids (nr_global_roots : Z) : list Z :=
  map Z.of_nat (seq 1 (Z.to_nat (nr_global_roots - 1))).

(** [create_global_roots]. *)
Definition create_global_roots (nr_global_roots : Z) (h : root_history)
  : Z * root_history :=
  let (r, h) := global_roots_loop (root_ids nr_global_roots) h in
  if negb (r =? 0) then (r, h)
  else (0, snd (ask (SetSuperNrGlobalRoots nr_global_roots) h)).

(** The roots of the ids [ids], in the order of creation. *)
Definition roots_of (ids : list Z) : list btrfs_key :=
  flat_map (fun i => [ root_key BTRFS_EXTENT_TREE_OBJECTID i;
                       root_key BTRFS_CSUM_TREE_OBJECTID i;
                       root_key BTRFS_FREE_SPACE_TREE_OBJECTID i ]) ids.

End GlobalRoots.

(** The trees created and the roots inserted with success, the codes given
    to [btrfs_abort_transaction], and the counts written to the
    superblock. *)
Definition trees_created (h : root_history) : list btrfs_key :=
  flat_map (fun e => match e with
                     | (BtrfsCreateTree k, r) => if r =? 0 then [k] else []
                     | _ => []
                     end) h.

Definition roots_inserted (h : root_history) : list btrfs_key :=
  flat_map (fun e => match e with
                     | (GlobalRootInsert k, r) => if r =? 0 then [k] else []
                     | _ => []
                     end) h.

Definition aborted (h : root_history) : list Z :=
  flat_map (fun e => match e with
                     | (AbortTransaction err, _) => [err]
                     | _ => []
                     end) h.

Definition super_counts (h : root_history) : list Z :=
  flat_map (fun e => match e with
                     | (SetSuperNrGlobalRoots n, _) => [n]
                     | _ => []
                     end) h.

(** A library in which nothing fails. *)
Definition willing_roots : root_env := fun _ _ => 0.

(** A library in which the insertion of the second root fails with
    [-EEXIST]. *)
Definition crowded_roots : root_env :=
  fun h c =>
    match c with
    | GlobalRootInsert _ =>
        if (List.length (roots_inserted h) =? 1)%nat then -17 else 0
    | _ => 0
    end.

(** ** The subvolume iterator object

    [SubvolumeIterator] wraps a handle of libbtrfsutil.  Pointers are
    numbers, 0 being NULL.  The library and the Python constructors are
    seen through the calls below; the methods of one object are run one
    after the other, as one thread does. *)

(** Constants of btrfsutil.h. *)
Class btrfsutil_api : Type := {
  BTRFS_UTIL_ERROR_STOP_ITERATION : Z;
  BTRFS_UTIL_SUBVOLUME_ITERATOR_POST_ORDER : Z
}.

Definition libbtrfsutil : btrfsutil_api := {|
  BTRFS_UTIL_ERROR_STOP_ITERATION := 1;
  BTRFS_UTIL_SUBVOLUME_ITERATOR_POST_ORDER := 1
|}.

Inductive iter_call : Type :=
| CreateSubvolumeIterator (path : string) (top flags : Z)
| DestroySubvolumeIterator (it : Z)
| SubvolumeIteratorNext (it : Z)
| SubvolumeIteratorNextInfo (it : Z)
| SubvolumeIteratorFd (it : Z)
| SetError (err : Z)
| DecodeFSDefault (path : Z)
| FreePath (path : Z)
| NewObject.

(** The answer to a call: the value returned (an error code of the
    library, the descriptor of [btrfs_util_subvolume_iterator_fd], and for
    [set_error] and the Python constructors 0 when the object was made),
    and the pointer stored through the output argument, if one was. *)
Record iter_answer : Type := {
  code : Z;
  stored : option Z
}.

Definition iter_history : Type := list (iter_call * iter_answer).

Definition iter_env : Type := iter_history -> iter_call -> iter_answer.

(** [SubvolumeIteratorObject]. *)
Record iterator_object : Type := {
  iter : Z;
  info_flag : bool
}.

(** What a method hands back to the interpreter. *)
Inductive iter_outcome : Type :=
| Return_None
| Return_Self
| Return_Int (v : Z)
| Return_Tuple
| Raise_ValueError
| Raise_StopIteration
| Raise_BtrfsUtilError (err : Z)
| Raise_Pending.

(** The arguments of [__init__] once parsed, or [None] when
    [PyArg_ParseTupleAndKeywords] fails. *)
Definition init_args : Type := option (string * Z * bool * bool).

Inductive iter_op : Type :=
| Op_init (args : init_args)
| Op_next
| Op_close
| Op_enter
| Op_exit
| Op_fd.

(** The object that [PyType_GenericNew] allocates. *)
Definition fresh_iterator : iterator_object :=
  {| iter := 0; info_flag := false |}.

Section SubvolumeIterator.

Context {U : btrfsutil_api}.
Variable L : iter_env.

Definition iter_lib (c : iter_call) (h : iter_history)
  : iter_answer * iter_history :=
  let r := L h c in (r, h ++ [(c, r)]).

(** [set_error], which raises [BtrfsUtilError] unless the exception cannot
    be built. *)
Definition set_error (err : Z) (h : iter_history)
  : iter_outcome * iter_history :=
  let (r, h) := iter_lib (SetError err) h in
  (if negb (code r =? 0) then Raise_Pending else Raise_BtrfsUtilError err, h).

(** [SubvolumeIterator_dealloc]. *)
Definition SubvolumeIterator_dealloc (self : iterator_object)
  (h : iter_history) : iter_history :=
  if negb (iter self =? 0)
  then snd (iter_lib (DestroySubvolumeIterator (iter self)) h)
  else h.

(** [SubvolumeIterator_init]. *)
Definition SubvolumeIterator_init (self : iterator_object) (args : init_args)
  (h : iter_history) : iter_outcome * iterator_object * iter_history :=
  match args with
  | None => (Raise_Pending, self, h)
  | Some (path, top, post_order, info) =>
      let flags := 0 in
      let flags :=
        if post_order
        then Z.lor flags BTRFS_UTIL_SUBVOLUME_ITERATOR_POST_ORDER
        else flags in
      let self := {| iter := iter self; info_flag := info |} in
      let (r, h) := iter_lib (CreateSubvolumeIterator path top flags) h in
      let self :=
        match stored r with
        | Some it => {| iter := it; info_flag := info_flag self |}
        | None => self
        end in
      if negb (code r =? 0) then
        let (e, h) := set_error (code r) h in (e, self, h)
      else (Return_None, self, h)
  end.

(** The end of [SubvolumeIterator_next], common to both modes: the path
    is decoded and freed, the second value is made, the two are packed. *)
Definition next_tuple (path : Z) (h : iter_history)
  : iter_outcome * iter_history :=
  let (p, h) := iter_lib (DecodeFSDefault path) h in
  let (_, h) := iter_lib (FreePath path) h in
  if negb (code p =? 0) then (Raise_Pending, h)
  else
    let (i, h) := iter_lib NewObject h in
    if negb (code i =? 0) then (Raise_Pending, h)
    else
      let (t, h) := iter_lib NewObject h in
      (if negb (code t =? 0) then Raise_Pending else Return_Tuple, h).

(** [SubvolumeIterator_next]. *)
Definition SubvolumeIterator_next (self : iterator_object) (h : iter_history)
  : iter_outcome * iter_history :=
  if iter self =? 0 then (Raise_ValueError, h)
  else
    let (r, h) :=
      if info_flag self
      then iter_lib (SubvolumeIteratorNextInfo (iter self)) h
      else iter_lib (SubvolumeIteratorNext (iter self)) h in
    let path := match stored r with Some p => p | None => 0 end in
    if code r =? BTRFS_UTIL_ERROR_STOP_ITERATION then (Raise_StopIteration, h)
    else if negb (code r =? 0) then set_error (code r) h
    else next_tuple path h.

(** [SubvolumeIterator_close]. *)
Definition SubvolumeIterator_close (self : iterator_object)
  (h : iter_history) : iter_outcome * iterator_object * iter_history :=
  if negb (iter self =? 0) then
    let (_, h) := iter_lib (DestroySubvolumeIterator (iter self)) h in
    (Return_None, {| iter := 0; info_flag := info_flag self |}, h)
  else (Return_None, self, h).

(** [SubvolumeIterator_enter] and [SubvolumeIterator_exit]. *)
Definition SubvolumeIterator_enter (self : iterator_object)
  (h : iter_history) : iter_outcome * iterator_object * iter_history :=
  (Return_Self, self, h).

Definition SubvolumeIterator_exit (self : iterator_object)
  (h : iter_history) : iter_outcome * iterator_object * iter_history :=
  SubvolumeIterator_close self h.

(** [SubvolumeIterator_get_fd]. *)
Definition SubvolumeIterator_get_fd (self : iterator_object)
  (h : iter_history) : iter_outcome * iter_history :=
  if iter self =? 0 then (Raise_ValueError, h)
  else
    let (r, h) := iter_lib (SubvolumeIteratorFd (iter self)) h in
    let (o, h) := iter_lib NewObject h in
    (if negb (code o =? 0) then Raise_Pending else Return_Int (code r), h).

(** One method call on the object, and a sequence of them. *)
Definition run_op (op : iter_op) (self : iterator_object) (h : iter_history)
  : iter_outcome * iterator_object * iter_history :=
  match op with
  | Op_init args => SubvolumeIterator_init self args h
  | Op_next =>
      let (o, h) := SubvolumeIterator_next self h in (o, self, h)
  | Op_close => SubvolumeIterator_close self h
  | Op_enter => SubvolumeIterator_enter self h
  | Op_exit => SubvolumeIterator_exit self h
  | Op_fd =>
      let (o, h) := SubvolumeIterator_get_fd self h in (o, self, h)
  end.

Fixpoint run_ops (ops : list iter_op) (self : iterator_object)
  (h : iter_history) : list iter_outcome * iterator_object * iter_history :=
  match ops with
  | [] => ([], self, h)
  | op :: ops' =>
      let '(o, self, h) := run_op op self h in
      let '(os, self, h) := run_ops ops' self h in
      (o :: os, self, h)
  end.

(** The life of an object: allocated, used, deallocated. *)
Definition iterator_life (ops : list iter_op) (h : iter_history)
  : list iter_outcome * iter_history :=
  let '(os, self, h) := run_ops ops fresh_iterator h in
  (os, SubvolumeIterator_dealloc self h).

End SubvolumeIterator.

(** The resources that the library has handed out and not taken back:
    iterator handles and path strings. *)
Record iter_resources : Type := {
  live_handles : list Z;
  live_paths : list Z
}.

Fixpoint remove_one (x : Z) (l : list Z) : list Z :=
  match l with
  | [] => []
  | y :: l' => if x =? y then l' else y :: remove_one x l'
  end.

Definition holds (x : Z) (l : list Z) : bool := existsb (Z.eqb x) l.

(** One call seen by the owner of the resources: [None] when a handle or
    a path is used that is not live. *)
Definition track (s : iter_resources) (e : iter_call * iter_answer)
  : option iter_resources :=
  let (c, r) := e in
  match c with
  | CreateSubvolumeIterator _ _ _ =>
      match stored r with
      | Some it =>
          if code r =? 0
          then Some {| live_handles := live_handles s ++ [it];
                       live_paths := live_paths s |}
          else Some s
      | None => Some s
      end
  | DestroySubvolumeIterator it =>
      if holds it (live_handles s)
      then Some {| live_handles := remove_one it (live_handles s);
                   live_paths := live_paths s |}
      else None
  | SubvolumeIteratorNext it | SubvolumeIteratorNextInfo it =>
      if holds it (live_handles s)
      then
        match stored r with
        | Some p =>
            if code r =? 0
            then Some {| live_handles := live_handles s;
                         live_paths := live_paths s ++ [p] |}
            else Some s
        | None => Some s
        end
      else None
  | SubvolumeIteratorFd it =>
      if holds it (live_handles s) then Some s else None
  | DecodeFSDefault p =>
      if holds p (live_paths s) then Some s else None
  | FreePath p =>
      if holds p (live_paths s)
      then Some {| live_handles := live_handles s;
                   live_paths := remove_one p (live_paths s) |}
      else None
  | SetError _ | NewObject => Some s
  end.

Fixpoint track_all (s : iter_resources) (h : iter_history)
  : option iter_resources :=
  match h with
  | [] => Some s
  | e :: h' =>
      match track s e with
      | Some s' => track_all s' h'
      | None => None
      end
  end.

Definition no_resources : iter_resources :=
  {| live_handles := []; live_paths := [] |}.

(** A library that stores a pointer through its output argument exactly
    when it succeeds, and never hands out NULL as an iterator. *)
Definition stores_on_success (L : iter_env) : Prop :=
  forall (h : iter_history) (c : iter_call),
    match c with
    | CreateSubvolumeIterator _ _ _ =>
        (code (L h c) = 0 ->
         exists it, stored (L h c) = Some it /\ it <> 0) /\
        (code (L h c) <> 0 -> stored (L h c) = None)
    | SubvolumeIteratorNext _ | SubvolumeIteratorNextInfo _ =>
        (code (L h c) = 0 -> exists p, stored (L h c) = Some p) /\
        (code (L h c) <> 0 -> stored (L h c) = None)
    | _ => True
    end.

Definition is_init (op : iter_op) : bool :=
  match op with
  | Op_init _ => true
  | _ => false
  end.

(** A library with two subvolumes: handles are 1, 2, ..., paths are 101,
    102, ..., and the third [next] ends the iteration. *)
Definition count_calls (f : iter_call -> bool) (h : iter_history) : Z :=
  Z.of_nat (List.length (filter (fun e => f (fst e)) h)).

Definition two_subvolumes : iter_env :=
  fun h c =>
    match c with
    | CreateSubvolumeIterator _ _ _ =>
        {| code := 0;
           stored :=
             Some (1 + count_calls
                         (fun c => match c with
                                   | CreateSubvolumeIterator _ _ _ => true
                                   | _ => false
                                   end) h) |}
    | SubvolumeIteratorNext _ | SubvolumeIteratorNextInfo _ =>
        let n := count_calls
                   (fun c => match c with
                             | SubvolumeIteratorNext _
                             | SubvolumeIteratorNextInfo _ => true
                             | _ => false
                             end) h in
        if n <? 2 then {| code := 0; stored := Some (101 + n) |}
        else {| code := 1; stored := None |}
    | SubvolumeIteratorFd _ => {| code := 5; stored := None |}
    | _ => {| code := 0; stored := None |}
    end.

(** A session: the iterator is made on a path, stepped three times inside
    a [with] block, and used once more after the block. *)
Definition sample_session : list iter_op :=
  [ Op_init (Some ("/mnt"%string, 0, false, false)); Op_enter; Op_next;
    Op_fd; Op_next; Op_next; Op_exit; Op_next; Op_close ].

(** What a method gives on a closed iterator. *)
Definition closed_outcome (op : iter_op) : iter_outcome :=
  match op with
  | Op_next | Op_fd => Raise_ValueError
  | Op_enter => Return_Self
  | _ => Return_None
  end.

(** What the object and the resources agree on between two method calls:
    no path is live, the handle of the object is NULL or live, and, as long
    as [__init__] has only run on a closed object ([once]), no other handle
    is live. *)
Definition in_step (once : bool) (self : iterator_object)
  (s : iter_resources) : Prop :=
  live_paths s = [] /\
  (iter self = 0 \/ holds (iter self) (live_handles s) = true) /\
  (once = true ->
   live_handles s = if iter self =? 0 then [] else [iter self]).

(** ** [deleted_subvolumes]

    The wrapper that turns the id array of the library into a Python list.
    The library call stores the array and its length when it succeeds. *)

Inductive list_call : Type :=
| DeletedSubvolumes (path : string)
| ListNew (n : Z)
| LongFromUnsignedLongLong (v : Z)
| DecrefList
| FreeIds
| RaiseError (err : Z).

(** The answer to a call: the code returned (for [set_error] and the
    Python constructors, 0 when the object was made) and the ids stored. *)
Record list_answer : Type := {
  answer_code : Z;
  answer_ids : list Z
}.

Definition list_history : Type := list (list_call * list_answer).

Inductive list_outcome : Type :=
| Return_List (l : list Z)
| List_BtrfsUtilError (err : Z)
| List_Pending.

Section DeletedSubvolumes.

Variable D : list_history -> list_call -> list_answer.

Definition list_lib (c : list_call) (h : list_history)
  : list_answer * list_history :=
  let r := D h c in (r, h ++ [(c, r)]).

(** The [for] loop of [mod_deleted_subvolumes] over the ids left, with the
    items set so far; [None] when a value cannot be made. *)
Fixpoint fill_list (ids : list Z) (filled : list Z) (h : list_history)
  : option (list Z) * list_history :=
  match ids with
  | [] => (Some filled, h)
  | id :: ids' =>
      let (v, h) := list_lib (LongFromUnsignedLongLong id) h in
      if negb (answer_code v =? 0) then
        let (_, h) := list_lib DecrefList h in
        let (_, h) := list_lib FreeIds h in
        (None, h)
      else fill_list ids' (filled ++ [id]) h
  end.

(** [mod_deleted_subvolumes]; [args] is [None] when the arguments cannot
    be parsed. *)
Definition mod_deleted_subvolumes (args : option string) (h : list_history)
  : list_outcome * list_history :=
  match args with
  | None => (List_Pending, h)
  | Some path =>
      let (r, h) := list_lib (DeletedSubvolumes path) h in
      if negb (answer_code r =? 0) then
        let (e, h) := list_lib (RaiseError (answer_code r)) h in
        (if negb (answer_code e =? 0) then List_Pending
         else List_BtrfsUtilError (answer_code r), h)
      else
        let ids := answer_ids r in
        let n := Z.of_nat (List.length ids) in
        let (l, h) := list_lib (ListNew n) h in
        if negb (answer_code l =? 0) then
          let (_, h) := list_lib FreeIds h in (List_Pending, h)
        else
          match fill_list ids [] h with
          | (None, h) => (List_Pending, h)
          | (Some filled, h) =>
              let (_, h) := list_lib FreeIds h in (Return_List filled, h)
          end
  end.

End DeletedSubvolumes.

(** How often the id array was freed, how many lists were made and
    released, and the values that were made. *)
Definition frees (h : list_history) : nat :=
  List.length (filter (fun e => match fst e with
                                | FreeIds => true
                                | _ => false
                                end) h).

Definition lists_made (h : list_history) : nat :=
  List.length (filter (fun e => match fst e with
                                | ListNew _ => answer_code (snd e) =? 0
                                | _ => false
                                end) h).

Definition lists_released (h : list_history) : nat :=
  List.length (filter (fun e => match fst e with
                                | DecrefList => true
                                | _ => false
                                end) h).

Definition values_made (h : list_history) : list Z :=
  flat_map (fun e => match fst e with
                     | LongFromUnsignedLongLong v =>
                         if answer_code (snd e) =? 0 then [v] else []
                     | _ => []
                     end) h.

(** A library that reports three deleted subvolumes, with a Python that
    cannot make the third value. *)
Definition three_deleted : list_history -> list_call -> list_answer :=
  fun _ c =>
    match c with
    | DeletedSubvolumes _ =>
        {| answer_code := 0; answer_ids := [256; 257; 300] |}
    | LongFromUnsignedLongLong v =>
        {| answer_code := if v =? 300 then 1 else 0; answer_ids := [] |}
    | _ => {| answer_code := 0; answer_ids := [] |}
    end.

(** ** The method table of the module *)

(** [PyMethodDef]; the function pointer is a number, and NULL is [None]
    or 0. *)
Record py_method_def : Type := {
  ml_name : option string;
  ml_meth : Z;
  ml_flags : Z;
  ml_doc : option string
}.

(** An entry of zeroed memory, which is also the sentinel [{NULL}]. *)
Definition zeroed_method : py_method_def :=
  {| ml_name := None; ml_meth := 0; ml_flags := 0; ml_doc := None |}.

(** [count_methods]: the entries before the first one without a name. *)
Fixpoint count_methods (m : list py_method_def) : nat :=
  match m with
  | [] => O
  | e :: m' =>
      match ml_name e with
      | Some _ => S (count_methods m')
      | None => O
      end
  end.

(** [memcpy(dst + off, src, n * sizeof(PyMethodDef))]. *)
Definition copy_methods (dst : list py_method_def) (off : nat)
  (src : list py_method_def) (n : nat) : list py_method_def :=
  firstn off dst ++ firstn n src ++ skipn (off + n) dst.

(** [merge_methods]; [calloc_ok] tells whether [PyMem_Calloc] returns
    memory. *)
Definition merge_methods (calloc_ok : bool)
  (sync_methods subvolume_methods : list py_method_def)
  : option (list py_method_def) :=
  let ns := count_methods sync_methods in
  let nv := count_methods subvolume_methods in
  let total := (ns + nv)%nat in
  if negb calloc_ok then None
  else
    let all := repeat zeroed_method (total + 1) in
    let all := copy_methods all O sync_methods ns in
    let all := copy_methods all ns subvolume_methods nv in
    Some all.

(** The methods that a table declares. *)
Definition declared (m : list py_method_def) : list py_method_def :=
  firstn (count_methods m) m.

(** ** The phases of a run and the ledger over a run *)

(** The fields of [struct mkfs_allocation]. *)
Inductive ledger_field : Type :=
| Data_field
| Metadata_field
| Mixed_field
| System_field
| Remap_field.

Definition field (f : ledger_field) (a : mkfs_allocation) : Z :=
  match f with
  | Data_field => data a
  | Metadata_field => metadata a
  | Mixed_field => mixed a
  | System_field => system a
  | Remap_field => remap a
  end.

Definition field_eqb (f g : ledger_field) : bool :=
  match f, g with
  | Data_field, Data_field | Metadata_field, Metadata_field
  | Mixed_field, Mixed_field | System_field, System_field
  | Remap_field, Remap_field => true
  | _, _ => false
  end.

(** Events outside the stages that work on the open filesystem: no stage is
    entered and no call of those stages is made. *)
Definition outside_trees (e : event) : Prop :=
  match e with
  | Lib c _ => tree_call c = false
  | Enter _ => False
  | Prepared _ _ => True
  end.

(** The state [w'] is [w] after the events [evs], which are all outside the
    stages on the open filesystem and leave the ledger alone. *)
Definition aside (w w' : world) (evs : list event) : Prop :=
  trace w' = trace w ++ evs /\ allocation w' = allocation w /\
  Forall outside_trees evs.

(** The entry of the temporary chunk cleaner. *)
Definition cleaner_entry (e : event) : bool :=
  match e with
  | Enter (CleanupTempChunks _ _ _ _) => true
  | _ => false
  end.

(** A library call that did not fail, for the calls whose failure stops the
    run before or within the attach loop: [open_ctree_fs_info] returns the
    filesystem, the others return 0.  What the workers and the closing calls
    return is not looked at. *)
Definition call_succeeded (e : event) : bool :=
  match e with
  | Lib c r =>
      match c with
      | OpenCtreeFsInfo _ => negb (ret r =? 0)
      | MakeBtrfs _ _ _ _ _ _ | UpdateSpaceInfo _ | StartTransaction
      | AllocChunk _ | MakeBlockGroup _ _ _ | CommitTransaction
      | CreateTree _ | MakeRootDir | CreateGlobalRoots _
      | AddToFsid _ _ _ _ => ret r =? 0
      | _ => true
      end
  | _ => true
  end.

Section LedgerOverRun.

Context {K : btrfs_uapi}.

(** The ledger field that goes with a type mask: DATA, METADATA, SYSTEM,
    METADATA|DATA, and the remap type of the bootstrap. *)
Definition field_of_mask (m : Z) : option ledger_field :=
  if m =? BTRFS_BLOCK_GROUP_DATA then Some Data_field
  else if m =? BTRFS_BLOCK_GROUP_METADATA then Some Metadata_field
  else if m =? BTRFS_BLOCK_GROUP_SYSTEM then Some System_field
  else if m =? Z.lor BTRFS_BLOCK_GROUP_METADATA BTRFS_BLOCK_GROUP_DATA
  then Some Mixed_field
  else if m =? BTRFS_BLOCK_GROUP_METADATA_REMAP then Some Remap_field
  else None.

(** The share of the field [f] in [n] bytes of a group with type mask
    [m]. *)
Definition amount_for (f : ledger_field) (m n : Z) : Z :=
  match field_of_mask m with
  | Some g => if field_eqb f g then n else 0
  | None => 0
  end.

(** What the creation of block groups adds to the field [f], read off the
    events: the system reservation that follows [btrfs_is_zoned] in
    [create_metadata_block_groups] (the zone size on a zoned filesystem),
    and the chunk size given to each [btrfs_make_block_group]. *)
Definition credit_of (f : ledger_field) (e : event) : Z :=
  match e with
  | Lib IsZoned z =>
      if field_eqb f System_field
      then (if negb (ret z =? 0) then out1 z
            else BTRFS_MKFS_SYSTEM_GROUP_SIZE)
      else 0
  | Lib (MakeBlockGroup ty _ chunk_size) _ =>
      amount_for f (Z.land ty BTRFS_BLOCK_GROUP_TYPE_MASK) chunk_size
  | _ => 0
  end.

Definition credited (f : ledger_field) (h : history) : Z :=
  fold_right (fun e s => credit_of f e + s) 0 h.

(** What the removal of the groups [l] takes from the field [f]: the size of
    each group (the offset of its key) whose type mask goes with [f]. *)
Definition debited (f : ledger_field) (l : list item) : Z :=
  fold_right
    (fun g s =>
       amount_for f (Z.land (flags (bgi g)) BTRFS_BLOCK_GROUP_TYPE_MASK)
         (offset (key g)) + s) 0 l.

(** The block-group types are what the headers make them: each of the five
    types lies within the type mask, and the remap type is none of the case
    labels of the [switch]. *)
Definition type_masks_ok : Prop :=
  switch_labels_distinct /\
  Z.land BTRFS_BLOCK_GROUP_DATA BTRFS_BLOCK_GROUP_TYPE_MASK
  = BTRFS_BLOCK_GROUP_DATA /\
  Z.land BTRFS_BLOCK_GROUP_METADATA BTRFS_BLOCK_GROUP_TYPE_MASK
  = BTRFS_BLOCK_GROUP_METADATA /\
  Z.land BTRFS_BLOCK_GROUP_SYSTEM BTRFS_BLOCK_GROUP_TYPE_MASK
  = BTRFS_BLOCK_GROUP_SYSTEM /\
  Z.land (Z.lor BTRFS_BLOCK_GROUP_METADATA BTRFS_BLOCK_GROUP_DATA)
    BTRFS_BLOCK_GROUP_TYPE_MASK
  = Z.lor BTRFS_BLOCK_GROUP_METADATA BTRFS_BLOCK_GROUP_DATA /\
  Z.land BTRFS_BLOCK_GROUP_METADATA_REMAP BTRFS_BLOCK_GROUP_TYPE_MASK
  = BTRFS_BLOCK_GROUP_METADATA_REMAP /\
  BTRFS_BLOCK_GROUP_METADATA_REMAP <> BTRFS_BLOCK_GROUP_DATA /\
  BTRFS_BLOCK_GROUP_METADATA_REMAP <> BTRFS_BLOCK_GROUP_METADATA /\
  BTRFS_BLOCK_GROUP_METADATA_REMAP <> BTRFS_BLOCK_GROUP_SYSTEM /\
  BTRFS_BLOCK_GROUP_METADATA_REMAP
  <> Z.lor BTRFS_BLOCK_GROUP_METADATA BTRFS_BLOCK_GROUP_DATA.

(** The ledger [a'] is the ledger [a] with what the events [evs] credit
    added to each field, on [u64]. *)
Definition grown (a : mkfs_allocation) (evs : list event)
  (a' : mkfs_allocation) : Prop :=
  ledger_ok a' /\
  forall f, field f a' = (field f a + credited f evs) mod 2 ^ 64.

(** A stage that keeps the ledger in step with the groups it makes: it does
    not enter the cleaner, and when it returns 0 the ledger has grown by
    what its events credit. *)
Definition ledger_stage (m : step) : Prop :=
  forall w r w',
    ledger_ok (allocation w) ->
    m w = Some (r, w') ->
    exists evs,
      trace w' = trace w ++ evs /\
      Forall (fun e => cleaner_entry e = false) evs /\
      (r = 0 -> grown (allocation w) evs (allocation w')).

(** The events [evs] of a stretch of run from [w] to [w'] show one entry of
    the cleaner.  When the block-group root it finds on disk is well formed
    and shorter than the fuel, the cleaner has gone through a part [pre] of
    it and removed the temporary groups of that part, in the order of the
    leaf; and each field of the ledger is what it was in [w], plus what the
    events before the entry credit, minus the sizes of the groups
    removed. *)
Definition cleaned (E : environment) (fuel : nat) (dp mp sp : Z) (w : world)
  (evs : list event) (w' : world) : Prop :=
  exists before dd after,
    evs = before ++ Enter (CleanupTempChunks dp mp sp dd) :: after /\
    Forall (fun e => cleaner_entry e = false) before /\
    Forall (fun e => cleaner_entry e = false) after /\
    let leaf := block_groups_on_disk E (calls (trace w ++ before)) in
    (well_formed_tree leaf -> (List.length leaf < fuel)%nat ->
     exists pre post,
       leaf = pre ++ post /\
       removed_groups after = map range (filter (temporary dp mp sp) pre) /\
       ledger_ok (allocation w') /\
       forall f,
         field f (allocation w')
         = (field f (allocation w) + credited f before
            - debited f (filter (temporary dp mp sp) pre)) mod 2 ^ 64).

(** A stage that ends in the cleaner: it stops before the cleaner is
    entered, or its events are as [cleaned] says. *)
Definition ledger_tail (E : environment) (fuel : nat) (dp mp sp : Z)
  (k : step) : Prop :=
  forall w r w',
    ledger_ok (allocation w) ->
    k w = Some (r, w') ->
    exists evs,
      trace w' = trace w ++ evs /\
      (Forall (fun e => cleaner_entry e = false) evs \/
       cleaned E fuel dp mp sp w evs w').

(** A stage that returns [c] unless one of its library calls fails. *)
Definition stage_gives (c : Z) (m : step) : Prop :=
  forall w r w',
    m w = Some (r, w') ->
    exists evs,
      trace w' = trace w ++ evs /\
      (forallb call_succeeded evs = true -> r = c).


End LedgerOverRun.

(** ** A library that keeps its word *)

(** The block groups that the calls made so far have left on disk: one
    group for each [btrfs_make_block_group], with the start, the size and
    the type it was given. *)
Definition made_groups (h : lib_history) : list item :=
  flat_map (fun e => match fst e with
                     | MakeBlockGroup ty chunk_start chunk_size =>
                         [block_group chunk_start chunk_size ty 0]
                     | _ => []
                     end) h.

(** An environment like the obliging one, whose block-group root holds the
    SYSTEM group of [make_btrfs] and what was made since. *)
Definition faithful_env : environment :=
  {| respond := obliging;
     block_groups_on_disk := fun h =>
       block_group (1 * MiB) (4 * MiB) 2 0 :: made_groups h;
     fs_uuid_after_make_btrfs :=
       fs_uuid_after_make_btrfs (obliging_env []) |}.

Definition faithful_run : option (py_result * world) :=
  pybtrfs_mkfs (K := linux_uapi) faithful_env 10 (sample_args two_devices)
    initial_world.

(** The run with a requested size larger than the devices in which the
    thread of the second device cannot be created. *)
Definition oversized_thread_failure_run : option (py_result * world) :=
  pybtrfs_mkfs (K := linux_uapi) (thread_failure_env sample_groups) 10
    oversized_args initial_world.

(** * Proofs *)

(** ** Keys *)

Ltac key_arith :=
  unfold key_ltb, key_eqb in *; simpl in *;
  repeat match goal with
         | H : _ = true |- _ =>
             first [ rewrite orb_true_iff in H | rewrite andb_true_iff in H
                   | rewrite Z.ltb_lt in H | rewrite Z.eqb_eq in H ]
         | H : _ = false |- _ =>
             first [ rewrite orb_false_iff in H | rewrite andb_false_iff in H
                   | rewrite Z.ltb_ge in H | rewrite Z.eqb_neq in H ]
         | |- _ = true =>
             first [ rewrite orb_true_iff | rewrite andb_true_iff
                   | rewrite Z.ltb_lt | rewrite Z.eqb_eq ]
         | |- _ = false =>
             first [ rewrite orb_false_iff | rewrite andb_false_iff
                   | rewrite Z.ltb_ge | rewrite Z.eqb_neq ]
         end;
  try lia.

Lemma key_ltb_trans (a b c : btrfs_key) :
  key_ltb a b = true -> key_ltb b c = true -> key_ltb a c = true.
Proof. intros H1 H2. key_arith. Qed.

Lemma key_ltb_not_eq (a b : btrfs_key) :
  key_ltb a b = true -> key_eqb a b = false /\ key_eqb b a = false.
Proof. intros H. split; key_arith. Qed.

Lemma key_eqb_refl (a : btrfs_key) : key_eqb a a = true.
Proof. key_arith. Qed.

Section CleanerFacts.

Context {K : btrfs_uapi}.
Variable E : environment.

Lemma under_bg_key_mono (a : btrfs_key) (k k' : Z) :
  key_ltb a (bg_key k) = true -> k <= k' -> key_ltb a (bg_key k') = true.
Proof. unfold bg_key; intros H1 H2. key_arith. Qed.

Lemma group_not_under_bg_key (it : item) (k : Z) :
  is_block_group it = true -> 0 <= offset (key it) ->
  k <= objectid (key it) -> key_ltb (key it) (bg_key k) = false.
Proof.
  unfold is_block_group, bg_key; intros H1 H2 H3.
  apply Z.eqb_eq in H1. key_arith.
Qed.

Lemma group_under_its_end (it : item) :
  is_block_group it = true -> 0 < offset (key it) ->
  key_ltb (key it) (bg_key (group_end it)) = true.
Proof.
  unfold is_block_group, bg_key, group_end; intros H1 H2.
  apply Z.eqb_eq in H1. key_arith.
Qed.

Lemma not_under_bg_key_objectid (a : btrfs_key) (k : Z) :
  key_ltb a (bg_key k) = false -> k <= objectid a.
Proof. unfold bg_key; intros H. key_arith. Qed.

(** *** Calls *)

#[local] Arguments call : simpl never.

Lemma call_inv (c : lib_call) (w : world) (r : response) (w' : world) :
  call E c w = (r, w') ->
  r = respond E (calls (trace w)) c /\
  trace w' = trace w ++ [Lib c r] /\
  items w' = items w /\ allocation w' = allocation w.
Proof. unfold call; intros H; inversion H; subst; simpl; auto. Qed.

Lemma removal_calls_app (h1 h2 : history) :
  removal_calls (h1 ++ h2) = removal_calls h1 ++ removal_calls h2.
Proof.
  induction h1 as [|e h1 IH]; simpl; [reflexivity|].
  destruct e as [c r| |]; try apply IH.
  destruct c; simpl; try apply IH. now rewrite IH.
Qed.

Lemma removed_groups_app (h1 h2 : history) :
  removed_groups (h1 ++ h2) = removed_groups h1 ++ removed_groups h2.
Proof.
  induction h1 as [|e h1 IH]; simpl; [reflexivity|].
  destruct e as [c r| |]; try apply IH.
  destruct c; simpl; try apply IH.
  destruct (ret r <? 0); simpl; now rewrite IH.
Qed.

(** *** Searching *)

Lemma search_slot_app (l1 l2 : list item) (k : btrfs_key) :
  Forall (fun it => key_ltb (key it) k = true) l1 ->
  search_slot (l1 ++ l2) k = (List.length l1 + search_slot l2 k)%nat.
Proof.
  induction 1 as [|it l1 Hit _ IH]; simpl; [reflexivity|].
  now rewrite Hit, IH.
Qed.

Lemma search_slot_split (l : list item) (k : btrfs_key) :
  exists l1 l2,
    l = l1 ++ l2 /\ search_slot l k = List.length l1 /\
    Forall (fun it => key_ltb (key it) k = true) l1 /\
    match l2 with
    | [] => True
    | f :: _ => key_ltb (key f) k = false
    end.
Proof.
  induction l as [|it l IH]; simpl.
  - exists [], []; repeat split; constructor.
  - destruct (key_ltb (key it) k) eqn:Hlt.
    + destruct IH as (l1 & l2 & -> & Hs & Hall & Hhd).
      exists (it :: l1), l2; simpl; repeat split; auto.
    + exists [], (it :: l); simpl; repeat split; auto.
Qed.

Lemma item_at_app (l1 l2 : list item) (n : nat) :
  item_at (l1 ++ l2) (List.length l1 + n) = item_at l2 n.
Proof. unfold item_at. apply app_nth2_plus. Qed.

Lemma skipn_app_exact (A : Type) (l1 l2 : list A) (n : nat) :
  skipn (List.length l1 + n) (l1 ++ l2) = skipn n l2.
Proof.
  induction l1; simpl; auto.
Qed.

(** *** Removal *)

Lemma delete_block_group_other (l : list item) (b l' : Z) :
  Forall (fun it => key_eqb (key it) {| objectid := b;
                      type := BTRFS_BLOCK_GROUP_ITEM_KEY;
                      offset := l' |} = false) l ->
  delete_block_group l b l' = l.
Proof.
  unfold delete_block_group.
  induction 1 as [|it l Hit _ IH]; simpl; [reflexivity|].
  now rewrite Hit, IH.
Qed.

Lemma delete_block_group_app (l1 l2 : list item) (b l' : Z) :
  delete_block_group (l1 ++ l2) b l'
  = delete_block_group l1 b l' ++ delete_block_group l2 b l'.
Proof. unfold delete_block_group. apply filter_app. Qed.

Lemma group_key (it : item) :
  is_block_group it = true ->
  {| objectid := objectid (key it); type := BTRFS_BLOCK_GROUP_ITEM_KEY;
     offset := offset (key it) |} = key it.
Proof.
  unfold is_block_group; intros H; apply Z.eqb_eq in H.
  destruct (key it); simpl in *; now subst.
Qed.

Lemma delete_block_group_here (it : item) (l : list item) :
  is_block_group it = true ->
  Forall (precedes it) l ->
  delete_block_group (it :: l) (objectid (key it)) (offset (key it)) = l.
Proof.
  intros Hbg Hall.
  unfold delete_block_group. rewrite (group_key it Hbg). simpl.
  rewrite key_eqb_refl; simpl.
  induction Hall as [|a l [Hlt _] _ IH]; simpl; [reflexivity|].
  apply key_ltb_not_eq in Hlt. destruct Hlt as [_ Hne].
  now rewrite Hne, IH.
Qed.

(** *** Stepping to the next block group *)

Lemma next_block_group_from_eq (rest : list item) (slot : nat) (w : world) :
  next_block_group_from E rest slot w
  = let (r, w) := call E NextItem w in
    if ret r <? 0 then (ret r, slot, w)
    else
      match rest with
      | [] => (1, slot, w)
      | it :: rest' =>
          if type (key it) =? BTRFS_BLOCK_GROUP_ITEM_KEY
          then (0, S slot, w)
          else next_block_group_from E rest' (S slot) w
      end.
Proof. destruct rest; reflexivity. Qed.

Lemma next_block_group_from_spec (rest : list item) :
  forall (slot : nat) (w : world),
  exists r slot' w' evs,
    next_block_group_from E rest slot w = (r, slot', w') /\
    items w' = items w /\ allocation w' = allocation w /\
    trace w' = trace w ++ evs /\
    Forall loop_event evs /\ removal_calls evs = [] /\
    removed_groups evs = [] /\
    ((r < 0 /\ ~ tree_ops_succeed E) \/
     (r = 1 /\ Forall (fun it => is_block_group it = false) rest) \/
     (r = 0 /\ exists mid b rest',
         rest = mid ++ b :: rest' /\
         Forall (fun it => is_block_group it = false) mid /\
         is_block_group b = true /\
         slot' = (slot + 1 + List.length mid)%nat)).
Proof.
  induction rest as [|it rest IH]; intros slot w;
    rewrite next_block_group_from_eq.
  - destruct (call E NextItem w) as [r w1] eqn:Hc.
    apply call_inv in Hc. destruct Hc as (Hr & Ht & Hi & Ha).
    destruct (ret r <? 0) eqn:Hneg.
    + exists (ret r), slot, w1, [Lib NextItem r].
      repeat split; auto. { repeat constructor. }
      left. apply Z.ltb_lt in Hneg. split; auto.
      intros Hok. specialize (Hok (calls (trace w)) NextItem).
      simpl in Hok. rewrite <- Hr in Hok. lia.
    + exists 1, slot, w1, [Lib NextItem r].
      repeat split; auto. { repeat constructor. }
  - destruct (call E NextItem w) as [r w1] eqn:Hc.
    apply call_inv in Hc. destruct Hc as (Hr & Ht & Hi & Ha).
    destruct (ret r <? 0) eqn:Hneg.
    + exists (ret r), slot, w1, [Lib NextItem r].
      repeat split; auto. { repeat constructor. }
      left. apply Z.ltb_lt in Hneg. split; auto.
      intros Hok. specialize (Hok (calls (trace w)) NextItem).
      simpl in Hok. rewrite <- Hr in Hok. lia.
    + destruct (type (key it) =? BTRFS_BLOCK_GROUP_ITEM_KEY) eqn:Hbg.
      * exists 0, (S slot), w1, [Lib NextItem r].
        repeat split; auto. { repeat constructor. }
        right; right. split; auto.
        exists [], it, rest. repeat split; auto. simpl. lia.
      * destruct (IH (S slot) w1)
          as (r' & slot' & w' & evs & Hn & Hi' & Ha' & Ht' & Hev & Hrc & Hrg
              & Hcases).
        exists r', slot', w', (Lib NextItem r :: evs).
        split; [exact Hn|]. split; [congruence|]. split; [congruence|].
        split; [rewrite Ht', Ht, <- app_assoc; reflexivity|].
        split; [constructor; simpl; auto|].
        split; [exact Hrc|]. split; [exact Hrg|].
        destruct Hcases as [Hc1 | [[Hc2 Hall] | [Hc3 Hex]]].
        { left; exact Hc1. }
        { right; left. split; auto. }
        { right; right. split; auto.
          destruct Hex as (mid & b & rest' & -> & Hmid & Hb & Hs).
          exists (it :: mid), b, rest'. repeat split; auto.
          simpl. lia. }
Qed.

(** *** Lists in key order *)

Lemma key_ltb_below (a b c : btrfs_key) :
  key_ltb a c = true -> key_ltb b c = false -> key_ltb a b = true.
Proof. intros H1 H2. key_arith. Qed.

Lemma StronglySorted_app_inv (A : Type) (R : A -> A -> Prop)
  (l1 l2 : list A) :
  StronglySorted R (l1 ++ l2) ->
  StronglySorted R l1 /\ StronglySorted R l2 /\
  Forall (fun a => Forall (R a) l2) l1.
Proof.
  induction l1 as [|a l1 IH]; simpl; intros H.
  - repeat split; auto; constructor.
  - apply StronglySorted_inv in H. destruct H as [Hs Ha].
    destruct (IH Hs) as (H1 & H2 & H3).
    apply Forall_app in Ha. destruct Ha as [Ha1 Ha2].
    repeat split; auto; constructor; auto.
Qed.

Section Sweep.

Variables data_profile meta_profile sys_profile : Z.

Let temp : item -> bool := temporary data_profile meta_profile sys_profile.
Let keep : item -> bool := fun it => negb (temp it).

Lemma keep_other (l : list item) :
  Forall (fun it => is_block_group it = false) l -> filter keep l = l.
Proof.
  induction 1 as [|it l Hit _ IH]; simpl; [reflexivity|].
  unfold keep, temp, temporary at 1. rewrite Hit. simpl. now f_equal.
Qed.

Lemma temp_other (l : list item) :
  Forall (fun it => is_block_group it = false) l -> filter temp l = [].
Proof.
  induction 1 as [|it l Hit _ IH]; simpl; [reflexivity|].
  unfold temp, temporary at 1. rewrite Hit. simpl. exact IH.
Qed.

Lemma cleanup_loop_eq (fuel : nat) (k : Z) (w : world) :
  cleanup_loop E (S fuel) data_profile meta_profile sys_profile k w
  = let (r, w) := call E (SearchSlot (bg_key k)) w in
    if ret r <? 0 then Some (ret r, w)
    else
      let slot := search_slot (items w) (bg_key k) in
      let found_key := key (item_at (items w) slot) in
      if objectid found_key <? k then Some (0, w)
      else
        let '(r, slot, w) :=
          if negb (type found_key =? BTRFS_BLOCK_GROUP_ITEM_KEY)
          then next_block_group E slot w
          else (0, slot, w) in
        if r <? 0 then Some (r, w)
        else if r >? 0 then Some (0, w)
        else
          let found_key := key (item_at (items w) slot) in
          let bgi := bgi (item_at (items w) slot) in
          let next (w : world) :=
            cleanup_loop E fuel data_profile meta_profile sys_profile
              (u64_add (objectid found_key) (offset found_key)) w in
          if is_temp_block_group bgi data_profile meta_profile sys_profile
          then
            let flags := flags bgi in
            let (r, w) :=
              call E (RemoveBlockGroup (objectid found_key)
                        (offset found_key)) w in
            if ret r <? 0 then Some (ret r, w)
            else
              let w :=
                set_items (delete_block_group (items w)
                             (objectid found_key) (offset found_key)) w in
              next (set_allocation
                      (unaccount_chunk flags (offset found_key)
                         (allocation w)) w)
          else next w.
Proof. reflexivity. Qed.

(** From the slot found by the search to the block group the iteration
    works on. *)
Lemma locate_spec (before : list item) (f : item) (rest2 : list item)
  (w1 : world) :
  items w1 = before ++ f :: rest2 ->
  exists r slot' w2 evs,
    (if negb (type (key f) =? BTRFS_BLOCK_GROUP_ITEM_KEY)
     then next_block_group E (List.length before) w1
     else (0, List.length before, w1)) = (r, slot', w2) /\
    items w2 = items w1 /\ allocation w2 = allocation w1 /\
    trace w2 = trace w1 ++ evs /\
    Forall loop_event evs /\ removal_calls evs = [] /\
    removed_groups evs = [] /\
    ((r < 0 /\ ~ tree_ops_succeed E) \/
     (r = 1 /\ Forall (fun it => is_block_group it = false) (f :: rest2)) \/
     (r = 0 /\ exists mid b rest3,
         f :: rest2 = mid ++ b :: rest3 /\
         Forall (fun it => is_block_group it = false) mid /\
         is_block_group b = true /\
         slot' = (List.length before + List.length mid)%nat)).
Proof.
  intros Hitems.
  destruct (type (key f) =? BTRFS_BLOCK_GROUP_ITEM_KEY) eqn:Hbg; simpl.
  - exists 0, (List.length before), w1, [].
    split; [reflexivity|]. split; [reflexivity|]. split; [reflexivity|].
    split; [now rewrite app_nil_r|]. split; [constructor|].
    split; [reflexivity|]. split; [reflexivity|].
    right; right. split; [reflexivity|].
    exists [], f, rest2. repeat split; auto.
  - unfold next_block_group.
    replace (skipn (S (List.length before)) (items w1)) with rest2.
    2:{ rewrite Hitems.
        replace (S (List.length before))
          with (List.length before + 1)%nat by lia.
        now rewrite skipn_app_exact. }
    destruct (next_block_group_from_spec rest2 (List.length before) w1)
      as (r & slot' & w2 & evs & Hn & Hi & Ha & Ht & Hev & Hrc & Hrg & Hc).
    exists r, slot', w2, evs.
    split; [exact Hn|]. split; [exact Hi|]. split; [exact Ha|].
    split; [exact Ht|]. split; [exact Hev|]. split; [exact Hrc|].
    split; [exact Hrg|].
    destruct Hc as [Hc | [[Hc Hall] | [Hc Hex]]].
    + left; exact Hc.
    + right; left. split; [exact Hc|]. constructor; auto.
    + right; right. split; [exact Hc|].
      destruct Hex as (mid & b & rest3 & -> & Hmid & Hb & Hs).
      exists (f :: mid), b, rest3. repeat split; auto.
      simpl. lia.
Qed.

Lemma u64_add_small (a b : Z) :
  0 <= a + b < u64_modulus -> u64_add a b = a + b.
Proof. intros H. unfold u64_add. now apply Z.mod_small. Qed.

Lemma skipped_are_other (k : Z) (l : list item) :
  Forall group_ok l ->
  Forall (fun it => is_block_group it = true -> k <= objectid (key it)) l ->
  Forall (fun it => key_ltb (key it) (bg_key k) = true) l ->
  Forall (fun it => is_block_group it = false) l.
Proof.
  intros Hok Hge Hlt. rewrite Forall_forall in *.
  intros it Hin. destruct (is_block_group it) eqn:Hbg; [|reflexivity].
  specialize (Hok it Hin Hbg). specialize (Hge it Hin Hbg).
  specialize (Hlt it Hin).
  rewrite group_not_under_bg_key in Hlt by (auto; lia). discriminate.
Qed.

(** The loop, started at [k] on a leaf [done ++ rest] whose part [done] lies
    below the search key: it works through a prefix [pre] of [rest], deletes
    the temporary groups of [pre] and stops in front of [post]. *)
Lemma cleanup_loop_spec (Hkey : BTRFS_BLOCK_GROUP_ITEM_KEY <> 0) :
  forall (fuel : nat) (done rest : list item) (k : Z) (w : world),
    items w = done ++ rest ->
    Forall (fun it => key_ltb (key it) (bg_key k) = true) done ->
    StronglySorted precedes rest ->
    Forall group_ok rest ->
    Forall (fun it => is_block_group it = true -> k <= objectid (key it))
      rest ->
    (List.length rest < fuel)%nat ->
    exists r w' pre post evs,
      cleanup_loop E fuel data_profile meta_profile sys_profile k w
      = Some (r, w') /\
      rest = pre ++ post /\
      items w' = done ++ filter keep pre ++ post /\
      allocation w' = unaccount_all (filter temp pre) (allocation w) /\
      trace w' = trace w ++ evs /\
      Forall loop_event evs /\
      removed_groups evs = map range (filter temp pre) /\
      StronglySorted Z.lt (map fst (removal_calls evs)) /\
      Forall (fun x => k <= fst x) (removal_calls evs) /\
      (tree_ops_succeed E ->
       Forall (fun it => is_block_group it = false) post).
Proof.
  induction fuel as [|fuel IH]; intros done rest k w Hitems Hdone Hsort Hok
    Hge Hfuel; [lia|].
  rewrite cleanup_loop_eq.
  destruct (call E (SearchSlot (bg_key k)) w) as [r w1] eqn:Hc.
  apply call_inv in Hc. destruct Hc as (Hr & Ht1 & Hi1 & Ha1).
  destruct (ret r <? 0) eqn:Hneg.
  { (* the search fails *)
    exists (ret r), w1, [], rest, [Lib (SearchSlot (bg_key k)) r].
    split; [reflexivity|]. split; [reflexivity|].
    split; [simpl; congruence|]. split; [simpl; congruence|].
    split; [exact Ht1|]. split; [repeat constructor|].
    split; [reflexivity|]. split; [constructor|]. split; [constructor|].
    intros Hsucc. specialize (Hsucc (calls (trace w)) (SearchSlot (bg_key k))).
    simpl in Hsucc. rewrite <- Hr in Hsucc. apply Z.ltb_lt in Hneg. lia. }
  destruct (search_slot_split rest (bg_key k))
    as (skipped & rest1 & Hrest & Hs & Hskip & Hhd).
  assert (Hslot : search_slot (items w1) (bg_key k)
                  = (List.length (done ++ skipped) + 0)%nat).
  { rewrite Hi1, Hitems, search_slot_app by exact Hdone.
    rewrite Hs, length_app. lia. }
  assert (Hitems1 : items w1 = (done ++ skipped) ++ rest1).
  { rewrite Hi1, Hitems, Hrest. now rewrite app_assoc. }
  assert (Hskipped : Forall (fun it => is_block_group it = false) skipped).
  { subst rest. apply Forall_app in Hok. apply Forall_app in Hge.
    apply (skipped_are_other k); tauto. }
  assert (Hfound : item_at (items w1) (List.length (done ++ skipped) + 0)
                   = item_at rest1 0).
  { rewrite Hitems1. apply item_at_app. }
  cbv zeta.
  rewrite Hslot, Hfound.
  set (ev1 := Lib (SearchSlot (bg_key k)) r) in *.
  (* the exits that leave [rest] untouched *)
  assert (Hleave : forall (r' : Z) (w2 : world) (evs : list event),
    items w2 = items w1 -> allocation w2 = allocation w1 ->
    trace w2 = trace w1 ++ evs -> Forall loop_event evs ->
    removal_calls evs = [] -> removed_groups evs = [] ->
    (tree_ops_succeed E -> Forall (fun it => is_block_group it = false) rest1)
    ->
    exists r0 w' pre post evs0,
      Some (r', w2) = Some (r0, w') /\
      rest = pre ++ post /\
      items w' = done ++ filter keep pre ++ post /\
      allocation w' = unaccount_all (filter temp pre) (allocation w) /\
      trace w' = trace w ++ evs0 /\
      Forall loop_event evs0 /\
      removed_groups evs0 = map range (filter temp pre) /\
      StronglySorted Z.lt (map fst (removal_calls evs0)) /\
      Forall (fun x => k <= fst x) (removal_calls evs0) /\
      (tree_ops_succeed E ->
       Forall (fun it => is_block_group it = false) post)).
  { intros r' w2 evs Hi2 Ha2 Ht2 Hev2 Hrc2 Hrg2 Hpost.
    exists r', w2, skipped, rest1, (ev1 :: evs).
    split; [reflexivity|]. split; [exact Hrest|].
    split; [rewrite Hi2, Hitems1, keep_other by exact Hskipped;
            now rewrite app_assoc|].
    split; [rewrite temp_other by exact Hskipped; simpl; congruence|].
    split; [rewrite Ht2, Ht1, <- app_assoc; reflexivity|].
    split; [constructor; [exact I | exact Hev2]|].
    split; [rewrite temp_other by exact Hskipped; simpl; exact Hrg2|].
    split; [simpl; rewrite Hrc2; constructor|].
    split; [simpl; rewrite Hrc2; constructor|].
    exact Hpost. }
  destruct rest1 as [|f rest2].
  { (* the search runs past the last item *)
    change (item_at (@nil item) 0) with zero_item.
    change (objectid (key zero_item)) with 0.
    change (type (key zero_item)) with 0.
    destruct (0 <? k) eqn:Hk.
    - apply (Hleave 0 w1 []);
        solve [auto | now rewrite app_nil_r | constructor].
    - replace (0 =? BTRFS_BLOCK_GROUP_ITEM_KEY) with false
        by (symmetry; apply Z.eqb_neq; congruence).
      simpl negb. cbv iota.
      unfold next_block_group.
      replace (skipn (S (List.length (done ++ skipped) + 0)) (items w1))
        with (@nil item).
      2:{ symmetry. apply skipn_all2. rewrite Hitems1, app_nil_r. lia. }
      destruct (next_block_group_from_spec []
                  (List.length (done ++ skipped) + 0) w1)
        as (r' & slot' & w2 & evs & Hn & Hi2 & Ha2 & Ht2 & Hev & Hrc & Hrg
            & Hcase).
      rewrite Hn.
      destruct Hcase as [[Hc Hfail] | [[Hc _] | [_ Hex]]].
      + replace (r' <? 0) with true by (symmetry; apply Z.ltb_lt; lia).
        apply (Hleave r' w2 evs); auto.
      + subst r'. change (1 <? 0) with false. change (1 >? 0) with true.
        cbv beta iota.
        apply (Hleave 0 w2 evs); auto.
      + destruct Hex as (mid & b & rest3 & Habs & _).
        destruct mid; discriminate. }
  (* the search stops at [f] *)
  change (item_at (f :: rest2) 0) with f.
  replace (objectid (key f) <? k) with false.
  2:{ symmetry. apply Z.ltb_ge. now apply not_under_bg_key_objectid. }
  rewrite Nat.add_0_r.
  destruct (locate_spec (done ++ skipped) f rest2 w1 Hitems1)
    as (r2 & slot2 & w2 & evs2 & Hloc & Hi2 & Ha2 & Ht2 & Hev2 & Hrc2 & Hrg2
        & Hcase).
  rewrite Hloc.
  destruct Hcase as [[Hc Hfail] | [[Hc Hall] | [Hc Hex]]].
  { replace (r2 <? 0) with true by (symmetry; apply Z.ltb_lt; lia).
    apply (Hleave r2 w2 evs2); auto. intros Hs'. contradiction. }
  { subst r2. change (1 <? 0) with false. change (1 >? 0) with true.
    cbv beta iota. apply (Hleave 0 w2 evs2); auto. }
  subst r2. change (0 <? 0) with false. change (0 >? 0) with false.
  cbv beta iota.
  destruct Hex as (mid & b & rest3 & Hsplit & Hmid & Hb & ->).
  clear Hleave Hfound. rewrite Hsplit in Hitems1, Hrest.
  assert (Hitems2 : items w2 = (done ++ skipped ++ mid) ++ b :: rest3).
  { rewrite Hi2, Hitems1. now rewrite <- !app_assoc. }
  assert (Hat : item_at (items w2) (List.length (done ++ skipped)
                                    + List.length mid) = b).
  { rewrite Hitems2.
    replace (List.length (done ++ skipped) + List.length mid)%nat
      with (List.length (done ++ skipped ++ mid) + 0)%nat
      by (rewrite !length_app; lia).
    now rewrite item_at_app. }
  rewrite Hat.
  (* what is known of [b] and of the items around it *)
  subst rest.
  apply StronglySorted_app_inv in Hsort.
  destruct Hsort as (_ & Hsort1 & _).
  apply StronglySorted_app_inv in Hsort1.
  destruct Hsort1 as (_ & Hsort2 & Hmid_b).
  apply StronglySorted_inv in Hsort2. destruct Hsort2 as [Hsort3 Hb_rest].
  apply Forall_app in Hok. destruct Hok as [_ Hok1].
  apply Forall_app in Hok1. destruct Hok1 as [_ Hok2].
  apply Forall_cons_iff in Hok2. destruct Hok2 as [Hokb Hok3].
  apply Forall_app in Hge. destruct Hge as [_ Hge1].
  apply Forall_app in Hge1. destruct Hge1 as [_ Hge2].
  apply Forall_cons_iff in Hge2. destruct Hge2 as [Hgeb _].
  specialize (Hokb Hb). specialize (Hgeb Hb).
  destruct Hokb as (Hb0 & Hb1 & Hb2).
  assert (Hend : u64_add (objectid (key b)) (offset (key b)) = group_end b).
  { apply u64_add_small. unfold group_end in *. lia. }
  rewrite Hend.
  assert (Hb_below : key_ltb (key b) (bg_key k) = false).
  { apply group_not_under_bg_key; auto; lia. }
  assert (Hmid_below : Forall (fun it => key_ltb (key it) (key b) = true) mid).
  { eapply Forall_impl; [|exact Hmid_b].
    intros a Ha. apply Forall_cons_iff in Ha. destruct Ha as [[Ha _] _].
    exact Ha. }
  assert (Hfront : Forall (fun it => key_ltb (key it) (key b) = true)
                     (done ++ skipped ++ mid)).
  { apply Forall_app; split; [|apply Forall_app; split]; auto.
    - eapply Forall_impl; [|exact Hdone].
      intros a Ha. now apply (key_ltb_below _ _ (bg_key k)).
    - eapply Forall_impl; [|exact Hskip].
      intros a Ha. now apply (key_ltb_below _ _ (bg_key k)). }
  (* the rest of the run, once [b] is dealt with *)
  assert (Hnext : forall (w3 : world) (evs3 : list event),
    items w3 = (done ++ skipped ++ mid) ++ filter keep [b] ++ rest3 ->
    allocation w3 = unaccount_all (filter temp [b]) (allocation w) ->
    trace w3 = trace w2 ++ evs3 -> Forall loop_event evs3 ->
    removal_calls evs3 = map range (filter temp [b]) ->
    removed_groups evs3 = map range (filter temp [b]) ->
    exists r0 w' pre post evs0,
      cleanup_loop E fuel data_profile meta_profile sys_profile
        (group_end b) w3 = Some (r0, w') /\
      skipped ++ mid ++ b :: rest3 = pre ++ post /\
      items w' = done ++ filter keep pre ++ post /\
      allocation w' = unaccount_all (filter temp pre) (allocation w) /\
      trace w' = trace w ++ evs0 /\
      Forall loop_event evs0 /\
      removed_groups evs0 = map range (filter temp pre) /\
      StronglySorted Z.lt (map fst (removal_calls evs0)) /\
      Forall (fun x => k <= fst x) (removal_calls evs0) /\
      (tree_ops_succeed E ->
       Forall (fun it => is_block_group it = false) post)).
  { intros w3 evs3 Hi3 Ha3 Ht3 Hev3 Hrc3 Hrg3.
    destruct (IH ((done ++ skipped ++ mid) ++ filter keep [b]) rest3
                (group_end b) w3)
      as (r0 & w' & pre & post & evs & Hrun & Hpp & Hi' & Ha' & Ht' & Hev'
          & Hrg' & Hso' & Hge' & Hpost').
    - now rewrite <- app_assoc.
    - apply Forall_app; split.
      + eapply Forall_impl; [|exact Hfront].
        intros a Ha. eapply key_ltb_trans; [exact Ha|].
        now apply group_under_its_end.
      + simpl. destruct (keep b); constructor; [|constructor].
        now apply group_under_its_end.
    - exact Hsort3.
    - exact Hok3.
    - rewrite Forall_forall in *. intros c Hin Hc.
      destruct (Hb_rest c Hin) as [_ Hdis]. now apply Hdis.
    - rewrite !length_app in Hfuel. simpl in Hfuel. lia.
    - exists r0, w', (skipped ++ mid ++ b :: pre), post, (ev1 :: evs2 ++ evs3 ++ evs).
      split; [exact Hrun|].
      split; [rewrite Hpp; now rewrite <- !app_assoc|].
      assert (Hk1 : filter keep (skipped ++ mid ++ b :: pre)
                    = skipped ++ mid ++ filter keep [b] ++ filter keep pre).
      { rewrite !filter_app, (keep_other skipped), (keep_other mid) by auto.
        simpl. destruct (keep b); reflexivity. }
      assert (Hk2 : filter temp (skipped ++ mid ++ b :: pre)
                    = filter temp [b] ++ filter temp pre).
      { rewrite !filter_app, (temp_other skipped), (temp_other mid) by auto.
        simpl. destruct (temp b); reflexivity. }
      split; [rewrite Hi', Hk1; now rewrite <- !app_assoc|].
      split; [rewrite Ha', Ha3, Hk2; unfold unaccount_all;
              now rewrite fold_left_app|].
      split; [rewrite Ht', Ht3, Ht2, Ht1; now rewrite <- !app_assoc|].
      split; [constructor; [exact I|];
              repeat (apply Forall_app; split); auto|].
      split; [simpl; rewrite !removed_groups_app, Hrg2, Hrg3, Hrg', Hk2,
                map_app; reflexivity|].
      assert (Hrc : removal_calls (ev1 :: evs2 ++ evs3 ++ evs)
                    = map range (filter temp [b]) ++ removal_calls evs).
      { simpl. now rewrite !removal_calls_app, Hrc2, Hrc3. }
      rewrite Hrc.
      assert (Hlt : Forall (fun x => objectid (key b) < fst x)
                      (removal_calls evs)).
      { eapply Forall_impl; [|exact Hge'].
        intros x Hx. unfold group_end in Hx. simpl in Hx. lia. }
      split.
      { simpl. destruct (temp b); simpl; [|exact Hso'].
        constructor; [exact Hso'|].
        apply Forall_map. exact Hlt. }
      split.
      { apply Forall_app; split.
        - simpl. destruct (temp b); repeat constructor. simpl. lia.
        - eapply Forall_impl; [|exact Hlt]. intros x Hx. simpl in Hx. lia. }
      exact Hpost'. }
  assert (Htemp : is_temp_block_group (bgi b) data_profile meta_profile
                    sys_profile = temp b).
  { unfold temp, temporary. now rewrite Hb. }
  rewrite Htemp.
  destruct (temp b) eqn:Htb.
  - (* [b] is temporary *)
    destruct (call E (RemoveBlockGroup (objectid (key b)) (offset (key b)))
                w2) as [r3 w3] eqn:Hc3.
    apply call_inv in Hc3. destruct Hc3 as (Hr3 & Ht3 & Hi3 & Ha3).
    destruct (ret r3 <? 0) eqn:Hneg3.
    + (* the removal fails *)
      exists (ret r3), w3, (skipped ++ mid), (b :: rest3),
        (ev1 :: evs2 ++ [Lib (RemoveBlockGroup (objectid (key b))
                                (offset (key b))) r3]).
      split; [reflexivity|].
      split; [now rewrite <- app_assoc|].
      assert (Hothers : Forall (fun it => is_block_group it = false)
                          (skipped ++ mid))
        by (apply Forall_app; split; auto).
      split; [rewrite Hi3, Hitems2, keep_other by exact Hothers;
              now rewrite <- !app_assoc|].
      split; [rewrite temp_other by exact Hothers; simpl; congruence|].
      split; [rewrite Ht3, Ht2, Ht1; now rewrite <- !app_assoc|].
      split; [constructor; [exact I|]; apply Forall_app; split; auto;
              repeat constructor|].
      split; [rewrite temp_other by exact Hothers; simpl;
              rewrite removed_groups_app, Hrg2; simpl; now rewrite Hneg3|].
      split; [simpl; rewrite removal_calls_app, Hrc2; simpl;
              repeat constructor|].
      split; [simpl; rewrite removal_calls_app, Hrc2; simpl;
              repeat constructor; simpl; lia|].
      intros Hsucc.
      specialize (Hsucc (calls (trace w2))
                    (RemoveBlockGroup (objectid (key b)) (offset (key b)))).
      simpl in Hsucc. rewrite <- Hr3 in Hsucc. apply Z.ltb_lt in Hneg3. lia.
    + (* the group is deleted *)
      apply (Hnext _ [Lib (RemoveBlockGroup (objectid (key b))
                             (offset (key b))) r3]).
      * simpl. unfold keep. rewrite Htb. simpl.
        rewrite Hi3, Hitems2, delete_block_group_app.
        rewrite delete_block_group_here by auto.
        rewrite delete_block_group_other; [reflexivity|].
        rewrite (group_key b Hb).
        eapply Forall_impl; [|exact Hfront].
        intros a Ha. now apply key_ltb_not_eq in Ha.
      * simpl. rewrite Htb. simpl. rewrite Ha3, Ha2, Ha1. reflexivity.
      * simpl. exact Ht3.
      * repeat constructor.
      * simpl. rewrite Htb. reflexivity.
      * simpl. rewrite Htb, Hneg3. reflexivity.
  - (* [b] stays *)
    apply (Hnext w2 []).
    + simpl. unfold keep. rewrite Htb. simpl. exact Hitems2.
    + simpl. rewrite Htb. simpl. congruence.
    + now rewrite app_nil_r.
    + constructor.
    + simpl. rewrite Htb. reflexivity.
    + simpl. rewrite Htb. reflexivity.
Qed.

(** [cleanup_temp_chunks] on a well-formed leaf: it returns, it has worked
    through a prefix [pre] of the leaf, and it has worked through every
    block group when nothing failed and the commit succeeded. *)
Lemma cleanup_temp_chunks_spec (Hkey : BTRFS_BLOCK_GROUP_ITEM_KEY <> 0)
  (fuel : nat) (do_discard : bool) (w : world) :
  well_formed_tree (items w) ->
  (List.length (items w) < fuel)%nat ->
  exists r w' pre post evs,
    cleanup_temp_chunks E fuel data_profile meta_profile sys_profile
      do_discard w = Some (r, w') /\
    items w = pre ++ post /\
    items w' = filter keep pre ++ post /\
    allocation w' = unaccount_all (filter temp pre) (allocation w) /\
    trace w' = trace w ++ evs /\
    removed_groups evs = map range (filter temp pre) /\
    StronglySorted Z.lt (map fst (removal_calls evs)) /\
    (tree_ops_succeed E -> r = 0 ->
     Forall (fun it => is_block_group it = false) post).
Proof.
  intros [Hsort Hok] Hfuel. unfold cleanup_temp_chunks.
  set (w0 := enter _ w).
  destruct (call E StartTransaction w0) as [t w1] eqn:Hc.
  apply call_inv in Hc. destruct Hc as (Hr & Ht1 & Hi1 & Ha1).
  destruct (ret t =? 0) eqn:Hstart; simpl negb; cbv iota.
  2:{ exists (ret t), w1, [], (items w), [Enter (CleanupTempChunks
        data_profile meta_profile sys_profile do_discard);
        Lib StartTransaction t].
      split; [reflexivity|]. split; [reflexivity|].
      split; [simpl; rewrite Hi1; reflexivity|].
      split; [simpl; rewrite Ha1; reflexivity|].
      split; [rewrite Ht1; unfold w0, enter, record; simpl;
              now rewrite <- app_assoc|].
      split; [reflexivity|]. split; [constructor|].
      intros _ H0. apply Z.eqb_neq in Hstart. contradiction. }
  destruct (cleanup_loop_spec Hkey fuel [] (items w) 0 w1)
    as (r & w2 & pre & post & evs & Hrun & Hpp & Hi2 & Ha2 & Ht2 & Hev & Hrg
        & Hso & Hge & Hpost).
  - rewrite Hi1. reflexivity.
  - constructor.
  - exact Hsort.
  - exact Hok.
  - rewrite Forall_forall in *. intros it Hin Hbg.
    destruct (Hok it Hin Hbg) as (H0 & _). exact H0.
  - exact Hfuel.
  - rewrite Hrun.
    destruct (call E CommitTransaction w2) as [c w3] eqn:Hc3.
    apply call_inv in Hc3. destruct Hc3 as (Hr3 & Ht3 & Hi3 & Ha3).
    exists (ret c), w3, pre, post,
      (Enter (CleanupTempChunks data_profile meta_profile sys_profile
                do_discard)
       :: Lib StartTransaction t :: evs ++ [Lib CommitTransaction c]).
    split; [reflexivity|]. split; [exact Hpp|].
    split; [rewrite Hi3, Hi2; reflexivity|].
    split; [rewrite Ha3, Ha2, Ha1; reflexivity|].
    split; [rewrite Ht3, Ht2, Ht1; unfold w0, enter, record; simpl;
            rewrite <- !app_assoc; reflexivity|].
    split; [simpl; rewrite removed_groups_app, Hrg; simpl;
            now rewrite app_nil_r|].
    split; [simpl; rewrite removal_calls_app; simpl;
            now rewrite app_nil_r|].
    intros Hsucc _. now apply Hpost.
Qed.

End Sweep.

End CleanerFacts.

(** ** Two runs that differ in the stage events only *)

Lemma calls_app (h1 h2 : history) : calls (h1 ++ h2) = calls h1 ++ calls h2.
Proof.
  induction h1 as [|e h1 IH]; simpl; [reflexivity|].
  destruct e; simpl; now rewrite ?IH.
Qed.

Section TwoRuns.

Context {K : btrfs_uapi}.
Variable E : environment.

#[local] Arguments call : simpl never.

Lemma call_same_view (c : lib_call) (w1 w2 : world) :
  same_view w1 w2 ->
  fst (call E c w1) = fst (call E c w2) /\
  same_view (snd (call E c w1)) (snd (call E c w2)).
Proof.
  intros (Hc & Ha & Hi). unfold call, same_view; simpl.
  rewrite !calls_app, Hc. simpl. auto.
Qed.

Lemma next_block_group_from_same_view (rest : list item) :
  forall (slot : nat) (w1 w2 : world),
    same_view w1 w2 ->
    fst (next_block_group_from E rest slot w1)
    = fst (next_block_group_from E rest slot w2) /\
    same_view (snd (next_block_group_from E rest slot w1))
              (snd (next_block_group_from E rest slot w2)).
Proof.
  induction rest as [|it rest IH]; intros slot w1 w2 Hv;
    rewrite !next_block_group_from_eq;
    destruct (call_same_view NextItem w1 w2 Hv) as [Hr Hv'];
    destruct (call E NextItem w1) as [r1 w1'];
    destruct (call E NextItem w2) as [r2 w2'];
    simpl in Hr, Hv'; subst r2;
    destruct (ret r1 <? 0); simpl; auto.
  destruct (type (key it) =? BTRFS_BLOCK_GROUP_ITEM_KEY); simpl; auto.
Qed.

Lemma cleanup_loop_same_view (dp mp sp : Z) (fuel : nat) :
  forall (k : Z) (w1 w2 : world),
    same_view w1 w2 ->
    same_outcome (cleanup_loop E fuel dp mp sp k w1)
                 (cleanup_loop E fuel dp mp sp k w2).
Proof.
  induction fuel as [|fuel IH]; intros k w1 w2 Hv; [exact I|].
  rewrite !cleanup_loop_eq.
  destruct (call_same_view (SearchSlot (bg_key k)) w1 w2 Hv) as [Hr Hv1].
  destruct (call E (SearchSlot (bg_key k)) w1) as [r1 w1'].
  destruct (call E (SearchSlot (bg_key k)) w2) as [r2 w2'].
  simpl in Hr, Hv1. subst r2.
  destruct (ret r1 <? 0); [split; auto|].
  cbv zeta.
  destruct Hv1 as (Hc1 & Ha1 & Hi1). rewrite <- Hi1.
  destruct (objectid (key (item_at (items w1')
              (search_slot (items w1') (bg_key k)))) <? k);
    [split; [reflexivity|split; auto]|].
  assert (Hloc : exists r s u1 u2,
    (if negb (type (key (item_at (items w1')
                (search_slot (items w1') (bg_key k))))
              =? BTRFS_BLOCK_GROUP_ITEM_KEY)
     then next_block_group E (search_slot (items w1') (bg_key k)) w1'
     else (0, search_slot (items w1') (bg_key k), w1')) = (r, s, u1) /\
    (if negb (type (key (item_at (items w1')
                (search_slot (items w1') (bg_key k))))
              =? BTRFS_BLOCK_GROUP_ITEM_KEY)
     then next_block_group E (search_slot (items w1') (bg_key k)) w2'
     else (0, search_slot (items w1') (bg_key k), w2')) = (r, s, u2) /\
    same_view u1 u2).
  { destruct (negb _).
    - unfold next_block_group. rewrite <- Hi1.
      destruct (next_block_group_from_same_view
                  (skipn (S (search_slot (items w1') (bg_key k))) (items w1'))
                  (search_slot (items w1') (bg_key k)) w1' w2')
        as [Hf Hs]; [split; auto|].
      destruct (next_block_group_from E _ _ w1') as [[r s] u1].
      destruct (next_block_group_from E _ _ w2') as [[r' s'] u2].
      simpl in Hf, Hs. inversion Hf; subst.
      exists r', s', u1, u2. auto.
    - exists 0, (search_slot (items w1') (bg_key k)), w1', w2'.
      repeat split; auto. }
  destruct Hloc as (r & s & u1 & u2 & -> & -> & Hu).
  destruct (r <? 0); [split; auto|].
  destruct (r >? 0); [split; auto|].
  pose proof Hu as (Hcu & Hau & Hiu). rewrite <- Hiu.
  destruct (is_temp_block_group _ dp mp sp); [|now apply IH].
  match goal with
  | |- context [call E ?c u1] =>
      destruct (call_same_view c u1 u2 Hu) as [Hr3 Hv3];
      destruct (call E c u1) as [r3 u1'];
      destruct (call E c u2) as [r3' u2']
  end.
  simpl in Hr3, Hv3. subst r3'.
  destruct (ret r3 <? 0); [split; auto|].
  apply IH. destruct Hv3 as (Hc3 & Ha3 & Hi3).
  unfold same_view, set_allocation, set_items; simpl.
  rewrite Ha3, Hi3. auto.
Qed.

End TwoRuns.

(** ** Traces of the stages *)

Lemma extends_refl (P : event -> Prop) (h : history) : extends P h h.
Proof. exists []. split; [now rewrite app_nil_r | constructor]. Qed.

Lemma extends_trans (P : event -> Prop) (h1 h2 h3 : history) :
  extends P h1 h2 -> extends P h2 h3 -> extends P h1 h3.
Proof.
  intros (e1 & -> & H1) (e2 & -> & H2). exists (e1 ++ e2).
  split; [now rewrite app_assoc | now apply Forall_app].
Qed.

Lemma extends_step (P : event -> Prop) (h h' : history) (e : event) :
  extends P h h' -> P e -> extends P h (h' ++ [e]).
Proof.
  intros H He. eapply extends_trans; [exact H|].
  exists [e]. split; [reflexivity | now constructor].
Qed.

Lemma extends_impl (P Q : event -> Prop) (h h' : history) :
  (forall e, P e -> Q e) -> extends P h h' -> extends Q h h'.
Proof.
  intros HPQ (evs & -> & H). exists evs. split; [reflexivity|].
  eapply Forall_impl; eauto.
Qed.

Lemma call_trace (E : environment) (c : lib_call) (w : world) (r : response)
  (w' : world) :
  call E c w = (r, w') -> trace w' = trace w ++ [Lib c r].
Proof. unfold call; intros H; inversion H; reflexivity. Qed.

(** Symbolic execution of a straight-line stage: every call is named, every
    test is split, and the trace equations are chained. *)
Ltac run_stage :=
  repeat match goal with
         | |- context [call ?E ?c ?w] =>
             let r := fresh "r" in
             let w' := fresh "w" in
             let Hc := fresh "Hc" in
             destruct (call E c w) as [r w'] eqn:Hc;
             apply call_trace in Hc; simpl in Hc
         | |- context [if ?b then _ else _] => destruct b
         | |- context [match ?o with Some _ => _ | None => _ end] =>
             destruct o
         end.

Lemma extends_app (P : event -> Prop) (h h' : history) (evs : list event) :
  extends P h h' -> Forall P evs -> extends P h (h' ++ evs).
Proof.
  intros H He. eapply extends_trans; [exact H|].
  exists evs. split; [reflexivity | assumption].
Qed.

Ltac chain_trace :=
  simpl;
  repeat match goal with
         | H : trace ?w = _ |- context [trace ?w] => rewrite H
         end;
  repeat first [ apply extends_step; [| solve [simpl; auto 6]]
               | apply extends_app; [| solve [auto] ] ];
  try apply extends_refl.

(** A stage whose trace is described by the lemma [L] is named, and the
    events it adds are introduced. *)
Ltac sub_stage t L :=
  let X := fresh "X" in
  let r := fresh "r" in
  let w' := fresh "w" in
  pose proof L as X;
  destruct t as [r w'];
  simpl in X;
  let evs := fresh "evs" in
  let Heq := fresh "Heq" in
  let Hall := fresh "Hall" in
  destruct X as (evs & Heq & Hall).

Section StageTraces.

Context {K : btrfs_uapi}.
Variable E : environment.

#[local] Arguments call : simpl never.

Lemma create_one_raid_group_trace (ty : Z) (w : world) :
  extends tree_lib_event (trace w)
    (trace (snd (create_one_raid_group E ty w))).
Proof. unfold create_one_raid_group. run_stage; chain_trace. Qed.

Lemma tree_lib_event_tree_event (inc dp mp : Z) (mixed dd : bool)
  (evs : list event) :
  Forall tree_lib_event evs -> Forall (tree_event inc dp mp mixed dd) evs.
Proof.
  apply Forall_impl. intros [c r|s|i p]; simpl; tauto.
Qed.

Lemma create_raid_groups_trace (inc dp mp : Z) (mixed dd : bool)
  (w : world) :
  extends (tree_event inc dp mp mixed dd) (trace w)
    (trace (snd (create_raid_groups E dp mp mixed w))).
Proof.
  assert (Hone : forall ty w,
             extends (tree_event inc dp mp mixed dd) (trace w)
               (trace (snd (create_one_raid_group E ty w)))).
  { intros ty w0. destruct (create_one_raid_group_trace ty w0)
      as (evs & Heq & Hall).
    exists evs. split; [exact Heq|].
    now apply tree_lib_event_tree_event. }
  unfold create_raid_groups.
  repeat match goal with
         | |- context [create_one_raid_group E ?ty ?w] =>
             sub_stage (create_one_raid_group E ty w) (Hone ty w)
         | |- context [if ?b then _ else _] => destruct b eqn:?
         end; chain_trace.
Qed.

Lemma create_metadata_block_groups_trace (inc dp mp : Z) (mixed dd : bool)
  (w : world) :
  extends (tree_event inc dp mp mixed dd) (trace w)
    (trace (snd (create_metadata_block_groups E inc mp w))).
Proof. unfold create_metadata_block_groups. run_stage; chain_trace. Qed.

Lemma create_data_block_groups_trace (inc dp mp : Z) (mixed dd : bool)
  (w : world) :
  extends (tree_event inc dp mp mixed dd) (trace w)
    (trace (snd (create_data_block_groups E mixed w))).
Proof. unfold create_data_block_groups. run_stage; chain_trace. Qed.

Lemma setup_tree_root_trace (objectid : Z) (w : world) :
  extends tree_lib_event (trace w)
    (trace (snd (setup_tree_root E objectid w))).
Proof. unfold setup_tree_root. run_stage; chain_trace. Qed.

Lemma attach_devices_trace (sectorsize : Z)
  (ctx : list prepare_device_progress) :
  forall w : world,
    extends tree_lib_event (trace w)
      (trace (snd (attach_devices E ctx sectorsize w))).
Proof.
  induction ctx as [|p ctx IH]; intros w; simpl.
  - apply extends_refl.
  - run_stage;
      try (eapply extends_trans; [| apply IH]); chain_trace.
Qed.

Lemma next_block_group_from_trace (rest : list item) :
  forall (slot : nat) (w : world),
    extends loop_event (trace w)
      (trace (snd (next_block_group_from E rest slot w))).
Proof.
  induction rest as [|it rest IH]; intros slot w;
    rewrite next_block_group_from_eq;
    run_stage; try (eapply extends_trans; [| apply IH]); chain_trace.
Qed.

Lemma cleanup_loop_trace (dp mp sp : Z) (fuel : nat) :
  forall (k : Z) (w : world) (r : Z) (w' : world),
    cleanup_loop E fuel dp mp sp k w = Some (r, w') ->
    extends loop_event (trace w) (trace w').
Proof.
  induction fuel as [|fuel IH]; intros k w r w'; [discriminate|].
  rewrite cleanup_loop_eq.
  destruct (call E (SearchSlot (bg_key k)) w) as [r1 w1] eqn:Hc1.
  apply call_trace in Hc1.
  assert (H1 : extends loop_event (trace w) (trace w1))
    by (rewrite Hc1; chain_trace).
  destruct (ret r1 <? 0); [intros H; inversion H; subst; exact H1|].
  cbv zeta.
  destruct (objectid _ <? k); [intros H; inversion H; subst; exact H1|].
  match goal with
  | |- context [if negb ?b then ?x else ?y] =>
      assert (H2 : extends loop_event (trace w)
                     (trace (snd (if negb b then x else y))));
      [ destruct (negb b); simpl; [|exact H1];
        eapply extends_trans; [exact H1|];
        apply next_block_group_from_trace
      | destruct (if negb b then x else y) as [[r2 s2] w2] ]
  end.
  simpl in H2.
  destruct (r2 <? 0); [intros H; inversion H; subst; exact H2|].
  destruct (r2 >? 0); [intros H; inversion H; subst; exact H2|].
  destruct (is_temp_block_group _ dp mp sp).
  - match goal with
    | |- context [call E ?c w2] =>
        destruct (call E c w2) as [r3 w3] eqn:Hc3
    end.
    apply call_trace in Hc3.
    assert (H3 : extends loop_event (trace w) (trace w3))
      by (rewrite Hc3; apply extends_step; [exact H2 | exact I]).
    destruct (ret r3 <? 0); [intros H; inversion H; subst; exact H3|].
    intros H. apply IH in H. simpl in H.
    eapply extends_trans; eauto.
  - intros H. apply IH in H. eapply extends_trans; eauto.
Qed.

Lemma loop_event_tree_lib_event (evs : list event) :
  Forall loop_event evs -> Forall tree_lib_event evs.
Proof.
  apply Forall_impl. intros [c r|s|i p]; simpl; try tauto.
  destruct c; simpl; auto; tauto.
Qed.

Lemma cleanup_temp_chunks_trace (inc dp mp : Z) (mixed dd : bool)
  (fuel : nat) (w : world) (r : Z) (w' : world) :
  cleanup_temp_chunks E fuel dp mp mp dd w = Some (r, w') ->
  extends (tree_event inc dp mp mixed dd) (trace w) (trace w').
Proof.
  unfold cleanup_temp_chunks.
  destruct (call E StartTransaction _) as [r1 w1] eqn:Hc1.
  apply call_trace in Hc1. simpl in Hc1.
  destruct (negb _).
  - intros H; inversion H; subst. rewrite Hc1. chain_trace.
  - destruct (cleanup_loop E fuel dp mp mp 0 w1) as [[r2 w2]|] eqn:Hl;
      [|discriminate].
    apply cleanup_loop_trace in Hl. destruct Hl as (evs & Hl & Hall).
    apply loop_event_tree_lib_event in Hall.
    apply (tree_lib_event_tree_event inc dp mp mixed dd) in Hall.
    destruct (call E CommitTransaction w2) as [r3 w3] eqn:Hc3.
    apply call_trace in Hc3.
    intros H; inversion H; subst. rewrite Hc3, Hl, Hc1. chain_trace.
Qed.

End StageTraces.

(** ** The run on the open filesystem *)

Section TreePhase.

Context {K : btrfs_uapi}.
Variable E : environment.

#[local] Arguments call : simpl never.

Lemma and_then_extends (P : event -> Prop) (m k : step) :
  step_extends P m -> step_extends P k -> step_extends P (and_then m k).
Proof.
  intros Hm Hk w r w'. unfold and_then.
  destruct (m w) as [[r1 w1]|] eqn:Hmw; [|discriminate].
  specialize (Hm _ _ _ Hmw).
  destruct (r1 =? 0).
  - intros Hkw. eapply extends_trans; eauto.
  - intros H; inversion H; subst; exact Hm.
Qed.

Lemma total_extends (P : event -> Prop) (f : world -> Z * world) :
  (forall w, extends P (trace w) (trace (snd (f w)))) ->
  step_extends P (total f).
Proof.
  intros Hf w r w'. unfold total. intros H; inversion H.
  specialize (Hf w). now rewrite H1 in Hf.
Qed.

Lemma lib_extends (P : event -> Prop) (c : lib_call) :
  (forall r, P (Lib c r)) -> step_extends P (lib E c).
Proof.
  intros Hc w r w'. unfold lib.
  destruct (call E c w) as [r1 w1] eqn:Hcall. apply call_trace in Hcall.
  intros H; inversion H; subst. rewrite Hcall.
  apply extends_step; [apply extends_refl | apply Hc].
Qed.

Lemma when_extends (P : event -> Prop) (b : bool) (m : step) :
  step_extends P m -> step_extends P (when b m).
Proof.
  intros Hm w r w'. destruct b; simpl; [apply Hm|].
  unfold skip. intros H; inversion H; subst. apply extends_refl.
Qed.

Lemma weaken_tree_lib (inc dp mp : Z) (mixed dd : bool) (h h' : history) :
  extends tree_lib_event h h' -> extends (tree_event inc dp mp mixed dd) h h'.
Proof. apply extends_impl. intros [c r|s|i p]; simpl; tauto. Qed.

Lemma mkfs_trees_trace (fuel : nat) (inc dp mp : Z) (mixed : bool)
  (sectorsize : Z) (dd : bool) (ctx : list prepare_device_progress) :
  step_extends (tree_event inc dp mp mixed dd)
    (mkfs_trees E fuel inc dp mp mixed sectorsize dd ctx).
Proof.
  unfold mkfs_trees.
  repeat first
    [ apply and_then_extends
    | apply when_extends
    | apply lib_extends; intros; reflexivity
    | apply total_extends; intros w;
      first [ apply create_metadata_block_groups_trace
            | apply create_data_block_groups_trace
            | apply create_raid_groups_trace
            | apply weaken_tree_lib; apply setup_tree_root_trace
            | apply weaken_tree_lib; apply attach_devices_trace ] ].
  - intros w r w'.
    destruct (call E Sysconf_NPROCESSORS_ONLN w) as [n w1] eqn:Hc.
    apply call_trace in Hc. intros H.
    apply (lib_extends (tree_event inc dp mp mixed dd)) in H;
      [|intros; reflexivity].
    eapply extends_trans; [|exact H]. rewrite Hc.
    apply extends_step; [apply extends_refl | reflexivity].
  - intros w r w' H.
    apply (cleanup_temp_chunks_trace E inc dp mp mixed dd) in H.
    exact H.
Qed.

(** A stage reached after [m] has run, when the whole returns 0. *)
Lemma and_then_zero (m k : step) (w w' : world) :
  and_then m k w = Some (0, w') ->
  exists w1, m w = Some (0, w1) /\ k w1 = Some (0, w').
Proof.
  unfold and_then. destruct (m w) as [[r1 w1]|]; [|discriminate].
  destruct (r1 =? 0) eqn:Hr.
  - apply Z.eqb_eq in Hr. subst. eauto.
  - intros H; inversion H; subst. discriminate.
Qed.

Lemma attach_devices_zero (sectorsize : Z)
  (ctx : list prepare_device_progress) :
  forall w : world,
    fst (attach_devices E ctx sectorsize w) = 0 ->
    Forall (fun p => prepare_ret p = 0) ctx.
Proof.
  induction ctx as [|p ctx IH]; intros w; simpl; [constructor|].
  destruct (prepare_ret p =? 0) eqn:Hp; simpl.
  2:{ apply Z.eqb_neq in Hp. intros H; contradiction. }
  apply Z.eqb_eq in Hp.
  unfold call; simpl.
  destruct (negb (ret _ =? 0)).
  - intros H. constructor; eauto.
  - match goal with
    | |- context [if negb (?x =? 0) then _ else _] =>
        destruct (x =? 0) eqn:Hr2; simpl
    end.
    + intros H. constructor; eauto.
    + apply Z.eqb_neq in Hr2. intros H; contradiction.
Qed.

Lemma mkfs_trees_zero (fuel : nat) (inc dp mp : Z) (mixed : bool)
  (sectorsize : Z) (dd : bool) (ctx : list prepare_device_progress)
  (w w' : world) :
  mkfs_trees E fuel inc dp mp mixed sectorsize dd ctx w = Some (0, w') ->
  Forall (fun p => prepare_ret p = 0) (tl ctx).
Proof.
  unfold mkfs_trees. intros H.
  do 9 (apply and_then_zero in H; destruct H as (? & _ & H)).
  apply and_then_zero in H. destruct H as (w1 & H & _).
  unfold total in H. inversion H as [H1].
  eapply attach_devices_zero. rewrite H1. reflexivity.
Qed.

End TreePhase.

(** ** Observations *)

Lemma prepared_app (h1 h2 : history) :
  prepared (h1 ++ h2) = prepared h1 ++ prepared h2.
Proof.
  induction h1 as [|e h1 IH]; simpl; [reflexivity|].
  destruct e; simpl; now rewrite ?IH.
Qed.

Lemma opened_app (h1 h2 : history) :
  opened (h1 ++ h2) = opened h1 ++ opened h2.
Proof.
  induction h1 as [|e h1 IH]; simpl; [reflexivity|].
  destruct e as [c r| |]; try apply IH.
  destruct c; simpl; try apply IH.
  destruct (ret r <? 0); simpl; now rewrite IH.
Qed.

Lemma closed_app (h1 h2 : history) :
  closed (h1 ++ h2) = closed h1 ++ closed h2.
Proof.
  induction h1 as [|e h1 IH]; simpl; [reflexivity|].
  destruct e as [c r| |]; try apply IH.
  destruct c; simpl; try apply IH. now rewrite IH.
Qed.

Lemma fds_app (l1 l2 : list prepare_device_progress) :
  fds (l1 ++ l2) = fds l1 ++ fds l2.
Proof. unfold fds. now rewrite filter_app, map_app. Qed.

Lemma fds_cons (p : prepare_device_progress)
  (l : list prepare_device_progress) :
  fds (p :: l) = if 0 <=? fd p then fd p :: fds l else fds l.
Proof. unfold fds; simpl. now destruct (0 <=? fd p). Qed.

Lemma quiet_idle (e : event) : quiet e -> idle e.
Proof. destruct e as [c r| |]; simpl; try tauto. destruct c; tauto. Qed.

Lemma quiet_silent (evs : list event) :
  Forall quiet evs ->
  prepared evs = [] /\ opened evs = [] /\ closed evs = [].
Proof.
  induction 1 as [|e evs He _ IH]; simpl; [auto|].
  destruct e as [c r| |]; simpl in He; try contradiction.
  destruct c; simpl in He; try contradiction; exact IH.
Qed.

Lemma tree_event_silent (inc dp mp : Z) (mixed dd : bool)
  (evs : list event) :
  Forall (tree_event inc dp mp mixed dd) evs ->
  prepared evs = [] /\ opened evs = [] /\ closed evs = [].
Proof.
  induction 1 as [|e evs He _ IH]; simpl; [auto|].
  destruct e as [c r| |]; simpl in He; try contradiction; try exact IH.
  destruct c; simpl in He; try discriminate; exact IH.
Qed.

Lemma idle_no_mutation (e : event) : idle e -> mutation e = false.
Proof. destruct e as [c r| |]; simpl; try tauto. destruct c; tauto. Qed.

Lemma idle_planned (inc dp mp : Z) (mixed dd : bool) (e : event) :
  idle e -> planned_event inc dp mp mixed dd e.
Proof. destruct e as [c r| |]; simpl; try tauto. destruct c; tauto. Qed.

Lemma tree_event_planned (inc dp mp : Z) (mixed dd : bool) (e : event) :
  tree_event inc dp mp mixed dd e -> planned_event inc dp mp mixed dd e.
Proof.
  destruct e as [c r| |]; simpl; try tauto. destruct c; simpl; try tauto.
  discriminate.
Qed.

(** ** Preparation and teardown *)

Section Devices.

Context {K : btrfs_uapi}.
Variable E : environment.

#[local] Arguments call : simpl never.

Lemma test_devices_trace (force : bool) (paths : list string) :
  forall w : world,
    extends quiet (trace w) (trace (snd (test_devices E paths force w))).
Proof.
  induction paths as [|p paths IH]; intros w; simpl.
  - apply extends_refl.
  - run_stage; try (eapply extends_trans; [| apply IH]); chain_trace.
Qed.

Lemma join_workers_trace (n : nat) :
  forall (i : nat) (w : world),
    extends quiet (trace w) (trace (join_workers E n i w)).
Proof.
  induction n as [|n IH]; intros i w; simpl.
  - apply extends_refl.
  - eapply extends_trans; [| apply IH].
    unfold call; simpl. apply extends_step; [apply extends_refl | exact I].
Qed.

Lemma close_devices_spec (ctx : list prepare_device_progress) :
  forall w : world,
  exists evs,
    trace (close_devices E ctx w) = trace w ++ evs /\ closes ctx evs.
Proof.
  induction ctx as [|p ctx IH]; intros w; cbn [close_devices]; unfold closes.
  - exists []. split; [now rewrite app_nil_r|].
    repeat split; constructor.
  - rewrite fds_cons.
    destruct (0 <=? fd p).
    + destruct (call E (Close (fd p)) w) as [c w1] eqn:Hc1.
      apply call_trace in Hc1. cbn [snd].
      destruct (IH w1) as (evs & Heq & Hidle & Hp & Ho & Hc).
      exists (Lib (Close (fd p)) c :: evs).
      split; [rewrite Heq, Hc1; now rewrite <- app_assoc|].
      split; [constructor; [exact I | exact Hidle]|].
      split; [exact Hp|]. split; [exact Ho|]. simpl. now rewrite Hc.
    + destruct (IH w) as (evs & Heq & Hcl). exists evs. auto.
Qed.

Lemma join_and_close_spec (ctx : list prepare_device_progress) :
  forall (j : nat) (w : world),
  exists evs,
    trace (join_and_close E ctx j w) = trace w ++ evs /\ closes ctx evs.
Proof.
  induction ctx as [|p ctx IH]; intros j w; cbn [join_and_close]; unfold closes.
  - exists []. split; [now rewrite app_nil_r|].
    repeat split; constructor.
  - rewrite fds_cons.
    destruct (call E (PthreadJoin j) w) as [c0 w1] eqn:Hc0.
    apply call_trace in Hc0.
    destruct (0 <=? fd p).
    + destruct (call E (Close (fd p)) w1) as [c w2] eqn:Hc1.
      apply call_trace in Hc1. cbn [snd].
      destruct (IH (S j) w2) as (evs & Heq & Hidle & Hp & Ho & Hc).
      exists (Lib (PthreadJoin j) c0 :: Lib (Close (fd p)) c :: evs).
      split; [rewrite Heq, Hc1, Hc0; now rewrite <- !app_assoc|].
      split; [constructor; [exact I|]; constructor; [exact I | exact Hidle]|].
      split; [exact Hp|]. split; [exact Ho|]. simpl. now rewrite Hc.
    + destruct (IH (S j) w1) as (evs & Heq & Hidle & Hp & Ho & Hc).
      exists (Lib (PthreadJoin j) c0 :: evs).
      split; [rewrite Heq, Hc0; now rewrite <- !app_assoc|].
      split; [constructor; [exact I | exact Hidle]|].
      split; [exact Hp|]. split; [exact Ho|]. exact Hc.
Qed.

Lemma prepare_one_device_spec (p : prepare_device_progress) (w : world) :
  exists evs,
    trace (snd (prepare_one_device E p w)) = trace w ++ evs /\
    Forall idle evs /\ prepared evs = [] /\
    opened evs = fds [fst (prepare_one_device E p w)] /\ closed evs = [].
Proof.
  unfold prepare_one_device.
  destruct (call E (Open (file p)) w) as [o w1] eqn:Hc1.
  apply call_trace in Hc1.
  destruct (ret o <? 0) eqn:Hneg; cbn [fst snd].
  - exists [Lib (Open (file p)) o]. split; [exact Hc1|].
    rewrite fds_cons. cbn [fd].
    replace (0 <=? ret o) with false
      by (symmetry; apply Z.leb_gt; now apply Z.ltb_lt).
    simpl. rewrite Hneg. repeat split; repeat constructor.
  - match goal with
    | |- context [call E ?c w1] => destruct (call E c w1) as [r w2] eqn:Hc2
    end.
    apply call_trace in Hc2. cbn [fst snd].
    eexists [Lib (Open (file p)) o; Lib _ r].
    split; [rewrite Hc2, Hc1, <- app_assoc; reflexivity|].
    rewrite fds_cons. cbn [fd].
    replace (0 <=? ret o) with true
      by (symmetry; apply Z.leb_le; now apply Z.ltb_ge).
    simpl. rewrite Hneg. repeat split; repeat constructor.
Qed.

Lemma launch_workers_spec (bc : Z) (dd : bool) (paths : list string) :
  forall (i : nat) (launched : list prepare_device_progress) (w : world),
  exists evs,
    trace (snd (launch_workers E paths i launched bc dd w))
    = trace w ++ evs /\
    Forall idle evs /\
    match fst (launch_workers E paths i launched bc dd w) with
    | inr ctx =>
        exists new,
          ctx = launched ++ new /\
          List.length new = List.length paths /\
          prepared evs = combine (seq i (List.length new)) new /\
          opened evs = fds new /\ closed evs = []
    | inl e =>
        e <> 0 /\
        (List.length (prepared evs) < List.length paths)%nat /\
        exists new,
          opened evs = fds new /\ closed evs = fds (launched ++ new)
    end.
Proof.
  induction paths as [|path paths IH]; intros i launched w.
  - simpl. exists []. split; [now rewrite app_nil_r|].
    split; [constructor|]. exists [].
    rewrite app_nil_r. repeat split; reflexivity.
  - cbn [launch_workers].
    destruct (call E (PthreadCreate i) w) as [c w1] eqn:Hc1.
    apply call_trace in Hc1.
    destruct (ret c =? 0) eqn:Hret; cbn [negb].
    + set (p := {| fd := 0; file := path |}).
      destruct (prepare_one_device_spec p w1)
        as (evs1 & Heq1 & Hidle1 & Hp1 & Ho1 & Hcl1).
      destruct (prepare_one_device E p w1) as [p' w2]. simpl in *.
      destruct (IH (S i) (launched ++ [p']) (record (Prepared i p') w2))
        as (evs2 & Heq2 & Hidle2 & Hcase).
      exists (Lib (PthreadCreate i) c :: evs1 ++ Prepared i p' :: evs2).
      split.
      { rewrite Heq2. simpl. rewrite Heq1, Hc1.
        rewrite <- !app_assoc. reflexivity. }
      split.
      { constructor; [exact I|]. apply Forall_app; split; [exact Hidle1|].
        constructor; [exact I | exact Hidle2]. }
      destruct (fst (launch_workers E paths (S i) (launched ++ [p']) bc dd
                       (record (Prepared i p') w2))) as [e|ctx].
      * destruct Hcase as (He & Hlen & new & Ho & Hc).
        split; [exact He|]. split.
        { simpl. rewrite prepared_app, Hp1. simpl. lia. }
        exists (p' :: new). split.
        { simpl. rewrite opened_app, Ho1. simpl opened. rewrite Ho.
          change (p' :: new) with ([p'] ++ new). now rewrite fds_app. }
        { simpl. rewrite closed_app, Hcl1. simpl. rewrite Hc.
          now rewrite <- app_assoc. }
      * destruct Hcase as (new & Hctx & Hlen & Hp & Ho & Hc).
        exists (p' :: new). split; [rewrite Hctx; now rewrite <- app_assoc|].
        split; [simpl; now rewrite Hlen|]. split.
        { simpl. rewrite prepared_app, Hp1. simpl. now rewrite Hp. }
        split.
        { simpl. rewrite opened_app, Ho1. simpl opened. rewrite Ho.
          change (p' :: new) with ([p'] ++ new). now rewrite fds_app. }
        { simpl. rewrite closed_app, Hcl1. simpl. exact Hc. }
    + destruct (join_and_close_spec launched O w1)
        as (evs & Heq & Hidle & Hp & Ho & Hc).
      exists (Lib (PthreadCreate i) c :: evs). simpl.
      split; [rewrite Heq, Hc1; now rewrite <- app_assoc|].
      split; [constructor; [exact I | exact Hidle]|].
      split; [apply Z.eqb_neq in Hret; lia|].
      split; [rewrite Hp; simpl; lia|].
      exists []. rewrite app_nil_r. split; [exact Ho | exact Hc].
Qed.

End Devices.

(** ** The exits *)

Section Exits.

Context {K : btrfs_uapi}.
Variable E : environment.

#[local] Arguments call : simpl never.

Lemma out_free_spec (r : Z) (u : string) (n : Z) (w : world) :
  exists evs,
    trace (snd (out_free E r u n w)) = trace w ++ evs /\
    Forall quiet evs /\ fst (out_free E r u n w) = result_of r u n.
Proof.
  unfold out_free, result_of.
  destruct (call E CloseAllDevices w) as [c w1] eqn:Hc.
  apply call_trace in Hc.
  exists [Lib CloseAllDevices c].
  destruct (negb (r =? 0)); cbn [fst snd];
    (split; [exact Hc|]; split; [repeat constructor | reflexivity]).
Qed.

Lemma closes_app_quiet (ctx : list prepare_device_progress)
  (l1 l2 : list event) :
  closes ctx l1 -> Forall quiet l2 -> closes ctx (l1 ++ l2).
Proof.
  intros (Hi & Hp & Ho & Hc) Hq.
  destruct (quiet_silent l2 Hq) as (Hp2 & Ho2 & Hc2).
  unfold closes.
  rewrite prepared_app, opened_app, closed_app, Hp, Ho, Hc, Hp2, Ho2, Hc2.
  split; [|repeat split; try reflexivity; apply app_nil_r].
  apply Forall_app; split; [exact Hi|].
  eapply Forall_impl; [|exact Hq]. apply quiet_idle.
Qed.

Lemma out_close_spec (r : Z) (u : string) (n : Z)
  (ctx : list prepare_device_progress) (w : world) :
  exists evs,
    trace (snd (out_close E r u n ctx w)) = trace w ++ evs /\
    closes ctx evs /\ fst (out_close E r u n ctx w) = result_of r u n.
Proof.
  unfold out_close.
  destruct (close_devices_spec E ctx w) as (evs1 & Heq1 & Hcl).
  destruct (out_free_spec r u n (close_devices E ctx w))
    as (evs2 & Heq2 & Hq & Hres).
  exists (evs1 ++ evs2).
  split; [rewrite Heq2, Heq1; now rewrite app_assoc|].
  split; [now apply closes_app_quiet | exact Hres].
Qed.

Lemma out_ctree_spec (r : Z) (u : string) (n : Z)
  (ctx : list prepare_device_progress) (w : world) :
  exists evs,
    trace (snd (out_ctree E r u n ctx w)) = trace w ++ evs /\
    closes ctx evs /\
    (r <> 0 -> fst (out_ctree E r u n ctx w) = PyErr_OSError (- r)) /\
    (fst (out_ctree E r u n ctx w) = Py_BuildValue u n \/
     exists e, e <> 0 /\ fst (out_ctree E r u n ctx w) = PyErr_OSError e).
Proof.
  unfold out_ctree.
  destruct (call E CloseCtree w) as [c w1] eqn:Hc.
  apply call_trace in Hc.
  set (r' := if (r =? 0) && negb (ret c =? 0) then ret c else r).
  destruct (out_close_spec r' u n ctx w1) as (evs & Heq & Hcl & Hres).
  exists (Lib CloseCtree c :: evs).
  split; [rewrite Heq, Hc; now rewrite <- app_assoc|].
  split.
  { destruct Hcl as (Hi & Hp & Ho & Hcd). repeat split; auto.
    constructor; [exact I | exact Hi]. }
  rewrite Hres. unfold result_of, r'. split.
  - intros Hr. apply Z.eqb_neq in Hr. rewrite Hr. simpl. now rewrite Hr.
  - destruct (r =? 0) eqn:Hr; simpl.
    + destruct (ret c =? 0) eqn:Hcr; simpl.
      * rewrite Hr. simpl. now left.
      * rewrite Hcr. simpl. right. exists (- ret c). split; [|reflexivity].
        apply Z.eqb_neq in Hcr. lia.
    + rewrite Hr. simpl. right. exists (- r). split; [|reflexivity].
      apply Z.eqb_neq in Hr. lia.
Qed.

Lemma closes_winds_up (inc dp mp : Z) (mixed dd : bool)
  (ctx : list prepare_device_progress) (evs : list event) :
  closes ctx evs -> winds_up inc dp mp mixed dd ctx evs.
Proof.
  intros (Hi & Hp & Ho & Hc). repeat split; auto.
  eapply Forall_impl; [|exact Hi]. apply idle_planned.
Qed.

Lemma winds_up_after (inc dp mp : Z) (mixed dd : bool)
  (ctx : list prepare_device_progress) (l evs : list event) :
  prepared l = [] -> opened l = [] -> closed l = [] ->
  Forall (planned_event inc dp mp mixed dd) l ->
  winds_up inc dp mp mixed dd ctx evs ->
  winds_up inc dp mp mixed dd ctx (l ++ evs).
Proof.
  intros Hp Ho Hc Hpl (Hp' & Ho' & Hc' & Hpl'). unfold winds_up.
  rewrite prepared_app, opened_app, closed_app, Hp, Ho, Hc, Hp', Ho', Hc'.
  repeat split; auto. now apply Forall_app.
Qed.

Lemma closes_no_mutation (ctx : list prepare_device_progress)
  (evs : list event) :
  closes ctx evs -> Forall (fun e => mutation e = false) evs.
Proof.
  intros (Hi & _). eapply Forall_impl; [|exact Hi]. apply idle_no_mutation.
Qed.

Lemma first_or_later_fails (ctx : list prepare_device_progress) :
  Exists (fun p => prepare_ret p <> 0) ctx ->
  prepare_ret (nth O ctx default_progress) <> 0 \/
  Exists (fun p => prepare_ret p <> 0) (tl ctx).
Proof. intros H. inversion H; subst; simpl; auto. Qed.

Lemma later_fails_not_all_ok (l : list prepare_device_progress) :
  Forall (fun p => prepare_ret p = 0) l ->
  Exists (fun p => prepare_ret p <> 0) l -> False.
Proof.
  intros Hall Hex. apply Exists_exists in Hex. destruct Hex as (p & Hin & Hp).
  rewrite Forall_forall in Hall. now apply Hp, Hall.
Qed.

(** The result of an exit label is named. *)
Ltac land_exit :=
  match goal with
  | |- Some ?t = Some _ -> _ =>
      let res0 := fresh "res0" in
      let w0 := fresh "w0" in
      let H := fresh "H" in
      let Hr := fresh "Hr" in
      let Hw := fresh "Hw" in
      destruct t as [res0 w0]; cbn [fst snd] in *;
      intros H; injection H as Hr Hw; rewrite <- Hr, <- Hw; clear Hr Hw
  end.

(** The run once the workers are joined. *)
Lemma mkfs_prepared_spec (fuel : nat) (a : mkfs_args) (paths : list string)
  (fs_uuid : string) (mp dp inc ns : Z)
  (ctx : list prepare_device_progress) (w : world) (res : py_result)
  (w' : world) :
  mkfs_prepared E fuel a paths fs_uuid mp dp inc ns ctx w = Some (res, w') ->
  exists evs,
    trace w' = trace w ++ evs /\
    winds_up inc dp mp (kw_mixed a) (negb (kw_no_discard a)) ctx evs /\
    prepared_outcome a ctx res evs.
Proof.
  unfold mkfs_prepared.
  set (p0 := nth O ctx default_progress).
  set (mixed := kw_mixed a). set (dd := negb (kw_no_discard a)).
  destruct (prepare_ret p0 =? 0) eqn:Hp0; cbn [negb].
  2:{ (* the first device was not prepared *)
    apply Z.eqb_neq in Hp0.
    destruct (out_close_spec (prepare_ret p0) EmptyString 0 ctx w)
      as (evs & Heq & Hcl & Hres).
    land_exit.
    exists evs. split; [exact Heq|].
    split; [now apply closes_winds_up|].
    unfold result_of in Hres.
    replace (prepare_ret p0 =? 0) with false in Hres
      by (symmetry; now apply Z.eqb_neq).
    unfold prepared_outcome. fold p0.
    split; [intros _; split; [exact Hres | eapply closes_no_mutation; eauto]|].
    split; [intros Hc0; contradiction|].
    split; [intros Hc0; contradiction|].
    intros _. exists (- prepare_ret p0). split; [lia | exact Hres]. }
  apply Z.eqb_eq in Hp0.
  destruct (negb (kw_byte_count a =? 0)
            && (kw_byte_count a >? dev_byte_count p0)) eqn:Hbig.
  { (* the requested size exceeds the device *)
    apply andb_true_iff in Hbig. destruct Hbig as [Hb1 Hb2].
    apply negb_true_iff, Z.eqb_neq in Hb1. apply Z.gtb_gt in Hb2.
    destruct (out_close_spec (- ENOSPC) EmptyString 0 ctx w)
      as (evs & Heq & Hcl & Hres).
    land_exit.
    exists evs. split; [exact Heq|].
    split; [now apply closes_winds_up|].
    unfold result_of in Hres. simpl in Hres.
    unfold prepared_outcome. fold p0.
    split; [intros Hc0; contradiction|].
    split; [intros _ _ _; split;
            [exact Hres | eapply closes_no_mutation; eauto]|].
    split; [intros _ Hc0; exfalso; apply Hc0; split; [assumption | lia]|].
    intros _. exists ENOSPC. split; [discriminate | exact Hres]. }
  assert (Hfit : ~ (kw_byte_count a <> 0
                    /\ kw_byte_count a > dev_byte_count p0)).
  { intros [Hb1 Hb2]. apply andb_false_iff in Hbig.
    destruct Hbig as [Hb | Hb].
    - apply negb_false_iff, Z.eqb_eq in Hb. contradiction.
    - apply Z.gtb_gt in Hb2. congruence. }
  (* every other exit follows [make_btrfs] and raises an error or returns *)
  assert (Hexit : forall (res0 : py_result) (evs : list event),
    winds_up inc dp mp mixed dd ctx evs ->
    Exists (fun e => is_make_btrfs e = true) evs ->
    ((exists e, e <> 0 /\ res0 = PyErr_OSError e) \/
     Forall (fun p => prepare_ret p = 0) (tl ctx)) ->
    winds_up inc dp mp mixed dd ctx evs /\ prepared_outcome a ctx res0 evs).
  { intros res0 evs Hw Hmk Hres. split; [exact Hw|].
    unfold prepared_outcome. fold p0.
    split; [intros Hc0; contradiction|].
    split; [intros _ H1 H2; exfalso; apply Hfit; auto|].
    split; [intros _ _; exact Hmk|].
    intros Hex. destruct Hres as [Hres | Hall]; [exact Hres|].
    exfalso. apply first_or_later_fails in Hex. fold p0 in Hex.
    destruct Hex as [Hex | Hex]; [contradiction|].
    eapply later_fails_not_all_ok; eauto. }
  destruct (call E (MakeBtrfs _ _ _ _ _ _) w) as [m w1] eqn:Hc1.
  apply call_trace in Hc1.
  set (mk := Lib (MakeBtrfs (fd p0) (dev_byte_count p0) ns (kw_sectorsize a)
                    inc (kw_csum_type a)) m) in *.
  destruct (ret m =? 0) eqn:Hm; cbn [negb].
  2:{ apply Z.eqb_neq in Hm.
    destruct (out_close_spec (ret m) EmptyString 0 ctx w1)
      as (evs & Heq & Hcl & Hres).
    land_exit.
    exists ([mk] ++ evs).
    split; [rewrite Heq, Hc1; now rewrite <- app_assoc|].
    apply Hexit.
    - apply winds_up_after; try reflexivity;
        [repeat constructor | now apply closes_winds_up].
    - now left.
    - left. exists (- ret m). split; [lia|].
      rewrite Hres. unfold result_of.
      now replace (ret m =? 0) with false by (symmetry; now apply Z.eqb_neq). }
  destruct (call E (OpenCtreeFsInfo _) w1) as [o w2] eqn:Hc2.
  apply call_trace in Hc2.
  set (op := Lib (OpenCtreeFsInfo (nth O paths EmptyString)) o) in *.
  destruct (ret o =? 0) eqn:Ho.
  { destruct (out_close_spec (- EIO) EmptyString 0 ctx w2)
      as (evs & Heq & Hcl & Hres).
    land_exit.
    exists ([mk; op] ++ evs).
    split; [rewrite Heq, Hc2, Hc1; now rewrite <- !app_assoc|].
    apply Hexit.
    - apply winds_up_after; try reflexivity;
        [repeat constructor | now apply closes_winds_up].
    - now left.
    - left. exists EIO. split; [discriminate | exact Hres]. }
  destruct (mkfs_trees E fuel inc dp mp mixed (kw_sectorsize a) dd ctx w2)
    as [[r w3]|] eqn:Htrees; [|intros H; discriminate H].
  pose proof (mkfs_trees_trace E _ _ _ _ _ _ _ _ _ _ _ Htrees)
    as (tevs & Heq3 & Htree).
  destruct (tree_event_silent _ _ _ _ _ _ Htree) as (Htp & Hto & Htc).
  assert (Htpl : Forall (planned_event inc dp mp mixed dd) tevs)
    by (eapply Forall_impl; [|exact Htree]; apply tree_event_planned).
  destruct (r =? 0) eqn:Hr.
  - apply Z.eqb_eq in Hr. subst r.
    apply mkfs_trees_zero in Htrees.
    destruct (call E SuperTotalBytes w3) as [n w4] eqn:Hc4.
    apply call_trace in Hc4.
    match goal with
    | |- Some (out_ctree E 0 ?u ?nb ctx w4) = _ -> _ =>
        destruct (out_ctree_spec 0 u nb ctx w4)
          as (evs & Heq & Hcl & _ & Hres)
    end.
    land_exit.
    exists ([mk; op] ++ tevs ++ [Lib SuperTotalBytes n] ++ evs).
    split; [rewrite Heq, Hc4, Heq3, Hc2, Hc1; now rewrite <- !app_assoc|].
    apply Hexit.
    + apply winds_up_after; try reflexivity; [repeat constructor|].
      apply winds_up_after; auto.
      apply winds_up_after; try reflexivity;
        [repeat constructor | now apply closes_winds_up].
    + now left.
    + now right.
  - apply Z.eqb_neq in Hr.
    destruct (out_ctree_spec r EmptyString 0 ctx w3)
      as (evs & Heq & Hcl & Hres & _).
    land_exit.
    exists ([mk; op] ++ tevs ++ evs).
    split; [rewrite Heq, Heq3, Hc2, Hc1; now rewrite <- !app_assoc|].
    apply Hexit.
    + apply winds_up_after; try reflexivity; [repeat constructor|].
      apply winds_up_after; auto. now apply closes_winds_up.
    + now left.
    + left. exists (- r). split; [lia | now apply Hres].
Qed.

Lemma quiet_planned (inc dp mp : Z) (mixed dd : bool) (evs : list event) :
  Forall quiet evs -> Forall (planned_event inc dp mp mixed dd) evs.
Proof.
  apply Forall_impl. intros e He. now apply idle_planned, quiet_idle.
Qed.

Lemma quiet_no_mutation (evs : list event) :
  Forall quiet evs -> Forall (fun e => mutation e = false) evs.
Proof.
  apply Forall_impl. intros e He. now apply idle_no_mutation, quiet_idle.
Qed.

Lemma idle_all_planned (inc dp mp : Z) (mixed dd : bool)
  (evs : list event) :
  Forall idle evs -> Forall (planned_event inc dp mp mixed dd) evs.
Proof. apply Forall_impl. intros e. apply idle_planned. Qed.

Lemma idle_all_no_mutation (evs : list event) :
  Forall idle evs -> Forall (fun e => mutation e = false) evs.
Proof. apply Forall_impl. intros e. apply idle_no_mutation. Qed.

Lemma raises_result_of (r : Z) (u : string) (n : Z) :
  r <> 0 -> raises (result_of r u n).
Proof.
  intros Hr. unfold result_of.
  replace (r =? 0) with false by (symmetry; now apply Z.eqb_neq).
  simpl. lia.
Qed.

(** The run with the GIL released. *)
Lemma mkfs_released_spec (fuel : nat) (a : mkfs_args) (paths : list string)
  (fs_uuid : string) (mp dp inc ns : Z) (w : world) (res : py_result)
  (w' : world) :
  mkfs_released E fuel a paths fs_uuid mp dp inc ns w = Some (res, w') ->
  exists evs,
    trace w' = trace w ++ evs /\
    Forall (planned_event inc dp mp (kw_mixed a) (negb (kw_no_discard a)))
      evs /\
    incl (opened evs) (closed evs) /\
    run_shape a (List.length paths) res evs.
Proof.
  unfold mkfs_released.
  set (mixed := kw_mixed a). set (dd := negb (kw_no_discard a)).
  (* the exits before the workers *)
  assert (Hstop : forall (r : Z) (w1 : world) (evs1 : list event),
    trace w1 = trace w ++ evs1 -> Forall quiet evs1 -> r <> 0 ->
    Some (out_free E r EmptyString 0 w1) = Some (res, w') ->
    exists evs,
      trace w' = trace w ++ evs /\
      Forall (planned_event inc dp mp mixed dd) evs /\
      incl (opened evs) (closed evs) /\
      run_shape a (List.length paths) res evs).
  { intros r w1 evs1 Heq1 Hq1 Hr.
    destruct (out_free_spec r EmptyString 0 w1) as (evs2 & Heq2 & Hq2 & Hres).
    land_exit.
    assert (Hq : Forall quiet (evs1 ++ evs2)) by now apply Forall_app.
    destruct (quiet_silent _ Hq) as (Hp & Ho & Hc).
    exists (evs1 ++ evs2).
    split; [rewrite Heq2, Heq1; now rewrite app_assoc|].
    split; [now apply quiet_planned|].
    split; [rewrite Ho; intros x []|].
    left. split; [now right|].
    split; [rewrite Hres; now apply raises_result_of|].
    now apply quiet_no_mutation. }
  match goal with
  | |- context [if negb (kw_force a) then ?x else ?y] =>
      assert (Htest : extends quiet (trace w)
                        (trace (snd (if negb (kw_force a) then x else y))));
      [ destruct (negb (kw_force a)); simpl;
        [apply test_devices_trace | apply extends_refl]
      | destruct (if negb (kw_force a) then x else y) as [r1 w1] ]
  end.
  simpl in Htest. destruct Htest as (evs1 & Heq1 & Hq1).
  destruct (r1 =? 0) eqn:Hr1; cbn [negb].
  2:{ apply Z.eqb_neq in Hr1. now apply (Hstop r1 w1 evs1). }
  match goal with
  | |- context [call E ?cl w1] => destruct (call E cl w1) as [t w2] eqn:Hc2
  end.
  apply call_trace in Hc2.
  match goal with
  | |- context [call E ?cl w2] => destruct (call E cl w2) as [c w3] eqn:Hc3
  end.
  apply call_trace in Hc3.
  assert (Heq3 : trace w3 = trace w ++ evs1 ++ [Lib (Calloc (Z.of_nat
            (List.length (kw_devices a)))) t; Lib (Calloc (Z.of_nat
            (List.length (kw_devices a)))) c]).
  { rewrite Hc3, Hc2, Heq1. now rewrite <- !app_assoc. }
  assert (Hq3 : Forall quiet (evs1 ++ [Lib (Calloc (Z.of_nat
            (List.length (kw_devices a)))) t; Lib (Calloc (Z.of_nat
            (List.length (kw_devices a)))) c])).
  { apply Forall_app; split; [exact Hq1 | repeat constructor]. }
  clear Hc2 Hc3 Heq1 Hq1.
  set (evs3 := evs1 ++ _) in *. clearbody evs3.
  destruct ((ret t =? 0) || (ret c =? 0)).
  { eapply (Hstop (- ENOMEM) w3); eauto. discriminate. }
  clear Hstop.
  destruct (quiet_silent _ Hq3) as (Hp3 & Ho3 & Hcl3).
  destruct (launch_workers_spec E (kw_byte_count a) dd paths O [] w3)
    as (evs4 & Heq4 & Hidle4 & Hcase).
  destruct (launch_workers E paths O [] (kw_byte_count a) dd w3)
    as [[e|ctx] w4]; cbn [fst snd] in *.
  - (* a thread could not be created *)
    destruct Hcase as (He & Hlen & new & Ho4 & Hc4).
    destruct (out_free_spec e EmptyString 0 w4) as (evs5 & Heq5 & Hq5 & Hres).
    land_exit.
    destruct (quiet_silent _ Hq5) as (Hp5 & Ho5 & Hcl5).
    exists ((evs3 ++ evs4) ++ evs5).
    split; [rewrite Heq5, Heq4, Heq3; rewrite <- !app_assoc; reflexivity|].
    split.
    { apply Forall_app; split; [apply Forall_app; split|].
      - now apply quiet_planned.
      - now apply idle_all_planned.
      - now apply quiet_planned. }
    split.
    { rewrite !opened_app, !closed_app, Ho3, Hcl3, Ho5, Hcl5, Ho4, Hc4.
      simpl. rewrite !app_nil_r. apply incl_refl. }
    left. split.
    { left. rewrite !prepared_app, Hp3, Hp5. simpl. rewrite app_nil_r.
      exact Hlen. }
    split; [rewrite Hres; now apply raises_result_of|].
    apply Forall_app; split; [apply Forall_app; split|].
    + now apply quiet_no_mutation.
    + now apply idle_all_no_mutation.
    + now apply quiet_no_mutation.
  - (* every worker has run *)
    destruct Hcase as (new & Hctx & Hlen & Hp4 & Ho4 & Hc4).
    simpl in Hctx. subst new.
    destruct (join_workers_trace E (List.length paths) O w4)
      as (evs5 & Heq5 & Hq5).
    destruct (quiet_silent _ Hq5) as (Hp5 & Ho5 & Hcl5).
    intros Hrun. apply mkfs_prepared_spec in Hrun.
    destruct Hrun as (evs6 & Heq6 & (Hp6 & Ho6 & Hcl6 & Hpl6) & Hout).
    exists (((evs3 ++ evs4) ++ evs5) ++ evs6).
    split; [rewrite Heq6, Heq5, Heq4, Heq3; rewrite <- !app_assoc;
            reflexivity|].
    split.
    { apply Forall_app; split; [apply Forall_app; split;
                                [apply Forall_app; split|]|].
      - now apply quiet_planned.
      - now apply idle_all_planned.
      - now apply quiet_planned.
      - exact Hpl6. }
    split.
    { rewrite !opened_app, !closed_app, Ho3, Hcl3, Ho5, Hcl5, Ho4, Hc4, Ho6,
        Hcl6.
      simpl. rewrite !app_nil_r. apply incl_refl. }
    right. exists ctx, ((evs3 ++ evs4) ++ evs5), evs6.
    split; [reflexivity|]. split.
    { rewrite !prepared_app, Hp3, Hp5, Hp6, Hp4. simpl. rewrite !app_nil_r.
      now rewrite Hlen. }
    split; [exact Hlen|]. split; [|exact Hout].
    apply Forall_app; split; [apply Forall_app; split|].
    + now apply quiet_no_mutation.
    + now apply idle_all_no_mutation.
    + now apply quiet_no_mutation.
Qed.

Lemma device_paths_length (l : list py_object) :
  forall paths, device_paths l = inr paths ->
                List.length paths = List.length l.
Proof.
  induction l as [|o l IH]; simpl; intros paths H.
  - inversion H. reflexivity.
  - destruct o; try discriminate.
    destruct (device_paths l) as [e|paths']; [discriminate|].
    inversion H; subst. simpl. f_equal. now apply IH.
Qed.

Lemma device_paths_raises (l : list py_object) :
  forall e, device_paths l = inl e -> raises e.
Proof.
  induction l as [|o l IH]; simpl; intros e H; [discriminate|].
  destruct o.
  - destruct (device_paths l) as [e'|paths']; [|discriminate].
    inversion H; subst. now apply IH.
  - inversion H. exact I.
  - inversion H. exact I.
Qed.

Lemma run_shape_after_quiet (a : mkfs_args) (n : nat) (res : py_result)
  (evs0 evs : list event) :
  Forall quiet evs0 -> run_shape a n res evs ->
  run_shape a n res (evs0 ++ evs).
Proof.
  intros Hq Hshape.
  destruct (quiet_silent _ Hq) as (Hp & _ & _).
  pose proof (quiet_no_mutation _ Hq) as Hm.
  destruct Hshape as [(Hlen & Hr & Hmut) | (ctx & evs1 & evs2 & -> & Hpr
                                           & Hl & Hmut & Hout)].
  - left. rewrite prepared_app, Hp. simpl.
    repeat split; auto. now apply Forall_app.
  - right. exists ctx, (evs0 ++ evs1), evs2.
    split; [now rewrite app_assoc|].
    split; [rewrite prepared_app, Hp; exact Hpr|].
    split; [exact Hl|]. split; [now apply Forall_app | exact Hout].
Qed.

(** What a run of [mkfs] shows: the plan that follows from the arguments is
    respected, every descriptor that was opened is closed, and the run has
    one of the two shapes. *)
Lemma pybtrfs_mkfs_spec (fuel : nat) (a : mkfs_args) (w : world)
  (res : py_result) (w' : world) :
  pybtrfs_mkfs E fuel a w = Some (res, w') ->
  exists evs page_size,
    trace w' = trace w ++ evs /\
    Forall
      (planned_event
         (mkfs_incompat_flags (kw_features a) (kw_mixed a)
            (select_data_prof (kw_data_profile a) (kw_mixed a)
               (Z.of_nat (List.length (kw_devices a))))
            (select_meta_profile (kw_metadata_profile a) (kw_mixed a)
               (Z.of_nat (List.length (kw_devices a))))
            (kw_nodesize a) page_size)
         (select_data_prof (kw_data_profile a) (kw_mixed a)
            (Z.of_nat (List.length (kw_devices a))))
         (select_meta_profile (kw_metadata_profile a) (kw_mixed a)
            (Z.of_nat (List.length (kw_devices a))))
         (kw_mixed a) (negb (kw_no_discard a))) evs /\
    incl (opened evs) (closed evs) /\
    run_shape a (List.length (kw_devices a)) res evs.
Proof.
  unfold pybtrfs_mkfs.
  (* the returns before the GIL is released *)
  assert (Hearly : forall (res0 : py_result) (w1 : world) (evs : list event),
    trace w1 = trace w ++ evs -> Forall quiet evs -> raises res0 ->
    Some (res0, w1) = Some (res, w') ->
    exists evs page_size,
      trace w' = trace w ++ evs /\
      Forall
        (planned_event
           (mkfs_incompat_flags (kw_features a) (kw_mixed a)
              (select_data_prof (kw_data_profile a) (kw_mixed a)
                 (Z.of_nat (List.length (kw_devices a))))
              (select_meta_profile (kw_metadata_profile a) (kw_mixed a)
                 (Z.of_nat (List.length (kw_devices a))))
              (kw_nodesize a) page_size)
           (select_data_prof (kw_data_profile a) (kw_mixed a)
              (Z.of_nat (List.length (kw_devices a))))
           (select_meta_profile (kw_metadata_profile a) (kw_mixed a)
              (Z.of_nat (List.length (kw_devices a))))
           (kw_mixed a) (negb (kw_no_discard a))) evs /\
      incl (opened evs) (closed evs) /\
      run_shape a (List.length (kw_devices a)) res evs).
  { intros res0 w1 evs Heq Hq Hr H. injection H as <- <-.
    destruct (quiet_silent _ Hq) as (Hp & Ho & Hc).
    exists evs, 0. split; [exact Heq|].
    split; [now apply quiet_planned|].
    split; [rewrite Ho; intros x []|].
    left. split; [now right|]. split; [exact Hr|].
    now apply quiet_no_mutation. }
  destruct (Z.of_nat (List.length (kw_devices a)) <? 1).
  { apply (Hearly _ _ []); [now rewrite app_nil_r | constructor | exact I]. }
  match goal with
  | |- context [call E ?cl w] => destruct (call E cl w) as [c w1] eqn:Hc1
  end.
  apply call_trace in Hc1.
  destruct (ret c =? 0).
  { eapply Hearly; [exact Hc1 | repeat constructor | exact I]. }
  destruct (device_paths (kw_devices a)) as [e|paths] eqn:Hpaths.
  { eapply Hearly; [exact Hc1 | repeat constructor |].
    eapply device_paths_raises; eauto. }
  apply device_paths_length in Hpaths.
  destruct (BTRFS_LABEL_SIZE <=? _).
  { eapply Hearly; [exact Hc1 | repeat constructor | exact I]. }
  match goal with
  | |- context [match kw_uuid a with EmptyString => ?x | String _ _ => ?y end]
    =>
      assert (Huuid : extends quiet (trace w1)
                (trace (snd (match kw_uuid a with
                             | EmptyString => x
                             | String _ _ => y
                             end))));
      [ destruct (kw_uuid a);
        [ apply extends_refl
        | match goal with
          | |- context [call E ?cl w1] =>
              destruct (call E cl w1) as [u w2] eqn:Hc2
          end;
          apply call_trace in Hc2; cbn [snd]; rewrite Hc2;
          apply extends_step; [apply extends_refl | exact I] ]
      | destruct (match kw_uuid a with
                  | EmptyString => x
                  | String _ _ => y
                  end) as [bad w2] ]
  end.
  cbn [snd] in Huuid. destruct Huuid as (evs2 & Heq2 & Hq2).
  assert (Heq2' : trace w2 = trace w ++ Lib (Calloc (Z.of_nat
            (List.length (kw_devices a)))) c :: evs2).
  { rewrite Heq2, Hc1. now rewrite <- app_assoc. }
  assert (Hq2' : Forall quiet (Lib (Calloc (Z.of_nat
            (List.length (kw_devices a)))) c :: evs2))
    by (constructor; [exact I | exact Hq2]).
  destruct bad.
  { eapply Hearly; [exact Heq2' | exact Hq2' | exact I]. }
  clear Hearly.
  destruct (call E Sysconf_PAGE_SIZE w2) as [pg w3] eqn:Hc3.
  apply call_trace in Hc3.
  intros Hrun. apply mkfs_released_spec in Hrun.
  destruct Hrun as (evs & Heq & Hpl & Hincl & Hshape).
  rewrite Hpaths in Hshape.
  set (evs0 := Lib (Calloc (Z.of_nat (List.length (kw_devices a)))) c
               :: evs2 ++ [Lib Sysconf_PAGE_SIZE pg]).
  assert (Hq0 : Forall quiet evs0).
  { constructor; [exact I|]. apply Forall_app; split; [exact Hq2|].
    repeat constructor. }
  destruct (quiet_silent _ Hq0) as (Hp0 & Ho0 & Hcl0).
  exists (evs0 ++ evs), (ret pg).
  split.
  { rewrite Heq, Hc3, Heq2'. unfold evs0. simpl.
    rewrite <- !app_assoc. reflexivity. }
  split; [apply Forall_app; split; [now apply quiet_planned | exact Hpl]|].
  split; [rewrite opened_app, closed_app, Ho0, Hcl0; exact Hincl|].
  now apply run_shape_after_quiet.
Qed.

End Exits.

(** * Statements about the temporary chunk cleaner *)

Section CleanerClaims.

Context {K : btrfs_uapi}.
Variable E : environment.

(** When no search, step or removal fails and the commit succeeds, no
    temporary block group is left on a well-formed leaf. *)
Lemma cleanup_leaves_no_temporary_group (fuel : nat) (dp mp sp : Z)
  (dd : bool) (w : world) :
  BTRFS_BLOCK_GROUP_ITEM_KEY <> 0 ->
  well_formed_tree (items w) ->
  (List.length (items w) < fuel)%nat ->
  tree_ops_succeed E ->
  exists r w',
    cleanup_temp_chunks E fuel dp mp sp dd w = Some (r, w') /\
    (r = 0 ->
     Forall (fun it => temporary dp mp sp it = false) (items w')).
Proof.
  intros Hkey Hwf Hfuel Hsucc.
  destruct (cleanup_temp_chunks_spec E dp mp sp Hkey fuel dd w Hwf Hfuel)
    as (r & w' & pre & post & evs & Hrun & Hpp & Hi & _ & _ & _ & _ & Hpost).
  exists r, w'. split; [exact Hrun|]. intros Hr.
  rewrite Hi. apply Forall_app; split.
  - apply Forall_forall. intros it Hin. apply filter_In in Hin.
    destruct Hin as [_ Hk]. now apply negb_true_iff in Hk.
  - eapply Forall_impl; [|exact (Hpost Hsucc Hr)].
    intros it Hbg. unfold temporary. now rewrite Hbg.
Qed.

Lemma removed_group_decrement (dp mp sp : Z) (g : item)
  (a : mkfs_allocation) :
  temporary dp mp sp g = true ->
  let m := Z.land (flags (bgi g)) BTRFS_BLOCK_GROUP_TYPE_MASK in
  let len := offset (key g) in
  (m = BTRFS_BLOCK_GROUP_DATA /\
   unaccount_chunk (flags (bgi g)) len a = sub_data len a) \/
  (m = BTRFS_BLOCK_GROUP_METADATA /\
   unaccount_chunk (flags (bgi g)) len a = sub_metadata len a) \/
  (m = BTRFS_BLOCK_GROUP_SYSTEM /\
   unaccount_chunk (flags (bgi g)) len a = sub_system len a) \/
  (m = Z.lor BTRFS_BLOCK_GROUP_METADATA BTRFS_BLOCK_GROUP_DATA /\
   unaccount_chunk (flags (bgi g)) len a = sub_mixed len a).
Proof.
  unfold temporary, is_temp_block_group, unaccount_chunk.
  intros Ht. apply andb_true_iff in Ht. destruct Ht as [_ Ht].
  cbv zeta.
  set (m := Z.land (flags (bgi g)) BTRFS_BLOCK_GROUP_TYPE_MASK) in *.
  rewrite (Z.lor_comm BTRFS_BLOCK_GROUP_DATA) in Ht.
  destruct (m =? BTRFS_BLOCK_GROUP_DATA) eqn:H1;
    [left; apply Z.eqb_eq in H1; auto|].
  destruct (m =? BTRFS_BLOCK_GROUP_METADATA) eqn:H2;
    [right; left; apply Z.eqb_eq in H2; auto|].
  destruct (m =? BTRFS_BLOCK_GROUP_SYSTEM) eqn:H3;
    [right; right; left; apply Z.eqb_eq in H3; auto|].
  destruct (m =? Z.lor BTRFS_BLOCK_GROUP_METADATA BTRFS_BLOCK_GROUP_DATA)
    eqn:H4; [right; right; right; apply Z.eqb_eq in H4; auto|].
  simpl in Ht. destruct (negb (used (bgi g) =? 0)); discriminate.
Qed.

Lemma u64_add_sub (x s : Z) : is_u64 x -> u64_sub (u64_add x s) s = x.
Proof.
  unfold is_u64, u64_sub, u64_add. intros Hx.
  rewrite Zminus_mod_idemp_l.
  replace (x + s - s) with x by lia. now apply Z.mod_small.
Qed.

Lemma account_then_unaccount (ty size : Z) (a a' : mkfs_allocation) :
  ledger_ok a ->
  account_chunk (Z.land ty BTRFS_BLOCK_GROUP_TYPE_MASK) size a = Some a' ->
  unaccount_chunk ty size a' = a.
Proof.
  intros (Hd & Hm & Hx & Hs & _). unfold account_chunk, unaccount_chunk.
  cbv zeta.
  destruct (_ =? BTRFS_BLOCK_GROUP_DATA);
    [|destruct (_ =? BTRFS_BLOCK_GROUP_METADATA);
      [|destruct (_ =? BTRFS_BLOCK_GROUP_SYSTEM);
        [|destruct (_ =? Z.lor _ _); [|discriminate]]]];
    intros H; inversion H; subst; destruct a; simpl in *;
    unfold sub_data, sub_metadata, sub_system, sub_mixed; simpl;
    rewrite u64_add_sub by assumption; reflexivity.
Qed.

(** C10.  Two runs of the cleaner from the same state that differ in
    [do_discard] only return the same code and leave the same leaf, the
    same ledger and the same library calls with the same answers; and the
    cleaner makes no call beside those of its transaction, its searches and
    its removals, so that no discard is requested. *)
Theorem cleanup_ignores_do_discard (fuel : nat) (dp mp sp : Z) (w : world) :
  same_outcome (cleanup_temp_chunks E fuel dp mp sp true w)
               (cleanup_temp_chunks E fuel dp mp sp false w) /\
  (forall (dd : bool) (r : Z) (w' : world),
      cleanup_temp_chunks E fuel dp mp sp dd w = Some (r, w') ->
      exists evs,
        trace w' = trace w ++ evs /\
        Forall (fun e =>
                  match e with
                  | Enter s => s = CleanupTempChunks dp mp sp dd
                  | Lib c _ =>
                      match c with
                      | StartTransaction | SearchSlot _ | NextItem
                      | RemoveBlockGroup _ _ | CommitTransaction => True
                      | _ => False
                      end
                  | Prepared _ _ => False
                  end) evs).
Proof.
  split.
  - unfold cleanup_temp_chunks.
    assert (Hv : same_view (enter (CleanupTempChunks dp mp sp true) w)
                           (enter (CleanupTempChunks dp mp sp false) w)).
    { unfold same_view, enter, record; simpl. rewrite !calls_app. simpl.
      auto. }
    destruct (call_same_view E StartTransaction _ _ Hv) as [Hr Hv1].
    destruct (call E StartTransaction
                (enter (CleanupTempChunks dp mp sp true) w)) as [r1 w1].
    destruct (call E StartTransaction
                (enter (CleanupTempChunks dp mp sp false) w)) as [r2 w2].
    simpl in Hr, Hv1. subst r2.
    destruct (negb (ret r1 =? 0)); [split; auto|].
    pose proof (cleanup_loop_same_view E dp mp sp fuel 0 w1 w2 Hv1) as Hl.
    destruct (cleanup_loop E fuel dp mp sp 0 w1) as [[r3 w3]|];
      destruct (cleanup_loop E fuel dp mp sp 0 w2) as [[r4 w4]|];
      simpl in Hl; try contradiction; [|exact I].
    destruct Hl as [_ Hv3].
    destruct (call_same_view E CommitTransaction _ _ Hv3) as [Hr5 Hv5].
    destruct (call E CommitTransaction w3) as [r5 w5].
    destruct (call E CommitTransaction w4) as [r6 w6].
    simpl in Hr5, Hv5. subst r6. split; auto.
  - intros dd r w'. unfold cleanup_temp_chunks.
    destruct (call E StartTransaction _) as [r1 w1] eqn:Hc1.
    apply call_trace in Hc1. simpl in Hc1.
    destruct (negb (ret r1 =? 0)).
    + intros H; inversion H; subst.
      exists [Enter (CleanupTempChunks dp mp sp dd); Lib StartTransaction r1].
      split; [rewrite Hc1; now rewrite <- app_assoc|].
      repeat constructor.
    + destruct (cleanup_loop E fuel dp mp sp 0 w1) as [[r2 w2]|] eqn:Hl;
        [|discriminate].
      apply cleanup_loop_trace in Hl. destruct Hl as (evs & Hl & Hall).
      destruct (call E CommitTransaction w2) as [r3 w3] eqn:Hc3.
      apply call_trace in Hc3.
      intros H; inversion H; subst.
      exists (Enter (CleanupTempChunks dp mp sp dd)
              :: Lib StartTransaction r1
              :: evs ++ [Lib CommitTransaction r3]).
      split; [rewrite Hc3, Hl, Hc1; simpl; now rewrite <- !app_assoc|].
      constructor; [reflexivity|]. constructor; [exact I|].
      apply Forall_app; split; [|repeat constructor].
      eapply Forall_impl; [|exact Hall].
      intros [c ?|?|? ?]; simpl; try tauto. destruct c; tauto.
Qed.

End CleanerClaims.

(** * Statements about the RAID group planner *)

Lemma alloc_calls_app (h1 h2 : history) :
  alloc_calls (h1 ++ h2) = alloc_calls h1 ++ alloc_calls h2.
Proof. apply flat_map_app. Qed.

Lemma created_groups_app (h1 h2 : history) :
  created_groups (h1 ++ h2) = created_groups h1 ++ created_groups h2.
Proof. apply flat_map_app. Qed.

Section PlannerClaims.

Context {K : btrfs_uapi}.
Variable E : environment.

Lemma account_chunk_total (m : Z) : recognized m \/ ~ recognized m.
Proof.
  unfold recognized.
  destruct (Z.eq_dec m BTRFS_BLOCK_GROUP_DATA); [tauto|].
  destruct (Z.eq_dec m BTRFS_BLOCK_GROUP_METADATA); [tauto|].
  destruct (Z.eq_dec m BTRFS_BLOCK_GROUP_SYSTEM); [tauto|].
  destruct (Z.eq_dec m
              (Z.lor BTRFS_BLOCK_GROUP_METADATA BTRFS_BLOCK_GROUP_DATA));
    tauto.
Qed.

Lemma account_chunk_recognized (m size : Z) (a : mkfs_allocation) :
  switch_labels_distinct ->
  (m = BTRFS_BLOCK_GROUP_DATA ->
   account_chunk m size a = Some (add_data size a)) /\
  (m = BTRFS_BLOCK_GROUP_METADATA ->
   account_chunk m size a = Some (add_metadata size a)) /\
  (m = BTRFS_BLOCK_GROUP_SYSTEM ->
   account_chunk m size a = Some (add_system size a)) /\
  (m = Z.lor BTRFS_BLOCK_GROUP_METADATA BTRFS_BLOCK_GROUP_DATA ->
   account_chunk m size a = Some (add_mixed size a)) /\
  (~ recognized m -> account_chunk m size a = None) /\
  (recognized m -> account_chunk m size a <> None).
Proof.
  unfold switch_labels_distinct, recognized, account_chunk.
  intros Hd.
  destruct (m =? BTRFS_BLOCK_GROUP_DATA) eqn:H1;
    [apply Z.eqb_eq in H1|apply Z.eqb_neq in H1];
  (destruct (m =? BTRFS_BLOCK_GROUP_METADATA) eqn:H2;
    [apply Z.eqb_eq in H2|apply Z.eqb_neq in H2]);
  (destruct (m =? BTRFS_BLOCK_GROUP_SYSTEM) eqn:H3;
    [apply Z.eqb_eq in H3|apply Z.eqb_neq in H3]);
  (destruct (m =? Z.lor BTRFS_BLOCK_GROUP_METADATA BTRFS_BLOCK_GROUP_DATA)
     eqn:H4; [apply Z.eqb_eq in H4|apply Z.eqb_neq in H4]);
  repeat split; intros; try congruence; try tauto;
    try (exfalso; intuition congruence).
Qed.

Lemma create_one_raid_group_events (ty : Z) (w : world) :
  exists r1 evs,
    trace (snd (create_one_raid_group E ty w)) = trace w ++ evs /\
    alloc_calls evs = [(ty, r1)] /\
    (fst (create_one_raid_group E ty w) = 0 -> created_groups evs = [ty]) /\
    (ret r1 = 0 ->
     ~ recognized (Z.land ty BTRFS_BLOCK_GROUP_TYPE_MASK) ->
     fst (create_one_raid_group E ty w) = - EINVAL).
Proof.
  unfold create_one_raid_group.
  destruct (call E (AllocChunk ty) w) as [r1 w1] eqn:Hc1.
  apply call_trace in Hc1. exists r1.
  destruct (ret r1 =? - ENOSPC) eqn:H1.
  { apply Z.eqb_eq in H1. exists [Lib (AllocChunk ty) r1]. simpl.
    repeat split; auto; unfold ENOSPC in *; intros; lia. }
  destruct (ret r1 =? 0) eqn:H2; cbn [negb].
  2:{ apply Z.eqb_neq in H2. exists [Lib (AllocChunk ty) r1]. simpl.
      repeat split; auto; intros; lia. }
  destruct (call E (MakeBlockGroup ty (out1 r1) (out2 r1)) w1)
    as [r2 w2] eqn:Hc2.
  apply call_trace in Hc2.
  exists [Lib (AllocChunk ty) r1; Lib (MakeBlockGroup ty (out1 r1) (out2 r1)) r2].
  destruct (account_chunk _ _ _) as [a|] eqn:Ha; cbn [fst snd].
  - change (trace (set_allocation a w2)) with (trace w2).
    rewrite Hc2, Hc1, <- app_assoc. repeat split; auto.
    intros _ Hn. exfalso.
    unfold account_chunk, recognized in *.
    destruct (Z.eqb_spec (Z.land ty BTRFS_BLOCK_GROUP_TYPE_MASK)
                BTRFS_BLOCK_GROUP_DATA); [tauto|].
    destruct (Z.eqb_spec (Z.land ty BTRFS_BLOCK_GROUP_TYPE_MASK)
                BTRFS_BLOCK_GROUP_METADATA); [tauto|].
    destruct (Z.eqb_spec (Z.land ty BTRFS_BLOCK_GROUP_TYPE_MASK)
                BTRFS_BLOCK_GROUP_SYSTEM); [tauto|].
    destruct (Z.eqb_spec (Z.land ty BTRFS_BLOCK_GROUP_TYPE_MASK)
                (Z.lor BTRFS_BLOCK_GROUP_METADATA BTRFS_BLOCK_GROUP_DATA));
      [tauto|discriminate].
  - rewrite Hc2, Hc1, <- app_assoc. repeat split; auto.
Qed.

Lemma create_raid_groups_events (dp mp : Z) (mixed : bool) (w : world) :
  exists evs,
    trace (snd (create_raid_groups E dp mp mixed w)) = trace w ++ evs /\
    (exists rest,
        planned_raid_groups dp mp mixed = requested_groups evs ++ rest) /\
    (fst (create_raid_groups E dp mp mixed w) = 0 ->
     requested_groups evs = planned_raid_groups dp mp mixed /\
     created_groups evs = planned_raid_groups dp mp mixed) /\
    (forall ty r,
        In (ty, r) (alloc_calls evs) -> ret r = 0 ->
        ~ recognized (Z.land ty BTRFS_BLOCK_GROUP_TYPE_MASK) ->
        fst (create_raid_groups E dp mp mixed w) = - EINVAL).
Proof.
  unfold create_raid_groups, planned_raid_groups, requested_groups,
    meta_group_type.
  set (w0 := enter (CreateRaidGroups dp mp mixed) w).
  assert (Hw0 : trace w0 = trace w ++ [Enter (CreateRaidGroups dp mp mixed)])
    by reflexivity.
  cbv zeta.
  assert (Hlast : forall (w1 : world) (pre : list event),
    trace w1 = trace w ++ pre ->
    let t := if negb mixed && negb (dp =? 0)
             then create_one_raid_group E (Z.lor BTRFS_BLOCK_GROUP_DATA dp) w1
             else (0, w1) in
    exists evs,
      trace (snd t) = trace w ++ pre ++ evs /\
      (exists rest,
          (if negb mixed && negb (dp =? 0)
           then [Z.lor BTRFS_BLOCK_GROUP_DATA dp] else [])
          = map fst (alloc_calls evs) ++ rest) /\
      (fst t = 0 ->
       map fst (alloc_calls evs)
       = (if negb mixed && negb (dp =? 0)
          then [Z.lor BTRFS_BLOCK_GROUP_DATA dp] else []) /\
       created_groups evs
       = (if negb mixed && negb (dp =? 0)
          then [Z.lor BTRFS_BLOCK_GROUP_DATA dp] else [])) /\
      (forall ty r,
          In (ty, r) (alloc_calls evs) -> ret r = 0 ->
          ~ recognized (Z.land ty BTRFS_BLOCK_GROUP_TYPE_MASK) ->
          fst t = - EINVAL)).
  { intros w1 pre Hw1. cbv zeta.
    destruct (negb mixed && negb (dp =? 0)).
    - destruct (create_one_raid_group_events
                  (Z.lor BTRFS_BLOCK_GROUP_DATA dp) w1)
        as (r1 & evs & Ht & Hal & Hcr & Hbad).
      exists evs. rewrite Ht, Hw1, <- app_assoc. split; [reflexivity|].
      rewrite Hal. simpl. split; [now exists []|].
      split; [intros H0; split; [reflexivity | now apply Hcr]|].
      intros ty r [Heq|[]] Hr Hn. inversion Heq; subst. now apply Hbad.
    - exists []. simpl. rewrite Hw1, app_nil_r. split; [reflexivity|].
      split; [now exists []|]. split; [auto|]. intros ty r []. }
  destruct (negb (mp =? 0)).
  2:{ destruct (Hlast w0 [Enter (CreateRaidGroups dp mp mixed)] Hw0)
        as (evs & Ht & Hpre & Hok & Hbad).
      exists (Enter (CreateRaidGroups dp mp mixed) :: evs).
      split; [exact Ht|]. simpl. auto. }
  destruct (create_one_raid_group_events
              (Z.lor BTRFS_BLOCK_GROUP_SYSTEM mp) w0)
    as (r1 & evs1 & Ht1 & Hal1 & Hcr1 & Hbad1).
  destruct (create_one_raid_group E (Z.lor BTRFS_BLOCK_GROUP_SYSTEM mp) w0)
    as [c1 w1]. simpl in Ht1, Hcr1, Hbad1.
  destruct (c1 =? 0) eqn:Hc1; simpl.
  2:{ apply Z.eqb_neq in Hc1.
      exists (Enter (CreateRaidGroups dp mp mixed) :: evs1).
      rewrite Ht1, ?Hw0, <- ?app_assoc. split; [reflexivity|].
      simpl. rewrite Hal1. simpl. split; [eexists; reflexivity|].
      split; [intros; contradiction|].
      intros ty r [Heq|[]] Hr Hn. inversion Heq; subst. now apply Hbad1. }
  apply Z.eqb_eq in Hc1.
  set (ty2 := Z.lor (if mixed
                     then Z.lor BTRFS_BLOCK_GROUP_METADATA
                                BTRFS_BLOCK_GROUP_DATA
                     else BTRFS_BLOCK_GROUP_METADATA) mp).
  destruct (create_one_raid_group_events ty2 w1)
    as (r2 & evs2 & Ht2 & Hal2 & Hcr2 & Hbad2).
  destruct (create_one_raid_group E ty2 w1) as [c2 w2].
  simpl in Ht2, Hcr2, Hbad2.
  assert (Hfirst : forall ty r,
             In (ty, r) [(Z.lor BTRFS_BLOCK_GROUP_SYSTEM mp, r1)] ->
             ret r = 0 ->
             recognized (Z.land ty BTRFS_BLOCK_GROUP_TYPE_MASK)).
  { intros ty r [Heq|[]] Hr. inversion Heq; subst.
    destruct (account_chunk_total
                (Z.land (Z.lor BTRFS_BLOCK_GROUP_SYSTEM mp)
                        BTRFS_BLOCK_GROUP_TYPE_MASK)) as [Hrec|Hn];
      [exact Hrec|].
    specialize (Hbad1 Hr Hn). unfold EINVAL in Hbad1. lia. }
  destruct (c2 =? 0) eqn:Hc2; simpl.
  2:{ apply Z.eqb_neq in Hc2.
      exists (Enter (CreateRaidGroups dp mp mixed) :: evs1 ++ evs2).
      rewrite Ht2, Ht1, ?Hw0, <- ?app_assoc. split; [reflexivity|].
      simpl. rewrite alloc_calls_app, Hal1, Hal2. simpl.
      split; [eexists; reflexivity|].
      split; [intros; contradiction|].
      intros ty r [Heq|[Heq|[]]] Hr Hn.
      - exfalso. apply Hn. apply (Hfirst ty r); [now left | exact Hr].
      - inversion Heq; subst. now apply Hbad2. }
  apply Z.eqb_eq in Hc2.
  assert (Hsecond : forall ty r,
             In (ty, r) [(ty2, r2)] -> ret r = 0 ->
             recognized (Z.land ty BTRFS_BLOCK_GROUP_TYPE_MASK)).
  { intros ty r [Heq|[]] Hr.
    destruct (account_chunk_total
                (Z.land ty BTRFS_BLOCK_GROUP_TYPE_MASK)) as [Hrec|Hn];
      [exact Hrec|].
    inversion Heq; subst ty r.
    specialize (Hbad2 Hr Hn). unfold EINVAL in Hbad2. lia. }
  assert (Hw2 : trace w2
                = trace w ++ Enter (CreateRaidGroups dp mp mixed)
                             :: evs1 ++ evs2).
  { rewrite Ht2, Ht1, ?Hw0, <- ?app_assoc. reflexivity. }
  destruct (Hlast w2 _ Hw2) as (evs & Ht & (rest & Hpre) & Hok & Hbad).
  exists ((Enter (CreateRaidGroups dp mp mixed) :: evs1 ++ evs2) ++ evs).
  split; [exact Ht|].
  simpl. rewrite !alloc_calls_app, !created_groups_app, Hal1, Hal2. simpl.
  split; [exists rest; now rewrite Hpre|].
  split.
  - intros H0. destruct (Hok H0) as [Hq Hcr].
    rewrite Hq, Hcr, Hcr1, Hcr2 by assumption. auto.
  - intros ty r [Heq|[Heq|Hin]] Hr Hn.
    + exfalso. apply Hn. apply (Hfirst ty r); [now left | exact Hr].
    + exfalso. apply Hn. apply (Hsecond ty r); [now left | exact Hr].
    + now apply (Hbad ty r).
Qed.

(** C4.  [create_raid_groups] requests chunks in the order SYSTEM group,
    metadata group (METADATA, with DATA added when mixed), DATA group; the
    first two only when the metadata profile is nonzero, the last only when
    not mixed and the data profile is nonzero.  What is requested is always
    a prefix of that list, and when the call returns 0 the block groups made
    are that list exactly.  The list is the specification's when the
    metadata profile is nonzero; with a zero metadata profile no SYSTEM
    group is requested. *)
Theorem create_raid_groups_order (dp mp : Z) (mixed : bool) (w : world) :
  exists evs,
    trace (snd (create_raid_groups E dp mp mixed w)) = trace w ++ evs /\
    (exists rest,
        planned_raid_groups dp mp mixed = requested_groups evs ++ rest) /\
    (fst (create_raid_groups E dp mp mixed w) = 0 ->
     requested_groups evs = planned_raid_groups dp mp mixed /\
     created_groups evs = planned_raid_groups dp mp mixed) /\
    (mp <> 0 ->
     planned_raid_groups dp mp mixed = claimed_raid_groups dp mp mixed) /\
    (mp = 0 ->
     forall ty, In ty (requested_groups evs) ->
                ty = Z.lor BTRFS_BLOCK_GROUP_DATA dp).
Proof.
  destruct (create_raid_groups_events dp mp mixed w)
    as (evs & Ht & (rest & Hpre) & Hok & _).
  exists evs. split; [exact Ht|]. split; [now exists rest|].
  split; [exact Hok|]. split.
  - intros Hmp. apply Z.eqb_neq in Hmp.
    unfold planned_raid_groups, claimed_raid_groups. now rewrite Hmp.
  - intros Hmp ty Hin.
    assert (Hin' : In ty (planned_raid_groups dp mp mixed))
      by (rewrite Hpre; apply in_or_app; now left).
    unfold planned_raid_groups in Hin'. subst mp. simpl in Hin'.
    destruct (negb mixed && negb (dp =? 0)); simpl in Hin'; [|tauto].
    destruct Hin' as [H|[]]. now symmetry.
Qed.

End PlannerClaims.

(** C4, at a zero metadata profile: with data profile RAID1 on two devices
    and every call succeeding, the only block group made is DATA|RAID1,
    while the specification's order starts with a SYSTEM group. *)
Lemma create_raid_groups_skips_system_group :
  fst (create_raid_groups (K := linux_uapi) (obliging_env []) RAID1 0 false
         initial_world) = 0 /\
  created_groups
    (trace (snd (create_raid_groups (K := linux_uapi) (obliging_env [])
                   RAID1 0 false initial_world)))
  = [17] /\
  claimed_raid_groups (K := linux_uapi) RAID1 0 false = [2; 17] /\
  created_groups
    (trace (snd (create_raid_groups (K := linux_uapi) (obliging_env [])
                   RAID1 0 false initial_world)))
  <> claimed_raid_groups (K := linux_uapi) RAID1 0 false.
Proof.
  split; [reflexivity|]. split; [reflexivity|]. split; [reflexivity|].
  intros H. vm_compute in H. discriminate H.
Qed.

Lemma linux_switch_labels_distinct :
  switch_labels_distinct (K := linux_uapi).
Proof. unfold switch_labels_distinct. simpl. repeat split; discriminate. Qed.

(** * The cleaner on the sample leaf *)

Ltac sorted_leaf :=
  repeat first
    [ apply SSorted_nil
    | apply SSorted_cons
    | apply Forall_nil
    | apply Forall_cons
    | split; [reflexivity | intros _ _; unfold group_end; simpl; lia] ].

Lemma sample_groups_well_formed :
  well_formed_tree (K := linux_uapi) sample_groups.
Proof.
  split.
  - unfold sample_groups. sorted_leaf.
  - unfold sample_groups, group_ok, group_end, u64_modulus, MiB.
    repeat constructor; simpl; lia.
Qed.

(** C1, at the failing input: the sample leaf holds three empty
    single-profile groups while the final profiles are RAID1; the removal
    of the first fails with [-ENOMEM], the commit succeeds, and the cleaner
    returns 0 with the leaf unchanged, temporary groups included. *)
Theorem cleanup_masks_failed_removal :
  well_formed_tree (K := linux_uapi) sample_groups /\
  exists w',
    cleanup_temp_chunks (K := linux_uapi) (stubborn_env sample_groups) 10
      RAID1 RAID1 RAID1 true sample_world = Some (0, w') /\
    items w' = sample_groups /\
    allocation w' = allocation sample_world /\
    removal_calls (trace w') = [(1 * MiB, 4 * MiB)] /\
    removed_groups (trace w') = [] /\
    filter (temporary (K := linux_uapi) RAID1 RAID1 RAID1) (items w')
    = [ block_group (1 * MiB) (4 * MiB) 2 0;
        block_group (5 * MiB) (8 * MiB) 4 0;
        block_group (13 * MiB) (8 * MiB) 1 0 ].
Proof.
  split; [exact sample_groups_well_formed|].
  eexists. split; [vm_compute; reflexivity|].
  repeat split; reflexivity.
Qed.

(** * Statements about a run of [mkfs] *)

Lemma In_prepared (i : nat) (p : prepare_device_progress) (h : history) :
  In (Prepared i p) h <-> In (i, p) (prepared h).
Proof.
  induction h as [|e h IH]; simpl; [tauto|].
  destruct e as [c r|s|j q]; simpl; rewrite <- IH.
  - split; [intros [H|H]; [discriminate | exact H] | auto].
  - split; [intros [H|H]; [discriminate | exact H] | auto].
  - split; intros [H|H]; auto; left; congruence.
Qed.

Lemma combine_seq_first (n : nat) (ctx : list prepare_device_progress)
  (p : prepare_device_progress) :
  In (O, p) (combine (seq O n) ctx) -> nth O ctx default_progress = p.
Proof.
  destruct n as [|n], ctx as [|q ctx]; simpl; try tauto.
  intros [H|H]; [congruence|].
  apply in_combine_l in H. apply in_seq in H. lia.
Qed.

Lemma land_lor_same (f b : Z) : Z.land (Z.lor f b) b = b.
Proof.
  apply Z.bits_inj'. intros n _.
  rewrite Z.land_spec, Z.lor_spec.
  destruct (Z.testbit f n), (Z.testbit b n); reflexivity.
Qed.

Lemma land_lor_more (f b c : Z) :
  Z.land f b = b -> Z.land (Z.lor f c) b = b.
Proof.
  intros H. apply Z.bits_inj'. intros n _.
  apply (f_equal (fun x => Z.testbit x n)) in H.
  rewrite Z.land_spec in *. rewrite Z.lor_spec.
  destruct (Z.testbit f n), (Z.testbit b n), (Z.testbit c n);
    simpl in *; congruence.
Qed.

Lemma land_lor_nonzero (a b c d : Z) :
  Z.land a b <> 0 -> Z.land (Z.lor a c) (Z.lor b d) <> 0.
Proof.
  intros H H0. apply H. apply Z.bits_inj'. intros n _.
  apply (f_equal (fun x => Z.testbit x n)) in H0.
  rewrite Z.bits_0 in *. rewrite Z.land_spec in *.
  rewrite !Z.lor_spec in H0.
  destruct (Z.testbit a n), (Z.testbit b n); simpl in *; auto.
Qed.

Section MkfsClaims.

Context {K : btrfs_uapi}.
Variable E : environment.

Lemma select_meta_profile_claimed (metadata_profile : Z) (mixed : bool)
  (n : nat) :
  select_meta_profile metadata_profile mixed (Z.of_nat n)
  = claimed_meta_profile metadata_profile mixed n.
Proof.
  unfold select_meta_profile, claimed_meta_profile.
  destruct (metadata_profile <? 0); [|reflexivity].
  destruct mixed; simpl; [reflexivity|].
  destruct (Nat.ltb_spec 1 n) as [H|H].
  - replace (Z.of_nat n >? 1) with true; [reflexivity|].
    symmetry. apply Z.gtb_lt. lia.
  - replace (Z.of_nat n >? 1) with false; [reflexivity|].
    symmetry. rewrite Z.gtb_ltb. apply Z.ltb_ge. lia.
Qed.

Lemma select_data_prof_claimed (data_profile : Z) (mixed : bool) (n : nat) :
  select_data_prof data_profile mixed (Z.of_nat n)
  = claimed_data_profile data_profile mixed n.
Proof.
  unfold select_data_prof, claimed_data_profile.
  destruct (Z.eqb_spec data_profile 0) as [H0|H0].
  - destruct mixed; simpl; [exact H0|].
    destruct (Nat.ltb_spec 1 n) as [H|H].
    + replace (Z.of_nat n >? 1) with true; [reflexivity|].
      symmetry. apply Z.gtb_lt. lia.
    + replace (Z.of_nat n >? 1) with false; [exact H0|].
      symmetry. rewrite Z.gtb_ltb. apply Z.ltb_ge. lia.
  - now rewrite andb_false_r.
Qed.

Lemma mkfs_incompat_flags_raid56 (features : Z) (mixed : bool)
  (dp mp ns ps : Z) :
  BTRFS_BLOCK_GROUP_RAID56_MASK
  = Z.lor BTRFS_BLOCK_GROUP_RAID5 BTRFS_BLOCK_GROUP_RAID6 ->
  has_bit_of dp BTRFS_BLOCK_GROUP_RAID5 \/
  has_bit_of dp BTRFS_BLOCK_GROUP_RAID6 \/
  has_bit_of mp BTRFS_BLOCK_GROUP_RAID5 \/
  has_bit_of mp BTRFS_BLOCK_GROUP_RAID6 ->
  Z.land (mkfs_incompat_flags features mixed dp mp ns ps)
    BTRFS_FEATURE_INCOMPAT_RAID56
  = BTRFS_FEATURE_INCOMPAT_RAID56.
Proof.
  unfold has_bit_of, mkfs_incompat_flags. intros Hmask Hbit. cbv zeta.
  assert (Hnz : Z.land (Z.lor dp mp) BTRFS_BLOCK_GROUP_RAID56_MASK <> 0).
  { rewrite Hmask.
    destruct Hbit as [H|[H|[H|H]]].
    - now apply land_lor_nonzero.
    - rewrite (Z.lor_comm BTRFS_BLOCK_GROUP_RAID5).
      now apply land_lor_nonzero.
    - rewrite (Z.lor_comm dp). now apply land_lor_nonzero.
    - rewrite (Z.lor_comm dp), (Z.lor_comm BTRFS_BLOCK_GROUP_RAID5).
      now apply land_lor_nonzero. }
  apply Z.eqb_neq in Hnz. rewrite Hnz. cbn [negb].
  destruct (negb (_ =? 0)); destruct (ns >? ps);
    repeat first [apply land_lor_same | apply land_lor_more].
Qed.

Lemma mkfs_incompat_flags_raid1c34 (features : Z) (mixed : bool)
  (dp mp ns ps : Z) :
  has_bit_of dp BTRFS_BLOCK_GROUP_RAID1C3 \/
  has_bit_of dp BTRFS_BLOCK_GROUP_RAID1C4 \/
  has_bit_of mp BTRFS_BLOCK_GROUP_RAID1C3 \/
  has_bit_of mp BTRFS_BLOCK_GROUP_RAID1C4 ->
  Z.land (mkfs_incompat_flags features mixed dp mp ns ps)
    BTRFS_FEATURE_INCOMPAT_RAID1C34
  = BTRFS_FEATURE_INCOMPAT_RAID1C34.
Proof.
  unfold has_bit_of, mkfs_incompat_flags. intros Hbit. cbv zeta.
  assert (Hnz : Z.land (Z.lor dp mp)
                  (Z.lor BTRFS_BLOCK_GROUP_RAID1C3 BTRFS_BLOCK_GROUP_RAID1C4)
                <> 0).
  { destruct Hbit as [H|[H|[H|H]]].
    - now apply land_lor_nonzero.
    - rewrite (Z.lor_comm BTRFS_BLOCK_GROUP_RAID1C3).
      now apply land_lor_nonzero.
    - rewrite (Z.lor_comm dp). now apply land_lor_nonzero.
    - rewrite (Z.lor_comm dp), (Z.lor_comm BTRFS_BLOCK_GROUP_RAID1C3).
      now apply land_lor_nonzero. }
  apply Z.eqb_neq in Hnz. rewrite Hnz. cbn [negb].
  destruct (ns >? ps);
    repeat first [apply land_lor_same | apply land_lor_more].
Qed.

(** The plan of a run, read off its events. *)
Lemma run_plan (fuel : nat) (a : mkfs_args) (w : world) (res : py_result)
  (w' : world) (evs : list event) :
  pybtrfs_mkfs E fuel a w = Some (res, w') ->
  trace w' = trace w ++ evs ->
  exists page_size,
    Forall
      (planned_event
         (mkfs_incompat_flags (kw_features a) (kw_mixed a)
            (select_data_prof (kw_data_profile a) (kw_mixed a)
               (Z.of_nat (List.length (kw_devices a))))
            (select_meta_profile (kw_metadata_profile a) (kw_mixed a)
               (Z.of_nat (List.length (kw_devices a))))
            (kw_nodesize a) page_size)
         (select_data_prof (kw_data_profile a) (kw_mixed a)
            (Z.of_nat (List.length (kw_devices a))))
         (select_meta_profile (kw_metadata_profile a) (kw_mixed a)
            (Z.of_nat (List.length (kw_devices a))))
         (kw_mixed a) (negb (kw_no_discard a))) evs /\
    incl (opened evs) (closed evs) /\
    run_shape a (List.length (kw_devices a)) res evs.
Proof.
  intros Hrun Ht.
  destruct (pybtrfs_mkfs_spec E fuel a w res w' Hrun)
    as (evs' & ps & Ht' & Hplan & Hcl & Hshape).
  rewrite Ht in Ht'. apply app_inv_head in Ht'. subst evs'.
  exists ps. auto.
Qed.

(** C7.  In every run of [mkfs], each stage that takes a profile is entered
    with the profiles of the specification's selection rule: the metadata
    profile is [claimed_meta_profile], the data profile is
    [claimed_data_profile], both taken at the number of devices given. *)
Theorem mkfs_profile_selection (fuel : nat) (a : mkfs_args) (w : world)
  (res : py_result) (w' : world) (evs : list event) :
  pybtrfs_mkfs E fuel a w = Some (res, w') ->
  trace w' = trace w ++ evs ->
  forall s,
    In (Enter s) evs ->
    stage_profiles
      (claimed_data_profile (kw_data_profile a) (kw_mixed a)
         (List.length (kw_devices a)))
      (claimed_meta_profile (kw_metadata_profile a) (kw_mixed a)
         (List.length (kw_devices a)))
      s.
Proof.
  intros Hrun Ht s Hin.
  destruct (run_plan fuel a w res w' evs Hrun Ht) as (ps & Hplan & _).
  rewrite Forall_forall in Hplan. specialize (Hplan _ Hin).
  rewrite select_meta_profile_claimed, select_data_prof_claimed in Hplan.
  simpl in Hplan.
  destruct Hplan as [H|[H|[H|H]]]; subst s; simpl; auto.
Qed.

(** C9.  In every run of [mkfs], the feature flags given to [make_btrfs]
    and to the metadata bootstrap contain the RAID56 incompat flag when the
    data or metadata profile (after the defaults) has a RAID5 or RAID6 bit,
    and the RAID1C34 incompat flag when one of them has a RAID1C3 or RAID1C4
    bit, whatever the [features] argument was. *)
Theorem mkfs_raid_feature_flags (fuel : nat) (a : mkfs_args) (w : world)
  (res : py_result) (w' : world) (evs : list event) :
  BTRFS_BLOCK_GROUP_RAID56_MASK
  = Z.lor BTRFS_BLOCK_GROUP_RAID5 BTRFS_BLOCK_GROUP_RAID6 ->
  pybtrfs_mkfs E fuel a w = Some (res, w') ->
  trace w' = trace w ++ evs ->
  let dp := select_data_prof (kw_data_profile a) (kw_mixed a)
              (Z.of_nat (List.length (kw_devices a))) in
  let mp := select_meta_profile (kw_metadata_profile a) (kw_mixed a)
              (Z.of_nat (List.length (kw_devices a))) in
  forall e f,
    In e evs -> feature_flags_of e = Some f ->
    (has_bit_of dp BTRFS_BLOCK_GROUP_RAID5 \/
     has_bit_of dp BTRFS_BLOCK_GROUP_RAID6 \/
     has_bit_of mp BTRFS_BLOCK_GROUP_RAID5 \/
     has_bit_of mp BTRFS_BLOCK_GROUP_RAID6 ->
     Z.land f BTRFS_FEATURE_INCOMPAT_RAID56
     = BTRFS_FEATURE_INCOMPAT_RAID56) /\
    (has_bit_of dp BTRFS_BLOCK_GROUP_RAID1C3 \/
     has_bit_of dp BTRFS_BLOCK_GROUP_RAID1C4 \/
     has_bit_of mp BTRFS_BLOCK_GROUP_RAID1C3 \/
     has_bit_of mp BTRFS_BLOCK_GROUP_RAID1C4 ->
     Z.land f BTRFS_FEATURE_INCOMPAT_RAID1C34
     = BTRFS_FEATURE_INCOMPAT_RAID1C34).
Proof.
  intros Hmask Hrun Ht dp mp e f Hin Hf.
  destruct (run_plan fuel a w res w' evs Hrun Ht) as (ps & Hplan & _).
  rewrite Forall_forall in Hplan. specialize (Hplan _ Hin).
  fold dp mp in Hplan.
  assert (Heq : f = mkfs_incompat_flags (kw_features a) (kw_mixed a) dp mp
                      (kw_nodesize a) ps).
  { destruct e as [c r|s|i p]; simpl in Hf; try discriminate.
    - destruct c; try discriminate. simpl in Hplan. congruence.
    - destruct s; try discriminate. simpl in Hplan.
      destruct Hplan as [H|[H|[H|H]]]; congruence. }
  subst f. split.
  - now apply mkfs_incompat_flags_raid56.
  - now apply mkfs_incompat_flags_raid1c34.
Qed.

End MkfsClaims.

Section RunClaims.

Context {K : btrfs_uapi}.
Variable E : environment.


Lemma mkfs_prepared_stops (fuel : nat) (a : mkfs_args) (paths : list string)
  (fs_uuid : string) (mp dp inc ns : Z)
  (ctx : list prepare_device_progress) (w : world) :
  let p0 := nth O ctx default_progress in
  (prepare_ret p0 <> 0 ->
   exists w',
     mkfs_prepared E fuel a paths fs_uuid mp dp inc ns ctx w
     = Some (PyErr_OSError (- prepare_ret p0), w')) /\
  (prepare_ret p0 = 0 -> kw_byte_count a <> 0 ->
   kw_byte_count a > dev_byte_count p0 ->
   exists w',
     mkfs_prepared E fuel a paths fs_uuid mp dp inc ns ctx w
     = Some (PyErr_OSError ENOSPC, w')).
Proof.
  cbv zeta. unfold mkfs_prepared. cbv zeta. split.
  - intros Hp. apply Z.eqb_neq in Hp. rewrite Hp. cbn [negb].
    destruct (out_close_spec E (prepare_ret (nth O ctx default_progress))
                EmptyString 0 ctx w) as (evs & _ & _ & Hres).
    destruct (out_close E _ _ _ ctx w) as [res w']. simpl in Hres.
    exists w'. rewrite Hres. unfold result_of. now rewrite Hp.
  - intros Hp Hbc Hgt. rewrite Hp. cbn [Z.eqb negb].
    apply Z.eqb_neq in Hbc. rewrite Hbc.
    replace (kw_byte_count a >? dev_byte_count (nth O ctx default_progress))
      with true by (symmetry; apply Z.gtb_lt; lia).
    cbn [negb andb].
    destruct (out_close_spec E (- ENOSPC) EmptyString 0 ctx w)
      as (evs & _ & _ & Hres).
    destruct (out_close E _ _ _ ctx w) as [res w']. simpl in Hres.
    exists w'. rewrite Hres. reflexivity.
Qed.

End RunClaims.

(** * The run returns *)

Section Returns.

Context {K : btrfs_uapi}.
Variable E : environment.

Lemma returns_and_then (m k : step) :
  returns m -> returns k -> returns (and_then m k).
Proof.
  intros Hm Hk w. unfold and_then.
  destruct (Hm w) as [[r w1] ->].
  destruct (r =? 0); [apply Hk | eauto].
Qed.

Lemma returns_total (f : world -> Z * world) : returns (total f).
Proof. intros w. unfold total. eauto. Qed.

Lemma returns_lib (c : lib_call) : returns (lib E c).
Proof. intros w. unfold lib. destruct (call E c w). eauto. Qed.

Lemma returns_when (b : bool) (m : step) : returns m -> returns (when b m).
Proof.
  intros Hm. unfold when. destruct b; [exact Hm|].
  intros w. unfold skip. eauto.
Qed.

(** With well-formed block-group leaves shorter than the fuel, a run of
    [mkfs] returns. *)
Lemma pybtrfs_mkfs_returns (fuel : nat) (a : mkfs_args) (w : world) :
  BTRFS_BLOCK_GROUP_ITEM_KEY <> 0 ->
  (forall h, well_formed_tree (block_groups_on_disk E h) /\
             (List.length (block_groups_on_disk E h) < fuel)%nat) ->
  exists res w', pybtrfs_mkfs E fuel a w = Some (res, w').
Proof.
  intros Hkey Hdisk.
  assert (Htrees : forall inc dp mp mixed ss dd ctx,
             returns (mkfs_trees E fuel inc dp mp mixed ss dd ctx)).
  { intros inc dp mp mixed ss dd ctx. unfold mkfs_trees.
    repeat first
      [ apply returns_and_then
      | apply returns_total
      | apply returns_lib
      | apply returns_when ].
    intros w0.
    destruct (Hdisk (calls (trace w0))) as [Hwf Hlen].
    destruct (cleanup_temp_chunks_spec E dp mp mp Hkey fuel dd
                (set_items (block_groups_on_disk E (calls (trace w0))) w0)
                Hwf Hlen)
      as (r & w1 & _ & _ & _ & Hrun & _).
    rewrite Hrun. eauto. }
  assert (Hprep : forall paths u mp dp inc ns ctx w0,
             exists res w',
               mkfs_prepared E fuel a paths u mp dp inc ns ctx w0
               = Some (res, w')).
  { intros paths u mp dp inc ns ctx w0. unfold mkfs_prepared. cbv zeta.
    assert (Hsome : forall t : py_result * world,
               exists res w', Some t = Some (res, w'))
      by (intros [res w']; eauto).
    destruct (negb (_ =? 0)); [apply Hsome|].
    destruct (negb _ && _); [apply Hsome|].
    destruct (call E (MakeBtrfs _ _ _ _ _ _) w0) as [m w1].
    destruct (negb (_ =? 0)); [apply Hsome|].
    destruct (call E (OpenCtreeFsInfo _) w1) as [o w2].
    destruct (ret o =? 0); [apply Hsome|].
    destruct (Htrees inc dp mp (kw_mixed a) (kw_sectorsize a)
                (negb (kw_no_discard a)) ctx w2) as [[r w3] ->].
    destruct (r =? 0); [|apply Hsome].
    destruct (call E SuperTotalBytes w3) as [n w4]. apply Hsome. }
  assert (Hsome : forall t : py_result * world,
             exists res w', Some t = Some (res, w'))
    by (intros [res w']; eauto).
  unfold pybtrfs_mkfs, mkfs_released. cbv zeta.
  destruct (_ <? 1); [apply Hsome|].
  destruct (call E (Calloc _) w) as [c w1].
  destruct (ret c =? 0); [apply Hsome|].
  destruct (device_paths (kw_devices a)) as [e|paths]; [apply Hsome|].
  destruct (_ <=? _); [apply Hsome|].
  match goal with
  | |- context [match kw_uuid a with EmptyString => ?x | String c0 s0 => ?y end] =>
      destruct (match kw_uuid a with EmptyString => x | String c0 s0 => y end)
        as [bad w2]
  end.
  destruct bad; [apply Hsome|].
  destruct (call E Sysconf_PAGE_SIZE w2) as [pg w3].
  match goal with
  | |- context [if negb (kw_force a) then ?x else ?y] =>
      destruct (if negb (kw_force a) then x else y) as [r w4]
  end.
  destruct (negb (r =? 0)); [apply Hsome|].
  destruct (call E (Calloc _) w4) as [t w5].
  destruct (call E (Calloc _) w5) as [c2 w6].
  destruct (_ || _); [apply Hsome|].
  destruct (launch_workers _ _ _ _ _ _ _) as [[e|ctx] w7];
    [apply Hsome | apply Hprep].
Qed.

End Returns.

(** * The statements on sample runs *)

Ltac pick_event := repeat first [left; reflexivity | right].

Lemma obliging_tree_ops_succeed (l : list item) :
  tree_ops_succeed (obliging_env l).
Proof. intros h c. destruct c; simpl; try exact I; lia. Qed.

Lemma from_initial_world (h : history) : h = trace initial_world ++ h.
Proof. reflexivity. Qed.

(** C2, with the failure on the second device: the worker of /dev/loop1
    records [-ENOENT], and the run still calls [make_btrfs] and commits two
    transactions before it raises. *)
Lemma mkfs_late_failure_after_commit :
  late_failure_run = Some (run_of late_failure_run) /\
  List.length (kw_devices (sample_args two_devices)) = 2%nat /\
  map (fun x => (fst x, prepare_ret (snd x)))
    (prepared (trace (snd (run_of late_failure_run))))
  = [(O, 0); (1%nat, -2)] /\
  filter mutation (trace (snd (run_of late_failure_run)))
  = [ Lib (MakeBtrfs 3 GiB 16384 4096 865 0) (answer 0 0 0);
      Lib CommitTransaction (answer 0 0 0);
      Lib CommitTransaction (answer 0 0 0) ] /\
  ~ Forall (fun e => mutation e = false)
      (trace (snd (run_of late_failure_run))).
Proof.
  split; [vm_compute; reflexivity|].
  split; [reflexivity|].
  split; [vm_compute; reflexivity|].
  split; [vm_compute; reflexivity|].
  intros H.
  assert (Hb : forallb (fun e => negb (mutation e))
                 (trace (snd (run_of late_failure_run))) = true).
  { apply forallb_forall. rewrite Forall_forall in H.
    intros e He. rewrite (H e He). reflexivity. }
  assert (Hf : forallb (fun e => negb (mutation e))
                 (trace (snd (run_of late_failure_run))) = false)
    by (vm_compute; reflexivity).
  rewrite Hf in Hb. discriminate Hb.
Qed.

Lemma mkfs_profile_selection_witness :
  sample_run = Some (run_of sample_run) /\
  In (Enter (CreateRaidGroups 0 RAID1 false))
    (trace (snd (run_of sample_run))) /\
  stage_profiles
    (claimed_data_profile (K := linux_uapi) 0 false 2)
    (claimed_meta_profile (K := linux_uapi) (-1) false 2)
    (CreateRaidGroups 0 RAID1 false).
Proof.
  assert (Hrun : pybtrfs_mkfs (K := linux_uapi)
                   (obliging_env sample_groups) 10
                   (sample_args two_devices) initial_world
                 = Some (fst (run_of sample_run), snd (run_of sample_run)))
    by (vm_compute; reflexivity).
  assert (Hin : In (Enter (CreateRaidGroups 0 RAID1 false))
                  (trace (snd (run_of sample_run))))
    by (vm_compute; pick_event).
  split; [vm_compute; reflexivity|]. split; [exact Hin|].
  exact (mkfs_profile_selection (K := linux_uapi)
           (obliging_env sample_groups) 10 (sample_args two_devices)
           initial_world (fst (run_of sample_run)) (snd (run_of sample_run))
           (trace (snd (run_of sample_run)))
           Hrun (from_initial_world _) _ Hin).
Defined.

Lemma mkfs_raid_feature_flags_witness :
  BTRFS_BLOCK_GROUP_RAID56_MASK (btrfs_uapi := linux_uapi)
  = Z.lor (BTRFS_BLOCK_GROUP_RAID5 (btrfs_uapi := linux_uapi))
          (BTRFS_BLOCK_GROUP_RAID6 (btrfs_uapi := linux_uapi)) /\
  raid5_run = Some (run_of raid5_run) /\
  In (Lib (MakeBtrfs 3 GiB 16384 4096 993 0) (answer 0 0 0))
    (trace (snd (run_of raid5_run))) /\
  Z.land 993 (BTRFS_FEATURE_INCOMPAT_RAID56 (btrfs_uapi := linux_uapi))
  = BTRFS_FEATURE_INCOMPAT_RAID56 (btrfs_uapi := linux_uapi).
Proof.
  assert (Hmask : BTRFS_BLOCK_GROUP_RAID56_MASK (btrfs_uapi := linux_uapi)
                  = Z.lor (BTRFS_BLOCK_GROUP_RAID5 (btrfs_uapi := linux_uapi))
                      (BTRFS_BLOCK_GROUP_RAID6 (btrfs_uapi := linux_uapi)))
    by reflexivity.
  assert (Hrun : pybtrfs_mkfs (K := linux_uapi)
                   (obliging_env sample_groups) 10 raid5_args initial_world
                 = Some (fst (run_of raid5_run), snd (run_of raid5_run)))
    by (vm_compute; reflexivity).
  assert (Hin : In (Lib (MakeBtrfs 3 GiB 16384 4096 993 0) (answer 0 0 0))
                  (trace (snd (run_of raid5_run))))
    by (vm_compute; pick_event).
  split; [exact Hmask|]. split; [vm_compute; reflexivity|].
  split; [exact Hin|].
  apply (mkfs_raid_feature_flags (K := linux_uapi)
           (obliging_env sample_groups) 10 raid5_args initial_world
           (fst (run_of raid5_run)) (snd (run_of raid5_run))
           (trace (snd (run_of raid5_run)))
           Hmask Hrun (from_initial_world _) _ 993 Hin eq_refl).
  left. vm_compute. discriminate.
Defined.

(** * The vendored UUID routines *)

Lemma check_below (f : Z -> bool) (n : nat) :
  forallb f (map Z.of_nat (seq 0 n)) = true ->
  forall d, 0 <= d < Z.of_nat n -> f d = true.
Proof.
  intros H d Hd. rewrite forallb_forall in H. apply H.
  apply in_map_iff. exists (Z.to_nat d).
  split; [lia | apply in_seq; lia].
Qed.

Lemma check_ascii (f : ascii -> bool) :
  forallb f (map ascii_of_nat (seq 0 256)) = true ->
  forall c, f c = true.
Proof.
  intros H c. rewrite forallb_forall in H. apply H.
  apply in_map_iff. exists (nat_of_ascii c).
  split; [apply ascii_nat_embedding | apply in_seq].
  pose proof (nat_ascii_bounded c). lia.
Qed.

Lemma hex_nibble_hex_digit (upper : bool) (d : Z) :
  0 <= d < 16 -> hex_nibble (hex_digit upper d) = d.
Proof.
  intros Hd. apply Z.eqb_eq.
  apply (check_below (fun d => hex_nibble (hex_digit upper d) =? d) 16);
    [destruct upper; vm_compute; reflexivity | exact Hd].
Qed.

Lemma byte_of_nibbles (b : Z) :
  0 <= b < 256 -> Z.lor (Z.shiftl (b / 16) 4) (b mod 16) mod 256 = b.
Proof.
  intros Hb. apply Z.eqb_eq.
  apply (check_below
           (fun b => Z.lor (Z.shiftl (b / 16) 4) (b mod 16) mod 256 =? b)
           256); [vm_compute; reflexivity | exact Hb].
Qed.

Lemma nibbles_of_byte (h l : Z) :
  0 <= h < 16 -> 0 <= l < 16 ->
  let b := Z.lor (Z.shiftl h 4) l mod 256 in
  b / 16 = h /\ b mod 16 = l /\ 0 <= b < 256.
Proof.
  intros Hh Hl.
  set (g := fun h l : Z =>
              let b := Z.lor (Z.shiftl h 4) l mod 256 in
              (b / 16 =? h) && (b mod 16 =? l) && (0 <=? b) && (b <? 256)).
  assert (H : forallb (g h) (map Z.of_nat (seq 0 16)) = true).
  { apply (check_below
             (fun h => forallb (g h) (map Z.of_nat (seq 0 16))) 16);
      [vm_compute; reflexivity | exact Hh]. }
  pose proof (check_below (g h) 16 H l Hl) as H'. unfold g in H'.
  cbv zeta in H'.
  apply andb_true_iff in H'. destruct H' as [H' H4].
  apply andb_true_iff in H'. destruct H' as [H' H3].
  apply andb_true_iff in H'. destruct H' as [H1 H2].
  cbv zeta. repeat split; lia.
Qed.

Lemma hex_nibble_range (c : ascii) : -1 <= hex_nibble c < 16.
Proof.
  assert (Hall : forallb
                   (fun c => (-1 <=? hex_nibble c) && (hex_nibble c <? 16))
                   (map ascii_of_nat (seq 0 256)) = true)
    by (vm_compute; reflexivity).
  pose proof (check_ascii _ Hall c) as H.
  cbv beta in H. apply andb_true_iff in H. lia.
Qed.

Lemma hex_nibble_is_hex (c : ascii) :
  is_hex c = negb (hex_nibble c <? 0).
Proof.
  assert (Hall : forallb
                   (fun c => Bool.eqb (is_hex c) (negb (hex_nibble c <? 0)))
                   (map ascii_of_nat (seq 0 256)) = true)
    by (vm_compute; reflexivity).
  pose proof (check_ascii _ Hall c) as H.
  cbv beta in H. now apply Bool.eqb_prop in H.
Qed.

Lemma hex_digit_hex_nibble (c : ascii) :
  0 <= hex_nibble c -> hex_digit false (hex_nibble c) = ascii_lower c.
Proof.
  intros Hc.
  assert (Hall : forallb
                   (fun c => (hex_nibble c <? 0)
                             || Ascii.eqb (hex_digit false (hex_nibble c))
                                  (ascii_lower c))
                   (map ascii_of_nat (seq 0 256)) = true)
    by (vm_compute; reflexivity).
  pose proof (check_ascii _ Hall c) as H.
  cbv beta in H. apply orb_true_iff in H. destruct H as [H|H].
  - apply Z.ltb_lt in H. lia.
  - now apply Ascii.eqb_eq.
Qed.

Lemma not_negative (x : Z) : 0 <= x -> (x <? 0) = false.
Proof. intros H. apply Z.ltb_ge. exact H. Qed.

Lemma sixteen_bytes (uu : list Z) :
  List.length uu = 16%nat ->
  exists b0 b1 b2 b3 b4 b5 b6 b7 b8 b9 b10 b11 b12 b13 b14 b15,
    uu = [b0; b1; b2; b3; b4; b5; b6; b7; b8; b9; b10; b11; b12; b13; b14;
          b15].
Proof.
  intros H.
  do 16 (destruct uu as [|? uu]; [discriminate H|]).
  destruct uu; [|discriminate H].
  repeat eexists.
Qed.

Lemma loop_pair_step (fuel : nat) (s : string) (i idx : nat) (uu : list Z) :
  (i <? 36)%nat = true ->
  dash_position i = false ->
  dash_position (S i) = false ->
  uuid_parse_loop (S fuel) s i idx uu
  = if (hex_nibble (char_at s i) <? 0) || (hex_nibble (char_at s (S i)) <? 0)
    then (-1, uu)
    else uuid_parse_loop fuel s (S (S i)) (S idx)
           (store uu idx (byte_of_digits s (i, S i))).
Proof.
  intros H1 H2 H3. cbn [uuid_parse_loop]. rewrite H1, H2, H3. reflexivity.
Qed.

Lemma loop_dash_step (fuel : nat) (s : string) (i idx : nat) (uu : list Z) :
  (i <? 36)%nat = true ->
  dash_position i = true ->
  uuid_parse_loop (S fuel) s i idx uu = uuid_parse_loop fuel s (S i) idx uu.
Proof.
  intros H1 H2. cbn [uuid_parse_loop]. rewrite H1, H2. reflexivity.
Qed.

Lemma loop_end (fuel : nat) (s : string) (idx : nat) (uu : list Z) :
  uuid_parse_loop fuel s 36 idx uu = (0, uu).
Proof. destruct fuel; reflexivity. Qed.

Lemma uuid_parse_loop_pairs (s : string) (uu : list Z) :
  uuid_parse_loop 36 s 0 0 uu = parse_pairs s uuid_pairs 0 uu.
Proof.
  unfold uuid_pairs. cbn [parse_pairs fst snd].
  repeat first [ rewrite loop_pair_step by reflexivity
               | rewrite loop_dash_step by reflexivity ].
  rewrite loop_end. reflexivity.
Qed.

Lemma store_middle (pre post : list Z) (x v : Z) :
  store (pre ++ x :: post) (List.length pre) v = pre ++ v :: post.
Proof. induction pre as [|b pre IH]; simpl; [reflexivity | now rewrite IH]. Qed.

Lemma parse_pairs_code (s : string) (ps : list (nat * nat)) :
  forall (idx : nat) (uu : list Z),
    fst (parse_pairs s ps idx uu)
    = if forallb (fun p => is_hex (char_at s (fst p))
                           && is_hex (char_at s (snd p))) ps
      then 0 else -1.
Proof.
  induction ps as [|p ps IH]; intros idx uu; simpl; [reflexivity|].
  rewrite !hex_nibble_is_hex.
  destruct (hex_nibble (char_at s (fst p)) <? 0); simpl; [reflexivity|].
  destruct (hex_nibble (char_at s (snd p)) <? 0); simpl; [reflexivity|].
  apply IH.
Qed.

Lemma parse_pairs_bytes (s : string) (ps : list (nat * nat)) :
  forall (pre old post : list Z),
    List.length old = List.length ps ->
    fst (parse_pairs s ps (List.length pre) (pre ++ old ++ post)) = 0 ->
    snd (parse_pairs s ps (List.length pre) (pre ++ old ++ post))
    = pre ++ map (byte_of_digits s) ps ++ post.
Proof.
  induction ps as [|p ps IH]; intros pre old post Hlen Hok.
  - destruct old; [reflexivity | discriminate Hlen].
  - destruct old as [|x old]; [discriminate Hlen|].
    simpl in Hok |- *.
    destruct (_ || _); [discriminate Hok|].
    rewrite store_middle in Hok |- *.
    change (pre ++ byte_of_digits s p :: old ++ post)
      with (pre ++ [byte_of_digits s p] ++ old ++ post) in Hok |- *.
    rewrite app_assoc in Hok |- *.
    replace (S (List.length pre))
      with (List.length (pre ++ [byte_of_digits s p])) in Hok |- *
      by (rewrite length_app; simpl; lia).
    rewrite (IH _ old post) by (auto; simpl in Hlen; lia).
    now rewrite <- app_assoc.
Qed.

Lemma forallb_flat_map {A B : Type} (f : B -> bool) (g : A -> list B)
  (l : list A) :
  forallb f (flat_map g l) = forallb (fun x => forallb f (g x)) l.
Proof.
  induction l as [|x l IH]; simpl; [reflexivity|].
  now rewrite forallb_app, IH.
Qed.

Lemma digits_are_pairs (s : string) :
  forallb (fun i => is_hex (char_at s i))
    (filter (fun i => negb (dash_position i)) (seq 0 36))
  = forallb (fun p => is_hex (char_at s (fst p))
                      && is_hex (char_at s (snd p))) uuid_pairs.
Proof.
  change (filter (fun i => negb (dash_position i)) (seq 0 36))
    with (flat_map (fun p : nat * nat => [fst p; snd p]) uuid_pairs).
  rewrite forallb_flat_map. unfold uuid_pairs. cbn [forallb fst snd].
  rewrite !andb_true_r. reflexivity.
Qed.

(** The result code of [uuid_parse]. *)
Lemma uuid_parse_code (s : string) (buf : list Z) :
  fst (uuid_parse s buf) = if uuid_well_formed s then 0 else -1.
Proof.
  unfold uuid_parse, uuid_well_formed.
  destruct (String.length s =? 36)%nat; cbn [negb orb andb fst];
    [|reflexivity].
  destruct (Ascii.eqb (char_at s 8) "-"); cbn [negb orb andb fst];
    [|reflexivity].
  destruct (Ascii.eqb (char_at s 13) "-"); cbn [negb orb andb fst];
    [|reflexivity].
  destruct (Ascii.eqb (char_at s 18) "-"); cbn [negb orb andb fst];
    [|reflexivity].
  destruct (Ascii.eqb (char_at s 23) "-"); cbn [negb orb andb fst];
    [|reflexivity].
  rewrite uuid_parse_loop_pairs, parse_pairs_code, digits_are_pairs.
  reflexivity.
Qed.

(** The bytes that an accepted string leaves in a 16-byte buffer. *)
Lemma uuid_parse_bytes (s : string) (buf : list Z) :
  List.length buf = 16%nat ->
  fst (uuid_parse s buf) = 0 ->
  snd (uuid_parse s buf) = map (byte_of_digits s) uuid_pairs.
Proof.
  intros Hbuf. unfold uuid_parse.
  destruct (negb _); [intros H; discriminate H|].
  destruct (_ || _); [intros H; discriminate H|].
  rewrite uuid_parse_loop_pairs. intros Hok.
  pose proof (parse_pairs_bytes s uuid_pairs [] buf [] Hbuf) as H.
  cbn [List.length app] in H. rewrite app_nil_r in H.
  rewrite (H Hok). apply app_nil_r.
Qed.

Lemma nibble_pair (c d : ascii) (rest : string) :
  is_hex c = true ->
  is_hex d = true ->
  hex_byte false (Z.lor (Z.shiftl (hex_nibble c) 4) (hex_nibble d) mod 256)
    rest
  = String (ascii_lower c) (String (ascii_lower d) rest) /\
  0 <= Z.lor (Z.shiftl (hex_nibble c) 4) (hex_nibble d) mod 256 < 256.
Proof.
  rewrite !hex_nibble_is_hex. intros Hc Hd.
  apply negb_true_iff, Z.ltb_ge in Hc. apply negb_true_iff, Z.ltb_ge in Hd.
  pose proof (hex_nibble_range c). pose proof (hex_nibble_range d).
  destruct (nibbles_of_byte (hex_nibble c) (hex_nibble d))
    as (H1 & H2 & H3); [lia | lia |].
  unfold hex_byte. rewrite H1, H2.
  rewrite !hex_digit_hex_nibble by assumption. split; [reflexivity | exact H3].
Qed.

Lemma char_at_tail (c : ascii) (s : string) (i : nat) :
  char_at (String c s) (S i) = char_at s i.
Proof. reflexivity. Qed.

Lemma string_chars (s : string) :
  s = string_of_list (map (char_at s) (seq 0 (String.length s))).
Proof.
  induction s as [|c s IH]; [reflexivity|].
  cbn [String.length seq map string_of_list].
  rewrite <- seq_shift, map_map.
  change (char_at (String c s) 0) with c. f_equal.
  rewrite IH at 1. f_equal.
Qed.

Lemma well_formed_parts (s : string) :
  uuid_well_formed s = true ->
  String.length s = 36%nat /\
  char_at s 8 = "-"%char /\ char_at s 13 = "-"%char /\
  char_at s 18 = "-"%char /\ char_at s 23 = "-"%char /\
  forallb (fun p => is_hex (char_at s (fst p))
                    && is_hex (char_at s (snd p))) uuid_pairs = true.
Proof.
  unfold uuid_well_formed. rewrite digits_are_pairs. intros H.
  apply andb_true_iff in H. destruct H as [H H6].
  apply andb_true_iff in H. destruct H as [H H5].
  apply andb_true_iff in H. destruct H as [H H4].
  apply andb_true_iff in H. destruct H as [H H3].
  apply andb_true_iff in H. destruct H as [H1 H2].
  apply Nat.eqb_eq in H1. apply Ascii.eqb_eq in H2, H3, H4, H5.
  auto 10.
Qed.

(** X1.  [uuid_parse] returns 0 on the strings of 36 characters with dashes
    at 8, 13, 18 and 23 and hexadecimal digits elsewhere, and -1 on every
    other string, whatever the buffer holds. *)
Theorem uuid_parse_accepts (s : string) (buf : list Z) :
  fst (uuid_parse s buf) = if uuid_well_formed s then 0 else -1.
Proof. exact (uuid_parse_code s buf). Qed.

(** X2.  The bytes that a well-formed string leaves in a 16-byte buffer form
    a UUID, which [uuid_unparse] prints as the string in lower case. *)
Theorem uuid_unparse_parse (s : string) (buf : list Z) :
  List.length buf = 16%nat ->
  uuid_well_formed s = true ->
  is_uuid (snd (uuid_parse s buf)) /\
  uuid_unparse (snd (uuid_parse s buf)) = string_lower s.
Proof.
  intros Hbuf Hwf.
  assert (Hok : fst (uuid_parse s buf) = 0)
    by (rewrite uuid_parse_code, Hwf; reflexivity).
  rewrite (uuid_parse_bytes s buf Hbuf Hok).
  destruct (well_formed_parts s Hwf) as (Hlen & H8 & H13 & H18 & H23 & Hhex).
  unfold uuid_pairs in Hhex |- *. cbn [forallb fst snd] in Hhex.
  repeat match type of Hhex with
         | (_ && _) && _ = true =>
             let Ha := fresh "Ha" in
             let Hb := fresh "Hb" in
             apply andb_true_iff in Hhex; destruct Hhex as [Hhex' Hhex];
             apply andb_true_iff in Hhex'; destruct Hhex' as [Ha Hb]
         end.
  clear Hhex.
  unfold is_uuid, uuid_unparse, uuid_fmt, byte_of_digits.
  cbn [map nth fst snd List.length].
  repeat match goal with
         | Hc : is_hex ?c = true, Hd : is_hex ?d = true
           |- context [Z.lor (Z.shiftl (hex_nibble ?c) 4) (hex_nibble ?d)
                       mod 256] =>
             rewrite !(fun rest => proj1 (nibble_pair c d rest Hc Hd));
             pose proof (proj2 (nibble_pair c d EmptyString Hc Hd));
             generalize dependent
               (Z.lor (Z.shiftl (hex_nibble c) 4) (hex_nibble d) mod 256);
             intros
         end.
  split.
  - split; [reflexivity|]. repeat constructor; lia.
  - transitivity
      (string_lower (string_of_list (map (char_at s) (seq 0 36))));
      [|rewrite <- Hlen, <- string_chars; reflexivity].
    cbn [seq map string_of_list string_lower].
    rewrite H8, H13, H18, H23. reflexivity.
Qed.

Lemma uuid_unparse_parse_witness :
  List.length (repeat 0 16) = 16%nat /\
  uuid_well_formed "0f0e0d0c-0B0A-0908-0706-050403020100" = true /\
  uuid_unparse
    (snd (uuid_parse "0f0e0d0c-0B0A-0908-0706-050403020100" (repeat 0 16)))
  = "0f0e0d0c-0b0a-0908-0706-050403020100"%string.
Proof.
  split; [reflexivity|]. split; [vm_compute; reflexivity|].
  exact (proj2 (uuid_unparse_parse "0f0e0d0c-0B0A-0908-0706-050403020100"
                  (repeat 0 16) eq_refl eq_refl)).
Defined.

Lemma fmt_digits (upper : bool) (b : Z) (x y : ascii) :
  0 <= b < 256 ->
  x = hex_digit upper (b / 16) ->
  y = hex_digit upper (b mod 16) ->
  is_hex x && is_hex y = true /\
  Z.lor (Z.shiftl (hex_nibble x) 4) (hex_nibble y) mod 256 = b.
Proof.
  intros Hb -> ->.
  assert (H1 : 0 <= b / 16 < 16)
    by (split; [apply Z.div_pos | apply Z.div_lt_upper_bound]; lia).
  assert (H2 : 0 <= b mod 16 < 16) by (apply Z.mod_pos_bound; lia).
  rewrite !hex_nibble_is_hex, !hex_nibble_hex_digit by assumption.
  rewrite byte_of_nibbles by assumption.
  rewrite !not_negative by lia. split; reflexivity.
Qed.

(** X3.  Formatting a UUID, in lower or in upper case, and parsing the text
    gives the UUID back, whatever the buffer held. *)
Theorem uuid_parse_unparse (uu buf : list Z) (upper : bool) :
  is_uuid uu ->
  List.length buf = 16%nat ->
  uuid_parse (uuid_fmt uu upper) buf = (0, uu).
Proof.
  intros [Hlen Hbytes] Hbuf.
  destruct (sixteen_bytes uu Hlen)
    as (b0 & b1 & b2 & b3 & b4 & b5 & b6 & b7 & b8 & b9 & b10 & b11 & b12
        & b13 & b14 & b15 & ->).
  repeat match goal with
         | H : Forall _ (_ :: _) |- _ => inversion H; subst; clear H
         end.
  set (s := uuid_fmt _ upper).
  assert (Hchars :
    map (fun p => (char_at s (fst p), char_at s (snd p))) uuid_pairs
    = map (fun b => (hex_digit upper (b / 16), hex_digit upper (b mod 16)))
        [b0; b1; b2; b3; b4; b5; b6; b7; b8; b9; b10; b11; b12; b13; b14;
         b15]).
  { unfold s, uuid_fmt, hex_byte, uuid_pairs.
    cbn [map nth fst snd char_at String.get]. reflexivity. }
  assert (Hshape : (String.length s =? 36)%nat
                   && Ascii.eqb (char_at s 8) "-"
                   && Ascii.eqb (char_at s 13) "-"
                   && Ascii.eqb (char_at s 18) "-"
                   && Ascii.eqb (char_at s 23) "-" = true).
  { unfold s, uuid_fmt, hex_byte.
    cbn [nth char_at String.get String.length]. reflexivity. }
  clearbody s.
  assert (Hwf : uuid_well_formed s = true).
  { unfold uuid_well_formed. rewrite digits_are_pairs.
    rewrite Hshape. cbn [andb].
    unfold uuid_pairs in Hchars |- *. cbn [map fst snd] in Hchars.
    cbn [forallb fst snd].
    injection Hchars as E0 E0' E1 E1' E2 E2' E3 E3' E4 E4' E5 E5' E6 E6'
      E7 E7' E8 E8' E9 E9' E10 E10' E11 E11' E12 E12' E13 E13' E14 E14'
      E15 E15'.
    rewrite (proj1 (fmt_digits upper b0 _ _ ltac:(assumption) E0 E0')),
      (proj1 (fmt_digits upper b1 _ _ ltac:(assumption) E1 E1')),
      (proj1 (fmt_digits upper b2 _ _ ltac:(assumption) E2 E2')),
      (proj1 (fmt_digits upper b3 _ _ ltac:(assumption) E3 E3')),
      (proj1 (fmt_digits upper b4 _ _ ltac:(assumption) E4 E4')),
      (proj1 (fmt_digits upper b5 _ _ ltac:(assumption) E5 E5')),
      (proj1 (fmt_digits upper b6 _ _ ltac:(assumption) E6 E6')),
      (proj1 (fmt_digits upper b7 _ _ ltac:(assumption) E7 E7')),
      (proj1 (fmt_digits upper b8 _ _ ltac:(assumption) E8 E8')),
      (proj1 (fmt_digits upper b9 _ _ ltac:(assumption) E9 E9')),
      (proj1 (fmt_digits upper b10 _ _ ltac:(assumption) E10 E10')),
      (proj1 (fmt_digits upper b11 _ _ ltac:(assumption) E11 E11')),
      (proj1 (fmt_digits upper b12 _ _ ltac:(assumption) E12 E12')),
      (proj1 (fmt_digits upper b13 _ _ ltac:(assumption) E13 E13')),
      (proj1 (fmt_digits upper b14 _ _ ltac:(assumption) E14 E14')),
      (proj1 (fmt_digits upper b15 _ _ ltac:(assumption) E15 E15')).
    reflexivity. }
  assert (Hok : fst (uuid_parse s buf) = 0)
    by (rewrite uuid_parse_code, Hwf; reflexivity).
  pose proof (uuid_parse_bytes s buf Hbuf Hok) as Hsnd.
  destruct (uuid_parse s buf) as [r out]. cbn [fst snd] in Hok, Hsnd.
  subst r out. f_equal.
  unfold uuid_pairs in Hchars |- *. cbn [map fst snd] in Hchars |- *.
  unfold byte_of_digits. cbn [fst snd].
  injection Hchars as E0 E0' E1 E1' E2 E2' E3 E3' E4 E4' E5 E5' E6 E6'
    E7 E7' E8 E8' E9 E9' E10 E10' E11 E11' E12 E12' E13 E13' E14 E14'
    E15 E15'.
  rewrite (proj2 (fmt_digits upper b0 _ _ ltac:(assumption) E0 E0')),
    (proj2 (fmt_digits upper b1 _ _ ltac:(assumption) E1 E1')),
    (proj2 (fmt_digits upper b2 _ _ ltac:(assumption) E2 E2')),
    (proj2 (fmt_digits upper b3 _ _ ltac:(assumption) E3 E3')),
    (proj2 (fmt_digits upper b4 _ _ ltac:(assumption) E4 E4')),
    (proj2 (fmt_digits upper b5 _ _ ltac:(assumption) E5 E5')),
    (proj2 (fmt_digits upper b6 _ _ ltac:(assumption) E6 E6')),
    (proj2 (fmt_digits upper b7 _ _ ltac:(assumption) E7 E7')),
    (proj2 (fmt_digits upper b8 _ _ ltac:(assumption) E8 E8')),
    (proj2 (fmt_digits upper b9 _ _ ltac:(assumption) E9 E9')),
    (proj2 (fmt_digits upper b10 _ _ ltac:(assumption) E10 E10')),
    (proj2 (fmt_digits upper b11 _ _ ltac:(assumption) E11 E11')),
    (proj2 (fmt_digits upper b12 _ _ ltac:(assumption) E12 E12')),
    (proj2 (fmt_digits upper b13 _ _ ltac:(assumption) E13 E13')),
    (proj2 (fmt_digits upper b14 _ _ ltac:(assumption) E14 E14')),
    (proj2 (fmt_digits upper b15 _ _ ltac:(assumption) E15 E15')).
  reflexivity.
Qed.

Lemma uuid_parse_unparse_witness :
  is_uuid [15; 14; 13; 12; 11; 10; 9; 8; 7; 6; 5; 4; 3; 2; 1; 0] /\
  List.length (repeat 0 16) = 16%nat /\
  uuid_unparse_upper [15; 14; 13; 12; 11; 10; 9; 8; 7; 6; 5; 4; 3; 2; 1; 0]
  = "0F0E0D0C-0B0A-0908-0706-050403020100"%string /\
  uuid_parse "0F0E0D0C-0B0A-0908-0706-050403020100" (repeat 0 16)
  = (0, [15; 14; 13; 12; 11; 10; 9; 8; 7; 6; 5; 4; 3; 2; 1; 0]).
Proof.
  assert (Hu : is_uuid [15; 14; 13; 12; 11; 10; 9; 8; 7; 6; 5; 4; 3; 2; 1; 0])
    by (split; [reflexivity | repeat constructor; lia]).
  split; [exact Hu|]. split; [reflexivity|]. split; [reflexivity|].
  exact (uuid_parse_unparse
           [15; 14; 13; 12; 11; 10; 9; 8; 7; 6; 5; 4; 3; 2; 1; 0]
           (repeat 0 16) true Hu eq_refl).
Defined.









(** * More on the temporary chunk cleaner *)

Lemma StronglySorted_filter_app {A : Type} (R : A -> A -> Prop)
  (f : A -> bool) (l1 l2 : list A) :
  StronglySorted R (l1 ++ l2) -> StronglySorted R (filter f l1 ++ l2).
Proof.
  induction l1 as [|x l1 IH]; simpl; [auto|].
  intros H. inversion H as [|? ? Hs Hall]; subst.
  destruct (f x); [|auto].
  simpl. constructor; [auto|].
  rewrite Forall_app in Hall |- *. destruct Hall as [H1 H2].
  split; [|exact H2].
  rewrite Forall_forall in H1 |- *. intros y Hy.
  apply filter_In in Hy. apply H1. tauto.
Qed.

Lemma Forall_filter_app {A : Type} (P : A -> Prop) (f : A -> bool)
  (l1 l2 : list A) :
  Forall P (l1 ++ l2) -> Forall P (filter f l1 ++ l2).
Proof.
  rewrite !Forall_app. intros [H1 H2]. split; [|exact H2].
  rewrite Forall_forall in H1 |- *. intros y Hy.
  apply filter_In in Hy. apply H1. tauto.
Qed.

Lemma filter_none {A : Type} (f : A -> bool) (l : list A) :
  Forall (fun x => f x = false) l -> filter f l = [].
Proof.
  induction 1 as [|x l Hx _ IH]; simpl; [reflexivity|]. now rewrite Hx.
Qed.

Lemma filter_all {A : Type} (f : A -> bool) (l : list A) :
  Forall (fun x => f x = true) l -> filter f l = l.
Proof.
  induction 1 as [|x l Hx _ IH]; simpl; [reflexivity|].
  now rewrite Hx, IH.
Qed.

Section CleanerExtras.

Context {K : btrfs_uapi}.
Variable E : environment.

Lemma cleanup_leaf (fuel : nat) (dp mp sp : Z) (dd : bool) (w : world) :
  BTRFS_BLOCK_GROUP_ITEM_KEY <> 0 ->
  well_formed_tree (items w) ->
  (List.length (items w) < fuel)%nat ->
  exists r w',
    cleanup_temp_chunks E fuel dp mp sp dd w = Some (r, w') /\
    (forall it, In it (items w) -> temporary dp mp sp it = false ->
                In it (items w')) /\
    (forall it, In it (items w') -> In it (items w)) /\
    (List.length (items w') <= List.length (items w))%nat /\
    well_formed_tree (items w').
Proof.
  intros Hkey Hwf Hfuel.
  destruct (cleanup_temp_chunks_spec E dp mp sp Hkey fuel dd w Hwf Hfuel)
    as (r & w' & pre & post & evs & Hrun & Hpp & Hi & _).
  exists r, w'. split; [exact Hrun|]. rewrite Hi, Hpp.
  split; [|split; [|split]].
  - intros it Hin Ht. apply in_app_or in Hin. apply in_or_app.
    destruct Hin as [Hin|Hin]; [left | now right].
    apply filter_In. split; [exact Hin|]. now rewrite Ht.
  - intros it Hin. apply in_app_or in Hin. apply in_or_app.
    destruct Hin as [Hin|Hin]; [left | now right].
    apply filter_In in Hin. tauto.
  - rewrite !length_app.
    pose proof (filter_length_le
                  (fun it => negb (temporary dp mp sp it)) pre).
    lia.
  - destruct Hwf as [Hs Hg]. rewrite Hpp in Hs, Hg. split.
    + now apply StronglySorted_filter_app.
    + now apply Forall_filter_app.
Qed.

(** X5.  Whatever fails on the way, the cleaner on a well-formed leaf only
    takes temporary block groups away: every other item is still there,
    nothing is added, and the leaf stays well-formed. *)
Theorem cleanup_keeps_other_items (fuel : nat) (dp mp sp : Z) (dd : bool)
  (w : world) :
  BTRFS_BLOCK_GROUP_ITEM_KEY <> 0 ->
  well_formed_tree (items w) ->
  (List.length (items w) < fuel)%nat ->
  exists r w',
    cleanup_temp_chunks E fuel dp mp sp dd w = Some (r, w') /\
    (forall it, In it (items w) -> temporary dp mp sp it = false ->
                In it (items w')) /\
    (forall it, In it (items w') -> In it (items w)) /\
    (List.length (items w') <= List.length (items w))%nat /\
    well_formed_tree (items w').
Proof. apply cleanup_leaf. Qed.

(** X6.  When no search, step or removal fails and the cleaner returned 0,
    running it again on the leaf it left takes nothing away: the leaf and
    the ledger stay as they are and no removal succeeds. *)
Theorem cleanup_twice (fuel : nat) (dp mp sp : Z) (dd dd' : bool)
  (w w1 : world) :
  BTRFS_BLOCK_GROUP_ITEM_KEY <> 0 ->
  well_formed_tree (items w) ->
  (List.length (items w) < fuel)%nat ->
  tree_ops_succeed E ->
  cleanup_temp_chunks E fuel dp mp sp dd w = Some (0, w1) ->
  exists r w2 evs,
    cleanup_temp_chunks E fuel dp mp sp dd' w1 = Some (r, w2) /\
    trace w2 = trace w1 ++ evs /\
    items w2 = items w1 /\
    allocation w2 = allocation w1 /\
    removed_groups evs = [].
Proof.
  intros Hkey Hwf Hfuel Hsucc Hrun.
  destruct (cleanup_leaf fuel dp mp sp dd w Hkey Hwf Hfuel)
    as (r0 & w0 & Hrun0 & _ & _ & Hlen & Hwf1).
  rewrite Hrun in Hrun0. inversion Hrun0; subst r0 w0. clear Hrun0.
  destruct (cleanup_leaves_no_temporary_group E fuel dp mp sp dd w Hkey Hwf
              Hfuel Hsucc) as (r0 & w0 & Hrun0 & Hnone).
  rewrite Hrun in Hrun0. inversion Hrun0; subst r0 w0. clear Hrun0.
  specialize (Hnone eq_refl).
  assert (Hfuel1 : (List.length (items w1) < fuel)%nat) by lia.
  destruct (cleanup_temp_chunks_spec E dp mp sp Hkey fuel dd' w1 Hwf1 Hfuel1)
    as (r & w2 & pre & post & evs & Hrun2 & Hpp & Hi & Ha & Ht & Hrg & _).
  exists r, w2, evs. split; [exact Hrun2|]. split; [exact Ht|].
  rewrite Hpp in Hnone. apply Forall_app in Hnone. destruct Hnone as [Hn _].
  rewrite (filter_none _ _ Hn) in Ha, Hrg.
  split; [|split; [exact Ha | exact Hrg]].
  rewrite Hi, Hpp. f_equal. apply filter_all.
  eapply Forall_impl; [|exact Hn]. intros it H. simpl in H. now rewrite H.
Qed.

(** X7.  Once its transaction is started, the cleaner always commits it,
    once, as its last call, and returns the code of that commit whatever
    happened in the loop; when the transaction cannot be started it returns
    that code after this one call, with the leaf and the ledger untouched. *)
Theorem cleanup_returns_commit_code (fuel : nat) (dp mp sp : Z) (dd : bool)
  (w : world) (r : Z) (w' : world) :
  cleanup_temp_chunks E fuel dp mp sp dd w = Some (r, w') ->
  exists t evs,
    trace w' = trace w ++ Enter (CleanupTempChunks dp mp sp dd)
                          :: Lib StartTransaction t :: evs /\
    (ret t <> 0 ->
     evs = [] /\ r = ret t /\ items w' = items w /\
     allocation w' = allocation w) /\
    (ret t = 0 ->
     exists loop c,
       evs = loop ++ [Lib CommitTransaction c] /\ r = ret c /\
       Forall loop_event loop).
Proof.
  unfold cleanup_temp_chunks.
  destruct (call E StartTransaction _) as [t w1] eqn:Hc1.
  assert (Hw1 : items w1 = items w /\ allocation w1 = allocation w)
    by (unfold call in Hc1; inversion Hc1; subst; auto).
  apply call_trace in Hc1. simpl in Hc1.
  destruct (ret t =? 0) eqn:Ht; cbn [negb].
  - apply Z.eqb_eq in Ht.
    destruct (cleanup_loop E fuel dp mp sp 0 w1) as [[r2 w2]|] eqn:Hl;
      [|intros H; discriminate H].
    apply cleanup_loop_trace in Hl. destruct Hl as (loop & Hl & Hall).
    destruct (call E CommitTransaction w2) as [c w3] eqn:Hc3.
    apply call_trace in Hc3.
    intros H; inversion H; subst r w'.
    exists t, (loop ++ [Lib CommitTransaction c]).
    split; [rewrite Hc3, Hl, Hc1, <- !app_assoc; reflexivity|].
    split; [intros Hn; contradiction|].
    intros _. exists loop, c. auto.
  - apply Z.eqb_neq in Ht.
    intros H; inversion H; subst r w'.
    exists t, []. split; [rewrite Hc1, <- app_assoc; reflexivity|].
    split; [intros _; tauto | intros H0; contradiction].
Qed.

End CleanerExtras.

(** * The devices of a run *)

Lemma looked_up_app (h1 h2 : history) :
  looked_up (h1 ++ h2) = looked_up h1 ++ looked_up h2.
Proof. apply flat_map_app. Qed.

Lemma added_app (h1 h2 : history) :
  added (h1 ++ h2) = added h1 ++ added h2.
Proof. apply flat_map_app. Qed.

Lemma created_app (h1 h2 : history) :
  created (h1 ++ h2) = created h1 ++ created h2.
Proof. apply flat_map_app. Qed.

Lemma joined_app (h1 h2 : history) :
  joined (h1 ++ h2) = joined h1 ++ joined h2.
Proof. apply flat_map_app. Qed.

Section DeviceExtras.

Context {K : btrfs_uapi}.
Variable E : environment.

(** X8.  The attach loop looks the later devices up in the root in their
    order, and adds exactly those whose look-up returned 0, with their path,
    their probed size and the sector size; a device whose look-up returned
    anything else, an error included, is passed over. It stops at the first
    device whose preparation had failed, before any call on it, and it
    returns 0 only when every device had been prepared. *)
Theorem attach_devices_adds (sectorsize : Z)
  (ctx : list prepare_device_progress) :
  forall w : world,
  exists evs,
    trace (snd (attach_devices E ctx sectorsize w)) = trace w ++ evs /\
    added evs = to_add sectorsize (looked_up evs) ctx /\
    map fst (looked_up evs)
    = map fd (firstn (List.length (looked_up evs)) ctx) /\
    Forall (fun p => prepare_ret p = 0)
      (firstn (List.length (looked_up evs)) ctx) /\
    (fst (attach_devices E ctx sectorsize w) = 0 ->
     List.length (looked_up evs) = List.length ctx).
Proof.
  induction ctx as [|p ctx IH]; intros w; cbn [attach_devices].
  - exists []. rewrite app_nil_r. repeat split; auto.
  - destruct (prepare_ret p =? 0) eqn:Hp; cbn [negb].
    2:{ exists []. rewrite app_nil_r. apply Z.eqb_neq in Hp. cbn [fst snd].
        repeat split; auto. intros H. contradiction. }
    apply Z.eqb_eq in Hp.
    destruct (call E (DeviceAlreadyInRoot (fd p) BTRFS_SUPER_INFO_OFFSET) w)
      as [r w1] eqn:Hc1.
    apply call_trace in Hc1.
    destruct (ret r =? 0) eqn:Hr; cbn [negb].
    + destruct (call E (AddToFsid (fd p) (file p) (dev_byte_count p)
                          sectorsize) w1) as [r2 w2] eqn:Hc2.
      apply call_trace in Hc2.
      destruct (ret r2 =? 0) eqn:Hr2; cbn [negb].
      * destruct (IH w2) as (evs & Ht & Ha & Hl & Hok & Hz).
        exists (Lib (DeviceAlreadyInRoot (fd p) BTRFS_SUPER_INFO_OFFSET) r
                :: Lib (AddToFsid (fd p) (file p) (dev_byte_count p)
                          sectorsize) r2 :: evs).
        split; [rewrite Ht, Hc2, Hc1, <- !app_assoc; reflexivity|].
        cbn [looked_up added flat_map app List.length firstn map to_add fst].
        fold (looked_up evs). fold (added evs).
        rewrite Hr, Ha, Hl. repeat split; auto.
      * exists [Lib (DeviceAlreadyInRoot (fd p) BTRFS_SUPER_INFO_OFFSET) r;
                Lib (AddToFsid (fd p) (file p) (dev_byte_count p)
                       sectorsize) r2].
        cbn [fst snd].
        split; [rewrite Hc2, Hc1, <- !app_assoc; reflexivity|].
        cbn [looked_up added flat_map app List.length firstn map to_add fst
             snd].
        rewrite Hr. apply Z.eqb_neq in Hr2.
        repeat split; auto. intros H. contradiction.
    + destruct (IH w1) as (evs & Ht & Ha & Hl & Hok & Hz).
      exists (Lib (DeviceAlreadyInRoot (fd p) BTRFS_SUPER_INFO_OFFSET) r
              :: evs).
      split; [rewrite Ht, Hc1, <- !app_assoc; reflexivity|].
      cbn [looked_up added flat_map app List.length firstn map to_add fst].
      fold (looked_up evs). fold (added evs).
      rewrite Hr, Ha, Hl. repeat split; auto.
Qed.

Lemma join_and_close_joins (ctx : list prepare_device_progress) :
  forall (j : nat) (w : world),
  exists evs,
    trace (join_and_close E ctx j w) = trace w ++ evs /\
    joined evs = seq j (List.length ctx) /\ created evs = [] /\
    prepared evs = [].
Proof.
  induction ctx as [|p ctx IH]; intros j w; cbn [join_and_close].
  - exists []. rewrite app_nil_r. auto.
  - destruct (call E (PthreadJoin j) w) as [c0 w1] eqn:Hc0.
    apply call_trace in Hc0.
    destruct (0 <=? fd p).
    + destruct (call E (Close (fd p)) w1) as [c w2] eqn:Hc1.
      apply call_trace in Hc1. cbn [snd].
      destruct (IH (S j) w2) as (evs & Heq & Hj & Hc & Hp).
      exists (Lib (PthreadJoin j) c0 :: Lib (Close (fd p)) c :: evs).
      split; [rewrite Heq, Hc1, Hc0, <- !app_assoc; reflexivity|].
      cbn [joined created prepared flat_map app List.length seq].
      fold (joined evs). fold (created evs). rewrite Hj, Hc, Hp. auto.
    + destruct (IH (S j) w1) as (evs & Heq & Hj & Hc & Hp).
      exists (Lib (PthreadJoin j) c0 :: evs).
      split; [rewrite Heq, Hc0, <- !app_assoc; reflexivity|].
      cbn [joined created prepared flat_map app List.length seq].
      fold (joined evs). fold (created evs). rewrite Hj, Hc, Hp. auto.
Qed.

Lemma prepare_one_device_threads (p : prepare_device_progress) (w : world) :
  exists evs,
    trace (snd (prepare_one_device E p w)) = trace w ++ evs /\
    joined evs = [] /\ created evs = [] /\ prepared evs = [].
Proof.
  unfold prepare_one_device.
  destruct (call E (Open (file p)) w) as [o w1] eqn:Hc1.
  apply call_trace in Hc1.
  destruct (ret o <? 0); cbn [fst snd].
  - exists [Lib (Open (file p)) o]. auto.
  - match goal with
    | |- context [call E ?c w1] => destruct (call E c w1) as [r w2] eqn:Hc2
    end.
    apply call_trace in Hc2. cbn [fst snd].
    eexists [Lib (Open (file p)) o; Lib _ r].
    split; [rewrite Hc2, Hc1, <- app_assoc; reflexivity|]. auto.
Qed.

Lemma launch_workers_threads (bc : Z) (dd : bool) (paths : list string) :
  forall (i : nat) (launched : list prepare_device_progress) (w : world),
    List.length launched = i ->
    exists evs,
      trace (snd (launch_workers E paths i launched bc dd w))
      = trace w ++ evs /\
      match fst (launch_workers E paths i launched bc dd w) with
      | inr ctx =>
          created evs = seq i (List.length paths) /\ joined evs = [] /\
          List.length (prepared evs) = List.length paths
      | inl e =>
          exists k c,
            (k < List.length paths)%nat /\
            created evs = seq i (S k) /\
            joined evs = seq 0 (i + k) /\
            List.length (prepared evs) = k /\
            In (Lib (PthreadCreate (i + k)) c) evs /\
            ret c <> 0 /\ e = - ret c
      end.
Proof.
  induction paths as [|path paths IH]; intros i launched w Hlen.
  - exists []. rewrite app_nil_r. cbn. auto.
  - cbn [launch_workers].
    destruct (call E (PthreadCreate i) w) as [c w1] eqn:Hc1.
    apply call_trace in Hc1.
    destruct (ret c =? 0) eqn:Hret; cbn [negb].
    + set (p := {| fd := 0; file := path |}).
      destruct (prepare_one_device_threads p w1)
        as (evs1 & Heq1 & Hj1 & Hcr1 & Hp1).
      destruct (prepare_one_device E p w1) as [p' w2]. cbn [fst snd] in *.
      assert (Hl' : List.length (launched ++ [p']) = S i)
        by (rewrite length_app; simpl; lia).
      destruct (IH (S i) (launched ++ [p']) (record (Prepared i p') w2) Hl')
        as (evs2 & Heq2 & Hcase).
      exists (Lib (PthreadCreate i) c :: evs1 ++ Prepared i p' :: evs2).
      split.
      { rewrite Heq2. simpl. rewrite Heq1, Hc1, <- !app_assoc. reflexivity. }
      destruct (fst (launch_workers E paths (S i) (launched ++ [p']) bc dd
                       (record (Prepared i p') w2))) as [e|ctx].
      * destruct Hcase as (k & c' & Hk & Hcr & Hj & Hp & Hin & Hne & He).
        exists (S k), c'.
        split; [simpl; lia|].
        split.
        { change (Lib (PthreadCreate i) c
                  :: evs1 ++ Prepared i p' :: evs2)
            with ([Lib (PthreadCreate i) c]
                  ++ evs1 ++ [Prepared i p'] ++ evs2).
          rewrite !created_app, Hcr1, Hcr. reflexivity. }
        split.
        { change (Lib (PthreadCreate i) c
                  :: evs1 ++ Prepared i p' :: evs2)
            with ([Lib (PthreadCreate i) c]
                  ++ evs1 ++ [Prepared i p'] ++ evs2).
          rewrite !joined_app, Hj1, Hj.
          replace (i + S k)%nat with (S i + k)%nat by lia. reflexivity. }
        split.
        { simpl. rewrite prepared_app, Hp1. simpl. now rewrite Hp. }
        split.
        { right. apply in_or_app. right. right.
          replace (i + S k)%nat with (S i + k)%nat by lia. exact Hin. }
        auto.
      * destruct Hcase as (Hcr & Hj & Hp).
        change (Lib (PthreadCreate i) c :: evs1 ++ Prepared i p' :: evs2)
          with ([Lib (PthreadCreate i) c]
                ++ evs1 ++ [Prepared i p'] ++ evs2).
        rewrite !created_app, !joined_app, !prepared_app, Hcr1, Hcr, Hj1,
          Hj, Hp1.
        simpl. now rewrite Hp.
    + destruct (join_and_close_joins launched O w1)
        as (evs & Heq & Hj & Hcr & Hp).
      exists (Lib (PthreadCreate i) c :: evs). cbn [fst snd].
      split; [rewrite Heq, Hc1, <- app_assoc; reflexivity|].
      exists O, c. apply Z.eqb_neq in Hret.
      split; [simpl; lia|].
      change (Lib (PthreadCreate i) c :: evs)
        with ([Lib (PthreadCreate i) c] ++ evs).
      rewrite !created_app, !joined_app, !prepared_app, Hcr, Hj, Hp, Hlen.
      rewrite Nat.add_0_r. simpl. repeat split; auto.
Qed.

(** X9.  When [pthread_create] fails for a worker, no later worker is
    created, each worker created before is joined once, in order, every
    descriptor that those workers opened is closed, once, and the code
    handed on is the negated result of the failed call. *)
Theorem launch_workers_failure (bc : Z) (dd : bool) (paths : list string)
  (w : world) (e : Z) (w' : world) :
  launch_workers E paths O [] bc dd w = (inl e, w') ->
  exists evs k c,
    trace w' = trace w ++ evs /\
    (k < List.length paths)%nat /\
    created evs = seq 0 (S k) /\
    joined evs = seq 0 k /\
    List.length (prepared evs) = k /\
    closed evs = opened evs /\
    In (Lib (PthreadCreate k) c) evs /\ ret c <> 0 /\ e = - ret c.
Proof.
  intros Hrun.
  destruct (launch_workers_threads bc dd paths O [] w eq_refl)
    as (evs & Ht & Hcase).
  destruct (launch_workers_spec E bc dd paths O [] w)
    as (evs' & Ht' & _ & Hcase').
  rewrite Hrun in Ht, Hcase, Ht', Hcase'. cbn [fst snd] in *.
  rewrite Ht in Ht'. apply app_inv_head in Ht'. subst evs'.
  destruct Hcase as (k & c & Hk & Hcr & Hj & Hp & Hin & Hne & He).
  destruct Hcase' as (_ & _ & new & Ho & Hc).
  exists evs, k, c. rewrite Hc, Ho. repeat split; auto.
Qed.

End DeviceExtras.

Section RunDevices.

Context {K : btrfs_uapi}.
Variable E : environment.
Variable a : mkfs_args.
Variable paths : list string.

#[local] Arguments call : simpl never.

Lemma closing_device (h h' : history) :
  extends closing_event h h' -> extends (device_event a paths) h h'.
Proof.
  apply extends_impl. intros [c r|s|i p]; simpl; [|tauto|tauto].
  destruct c; simpl; tauto.
Qed.

Lemma quiet_device_event (e : event) :
  match e with
  | Lib (Calloc _) _ | Lib (UuidParse _) _ | Lib Sysconf_PAGE_SIZE _
  | Lib (PthreadCreate _) _ | Prepared _ _ => True
  | _ => False
  end -> device_event a paths e.
Proof. destruct e as [c r|s|i p]; simpl; [|tauto|tauto]. destruct c; tauto. Qed.

Lemma tree_device (inc dp mp : Z) (mixed dd : bool) (h h' : history) :
  extends (tree_event inc dp mp mixed dd) h h' ->
  extends (device_event a paths) h h'.
Proof.
  apply extends_impl. intros [c r|s|i p]; simpl; [|tauto|tauto].
  destruct c; simpl; try tauto; intros H; discriminate H.
Qed.

Lemma close_devices_closing (ctx : list prepare_device_progress) :
  forall w : world,
    extends closing_event (trace w) (trace (close_devices E ctx w)).
Proof.
  induction ctx as [|p ctx IH]; intros w; cbn [close_devices].
  - apply extends_refl.
  - destruct (0 <=? fd p); [|apply IH].
    destruct (call E (Close (fd p)) w) as [c w1] eqn:Hc.
    apply call_trace in Hc. cbn [snd].
    eapply extends_trans; [|apply IH]. rewrite Hc.
    apply extends_step; [apply extends_refl | exact I].
Qed.

Lemma join_and_close_closing (ctx : list prepare_device_progress) :
  forall (j : nat) (w : world),
    extends closing_event (trace w) (trace (join_and_close E ctx j w)).
Proof.
  induction ctx as [|p ctx IH]; intros j w; cbn [join_and_close].
  - apply extends_refl.
  - destruct (call E (PthreadJoin j) w) as [c0 w1] eqn:Hc0.
    apply call_trace in Hc0.
    assert (H1 : extends closing_event (trace w) (trace w1))
      by (rewrite Hc0; apply extends_step; [apply extends_refl | exact I]).
    destruct (0 <=? fd p).
    + destruct (call E (Close (fd p)) w1) as [c w2] eqn:Hc.
      apply call_trace in Hc. cbn [snd].
      eapply extends_trans; [|apply IH]. rewrite Hc.
      apply extends_step; [exact H1 | exact I].
    + eapply extends_trans; [exact H1 | apply IH].
Qed.

Lemma join_workers_closing (n : nat) :
  forall (i : nat) (w : world),
    extends closing_event (trace w) (trace (join_workers E n i w)).
Proof.
  induction n as [|n IH]; intros i w; cbn [join_workers].
  - apply extends_refl.
  - destruct (call E (PthreadJoin i) w) as [c w1] eqn:Hc.
    apply call_trace in Hc. cbn [snd].
    eapply extends_trans; [|apply IH]. rewrite Hc.
    apply extends_step; [apply extends_refl | exact I].
Qed.

Lemma out_free_closing (r : Z) (u : string) (n : Z) (w : world) :
  extends closing_event (trace w) (trace (snd (out_free E r u n w))).
Proof.
  unfold out_free.
  destruct (call E CloseAllDevices w) as [c w1] eqn:Hc.
  apply call_trace in Hc.
  destruct (negb (r =? 0)); cbn [snd]; rewrite Hc;
    (apply extends_step; [apply extends_refl | exact I]).
Qed.

Lemma out_close_closing (r : Z) (u : string) (n : Z)
  (ctx : list prepare_device_progress) (w : world) :
  extends closing_event (trace w) (trace (snd (out_close E r u n ctx w))).
Proof.
  unfold out_close.
  eapply extends_trans; [apply close_devices_closing | apply out_free_closing].
Qed.

Lemma out_ctree_closing (r : Z) (u : string) (n : Z)
  (ctx : list prepare_device_progress) (w : world) :
  extends closing_event (trace w) (trace (snd (out_ctree E r u n ctx w))).
Proof.
  unfold out_ctree.
  destruct (call E CloseCtree w) as [c w1] eqn:Hc.
  apply call_trace in Hc.
  eapply extends_trans; [|apply out_close_closing]. rewrite Hc.
  apply extends_step; [apply extends_refl | exact I].
Qed.

Lemma test_devices_events (ps : list string) :
  kw_force a = false ->
  incl ps paths ->
  forall w : world,
    extends (device_event a paths) (trace w)
      (trace (snd (test_devices E ps false w))).
Proof.
  intros Hf. induction ps as [|p ps IH]; intros Hin w; cbn [test_devices].
  - apply extends_refl.
  - destruct (call E (TestDevForMkfs p false) w) as [t w1] eqn:Hc.
    apply call_trace in Hc.
    assert (H1 : extends (device_event a paths) (trace w) (trace w1)).
    { rewrite Hc. apply extends_step; [apply extends_refl|].
      simpl. repeat split; auto. apply Hin. now left. }
    destruct (ret t =? 0); cbn [snd]; [exact H1|].
    eapply extends_trans; [exact H1 | apply IH].
    intros x Hx. apply Hin. now right.
Qed.

Lemma prepare_one_device_events (p : prepare_device_progress) (w : world) :
  In (file p) paths ->
  byte_count p = kw_byte_count a ->
  zero_end p = (kw_byte_count a =? 0) ->
  discard p = negb (kw_no_discard a) ->
  zoned p = false ->
  extends (device_event a paths) (trace w)
    (trace (snd (prepare_one_device E p w))).
Proof.
  intros Hin Hbc Hze Hd Hz. unfold prepare_one_device.
  destruct (call E (Open (file p)) w) as [o w1] eqn:Hc1.
  apply call_trace in Hc1.
  assert (H1 : extends (device_event a paths) (trace w) (trace w1))
    by (rewrite Hc1; apply extends_step; [apply extends_refl | exact Hin]).
  destruct (ret o <? 0); cbn [snd]; [exact H1|].
  match goal with
  | |- context [call E ?c w1] => destruct (call E c w1) as [r w2] eqn:Hc2
  end.
  apply call_trace in Hc2. cbn [snd]. rewrite Hc2.
  apply extends_step; [exact H1|]. simpl. auto.
Qed.

Lemma launch_workers_events (ps : list string) :
  incl ps paths ->
  forall (i : nat) (launched : list prepare_device_progress) (w : world),
    extends (device_event a paths) (trace w)
      (trace (snd (launch_workers E ps i launched (kw_byte_count a)
                     (negb (kw_no_discard a)) w))).
Proof.
  induction ps as [|p ps IH]; intros Hin i launched w; cbn [launch_workers].
  - apply extends_refl.
  - destruct (call E (PthreadCreate i) w) as [c w1] eqn:Hc1.
    apply call_trace in Hc1.
    assert (H1 : extends (device_event a paths) (trace w) (trace w1))
      by (rewrite Hc1; apply extends_step; [apply extends_refl | exact I]).
    destruct (negb (ret c =? 0)); cbn [snd].
    + eapply extends_trans; [exact H1|].
      apply closing_device, join_and_close_closing.
    + match goal with
      | |- context [prepare_one_device E ?q w1] =>
          pose proof (prepare_one_device_events q w1) as H2;
          destruct (prepare_one_device E q w1) as [p' w2]
      end.
      cbn [snd file byte_count zero_end discard zoned] in H2.
      specialize (H2 (Hin p (or_introl eq_refl)) eq_refl eq_refl eq_refl
                     eq_refl).
      eapply extends_trans; [|apply IH; intros x Hx; apply Hin; now right].
      cbn [record trace]. unfold record. cbn [trace].
      apply extends_step; [eapply extends_trans; eauto | exact I].
Qed.

Lemma mkfs_prepared_events (fuel : nat) (fs_uuid : string) (mp dp inc : Z)
  (ctx : list prepare_device_progress) (w : world) (res : py_result)
  (w' : world) :
  mkfs_prepared E fuel a paths fs_uuid mp dp inc (effective_nodesize a) ctx w
  = Some (res, w') ->
  extends (device_event a paths) (trace w) (trace w').
Proof.
  unfold mkfs_prepared. cbv zeta.
  assert (Hexit : forall (r : Z) (u : string) (n : Z) (w1 : world),
    extends (device_event a paths) (trace w) (trace w1) ->
    Some (out_close E r u n ctx w1) = Some (res, w') ->
    extends (device_event a paths) (trace w) (trace w')).
  { intros r u n w1 H1 H.
    pose proof (out_close_closing r u n ctx w1) as H2.
    destruct (out_close E r u n ctx w1) as [res0 w0]. cbn [snd] in H2.
    injection H as _ <-.
    eapply extends_trans; [exact H1 | now apply closing_device]. }
  assert (Hexit' : forall (r : Z) (u : string) (n : Z) (w1 : world),
    extends (device_event a paths) (trace w) (trace w1) ->
    Some (out_ctree E r u n ctx w1) = Some (res, w') ->
    extends (device_event a paths) (trace w) (trace w')).
  { intros r u n w1 H1 H.
    pose proof (out_ctree_closing r u n ctx w1) as H2.
    destruct (out_ctree E r u n ctx w1) as [res0 w0]. cbn [snd] in H2.
    injection H as _ <-.
    eapply extends_trans; [exact H1 | now apply closing_device]. }
  destruct (negb (prepare_ret _ =? 0)).
  { apply Hexit, extends_refl. }
  destruct (negb _ && _).
  { apply Hexit, extends_refl. }
  match goal with
  | |- context [call E ?c w] => destruct (call E c w) as [m w1] eqn:Hc1
  end.
  apply call_trace in Hc1.
  assert (H1 : extends (device_event a paths) (trace w) (trace w1)).
  { rewrite Hc1. apply extends_step; [apply extends_refl|].
    simpl. auto. }
  destruct (negb (ret m =? 0)).
  { now apply Hexit. }
  match goal with
  | |- context [call E ?c w1] => destruct (call E c w1) as [o w2] eqn:Hc2
  end.
  apply call_trace in Hc2.
  assert (H2 : extends (device_event a paths) (trace w) (trace w2)).
  { rewrite Hc2. apply extends_step; [exact H1|]. reflexivity. }
  destruct (ret o =? 0).
  { now apply Hexit. }
  destruct (mkfs_trees E fuel inc dp mp (kw_mixed a) (kw_sectorsize a)
              (negb (kw_no_discard a)) ctx w2) as [[r w3]|] eqn:Ht;
    [|intros H; discriminate H].
  apply mkfs_trees_trace in Ht. apply tree_device in Ht.
  assert (H3 : extends (device_event a paths) (trace w) (trace w3))
    by (eapply extends_trans; eauto).
  destruct (r =? 0).
  - destruct (call E SuperTotalBytes w3) as [n w4] eqn:Hc4.
    apply call_trace in Hc4.
    apply Hexit'. rewrite Hc4. apply extends_step; [exact H3 | exact I].
  - now apply Hexit'.
Qed.

Lemma mkfs_released_events (fuel : nat) (fs_uuid : string) (mp dp inc : Z)
  (w : world) (res : py_result) (w' : world) :
  mkfs_released E fuel a paths fs_uuid mp dp inc (effective_nodesize a) w
  = Some (res, w') ->
  extends (device_event a paths) (trace w) (trace w').
Proof.
  unfold mkfs_released. cbv zeta.
  assert (Hexit : forall (r : Z) (u : string) (n : Z) (w1 : world),
    extends (device_event a paths) (trace w) (trace w1) ->
    Some (out_free E r u n w1) = Some (res, w') ->
    extends (device_event a paths) (trace w) (trace w')).
  { intros r u n w1 H1 H.
    pose proof (out_free_closing r u n w1) as H2.
    destruct (out_free E r u n w1) as [res0 w0]. cbn [snd] in H2.
    injection H as _ <-.
    eapply extends_trans; [exact H1 | now apply closing_device]. }
  match goal with
  | |- context [if negb (kw_force a) then ?x else ?y] =>
      assert (Htest : extends (device_event a paths) (trace w)
                        (trace (snd (if negb (kw_force a) then x else y))));
      [ destruct (kw_force a) eqn:Hf; cbn [negb snd];
        [ apply extends_refl
        | apply test_devices_events; [exact Hf | apply incl_refl] ]
      | destruct (if negb (kw_force a) then x else y) as [r w1] ]
  end.
  cbn [snd] in Htest.
  destruct (negb (r =? 0)).
  { now apply Hexit. }
  match goal with
  | |- context [call E ?c w1] => destruct (call E c w1) as [t w2] eqn:Hc2
  end.
  apply call_trace in Hc2.
  match goal with
  | |- context [call E ?c w2] => destruct (call E c w2) as [c3 w3] eqn:Hc3
  end.
  apply call_trace in Hc3.
  assert (H3 : extends (device_event a paths) (trace w) (trace w3)).
  { rewrite Hc3, Hc2.
    apply extends_step; [apply extends_step; [exact Htest|]|]; exact I. }
  destruct (_ || _).
  { now apply Hexit. }
  pose proof (launch_workers_events paths (incl_refl _) O [] w3) as H4.
  destruct (launch_workers E paths O [] (kw_byte_count a)
              (negb (kw_no_discard a)) w3) as [[e|ctx] w4]; cbn [snd] in H4.
  { apply Hexit. eapply extends_trans; eauto. }
  intros H. apply mkfs_prepared_events in H.
  eapply extends_trans; [|exact H].
  eapply extends_trans; [|apply closing_device, join_workers_closing].
  eapply extends_trans; eauto.
Qed.

End RunDevices.

Section RunResults.

Context {K : btrfs_uapi}.
Variable E : environment.

#[local] Arguments call : simpl never.

Lemma result_of_converted (r : Z) (u : string) (n : Z) :
  converted_result (result_of r u n).
Proof.
  unfold result_of, converted_result.
  destruct (negb (r =? 0)); [left | right]; eauto.
Qed.

Lemma mkfs_prepared_result (fuel : nat) (a : mkfs_args) (paths : list string)
  (fs_uuid : string) (mp dp inc ns : Z)
  (ctx : list prepare_device_progress) (w : world) (res : py_result)
  (w' : world) :
  mkfs_prepared E fuel a paths fs_uuid mp dp inc ns ctx w = Some (res, w') ->
  converted_result res.
Proof.
  unfold mkfs_prepared. cbv zeta.
  assert (Hexit : forall (r : Z) (u : string) (n : Z) (w1 : world),
    Some (out_close E r u n ctx w1) = Some (res, w') ->
    converted_result res).
  { intros r u n w1 H.
    destruct (out_close_spec E r u n ctx w1) as (evs & _ & _ & Hres).
    destruct (out_close E r u n ctx w1) as [res0 w0]. cbn [fst] in Hres.
    injection H as <- _. rewrite Hres. apply result_of_converted. }
  assert (Hexit' : forall (r : Z) (u : string) (n : Z) (w1 : world),
    Some (out_ctree E r u n ctx w1) = Some (res, w') ->
    converted_result res).
  { intros r u n w1 H.
    destruct (out_ctree_spec E r u n ctx w1) as (evs & _ & _ & _ & Hres).
    destruct (out_ctree E r u n ctx w1) as [res0 w0]. cbn [fst] in Hres.
    injection H as <- _. unfold converted_result.
    destruct Hres as [->|(e & _ & ->)]; eauto. }
  destruct (negb (prepare_ret _ =? 0)); [apply Hexit|].
  destruct (negb _ && _); [apply Hexit|].
  match goal with
  | |- context [call E ?c w] => destruct (call E c w) as [m w1]
  end.
  destruct (negb (ret m =? 0)); [apply Hexit|].
  match goal with
  | |- context [call E ?c w1] => destruct (call E c w1) as [o w2]
  end.
  destruct (ret o =? 0); [apply Hexit|].
  destruct (mkfs_trees _ _ _ _ _ _ _ _ _ _) as [[r w3]|];
    [|intros H; discriminate H].
  destruct (r =? 0); [|apply Hexit'].
  destruct (call E SuperTotalBytes w3) as [n w4]. apply Hexit'.
Qed.

(** What the released part of a run leaves: descriptors closed as opened,
    and a converted result. *)
Lemma mkfs_released_ends (fuel : nat) (a : mkfs_args) (paths : list string)
  (fs_uuid : string) (mp dp inc ns : Z) (w : world) (res : py_result)
  (w' : world) :
  mkfs_released E fuel a paths fs_uuid mp dp inc ns w = Some (res, w') ->
  exists evs,
    trace w' = trace w ++ evs /\ closed evs = opened evs /\
    converted_result res.
Proof.
  unfold mkfs_released. cbv zeta.
  assert (Hexit : forall (r : Z) (u : string) (n : Z) (w1 : world)
                         (evs1 : list event),
    trace w1 = trace w ++ evs1 -> closed evs1 = opened evs1 ->
    Some (out_free E r u n w1) = Some (res, w') ->
    exists evs,
      trace w' = trace w ++ evs /\ closed evs = opened evs /\
      converted_result res).
  { intros r u n w1 evs1 Heq1 Hco H.
    destruct (out_free_spec E r u n w1) as (evs2 & Heq2 & Hq2 & Hres).
    destruct (out_free E r u n w1) as [res0 w0]. cbn [fst snd] in *.
    injection H as <- <-.
    destruct (quiet_silent _ Hq2) as (_ & Ho & Hc).
    exists (evs1 ++ evs2).
    split; [rewrite Heq2, Heq1, <- app_assoc; reflexivity|].
    split; [rewrite closed_app, opened_app, Ho, Hc, Hco; reflexivity|].
    rewrite Hres. apply result_of_converted. }
  match goal with
  | |- context [if negb (kw_force a) then ?x else ?y] =>
      assert (Htest : extends quiet (trace w)
                        (trace (snd (if negb (kw_force a) then x else y))));
      [ destruct (negb (kw_force a)); cbn [snd];
        [ apply test_devices_trace | apply extends_refl ]
      | destruct (if negb (kw_force a) then x else y) as [r w1] ]
  end.
  cbn [snd] in Htest. destruct Htest as (evs1 & Heq1 & Hq1).
  destruct (quiet_silent _ Hq1) as (_ & Ho1 & Hc1).
  destruct (negb (r =? 0)).
  { apply (Hexit _ _ _ _ evs1); [exact Heq1 | now rewrite Ho1, Hc1]. }
  match goal with
  | |- context [call E ?c w1] => destruct (call E c w1) as [t w2] eqn:Hc2
  end.
  apply call_trace in Hc2.
  match goal with
  | |- context [call E ?c w2] => destruct (call E c w2) as [c3 w3] eqn:Hc3
  end.
  apply call_trace in Hc3.
  assert (Heq3 : exists evs3,
             trace w3 = trace w ++ evs3 /\ closed evs3 = [] /\
             opened evs3 = []).
  { eexists (evs1 ++ [_; _]).
    split; [rewrite Hc3, Hc2, Heq1, <- !app_assoc; reflexivity|].
    rewrite closed_app, opened_app, Ho1, Hc1. auto. }
  destruct Heq3 as (evs3 & Heq3 & Hc3' & Ho3).
  destruct (_ || _).
  { apply (Hexit _ _ _ _ evs3); [exact Heq3 | now rewrite Ho3, Hc3']. }
  destruct (launch_workers_spec E (kw_byte_count a) (negb (kw_no_discard a))
              paths O [] w3) as (evs4 & Heq4 & _ & Hcase).
  destruct (launch_workers E paths O [] (kw_byte_count a)
              (negb (kw_no_discard a)) w3) as [[e|ctx] w4];
    cbn [fst snd] in Heq4, Hcase.
  - destruct Hcase as (_ & _ & new & Ho & Hc).
    apply (Hexit _ _ _ _ (evs3 ++ evs4)).
    + rewrite Heq4, Heq3, <- app_assoc. reflexivity.
    + rewrite closed_app, opened_app, Ho3, Hc3', Ho, Hc. reflexivity.
  - destruct Hcase as (new & Hctx & _ & _ & Ho & Hc).
    cbn [app] in Hctx. subst new.
    destruct (join_workers_trace E (List.length paths) O w4)
      as (evs5 & Heq5 & Hq5).
    destruct (quiet_silent _ Hq5) as (_ & Ho5 & Hc5).
    intros H.
    pose proof (mkfs_prepared_result _ _ _ _ _ _ _ _ _ _ _ _ H) as Hres.
    apply mkfs_prepared_spec in H.
    destruct H as (evs6 & Heq6 & (_ & Ho6 & Hc6 & _) & _).
    exists (evs3 ++ evs4 ++ evs5 ++ evs6).
    split; [rewrite Heq6, Heq5, Heq4, Heq3, <- !app_assoc; reflexivity|].
    split; [|exact Hres].
    rewrite !closed_app, !opened_app, Ho3, Hc3', Ho, Hc, Ho5, Hc5, Ho6, Hc6.
    cbn [app]. now rewrite app_nil_r.
Qed.

(** What a run shows of its devices and of its result. *)
Lemma pybtrfs_mkfs_run (fuel : nat) (a : mkfs_args) (w : world)
  (res : py_result) (w' : world) :
  pybtrfs_mkfs E fuel a w = Some (res, w') ->
  exists evs,
    trace w' = trace w ++ evs /\
    closed evs = opened evs /\
    (forall paths, device_paths (kw_devices a) = inr paths ->
                   Forall (device_event a paths) evs) /\
    ((argument_error res /\ Forall checking_event evs) \/
     converted_result res).
Proof.
  unfold pybtrfs_mkfs. cbv zeta.
  assert (Hearly : forall (res0 : py_result) (w1 : world) (evs : list event),
    trace w1 = trace w ++ evs -> Forall checking_event evs ->
    argument_error res0 ->
    Some (res0, w1) = Some (res, w') ->
    exists evs,
      trace w' = trace w ++ evs /\
      closed evs = opened evs /\
      (forall paths, device_paths (kw_devices a) = inr paths ->
                     Forall (device_event a paths) evs) /\
      ((argument_error res /\ Forall checking_event evs) \/
       converted_result res)).
  { intros res0 w1 evs Heq Hq Hr H. injection H as <- <-.
    exists evs. split; [exact Heq|].
    assert (Hq' : Forall quiet evs).
    { eapply Forall_impl; [|exact Hq].
      intros [c r|s|i p]; simpl; try tauto. destruct c; tauto. }
    destruct (quiet_silent _ Hq') as (_ & Ho & Hc).
    split; [now rewrite Ho, Hc|].
    split; [|left; auto].
    intros paths _. eapply Forall_impl; [|exact Hq].
    intros [c r|s|i p]; simpl; try tauto. destruct c; tauto. }
  destruct (Z.of_nat (List.length (kw_devices a)) <? 1).
  { apply (Hearly _ _ []); [now rewrite app_nil_r | constructor|].
    now left. }
  match goal with
  | |- context [call E ?cl w] => destruct (call E cl w) as [c w1] eqn:Hc1
  end.
  apply call_trace in Hc1.
  destruct (ret c =? 0).
  { eapply Hearly; [exact Hc1 | repeat constructor|].
    right; right; now left. }
  destruct (device_paths (kw_devices a)) as [e|paths] eqn:Hpaths.
  { eapply Hearly; [exact Hc1 | repeat constructor|].
    clear - Hpaths. revert e Hpaths.
    induction (kw_devices a) as [|o l IH]; intros e; simpl;
      [intros H; discriminate H|].
    destruct o.
    - destruct (device_paths l); [|intros H; discriminate H].
      intros H; injection H as <-. now apply IH.
    - intros H; injection H as <-. right; right; now right.
    - intros H; injection H as <-. right; now left. }
  destruct (BTRFS_LABEL_SIZE <=? _).
  { eapply Hearly; [exact Hc1 | repeat constructor|]. now left. }
  match goal with
  | |- context [match kw_uuid a with EmptyString => ?x | String _ _ => ?y end]
    =>
      assert (Huuid : extends checking_event (trace w1)
                (trace (snd (match kw_uuid a with
                             | EmptyString => x
                             | String _ _ => y
                             end))));
      [ destruct (kw_uuid a);
        [ apply extends_refl
        | match goal with
          | |- context [call E ?cl w1] =>
              destruct (call E cl w1) as [u w2] eqn:Hc2
          end;
          apply call_trace in Hc2; cbn [snd]; rewrite Hc2;
          apply extends_step; [apply extends_refl | exact I] ]
      | destruct (match kw_uuid a with
                  | EmptyString => x
                  | String _ _ => y
                  end) as [bad w2] ]
  end.
  cbn [snd] in Huuid. destruct Huuid as (evs2 & Heq2 & Hq2).
  assert (Heq2' : trace w2 = trace w ++ Lib (Calloc (Z.of_nat
            (List.length (kw_devices a)))) c :: evs2).
  { rewrite Heq2, Hc1. now rewrite <- app_assoc. }
  assert (Hq2' : Forall checking_event (Lib (Calloc (Z.of_nat
            (List.length (kw_devices a)))) c :: evs2))
    by (constructor; [exact I | exact Hq2]).
  destruct bad.
  { eapply Hearly; [exact Heq2' | exact Hq2'|]. now left. }
  clear Hearly.
  destruct (call E Sysconf_PAGE_SIZE w2) as [pg w3] eqn:Hc3.
  apply call_trace in Hc3.
  intros Hrun.
  pose proof (mkfs_released_events E a paths _ _ _ _ _ _ _ _ Hrun) as Hev.
  apply mkfs_released_ends in Hrun.
  destruct Hrun as (evs & Heq & Hco & Hres).
  destruct Hev as (evs' & Heq' & Hev).
  rewrite Heq in Heq'. apply app_inv_head in Heq'. subst evs'.
  set (evs0 := Lib (Calloc (Z.of_nat (List.length (kw_devices a)))) c
               :: evs2 ++ [Lib Sysconf_PAGE_SIZE pg]).
  assert (Hq0 : Forall quiet evs0).
  { constructor; [exact I|]. apply Forall_app; split; [|repeat constructor].
    eapply Forall_impl; [|exact Hq2].
    intros [c0 r|s|i p]; simpl; try tauto. destruct c0; tauto. }
  destruct (quiet_silent _ Hq0) as (_ & Ho0 & Hcl0).
  exists (evs0 ++ evs).
  split.
  { rewrite Heq, Hc3, Heq2'. unfold evs0. simpl.
    rewrite <- !app_assoc. reflexivity. }
  split; [rewrite closed_app, opened_app, Ho0, Hcl0; exact Hco|].
  split; [|right; exact Hres].
  intros paths' Hp. injection Hp as <-.
  apply Forall_app; split; [|exact Hev].
  unfold evs0. constructor; [exact I|].
  apply Forall_app; split; [|repeat constructor].
  eapply Forall_impl; [|exact Hq2].
  intros [c0 r|s|i p]; simpl; try tauto. destruct c0; tauto.
Qed.

End RunResults.

Section RunExtras.

Context {K : btrfs_uapi}.
Variable E : environment.

#[local] Arguments call : simpl never.

(** X10.  A run opens, tests and prepares only the devices it was given, and
    tests them only when [force] is off; each device is prepared with the
    caller's [byte_count], with the zero-end flag exactly when [byte_count]
    is 0, with discard exactly when [no_discard] is off, and never as zoned. *)
Theorem mkfs_prepares_devices_as_asked (fuel : nat) (a : mkfs_args)
  (w : world) (res : py_result) (w' : world) (evs : list event)
  (paths : list string) :
  pybtrfs_mkfs E fuel a w = Some (res, w') ->
  trace w' = trace w ++ evs ->
  device_paths (kw_devices a) = inr paths ->
  forall c r, In (Lib c r) evs -> device_call a paths c.
Proof.
  intros Hrun Ht Hp c r Hin.
  destruct (pybtrfs_mkfs_run E fuel a w res w' Hrun)
    as (evs' & Ht' & _ & Hdev & _).
  rewrite Ht in Ht'. apply app_inv_head in Ht'. subst evs'.
  specialize (Hdev paths Hp). rewrite Forall_forall in Hdev.
  specialize (Hdev _ Hin). simpl in Hdev.
  destruct c; simpl; auto.
Qed.

(** X11.  Every [make_btrfs] call of a run gets the caller's sector size and
    checksum type, and the caller's node size unless mixed mode is on, where
    it gets the sector size as node size; the filesystem is then opened on
    the first device. *)
Theorem mkfs_make_btrfs_geometry (fuel : nat) (a : mkfs_args)
  (w : world) (res : py_result) (w' : world) (evs : list event)
  (paths : list string) :
  pybtrfs_mkfs E fuel a w = Some (res, w') ->
  trace w' = trace w ++ evs ->
  device_paths (kw_devices a) = inr paths ->
  forall c r, In (Lib c r) evs -> geometry_call a paths c.
Proof.
  intros Hrun Ht Hp c r Hin.
  destruct (pybtrfs_mkfs_run E fuel a w res w' Hrun)
    as (evs' & Ht' & _ & Hdev & _).
  rewrite Ht in Ht'. apply app_inv_head in Ht'. subst evs'.
  specialize (Hdev paths Hp). rewrite Forall_forall in Hdev.
  specialize (Hdev _ Hin). simpl in Hdev.
  destruct c; simpl; auto.
  destruct Hdev as (Hn & Hs & Hc). repeat split; auto.
  intros Hm. rewrite Hn. unfold effective_nodesize. rewrite Hm.
  destruct (kw_nodesize a =? kw_sectorsize a) eqn:He; simpl; [|reflexivity].
  now apply Z.eqb_eq in He.
Qed.

(** X13.  A run ends with [ValueError], [TypeError], [MemoryError] or a
    pending exception only while it checks its arguments: it has then called
    nothing but [calloc] and [uuid_parse], so that no device was tested,
    opened or written. Every other result is the conversion of [ret]:
    [OSError] or the value. *)
Theorem mkfs_argument_errors_touch_nothing (fuel : nat) (a : mkfs_args)
  (w : world) (res : py_result) (w' : world) (evs : list event) :
  pybtrfs_mkfs E fuel a w = Some (res, w') ->
  trace w' = trace w ++ evs ->
  (argument_error res \/ converted_result res) /\
  (argument_error res ->
   Forall checking_event evs /\ opened evs = [] /\
   Forall (fun e => mutation e = false) evs).
Proof.
  intros Hrun Ht.
  destruct (pybtrfs_mkfs_run E fuel a w res w' Hrun)
    as (evs' & Ht' & _ & _ & Hres).
  rewrite Ht in Ht'. apply app_inv_head in Ht'. subst evs'.
  split; [tauto|].
  intros Harg.
  destruct Hres as [[_ Hq]|[(e & ->)|(u & n & ->)]].
  - split; [exact Hq|].
    assert (Hq' : Forall quiet evs).
    { eapply Forall_impl; [|exact Hq].
      intros [c r|s|i p]; simpl; try tauto. destruct c; tauto. }
    destruct (quiet_silent _ Hq') as (_ & Ho & _).
    split; [exact Ho | now apply quiet_no_mutation].
  - destruct Harg as [H|[H|[H|H]]]; discriminate H.
  - destruct Harg as [H|[H|[H|H]]]; discriminate H.
Qed.

(** X14.  With the vendored [uuid_parse], a [uuid] argument that is neither
    empty nor well-formed makes the call end while it checks its arguments,
    with [ValueError] unless an earlier check failed: no device is tested,
    opened or written. *)
Theorem mkfs_rejects_malformed_uuid (fuel : nat) (a : mkfs_args) (w : world) :
  vendored_uuid_parse E ->
  kw_uuid a <> EmptyString ->
  uuid_well_formed (kw_uuid a) = false ->
  exists res w' evs,
    pybtrfs_mkfs E fuel a w = Some (res, w') /\
    trace w' = trace w ++ evs /\
    argument_error res /\
    Forall checking_event evs /\
    ((exists paths, device_paths (kw_devices a) = inr paths) ->
     In (Lib (Calloc (Z.of_nat (List.length (kw_devices a))))
           (respond E (calls (trace w))
              (Calloc (Z.of_nat (List.length (kw_devices a))))))
        evs ->
     ret (respond E (calls (trace w))
            (Calloc (Z.of_nat (List.length (kw_devices a))))) <> 0 ->
     (BTRFS_LABEL_SIZE <=? Z.of_nat (String.length (kw_label a))) = false ->
     res = PyErr_ValueError).
Proof.
  intros Hv Hne Hbad. unfold pybtrfs_mkfs. cbv zeta.
  destruct (Z.of_nat (List.length (kw_devices a)) <? 1).
  { exists PyErr_ValueError, w, []. rewrite app_nil_r.
    split; [reflexivity|]. split; [reflexivity|].
    split; [now left|]. split; [constructor | auto]. }
  unfold call at 1. cbv zeta.
  set (c := respond E (calls (trace w))
              (Calloc (Z.of_nat (List.length (kw_devices a))))).
  set (w1 := {| trace := trace w ++ [Lib _ c] |}).
  destruct (ret c =? 0) eqn:Hc.
  { exists PyErr_NoMemory, w1,
      [Lib (Calloc (Z.of_nat (List.length (kw_devices a)))) c].
    split; [reflexivity|]. split; [reflexivity|].
    split; [right; right; now left|]. split; [repeat constructor|].
    intros _ _ Hn. apply Z.eqb_eq in Hc. contradiction. }
  destruct (device_paths (kw_devices a)) as [e|paths] eqn:Hpaths.
  { exists e, w1, [Lib (Calloc (Z.of_nat (List.length (kw_devices a)))) c].
    split; [reflexivity|]. split; [reflexivity|].
    split.
    { clear - Hpaths. revert e Hpaths.
      induction (kw_devices a) as [|o l IH]; intros e; simpl;
        [intros H; discriminate H|].
      destruct o.
      - destruct (device_paths l); [|intros H; discriminate H].
        intros H; injection H as <-. now apply IH.
      - intros H; injection H as <-. right; right; now right.
      - intros H; injection H as <-. right; now left. }
    split; [repeat constructor|].
    intros (paths & H). discriminate H. }
  destruct (BTRFS_LABEL_SIZE <=? _) eqn:Hlabel.
  { exists PyErr_ValueError, w1,
      [Lib (Calloc (Z.of_nat (List.length (kw_devices a)))) c].
    split; [reflexivity|]. split; [reflexivity|].
    split; [now left|]. split; [repeat constructor | auto]. }
  destruct (kw_uuid a) as [|ch s] eqn:Hu; [contradiction|].
  unfold call at 1. cbv zeta.
  set (u := respond E (calls (trace w1)) (UuidParse (String ch s))).
  assert (Hret : ret u = -1).
  { destruct (Hv (calls (trace w1)) (String ch s)) as (buf & Hb).
    unfold u. rewrite Hb, uuid_parse_code, Hbad. reflexivity. }
  rewrite Hret. cbn [Z.eqb negb].
  eexists PyErr_ValueError, _,
    [Lib (Calloc (Z.of_nat (List.length (kw_devices a)))) c;
     Lib (UuidParse (String ch s)) u].
  split; [reflexivity|]. cbn [trace]. unfold w1. cbn [trace].
  split; [now rewrite <- app_assoc|].
  split; [now left|]. split; [repeat constructor | auto].
Qed.

(** X15.  A run returns the value only if every worker was started and
    recorded 0, the requested size fits the first device, and [make_btrfs]
    was called. *)
Theorem mkfs_success_means_all_prepared (fuel : nat) (a : mkfs_args)
  (w : world) (w' : world) (evs : list event) (u : string) (n : Z) :
  pybtrfs_mkfs E fuel a w = Some (Py_BuildValue u n, w') ->
  trace w' = trace w ++ evs ->
  exists ctx,
    prepared evs = combine (seq O (List.length (kw_devices a))) ctx /\
    List.length ctx = List.length (kw_devices a) /\
    Forall (fun p => prepare_ret p = 0) ctx /\
    ~ (kw_byte_count a <> 0 /\
       kw_byte_count a > dev_byte_count (nth O ctx default_progress)) /\
    Exists (fun e => is_make_btrfs e = true) evs.
Proof.
  intros Hrun Ht.
  destruct (pybtrfs_mkfs_spec E fuel a w _ w' Hrun)
    as (evs' & ps & Ht' & _ & _ & Hshape).
  rewrite Ht in Ht'. apply app_inv_head in Ht'. subst evs'.
  destruct Hshape as [(_ & Hraise & _)
                     |(ctx & evs1 & evs2 & He & Hprep & Hlen & Hm1 & Hout)];
    [contradiction|].
  destruct Hout as (H1 & H2 & H3 & H4).
  assert (Hp0 : prepare_ret (nth O ctx default_progress) = 0).
  { destruct (Z.eq_dec (prepare_ret (nth O ctx default_progress)) 0)
      as [H|H]; [exact H|].
    destruct (H1 H) as [Hres _]. discriminate Hres. }
  assert (Hfit : ~ (kw_byte_count a <> 0 /\
                    kw_byte_count a
                    > dev_byte_count (nth O ctx default_progress))).
  { intros [Ha Hb]. destruct (H2 Hp0 Ha Hb) as [Hres _]. discriminate Hres. }
  exists ctx. split; [exact Hprep|]. split; [exact Hlen|].
  split.
  { apply Forall_forall. intros p Hin.
    destruct (Z.eq_dec (prepare_ret p) 0) as [H|H]; [exact H|].
    destruct H4 as (e & _ & Hres);
      [apply Exists_exists; eauto | discriminate Hres]. }
  split; [exact Hfit|].
  rewrite He. apply Exists_app. right. now apply H3.
Qed.

End RunExtras.

(** * Transactions *)

Lemma tx_run_app (s : bool) (h1 h2 : history) :
  tx_run s (h1 ++ h2)
  = match tx_run s h1 with
    | Some o => tx_run o h2
    | None => None
    end.
Proof.
  revert s. induction h1 as [|e h1 IH]; intros s; simpl; [reflexivity|].
  destruct (tx_step s e); [apply IH | reflexivity].
Qed.

Lemma tx_run_keeps (evs : list event) :
  Forall keeps_handle evs -> tx_run true evs = Some true.
Proof.
  induction 1 as [|e evs He _ IH]; simpl; [reflexivity|].
  destruct e as [c r|s|i p]; simpl; [|exact IH|exact IH].
  destruct c; simpl in *; try exact IH; contradiction.
Qed.

Lemma tx_run_without (s : bool) (evs : list event) :
  Forall without_handle evs -> tx_run s evs = Some s.
Proof.
  induction 1 as [|e evs He _ IH]; simpl; [reflexivity|].
  destruct e as [c r|st|i p]; simpl; [|exact IH|exact IH].
  destruct c; simpl in *; try exact IH; try contradiction;
    discriminate He.
Qed.

Lemma quiet_without (evs : list event) :
  Forall quiet evs -> Forall without_handle evs.
Proof.
  apply Forall_impl. intros [c r|s|i p]; simpl; try tauto.
  destruct c; simpl; tauto.
Qed.

Lemma closing_without (evs : list event) :
  Forall closing_event evs -> Forall without_handle evs.
Proof.
  apply Forall_impl. intros [c r|s|i p]; simpl; try tauto.
  destruct c; simpl; tauto.
Qed.

Lemma loop_keeps (evs : list event) :
  Forall loop_event evs -> Forall keeps_handle evs.
Proof.
  apply Forall_impl. intros [c r|s|i p]; simpl; try tauto.
  destruct c; simpl; tauto.
Qed.

(** Symbolic execution that keeps the outcome of every test. *)
Ltac run_tests :=
  repeat match goal with
         | |- context [call ?E ?c ?w] =>
             let r := fresh "r" in
             let w' := fresh "w" in
             let Hc := fresh "Hc" in
             destruct (call E c w) as [r w'] eqn:Hc;
             apply call_trace in Hc; simpl in Hc
         | |- context [if negb ?b then _ else _] =>
             destruct b eqn:?; cbn [negb]
         | |- context [if ?b then _ else _] => destruct b eqn:?
         end.

(** The trace equations are chained into one list of events, on which the
    protocol is run with the tests made on the way. *)
Ltac settle_tx :=
  cbn [fst snd update_allocation set_allocation trace];
  repeat match goal with
         | H : trace ?w = _ |- context [trace ?w] =>
             rewrite H;
             cbn [fst snd update_allocation set_allocation enter record
                  trace]
         end;
  rewrite <- ?app_assoc; cbn [app];
  eexists _, _; split; [reflexivity|];
  cbn [tx_run tx_step takes_handle andb negb];
  repeat match goal with
         | H : (_ =? _) = _ |- _ => rewrite H
         end;
  cbn [tx_run tx_step takes_handle andb negb];
  split; [reflexivity|];
  intros Hz; try reflexivity; exfalso;
  repeat match goal with
         | H : (_ =? _) = false |- _ => apply Z.eqb_neq in H
         | H : (_ <? _) = true |- _ => apply Z.ltb_lt in H
         end;
  lia.

Section Transactions.

Context {K : btrfs_uapi}.
Variable E : environment.

#[local] Arguments call : simpl never.

Lemma create_metadata_block_groups_tx (inc mp : Z) (w : world) :
  exists evs o,
    trace (snd (create_metadata_block_groups E inc mp w)) = trace w ++ evs /\
    tx_run false evs = Some o /\
    (fst (create_metadata_block_groups E inc mp w) = 0 -> o = false).
Proof.
  unfold create_metadata_block_groups. cbv zeta. run_tests; settle_tx.
Qed.

Lemma setup_tree_root_tx (objectid : Z) (w : world) :
  exists evs o,
    trace (snd (setup_tree_root E objectid w)) = trace w ++ evs /\
    tx_run false evs = Some o /\
    (fst (setup_tree_root E objectid w) = 0 -> o = false).
Proof. unfold setup_tree_root. run_tests; settle_tx. Qed.

Lemma create_one_raid_group_keeps (ty : Z) (w : world) :
  extends keeps_handle (trace w)
    (trace (snd (create_one_raid_group E ty w))).
Proof. unfold create_one_raid_group. run_stage; chain_trace. Qed.

Lemma create_raid_groups_keeps (dp mp : Z) (mixed : bool) (w : world) :
  extends keeps_handle (trace w)
    (trace (snd (create_raid_groups E dp mp mixed w))).
Proof.
  unfold create_raid_groups.
  repeat match goal with
         | |- context [create_one_raid_group E ?ty ?w] =>
             sub_stage (create_one_raid_group E ty w)
               (create_one_raid_group_keeps ty w)
         | |- context [if ?b then _ else _] => destruct b eqn:?
         end; chain_trace.
Qed.

Lemma create_data_block_groups_keeps (mixed : bool) (w : world) :
  extends keeps_handle (trace w)
    (trace (snd (create_data_block_groups E mixed w))).
Proof. unfold create_data_block_groups. run_stage; chain_trace. Qed.

Lemma attach_devices_keeps (sectorsize : Z)
  (ctx : list prepare_device_progress) :
  forall w : world,
    extends keeps_handle (trace w)
      (trace (snd (attach_devices E ctx sectorsize w))).
Proof.
  induction ctx as [|p ctx IH]; intros w; simpl.
  - apply extends_refl.
  - run_stage;
      try (eapply extends_trans; [| apply IH]); chain_trace.
Qed.

Lemma cleanup_temp_chunks_tx (fuel : nat) (dp mp sp : Z) (dd : bool) :
  tx_stage false false (cleanup_temp_chunks E fuel dp mp sp dd).
Proof.
  intros w r w'. unfold cleanup_temp_chunks.
  destruct (call E StartTransaction _) as [t w1] eqn:Hc1.
  apply call_trace in Hc1. simpl in Hc1.
  destruct (ret t =? 0) eqn:Ht; cbn [negb].
  - destruct (cleanup_loop E fuel dp mp sp 0 w1) as [[r2 w2]|] eqn:Hl;
      [|intros H; discriminate H].
    apply cleanup_loop_trace in Hl. destruct Hl as (loop & Hl & Hall).
    destruct (call E CommitTransaction w2) as [c w3] eqn:Hc3.
    apply call_trace in Hc3.
    intros H; inversion H; subst r w'.
    exists (Enter (CleanupTempChunks dp mp sp dd)
            :: Lib StartTransaction t :: loop ++ [Lib CommitTransaction c]),
      false.
    split; [rewrite Hc3, Hl, Hc1, <- !app_assoc; reflexivity|].
    split; [|reflexivity].
    cbn [tx_run tx_step]. rewrite Ht, tx_run_app.
    rewrite (tx_run_keeps loop (loop_keeps loop Hall)). reflexivity.
  - intros H; inversion H; subst r w'.
    exists [Enter (CleanupTempChunks dp mp sp dd); Lib StartTransaction t],
      false.
    split; [rewrite Hc1, <- app_assoc; reflexivity|].
    split; [cbn [tx_run tx_step]; rewrite Ht; reflexivity | reflexivity].
Qed.

(** *** Stages in sequence *)

Lemma and_then_tx (s s1 s2 : bool) (m k : step) :
  tx_stage s s1 m -> tx_stage s1 s2 k -> tx_stage s s2 (and_then m k).
Proof.
  intros Hm Hk w r w'. unfold and_then.
  destruct (m w) as [[r1 w1]|] eqn:Hmw; [|intros H; discriminate H].
  destruct (Hm _ _ _ Hmw) as (evs1 & o1 & Heq1 & Hrun1 & Hz1).
  destruct (r1 =? 0) eqn:Hr1.
  - apply Z.eqb_eq in Hr1. rewrite (Hz1 Hr1) in Hrun1.
    intros Hkw.
    destruct (Hk _ _ _ Hkw) as (evs2 & o2 & Heq2 & Hrun2 & Hz2).
    exists (evs1 ++ evs2), o2.
    split; [rewrite Heq2, Heq1, <- app_assoc; reflexivity|].
    split; [rewrite tx_run_app, Hrun1; exact Hrun2 | exact Hz2].
  - apply Z.eqb_neq in Hr1.
    intros H; inversion H; subst r w'.
    exists evs1, o1. split; [exact Heq1|]. split; [exact Hrun1|].
    intros Hz; contradiction.
Qed.

Lemma total_tx (s s' : bool) (f : world -> Z * world) :
  (forall w, exists evs o,
      trace (snd (f w)) = trace w ++ evs /\ tx_run s evs = Some o /\
      (fst (f w) = 0 -> o = s')) ->
  tx_stage s s' (total f).
Proof.
  intros Hf w r w'. unfold total. intros H; inversion H as [H1].
  specialize (Hf w). rewrite H1 in Hf. exact Hf.
Qed.

Lemma total_keeps (f : world -> Z * world) :
  (forall w, extends keeps_handle (trace w) (trace (snd (f w)))) ->
  tx_stage true true (total f).
Proof.
  intros Hf. apply total_tx. intros w.
  destruct (Hf w) as (evs & Heq & Hall).
  exists evs, true. split; [exact Heq|].
  split; [now apply tx_run_keeps | reflexivity].
Qed.

Lemma lib_start_tx : tx_stage false true (lib E StartTransaction).
Proof.
  intros w r w'. unfold lib.
  destruct (call E StartTransaction w) as [t w1] eqn:Hc.
  apply call_trace in Hc. intros H; inversion H; subst r w'.
  exists [Lib StartTransaction t], (ret t =? 0).
  split; [exact Hc|]. split; [reflexivity|].
  intros Hz. rewrite Hz. reflexivity.
Qed.

Lemma lib_commit_tx : tx_stage true false (lib E CommitTransaction).
Proof.
  intros w r w'. unfold lib.
  destruct (call E CommitTransaction w) as [t w1] eqn:Hc.
  apply call_trace in Hc. intros H; inversion H; subst r w'.
  exists [Lib CommitTransaction t], false.
  split; [exact Hc|]. split; reflexivity.
Qed.

Lemma lib_keeps_tx (c : lib_call) :
  (forall r, keeps_handle (Lib c r)) -> tx_stage true true (lib E c).
Proof.
  intros Hk w r w'. unfold lib.
  destruct (call E c w) as [t w1] eqn:Hc.
  apply call_trace in Hc. intros H; inversion H; subst r w'.
  exists [Lib c t], true.
  split; [exact Hc|]. split; [|reflexivity].
  apply tx_run_keeps. constructor; [apply Hk | constructor].
Qed.

Lemma lib_without_tx (s : bool) (c : lib_call) :
  (forall r, without_handle (Lib c r)) -> tx_stage s s (lib E c).
Proof.
  intros Hk w r w'. unfold lib.
  destruct (call E c w) as [t w1] eqn:Hc.
  apply call_trace in Hc. intros H; inversion H; subst r w'.
  exists [Lib c t], s.
  split; [exact Hc|]. split; [|reflexivity].
  apply tx_run_without. constructor; [apply Hk | constructor].
Qed.

Lemma when_tx (s : bool) (b : bool) (m : step) :
  tx_stage s s m -> tx_stage s s (when b m).
Proof.
  intros Hm w r w'. destruct b; simpl; [apply Hm|].
  unfold skip. intros H; inversion H; subst r w'.
  exists [], s. split; [now rewrite app_nil_r|]. split; reflexivity.
Qed.

Lemma mkfs_trees_tx (fuel : nat) (inc dp mp : Z) (mixed : bool)
  (sectorsize : Z) (dd : bool) (ctx : list prepare_device_progress) :
  tx_stage false false (mkfs_trees E fuel inc dp mp mixed sectorsize dd ctx).
Proof.
  unfold mkfs_trees.
  eapply and_then_tx;
    [apply total_tx; apply create_metadata_block_groups_tx|].
  eapply and_then_tx;
    [apply when_tx; apply total_tx; apply setup_tree_root_tx|].
  eapply and_then_tx;
    [apply when_tx; apply total_tx; apply setup_tree_root_tx|].
  eapply and_then_tx; [apply lib_start_tx|].
  eapply and_then_tx;
    [apply total_keeps; apply create_data_block_groups_keeps|].
  eapply and_then_tx.
  { apply when_tx. intros w r w'.
    destruct (call E Sysconf_NPROCESSORS_ONLN w) as [n w1] eqn:Hc.
    apply call_trace in Hc. intros H.
    apply (lib_keeps_tx (CreateGlobalRoots (ret n))) in H;
      [|intros; exact I].
    destruct H as (evs & o & Heq & Hrun & Hz).
    exists (Lib Sysconf_NPROCESSORS_ONLN n :: evs), o.
    split; [rewrite Heq, Hc, <- app_assoc; reflexivity|].
    split; [exact Hrun | exact Hz]. }
  eapply and_then_tx; [apply lib_keeps_tx; intros; exact I|].
  eapply and_then_tx; [apply lib_commit_tx|].
  eapply and_then_tx; [apply lib_start_tx|].
  eapply and_then_tx; [apply total_keeps; apply attach_devices_keeps|].
  eapply and_then_tx; [apply total_keeps; apply create_raid_groups_keeps|].
  eapply and_then_tx; [apply lib_commit_tx|].
  eapply and_then_tx; [apply lib_start_tx|].
  eapply and_then_tx; [apply lib_keeps_tx; intros; exact I|].
  eapply and_then_tx; [apply when_tx; apply lib_keeps_tx; intros; exact I|].
  eapply and_then_tx; [apply lib_commit_tx|].
  eapply and_then_tx; [apply lib_without_tx; intros; reflexivity|].
  intros w r w' H.
  apply cleanup_temp_chunks_tx in H. exact H.
Qed.

End Transactions.

Section RunTransactions.

Context {K : btrfs_uapi}.
Variable E : environment.

#[local] Arguments call : simpl never.

Lemma closing_extends_without (h h' : history) :
  extends closing_event h h' -> extends without_handle h h'.
Proof.
  apply extends_impl. intros [c r|s|i p]; simpl; try tauto.
  destruct c; simpl; tauto.
Qed.

Lemma quiet_extends_without (h h' : history) :
  extends quiet h h' -> extends without_handle h h'.
Proof.
  apply extends_impl. intros [c r|s|i p]; simpl; try tauto.
  destruct c; simpl; tauto.
Qed.

Lemma prepare_one_device_without (p : prepare_device_progress) (w : world) :
  extends without_handle (trace w) (trace (snd (prepare_one_device E p w))).
Proof. unfold prepare_one_device. run_stage; chain_trace. Qed.

Lemma launch_workers_without (bc : Z) (dd : bool) (ps : list string) :
  forall (i : nat) (launched : list prepare_device_progress) (w : world),
    extends without_handle (trace w)
      (trace (snd (launch_workers E ps i launched bc dd w))).
Proof.
  induction ps as [|p ps IH]; intros i launched w; cbn [launch_workers].
  - apply extends_refl.
  - destruct (call E (PthreadCreate i) w) as [c w1] eqn:Hc1.
    apply call_trace in Hc1.
    assert (H1 : extends without_handle (trace w) (trace w1))
      by (rewrite Hc1; apply extends_step;
          [apply extends_refl | reflexivity]).
    destruct (negb (ret c =? 0)); cbn [snd].
    + eapply extends_trans; [exact H1|].
      apply closing_extends_without, join_and_close_closing.
    + match goal with
      | |- context [prepare_one_device E ?q w1] =>
          pose proof (prepare_one_device_without q w1) as H2;
          destruct (prepare_one_device E q w1) as [p' w2]
      end.
      cbn [snd] in H2.
      eapply extends_trans; [|apply IH].
      unfold record. cbn [trace].
      apply extends_step; [eapply extends_trans; eauto | exact I].
Qed.

(** From the joined workers to the end of the run. *)
Lemma mkfs_prepared_tx (fuel : nat) (a : mkfs_args) (paths : list string)
  (fs_uuid : string) (mp dp inc ns : Z)
  (ctx : list prepare_device_progress) (w : world) (res : py_result)
  (w' : world) :
  mkfs_prepared E fuel a paths fs_uuid mp dp inc ns ctx w = Some (res, w') ->
  exists evs o,
    trace w' = trace w ++ evs /\ tx_run false evs = Some o /\
    (is_value res -> o = false).
Proof.
  unfold mkfs_prepared. cbv zeta.
  assert (Hexit : forall (r : Z) (u : string) (n : Z) (w1 : world),
    extends without_handle (trace w) (trace w1) ->
    Some (out_close E r u n ctx w1) = Some (res, w') ->
    exists evs o,
      trace w' = trace w ++ evs /\ tx_run false evs = Some o /\
      (is_value res -> o = false)).
  { intros r u n w1 H1 H.
    pose proof (out_close_closing E r u n ctx w1) as H2.
    destruct (out_close E r u n ctx w1) as [res0 w0]. cbn [snd] in H2.
    injection H as _ <-.
    apply closing_extends_without in H2.
    destruct (extends_trans _ _ _ _ H1 H2) as (evs & Heq & Hall).
    exists evs, false. split; [exact Heq|].
    split; [now apply tx_run_without | reflexivity]. }
  assert (Hexit' : forall (r : Z) (u : string) (n : Z) (w1 : world)
                          (evs1 : list event) (o1 : bool),
    trace w1 = trace w ++ evs1 -> tx_run false evs1 = Some o1 ->
    (r = 0 -> o1 = false) ->
    Some (out_ctree E r u n ctx w1) = Some (res, w') ->
    exists evs o,
      trace w' = trace w ++ evs /\ tx_run false evs = Some o /\
      (is_value res -> o = false)).
  { intros r u n w1 evs1 o1 Heq1 Hrun1 Hz H.
    pose proof (out_ctree_closing E r u n ctx w1) as H2.
    destruct (out_ctree_spec E r u n ctx w1) as (_ & _ & _ & Hfail & _).
    destruct (out_ctree E r u n ctx w1) as [res0 w0]. cbn [fst snd] in *.
    injection H as <- <-.
    apply closing_extends_without in H2.
    destruct H2 as (evs2 & Heq2 & Hall2).
    exists (evs1 ++ evs2), o1.
    split; [rewrite Heq2, Heq1, <- app_assoc; reflexivity|].
    split; [rewrite tx_run_app, Hrun1; now apply tx_run_without|].
    intros (u0 & n0 & Hv). apply Hz.
    destruct (Z.eq_dec r 0) as [Hr|Hr]; [exact Hr|].
    rewrite (Hfail Hr) in Hv. discriminate Hv. }
  destruct (negb (prepare_ret _ =? 0)).
  { apply Hexit, extends_refl. }
  destruct (negb _ && _).
  { apply Hexit, extends_refl. }
  match goal with
  | |- context [call E ?c w] => destruct (call E c w) as [m w1] eqn:Hc1
  end.
  apply call_trace in Hc1.
  assert (H1 : extends without_handle (trace w) (trace w1)).
  { rewrite Hc1. apply extends_step; [apply extends_refl | reflexivity]. }
  destruct (negb (ret m =? 0)).
  { now apply Hexit. }
  match goal with
  | |- context [call E ?c w1] => destruct (call E c w1) as [o w2] eqn:Hc2
  end.
  apply call_trace in Hc2.
  assert (H2 : extends without_handle (trace w) (trace w2)).
  { rewrite Hc2. apply extends_step; [exact H1 | reflexivity]. }
  destruct (ret o =? 0).
  { now apply Hexit. }
  destruct H2 as (evs2 & Heq2 & Hall2).
  destruct (mkfs_trees E fuel inc dp mp (kw_mixed a) (kw_sectorsize a)
              (negb (kw_no_discard a)) ctx w2) as [[r w3]|] eqn:Ht;
    [|intros H; discriminate H].
  apply mkfs_trees_tx in Ht. destruct Ht as (evs3 & o3 & Heq3 & Hrun3 & Hz3).
  assert (Hrun : tx_run false (evs2 ++ evs3) = Some o3)
    by (rewrite tx_run_app, (tx_run_without false evs2 Hall2); exact Hrun3).
  assert (Heq : trace w3 = trace w ++ evs2 ++ evs3)
    by (rewrite Heq3, Heq2, <- app_assoc; reflexivity).
  destruct (r =? 0) eqn:Hr.
  - apply Z.eqb_eq in Hr.
    destruct (call E SuperTotalBytes w3) as [n w4] eqn:Hc4.
    apply call_trace in Hc4.
    apply (Hexit' _ _ _ _ ((evs2 ++ evs3) ++ [Lib SuperTotalBytes n]) o3).
    + rewrite Hc4, Heq, <- !app_assoc. reflexivity.
    + rewrite tx_run_app, Hrun. reflexivity.
    + intros _. now apply Hz3.
  - apply (Hexit' _ _ _ _ (evs2 ++ evs3) o3); auto.
Qed.

Lemma mkfs_released_tx (fuel : nat) (a : mkfs_args) (paths : list string)
  (fs_uuid : string) (mp dp inc ns : Z) (w : world) (res : py_result)
  (w' : world) :
  mkfs_released E fuel a paths fs_uuid mp dp inc ns w = Some (res, w') ->
  exists evs o,
    trace w' = trace w ++ evs /\ tx_run false evs = Some o /\
    (is_value res -> o = false).
Proof.
  unfold mkfs_released. cbv zeta.
  assert (Hexit : forall (r : Z) (u : string) (n : Z) (w1 : world),
    extends without_handle (trace w) (trace w1) ->
    Some (out_free E r u n w1) = Some (res, w') ->
    exists evs o,
      trace w' = trace w ++ evs /\ tx_run false evs = Some o /\
      (is_value res -> o = false)).
  { intros r u n w1 H1 H.
    pose proof (out_free_closing E r u n w1) as H2.
    destruct (out_free E r u n w1) as [res0 w0]. cbn [snd] in H2.
    injection H as _ <-.
    apply closing_extends_without in H2.
    destruct (extends_trans _ _ _ _ H1 H2) as (evs & Heq & Hall).
    exists evs, false. split; [exact Heq|].
    split; [now apply tx_run_without | reflexivity]. }
  match goal with
  | |- context [if negb (kw_force a) then ?x else ?y] =>
      assert (Htest : extends without_handle (trace w)
                        (trace (snd (if negb (kw_force a) then x else y))));
      [ destruct (negb (kw_force a)); cbn [snd];
        [ apply quiet_extends_without, test_devices_trace
        | apply extends_refl ]
      | destruct (if negb (kw_force a) then x else y) as [r w1] ]
  end.
  cbn [snd] in Htest.
  destruct (negb (r =? 0)).
  { now apply Hexit. }
  match goal with
  | |- context [call E ?c w1] => destruct (call E c w1) as [t w2] eqn:Hc2
  end.
  apply call_trace in Hc2.
  match goal with
  | |- context [call E ?c w2] => destruct (call E c w2) as [c3 w3] eqn:Hc3
  end.
  apply call_trace in Hc3.
  assert (H3 : extends without_handle (trace w) (trace w3)).
  { rewrite Hc3, Hc2.
    apply extends_step; [apply extends_step; [exact Htest|]|]; reflexivity. }
  destruct (_ || _).
  { now apply Hexit. }
  pose proof (launch_workers_without (kw_byte_count a)
                (negb (kw_no_discard a)) paths O [] w3) as H4.
  destruct (launch_workers E paths O [] (kw_byte_count a)
              (negb (kw_no_discard a)) w3) as [[e|ctx] w4]; cbn [snd] in H4.
  { apply Hexit. eapply extends_trans; eauto. }
  intros H. apply mkfs_prepared_tx in H.
  destruct H as (evs6 & o & Heq6 & Hrun6 & Hv).
  pose proof (closing_extends_without _ _
                (join_workers_closing E (List.length paths) O w4)) as H5.
  destruct (extends_trans _ _ _ _ (extends_trans _ _ _ _ H3 H4) H5)
    as (evs5 & Heq5 & Hall5).
  exists (evs5 ++ evs6), o.
  split; [rewrite Heq6, Heq5, <- app_assoc; reflexivity|].
  split; [rewrite tx_run_app, (tx_run_without false evs5 Hall5); exact Hrun6
         | exact Hv].
Qed.

(** X16.  In every run, a transaction is started only when none is open and
    committed only when one is, and every call that is given the transaction
    handle is made between a successful start and its commit; a run that
    returns the value has committed every transaction it started. *)
Theorem mkfs_transactions_in_turn (fuel : nat) (a : mkfs_args) (w : world)
  (res : py_result) (w' : world) (evs : list event) :
  pybtrfs_mkfs E fuel a w = Some (res, w') ->
  trace w' = trace w ++ evs ->
  exists open,
    tx_run false evs = Some open /\ (is_value res -> open = false).
Proof.
  intros Hrun Ht.
  assert (H : exists evs' o,
             trace w' = trace w ++ evs' /\ tx_run false evs' = Some o /\
             (is_value res -> o = false)).
  { revert Hrun. clear Ht. unfold pybtrfs_mkfs. cbv zeta.
    assert (Hearly : forall (res0 : py_result) (w1 : world),
      extends without_handle (trace w) (trace w1) ->
      Some (res0, w1) = Some (res, w') ->
      exists evs' o,
        trace w' = trace w ++ evs' /\ tx_run false evs' = Some o /\
        (is_value res -> o = false)).
    { intros res0 w1 (evs1 & Heq1 & Hall1) H. injection H as <- <-.
      exists evs1, false. split; [exact Heq1|].
      split; [now apply tx_run_without | reflexivity]. }
    destruct (Z.of_nat (List.length (kw_devices a)) <? 1).
    { apply Hearly, extends_refl. }
    match goal with
    | |- context [call E ?cl w] => destruct (call E cl w) as [c w1] eqn:Hc1
    end.
    apply call_trace in Hc1.
    assert (H1 : extends without_handle (trace w) (trace w1))
      by (rewrite Hc1; apply extends_step;
          [apply extends_refl | reflexivity]).
    destruct (ret c =? 0); [now apply Hearly|].
    destruct (device_paths (kw_devices a)) as [e|paths];
      [now apply Hearly|].
    destruct (BTRFS_LABEL_SIZE <=? _); [now apply Hearly|].
    match goal with
    | |- context [match kw_uuid a with
                  | EmptyString => ?x
                  | String _ _ => ?y
                  end] =>
        assert (Huuid : extends without_handle (trace w)
                  (trace (snd (match kw_uuid a with
                               | EmptyString => x
                               | String _ _ => y
                               end))));
        [ destruct (kw_uuid a);
          [ exact H1
          | match goal with
            | |- context [call E ?cl w1] =>
                destruct (call E cl w1) as [u w2] eqn:Hc2
            end;
            apply call_trace in Hc2; cbn [snd]; rewrite Hc2;
            apply extends_step; [exact H1 | reflexivity] ]
        | destruct (match kw_uuid a with
                    | EmptyString => x
                    | String _ _ => y
                    end) as [bad w2] ]
    end.
    cbn [snd] in Huuid.
    destruct bad; [now apply Hearly|].
    destruct (call E Sysconf_PAGE_SIZE w2) as [pg w3] eqn:Hc3.
    apply call_trace in Hc3.
    intros Hrun. apply mkfs_released_tx in Hrun.
    destruct Hrun as (evs2 & o & Heq2 & Hrun2 & Hv).
    assert (H3 : extends without_handle (trace w) (trace w3))
      by (rewrite Hc3; apply extends_step; [exact Huuid | reflexivity]).
    destruct H3 as (evs1 & Heq1 & Hall1).
    exists (evs1 ++ evs2), o.
    split; [rewrite Heq2, Heq1, <- app_assoc; reflexivity|].
    split; [rewrite tx_run_app, (tx_run_without false evs1 Hall1);
            exact Hrun2 | exact Hv]. }
  destruct H as (evs' & o & Heq & Hrun' & Hv).
  rewrite Ht in Heq. apply app_inv_head in Heq. subst evs'.
  exists o. split; [exact Hrun' | exact Hv].
Qed.

End RunTransactions.

Section RunValue.

Context {K : btrfs_uapi}.
Variable E : environment.

#[local] Arguments call : simpl never.

Lemma result_of_value (r : Z) (u u' : string) (n n' : Z) :
  result_of r u n = Py_BuildValue u' n' -> r = 0 /\ u' = u /\ n' = n.
Proof.
  unfold result_of. destruct (r =? 0) eqn:Hr; cbn [negb].
  - apply Z.eqb_eq in Hr. intros H; injection H as <- <-. auto.
  - intros H; discriminate H.
Qed.

Lemma closing_not_make_btrfs (evs : list event) :
  Forall closing_event evs -> Forall (fun e => is_make_btrfs e = false) evs.
Proof.
  apply Forall_impl. intros [c r|s|i p]; simpl; try tauto.
  destruct c; simpl; tauto.
Qed.

Lemma tree_not_make_btrfs (inc dp mp : Z) (mixed dd : bool)
  (evs : list event) :
  Forall (tree_event inc dp mp mixed dd) evs ->
  Forall (fun e => is_make_btrfs e = false) evs.
Proof.
  apply Forall_impl. intros [c r|s|i p]; simpl; try tauto.
  destruct c; simpl; try tauto; intros H; discriminate H.
Qed.

Lemma quiet_not_make_btrfs (evs : list event) :
  Forall quiet evs -> Forall (fun e => is_make_btrfs e = false) evs.
Proof.
  apply Forall_impl. intros [c r|s|i p]; simpl; try tauto.
  destruct c; simpl; tauto.
Qed.

Lemma idle_not_make_btrfs (evs : list event) :
  Forall idle evs -> Forall (fun e => is_make_btrfs e = false) evs.
Proof.
  apply Forall_impl. intros [c r|s|i p]; simpl; try tauto.
  destruct c; simpl; tauto.
Qed.

Lemma mkfs_prepared_value (fuel : nat) (a : mkfs_args) (paths : list string)
  (fs_uuid : string) (mp dp inc ns : Z)
  (ctx : list prepare_device_progress) (w : world) (u : string) (n : Z)
  (w' : world) :
  mkfs_prepared E fuel a paths fs_uuid mp dp inc ns ctx w
  = Some (Py_BuildValue u n, w') ->
  exists mk m mid t c after,
    trace w' = trace w ++ Lib mk m :: mid
               ++ Lib SuperTotalBytes t :: Lib CloseCtree c :: after /\
    is_make_btrfs (Lib mk m) = true /\ ret m = 0 /\
    u = fs_uuid_after_make_btrfs E (calls (trace w ++ [Lib mk m])) fs_uuid /\
    n = ret t /\ ret c = 0 /\
    Forall (fun e => is_make_btrfs e = false) (mid ++ after) /\
    Forall closing_event after.
Proof.
  unfold mkfs_prepared. cbv zeta.
  assert (Hexit : forall (r : Z) (u0 : string) (n0 : Z) (w1 : world) (T : Prop),
    r <> 0 ->
    Some (out_close E r u0 n0 ctx w1) = Some (Py_BuildValue u n, w') -> T).
  { intros r u0 n0 w1 T Hr H.
    destruct (out_close_spec E r u0 n0 ctx w1) as (evs & _ & _ & Hres).
    destruct (out_close E r u0 n0 ctx w1) as [res0 w0]. cbn [fst] in Hres.
    injection H as -> _. symmetry in Hres.
    apply result_of_value in Hres. tauto. }
  destruct (prepare_ret _ =? 0) eqn:Hp0; cbn [negb].
  2:{ apply Hexit. now apply Z.eqb_neq. }
  destruct (negb _ && _).
  { apply Hexit. discriminate. }
  match goal with
  | |- context [call E ?c w] => destruct (call E c w) as [m w1] eqn:Hc1
  end.
  apply call_trace in Hc1.
  destruct (ret m =? 0) eqn:Hm; cbn [negb].
  2:{ apply Hexit. now apply Z.eqb_neq. }
  apply Z.eqb_eq in Hm.
  match goal with
  | |- context [call E ?c w1] => destruct (call E c w1) as [o w2] eqn:Hc2
  end.
  apply call_trace in Hc2.
  destruct (ret o =? 0).
  { apply Hexit. discriminate. }
  destruct (mkfs_trees E fuel inc dp mp (kw_mixed a) (kw_sectorsize a)
              (negb (kw_no_discard a)) ctx w2) as [[r w3]|] eqn:Ht;
    [|intros H; discriminate H].
  apply (mkfs_trees_trace E fuel inc dp mp (kw_mixed a) (kw_sectorsize a)
           (negb (kw_no_discard a)) ctx) in Ht.
  destruct Ht as (evs3 & Heq3 & Hall3).
  destruct (r =? 0) eqn:Hr.
  2:{ intros H. apply Z.eqb_neq in Hr.
      destruct (out_ctree_spec E r EmptyString 0 ctx w3)
        as (_ & _ & _ & Hfail & _).
      destruct (out_ctree E r EmptyString 0 ctx w3) as [res0 w0].
      cbn [fst] in Hfail. injection H as -> _.
      specialize (Hfail Hr). discriminate Hfail. }
  destruct (call E SuperTotalBytes w3) as [t w4] eqn:Hc4.
  apply call_trace in Hc4.
  unfold out_ctree.
  destruct (call E CloseCtree w4) as [c w5] eqn:Hc5.
  apply call_trace in Hc5.
  match goal with
  | |- context [out_close E ?r' ?u0 ?n0 ctx w5] =>
      destruct (out_close_spec E r' u0 n0 ctx w5) as (evs6 & Heq6 & _ & Hres);
      pose proof (out_close_closing E r' u0 n0 ctx w5) as Hcl;
      destruct (out_close E r' u0 n0 ctx w5) as [res0 w0]
  end.
  cbn [fst snd] in *. intros H; injection H as -> ->. symmetry in Hres.
  apply result_of_value in Hres. destruct Hres as (Hr' & -> & ->).
  assert (Hc : ret c = 0).
  { cbn [Z.eqb andb] in Hr'. destruct (ret c =? 0) eqn:Hcz.
    - now apply Z.eqb_eq.
    - exact Hr'. }
  destruct Hcl as (after & Heq6' & Hafter).
  rewrite Heq6 in Heq6'. apply app_inv_head in Heq6'. subst after.
  eexists _, m, ([Lib _ o] ++ evs3), t, c, evs6.
  split.
  { rewrite Heq6, Hc5, Hc4, Heq3, Hc2, Hc1, <- !app_assoc. reflexivity. }
  split; [reflexivity|]. split; [exact Hm|].
  split; [rewrite Hc1; reflexivity|].
  split; [reflexivity|]. split; [exact Hc|].
  split; [|exact Hafter].
  apply Forall_app; split; [apply Forall_app; split|].
  - repeat constructor.
  - eapply tree_not_make_btrfs; eauto.
  - now apply closing_not_make_btrfs.
Qed.

Lemma mkfs_released_value (fuel : nat) (a : mkfs_args) (paths : list string)
  (fs_uuid : string) (mp dp inc ns : Z) (w : world) (u : string) (n : Z)
  (w' : world) :
  mkfs_released E fuel a paths fs_uuid mp dp inc ns w
  = Some (Py_BuildValue u n, w') ->
  exists pre mk m mid t c after,
    trace w' = trace w ++ pre ++ Lib mk m :: mid
               ++ Lib SuperTotalBytes t :: Lib CloseCtree c :: after /\
    is_make_btrfs (Lib mk m) = true /\ ret m = 0 /\
    u = fs_uuid_after_make_btrfs E (calls (trace w ++ pre ++ [Lib mk m]))
          fs_uuid /\
    n = ret t /\ ret c = 0 /\
    Forall (fun e => is_make_btrfs e = false) (pre ++ mid ++ after) /\
    Forall closing_event after.
Proof.
  unfold mkfs_released. cbv zeta.
  assert (Hexit : forall (r : Z) (u0 : string) (n0 : Z) (w1 : world)
                         (T : Prop),
    r <> 0 ->
    Some (out_free E r u0 n0 w1) = Some (Py_BuildValue u n, w') -> T).
  { intros r u0 n0 w1 T Hr H.
    destruct (out_free_spec E r u0 n0 w1) as (evs & _ & _ & Hres).
    destruct (out_free E r u0 n0 w1) as [res0 w0]. cbn [fst] in Hres.
    injection H as -> _. symmetry in Hres.
    apply result_of_value in Hres. tauto. }
  match goal with
  | |- context [if negb (kw_force a) then ?x else ?y] =>
      assert (Htest : extends quiet (trace w)
                        (trace (snd (if negb (kw_force a) then x else y))));
      [ destruct (negb (kw_force a)); cbn [snd];
        [ apply test_devices_trace | apply extends_refl ]
      | destruct (if negb (kw_force a) then x else y) as [r w1] ]
  end.
  cbn [snd] in Htest. destruct Htest as (evs1 & Heq1 & Hq1).
  destruct (r =? 0) eqn:Hr; cbn [negb].
  2:{ apply Hexit. now apply Z.eqb_neq. }
  match goal with
  | |- context [call E ?c w1] => destruct (call E c w1) as [t0 w2] eqn:Hc2
  end.
  apply call_trace in Hc2.
  match goal with
  | |- context [call E ?c w2] => destruct (call E c w2) as [c3 w3] eqn:Hc3
  end.
  apply call_trace in Hc3.
  destruct (_ || _).
  { apply Hexit. discriminate. }
  destruct (launch_workers_spec E (kw_byte_count a) (negb (kw_no_discard a))
              paths O [] w3) as (evs4 & Heq4 & Hidle4 & Hcase).
  destruct (launch_workers E paths O [] (kw_byte_count a)
              (negb (kw_no_discard a)) w3) as [[e|ctx] w4];
    cbn [fst snd] in Heq4, Hcase.
  { apply Hexit. tauto. }
  destruct (join_workers_trace E (List.length paths) O w4)
    as (evs5 & Heq5 & Hq5).
  intros H. apply mkfs_prepared_value in H.
  destruct H as (mk & m & mid & t & c & after & Heq & Hmk & Hm & Hu & Hn
                 & Hc & Hno & Hafter).
  set (pre := evs1 ++ [Lib (Calloc (Z.of_nat (List.length (kw_devices a))))
                         t0;
                       Lib (Calloc (Z.of_nat (List.length (kw_devices a))))
                         c3] ++ evs4 ++ evs5).
  assert (Hpre : trace (join_workers E (List.length paths) O w4)
                 = trace w ++ pre).
  { unfold pre. rewrite Heq5, Heq4, Hc3, Hc2, Heq1, <- !app_assoc.
    reflexivity. }
  exists pre, mk, m, mid, t, c, after.
  split; [rewrite Heq, Hpre, <- app_assoc; reflexivity|].
  split; [exact Hmk|]. split; [exact Hm|].
  split; [rewrite Hu, Hpre, <- app_assoc; reflexivity|].
  split; [exact Hn|]. split; [exact Hc|]. split; [|exact Hafter].
  apply Forall_app; split; [|exact Hno].
  unfold pre. repeat (apply Forall_app; split).
  - now apply quiet_not_make_btrfs.
  - repeat constructor.
  - now apply idle_not_make_btrfs.
  - now apply quiet_not_make_btrfs.
Qed.

(** X17.  A run returns the value only on this path: [make_btrfs] is called
    once and returns 0, the UUID returned is the one it left in the
    configuration built from the [uuid] argument, the size returned is the
    one read from the superblock just before [close_ctree], and
    [close_ctree] returned 0; only closing calls follow. *)
Theorem mkfs_value_read_before_close (fuel : nat) (a : mkfs_args)
  (w : world) (u : string) (n : Z) (w' : world) (evs : list event) :
  pybtrfs_mkfs E fuel a w = Some (Py_BuildValue u n, w') ->
  trace w' = trace w ++ evs ->
  value_read_before_close E a (trace w) evs u n.
Proof.
  intros Hrun Ht. revert Hrun. unfold pybtrfs_mkfs. cbv zeta.
  destruct (Z.of_nat (List.length (kw_devices a)) <? 1);
    [intros H; discriminate H|].
  match goal with
  | |- context [call E ?cl w] => destruct (call E cl w) as [c0 w1] eqn:Hc1
  end.
  apply call_trace in Hc1.
  destruct (ret c0 =? 0); [intros H; discriminate H|].
  destruct (device_paths (kw_devices a)) as [e|paths] eqn:Hpaths.
  { intros H. injection H as -> _.
    exfalso.
    exact (device_paths_raises (kw_devices a) _ Hpaths). }
  destruct (BTRFS_LABEL_SIZE <=? _); [intros H; discriminate H|].
  match goal with
  | |- context [match kw_uuid a with
                | EmptyString => ?x
                | String _ _ => ?y
                end] =>
      assert (Huuid : extends quiet (trace w1)
                (trace (snd (match kw_uuid a with
                             | EmptyString => x
                             | String _ _ => y
                             end))));
      [ destruct (kw_uuid a);
        [ apply extends_refl
        | match goal with
          | |- context [call E ?cl w1] =>
              destruct (call E cl w1) as [u1 w2] eqn:Hc2
          end;
          apply call_trace in Hc2; cbn [snd]; rewrite Hc2;
          apply extends_step; [apply extends_refl | exact I] ]
      | destruct (match kw_uuid a with
                  | EmptyString => x
                  | String _ _ => y
                  end) as [bad w2] ]
  end.
  cbn [snd] in Huuid. destruct Huuid as (evs2 & Heq2 & Hq2).
  destruct bad; [intros H; discriminate H|].
  destruct (call E Sysconf_PAGE_SIZE w2) as [pg w3] eqn:Hc3.
  apply call_trace in Hc3.
  intros Hrun. apply mkfs_released_value in Hrun.
  destruct Hrun as (pre & mk & m & mid & t & c & after & Heq & Hmk & Hm & Hu
                    & Hn & Hc & Hno & Hafter).
  set (pre0 := Lib (Calloc (Z.of_nat (List.length (kw_devices a)))) c0
               :: evs2 ++ [Lib Sysconf_PAGE_SIZE pg]).
  assert (Hpre : trace w3 = trace w ++ pre0).
  { unfold pre0. rewrite Hc3, Heq2, Hc1, <- !app_assoc. reflexivity. }
  exists (pre0 ++ pre), mk, m, mid, t, c, after.
  split.
  { rewrite Heq, Hpre, <- !app_assoc in Ht. apply app_inv_head in Ht.
    rewrite <- Ht, <- !app_assoc. reflexivity. }
  split; [exact Hmk|]. split; [exact Hm|].
  split.
  { rewrite Hu, Hpre, <- !app_assoc. reflexivity. }
  split; [exact Hn|]. split; [exact Hc|]. split; [|exact Hafter].
  rewrite <- app_assoc. apply Forall_app; split; [|exact Hno].
  unfold pre0. constructor; [reflexivity|].
  apply Forall_app; split; [|repeat constructor].
  now apply quiet_not_make_btrfs.
Qed.

End RunValue.

(** * The global roots *)

Section GlobalRootsProofs.

Context {T : btrfs_tree_ids}.
Variable R : root_env.

(** What one [create_global_root] adds to the history. *)
Lemma create_global_root_events (objectid root_id : Z) (h : root_history) :
  let k := root_key objectid root_id in
  let t := create_global_root R objectid root_id h in
  exists evs,
    snd t = h ++ evs /\
    super_counts evs = [] /\
    (fst t = 0 ->
     trees_created evs = [k] /\ roots_inserted evs = [k] /\
     aborted evs = []) /\
    (fst t <> 0 ->
     roots_inserted evs = [] /\ aborted evs = [fst t] /\
     exists evs' a, evs = evs' ++ [(AbortTransaction (fst t), a)]).
Proof.
  cbv zeta. unfold create_global_root, ask. cbv zeta.
  set (k := root_key objectid root_id).
  set (c := R h (BtrfsCreateTree k)).
  destruct (c =? 0) eqn:Hc; cbn [negb fst snd].
  - set (h1 := h ++ [(BtrfsCreateTree k, c)]).
    set (i := R h1 (GlobalRootInsert k)).
    destruct (i =? 0) eqn:Hi; cbn [negb fst snd].
    + apply Z.eqb_eq in Hi.
      exists [(BtrfsCreateTree k, c); (GlobalRootInsert k, i)].
      split; [unfold h1; rewrite <- app_assoc; reflexivity|].
      split; [reflexivity|].
      split; [|intros Hn; contradiction].
      intros _. cbn. rewrite Hc, Hi. auto.
    + apply Z.eqb_neq in Hi.
      eexists [(BtrfsCreateTree k, c); (GlobalRootInsert k, i);
               (AbortTransaction i, _)].
      split; [unfold h1; rewrite <- !app_assoc; reflexivity|].
      split; [reflexivity|].
      split; [intros Hz; contradiction|].
      intros _. cbn.
      replace (i =? 0) with false by (symmetry; now apply Z.eqb_neq).
      split; [reflexivity|]. split; [reflexivity|].
      eexists [_; _], _. reflexivity.
  - rewrite ?Hc. cbn [negb fst snd]. apply Z.eqb_neq in Hc.
    eexists [(BtrfsCreateTree k, c); (AbortTransaction c, _)].
    split; [rewrite <- !app_assoc; reflexivity|].
    split; [reflexivity|].
    split; [intros Hz; contradiction|].
    intros _. cbn.
    split; [reflexivity|]. split; [reflexivity|].
    eexists [_], _. reflexivity.
Qed.

Lemma trees_created_app (h1 h2 : root_history) :
  trees_created (h1 ++ h2) = trees_created h1 ++ trees_created h2.
Proof. apply flat_map_app. Qed.

Lemma roots_inserted_app (h1 h2 : root_history) :
  roots_inserted (h1 ++ h2) = roots_inserted h1 ++ roots_inserted h2.
Proof. apply flat_map_app. Qed.

Lemma aborted_app (h1 h2 : root_history) :
  aborted (h1 ++ h2) = aborted h1 ++ aborted h2.
Proof. apply flat_map_app. Qed.

Lemma super_counts_app (h1 h2 : root_history) :
  super_counts (h1 ++ h2) = super_counts h1 ++ super_counts h2.
Proof. apply flat_map_app. Qed.

(** What the loop adds to the history. *)
Lemma global_roots_loop_events (ids : list Z) :
  forall h : root_history,
  let t := global_roots_loop R ids h in
  exists evs,
    snd t = h ++ evs /\
    super_counts evs = [] /\
    (fst t = 0 ->
     trees_created evs = roots_of ids /\
     roots_inserted evs = roots_of ids /\ aborted evs = []) /\
    (fst t <> 0 ->
     (exists rest, rest <> [] /\ roots_of ids = roots_inserted evs ++ rest) /\
     aborted evs = [fst t] /\
     exists evs' a, evs = evs' ++ [(AbortTransaction (fst t), a)]).
Proof.
  induction ids as [|i ids IH]; intros h; cbv zeta.
  - exists []. cbn. rewrite app_nil_r.
    split; [reflexivity|]. split; [reflexivity|].
    split; [auto | intros Hn; contradiction].
  - cbn [global_roots_loop].
    (* the three roots of [i], one after the other *)
    pose proof (create_global_root_events BTRFS_EXTENT_TREE_OBJECTID i h)
      as H1. cbv zeta in H1.
    destruct (create_global_root R BTRFS_EXTENT_TREE_OBJECTID i h)
      as [r1 h1]. cbn [fst snd] in H1.
    destruct H1 as (e1 & -> & Hs1 & Hok1 & Hbad1).
    destruct (r1 =? 0) eqn:Hr1; cbn [negb fst snd].
    2:{ apply Z.eqb_neq in Hr1.
        destruct (Hbad1 Hr1) as (Hi & Ha & Hlast).
        exists e1. split; [reflexivity|]. split; [exact Hs1|].
        split; [intros Hz; contradiction|]. intros _.
        split; [|split; [exact Ha | exact Hlast]].
        rewrite Hi. eexists. split; [|reflexivity]. discriminate. }
    apply Z.eqb_eq in Hr1. destruct (Hok1 Hr1) as (Hc1 & Hi1 & Ha1).
    pose proof (create_global_root_events BTRFS_CSUM_TREE_OBJECTID i
                  (h ++ e1)) as H2. cbv zeta in H2.
    destruct (create_global_root R BTRFS_CSUM_TREE_OBJECTID i (h ++ e1))
      as [r2 h2]. cbn [fst snd] in H2.
    destruct H2 as (e2 & -> & Hs2 & Hok2 & Hbad2).
    destruct (r2 =? 0) eqn:Hr2; cbn [negb fst snd].
    2:{ apply Z.eqb_neq in Hr2.
        destruct (Hbad2 Hr2) as (Hi & Ha & evs' & a & Hlast).
        exists (e1 ++ e2). split; [now rewrite app_assoc|].
        split; [rewrite super_counts_app, Hs1, Hs2; reflexivity|].
        split; [intros Hz; contradiction|]. intros _.
        rewrite roots_inserted_app, aborted_app, Hi, Ha, Hi1, Ha1.
        split; [|split; [reflexivity|]].
        - eexists. split; [|reflexivity]. discriminate.
        - exists (e1 ++ evs'), a. rewrite Hlast, app_assoc. reflexivity. }
    apply Z.eqb_eq in Hr2. destruct (Hok2 Hr2) as (Hc2 & Hi2 & Ha2).
    pose proof (create_global_root_events BTRFS_FREE_SPACE_TREE_OBJECTID i
                  ((h ++ e1) ++ e2)) as H3. cbv zeta in H3.
    destruct (create_global_root R BTRFS_FREE_SPACE_TREE_OBJECTID i
                ((h ++ e1) ++ e2)) as [r3 h3]. cbn [fst snd] in H3.
    destruct H3 as (e3 & -> & Hs3 & Hok3 & Hbad3).
    destruct (r3 =? 0) eqn:Hr3; cbn [negb fst snd].
    2:{ apply Z.eqb_neq in Hr3.
        destruct (Hbad3 Hr3) as (Hi & Ha & evs' & a & Hlast).
        exists (e1 ++ e2 ++ e3). split; [now rewrite !app_assoc|].
        split; [rewrite !super_counts_app, Hs1, Hs2, Hs3; reflexivity|].
        split; [intros Hz; contradiction|]. intros _.
        rewrite !roots_inserted_app, !aborted_app, Hi, Ha, Hi1, Ha1, Hi2,
          Ha2.
        split; [|split; [reflexivity|]].
        - eexists. split; [|reflexivity]. discriminate.
        - exists (e1 ++ e2 ++ evs'), a.
          rewrite Hlast, !app_assoc. reflexivity. }
    apply Z.eqb_eq in Hr3. destruct (Hok3 Hr3) as (Hc3 & Hi3 & Ha3).
    specialize (IH (((h ++ e1) ++ e2) ++ e3)). cbv zeta in IH.
    destruct (global_roots_loop R ids (((h ++ e1) ++ e2) ++ e3))
      as [r4 h4]. cbn [fst snd] in IH |- *.
    destruct IH as (e4 & -> & Hs4 & Hok4 & Hbad4).
    exists (e1 ++ e2 ++ e3 ++ e4). split; [now rewrite !app_assoc|].
    split; [rewrite !super_counts_app, Hs1, Hs2, Hs3, Hs4; reflexivity|].
    rewrite !trees_created_app, !roots_inserted_app, !aborted_app,
      Hc1, Hc2, Hc3, Hi1, Hi2, Hi3, Ha1, Ha2, Ha3.
    cbn [app roots_of flat_map].
    split.
    + intros Hz. destruct (Hok4 Hz) as (Hc4 & Hi4 & Ha4).
      rewrite Hc4, Hi4, Ha4. auto.
    + intros Hn. destruct (Hbad4 Hn) as ((rest & Hrest & Heq) & Ha & evs' & a
                                         & Hlast).
      split; [|split; [exact Ha|]].
      * exists rest. split; [exact Hrest|].
        fold (roots_of ids). rewrite Heq. reflexivity.
      * exists (e1 ++ e2 ++ e3 ++ evs'), a.
        rewrite Hlast, !app_assoc. reflexivity.
Qed.

(** X18.  [create_global_roots] either returns 0, and has then created and
    inserted the extent, checksum and free-space roots of every id from 1 to
    [nr_global_roots - 1], in this order and nothing else, aborted nothing,
    and written [nr_global_roots] to the superblock once; or it returns the
    code of the first failure, and has then inserted a proper prefix of
    these roots only, aborted the transaction once with that code as its
    last call, and left the superblock alone. *)
Theorem create_global_roots_all_or_abort (nr_global_roots : Z)
  (h : root_history) :
  let t := create_global_roots R nr_global_roots h in
  exists evs,
    snd t = h ++ evs /\
    (fst t = 0 ->
     trees_created evs = roots_of (root_ids nr_global_roots) /\
     roots_inserted evs = roots_of (root_ids nr_global_roots) /\
     aborted evs = [] /\ super_counts evs = [nr_global_roots]) /\
    (fst t <> 0 ->
     (exists rest,
         rest <> [] /\
         roots_of (root_ids nr_global_roots) = roots_inserted evs ++ rest) /\
     aborted evs = [fst t] /\ super_counts evs = [] /\
     exists evs' a, evs = evs' ++ [(AbortTransaction (fst t), a)]).
Proof.
  cbv zeta. unfold create_global_roots.
  pose proof (global_roots_loop_events (root_ids nr_global_roots) h) as H.
  cbv zeta in H.
  destruct (global_roots_loop R (root_ids nr_global_roots) h) as [r h1].
  cbn [fst snd] in H. destruct H as (evs & -> & Hs & Hok & Hbad).
  destruct (r =? 0) eqn:Hr; cbn [negb fst snd].
  - apply Z.eqb_eq in Hr. destruct (Hok Hr) as (Hc & Hi & Ha).
    unfold ask. cbn [snd].
    eexists (evs ++ [(SetSuperNrGlobalRoots nr_global_roots, _)]).
    split; [now rewrite app_assoc|].
    split; [|intros Hn; contradiction]. intros _.
    rewrite trees_created_app, roots_inserted_app, aborted_app,
      super_counts_app, Hc, Hi, Ha, Hs.
    cbn. rewrite !app_nil_r. auto.
  - apply Z.eqb_neq in Hr. destruct (Hbad Hr) as (Hpre & Ha & Hlast).
    exists evs. split; [reflexivity|].
    split; [intros Hz; contradiction|]. intros _. auto.
Qed.

End GlobalRootsProofs.

(** * The subvolume iterator *)

Lemma track_all_app (s : iter_resources) (h1 h2 : iter_history) :
  track_all s (h1 ++ h2)
  = match track_all s h1 with
    | Some s' => track_all s' h2
    | None => None
    end.
Proof.
  revert s. induction h1 as [|e h1 IH]; intros s; simpl; [reflexivity|].
  destruct (track s e); [apply IH | reflexivity].
Qed.

Lemma holds_last (x : Z) (l : list Z) : holds x (l ++ [x]) = true.
Proof.
  unfold holds. rewrite existsb_app. simpl. rewrite Z.eqb_refl.
  now rewrite orb_true_r.
Qed.

Lemma holds_more (x y : Z) (l : list Z) :
  holds x l = true -> holds x (l ++ [y]) = true.
Proof. unfold holds. rewrite existsb_app. intros ->. reflexivity. Qed.

Section SubvolumeIteratorProofs.

Context {U : btrfsutil_api}.
Variable L : iter_env.
Hypothesis Hstop : BTRFS_UTIL_ERROR_STOP_ITERATION <> 0.
Hypothesis Hlib : stores_on_success L.

Lemma set_error_tracked (err : Z) (h : iter_history) (s : iter_resources) :
  exists evs,
    snd (set_error L err h) = h ++ evs /\ track_all s evs = Some s.
Proof.
  unfold set_error, iter_lib. cbn [snd].
  eexists [_]. split; reflexivity.
Qed.

Lemma init_tracked (once : bool) (self : iterator_object) (args : init_args)
  (h : iter_history) (s : iter_resources) :
  in_step once self s ->
  (once = true -> iter self = 0) ->
  exists evs s',
    snd (SubvolumeIterator_init L self args h) = h ++ evs /\
    track_all s evs = Some s' /\
    in_step once (snd (fst (SubvolumeIterator_init L self args h))) s'.
Proof.
  intros Hinv Hclosed. pose proof Hinv as (Hp & Hh & Ho).
  unfold SubvolumeIterator_init.
  destruct args as [[[[path top] post] info]|]; cbn [fst snd].
  2:{ exists [], s. rewrite app_nil_r. auto. }
  cbv zeta. unfold iter_lib.
  set (c := CreateSubvolumeIterator path top _).
  pose proof (Hlib h c) as Hc. unfold c in Hc. fold c in Hc.
  destruct Hc as [Hok Hbad].
  set (r := L h c) in *.
  destruct (code r =? 0) eqn:Hr; cbn [negb].
  - apply Z.eqb_eq in Hr. destruct (Hok Hr) as (it & Hst & Hit).
    rewrite Hst. cbn [fst snd iter info_flag].
    exists [(c, r)], {| live_handles := live_handles s ++ [it];
                        live_paths := live_paths s |}.
    split; [reflexivity|].
    split; [unfold c; cbn; rewrite Hst, Hr; reflexivity|].
    split; [exact Hp|]. cbn [iter live_handles].
    split; [right; apply holds_last|].
    intros H1. rewrite (Ho H1), (Hclosed H1).
    replace (it =? 0) with false by (symmetry; now apply Z.eqb_neq).
    reflexivity.
  - apply Z.eqb_neq in Hr. rewrite (Hbad Hr).
    destruct (set_error_tracked (code r) (h ++ [(c, r)]) s)
      as (evs & Heq & Htr).
    destruct (set_error L (code r) (h ++ [(c, r)])) as [e h1].
    cbn [fst snd] in *.
    exists ((c, r) :: evs), s.
    split; [rewrite Heq, <- app_assoc; reflexivity|].
    split; [unfold c; cbn; rewrite (Hbad Hr); exact Htr|].
    exact Hinv.
Qed.

Lemma next_tuple_tracked (p : Z) (h : iter_history) (s : iter_resources) :
  live_paths s = [p] ->
  exists evs,
    snd (next_tuple L p h) = h ++ evs /\
    track_all s evs
    = Some {| live_handles := live_handles s; live_paths := [] |}.
Proof.
  intros Hp. unfold next_tuple, iter_lib.
  assert (Hd : forall a, track s (DecodeFSDefault p, a) = Some s).
  { intros a. cbn. rewrite Hp. cbn. rewrite Z.eqb_refl. reflexivity. }
  set (h1 := h ++ [(DecodeFSDefault p, L h (DecodeFSDefault p))]).
  assert (Hf : forall a,
             track s (FreePath p, a)
             = Some {| live_handles := live_handles s; live_paths := [] |}).
  { intros a. cbn. rewrite Hp. cbn. rewrite Z.eqb_refl. reflexivity. }
  set (h2 := h1 ++ [(FreePath p, L h1 (FreePath p))]).
  destruct (code (L h (DecodeFSDefault p)) =? 0); cbn [negb snd].
  - destruct (code (L h2 NewObject) =? 0); cbn [negb snd].
    + eexists [_; _; _; _].
      split; [unfold h2, h1; rewrite <- !app_assoc; reflexivity|].
      cbn [track_all]. rewrite Hd. cbn [track_all]. rewrite Hf. reflexivity.
    + eexists [_; _; _].
      split; [unfold h2, h1; rewrite <- !app_assoc; reflexivity|].
      cbn [track_all]. rewrite Hd. cbn [track_all]. rewrite Hf. reflexivity.
  - eexists [_; _].
    split; [unfold h2, h1; rewrite <- !app_assoc; reflexivity|].
    cbn [track_all]. rewrite Hd. cbn [track_all]. rewrite Hf. reflexivity.
Qed.

Lemma next_tracked (once : bool) (self : iterator_object)
  (h : iter_history) (s : iter_resources) :
  in_step once self s ->
  exists evs s',
    snd (SubvolumeIterator_next L self h) = h ++ evs /\
    track_all s evs = Some s' /\ in_step once self s'.
Proof.
  intros Hinv. pose proof Hinv as (Hp & Hh & _).
  unfold SubvolumeIterator_next.
  destruct (iter self =? 0) eqn:Hi; cbn [snd].
  { exists [], s. rewrite app_nil_r. auto. }
  apply Z.eqb_neq in Hi. destruct Hh as [Hh|Hh]; [contradiction|].
  set (c := if info_flag self
            then SubvolumeIteratorNextInfo (iter self)
            else SubvolumeIteratorNext (iter self)).
  assert (Hcall : (if info_flag self
                   then iter_lib L (SubvolumeIteratorNextInfo (iter self)) h
                   else iter_lib L (SubvolumeIteratorNext (iter self)) h)
                  = (L h c, h ++ [(c, L h c)])).
  { unfold c. destruct (info_flag self); reflexivity. }
  rewrite Hcall. cbv zeta.
  assert (Hc : (code (L h c) = 0 -> exists p, stored (L h c) = Some p) /\
               (code (L h c) <> 0 -> stored (L h c) = None)).
  { pose proof (Hlib h c) as H. unfold c in *.
    destruct (info_flag self); exact H. }
  destruct Hc as [Hok Hbad].
  assert (Htrack : track s (c, L h c)
                   = match stored (L h c) with
                     | Some p =>
                         if code (L h c) =? 0
                         then Some {| live_handles := live_handles s;
                                      live_paths := live_paths s ++ [p] |}
                         else Some s
                     | None => Some s
                     end).
  { unfold c. destruct (info_flag self); cbn; rewrite Hh; reflexivity. }
  set (r := L h c) in *.
  destruct (code r =? BTRFS_UTIL_ERROR_STOP_ITERATION) eqn:Hs; cbn [snd].
  { apply Z.eqb_eq in Hs.
    assert (Hn : code r <> 0) by (rewrite Hs; exact Hstop).
    exists [(c, r)], s. split; [reflexivity|].
    split; [cbn [track_all]; rewrite Htrack, (Hbad Hn); reflexivity|].
    exact Hinv. }
  destruct (code r =? 0) eqn:Hr; cbn [negb].
  - apply Z.eqb_eq in Hr. destruct (Hok Hr) as (p & Hst).
    rewrite Hst in Htrack |- *.
    set (s1 := {| live_handles := live_handles s;
                  live_paths := live_paths s ++ [p] |}) in *.
    destruct (next_tuple_tracked p (h ++ [(c, r)]) s1) as (evs & Heq & Htr).
    { unfold s1. cbn [live_paths]. rewrite Hp. reflexivity. }
    exists ((c, r) :: evs), {| live_handles := live_handles s;
                               live_paths := [] |}.
    split; [rewrite Heq, <- app_assoc; reflexivity|].
    split; [cbn [track_all]; rewrite Htrack; exact Htr|].
    destruct Hinv as (_ & Hh' & Ho). split; [reflexivity|]. split; assumption.
  - apply Z.eqb_neq in Hr.
    destruct (set_error_tracked (code r) (h ++ [(c, r)]) s)
      as (evs & Heq & Htr).
    exists ((c, r) :: evs), s.
    split; [rewrite Heq, <- app_assoc; reflexivity|].
    split; [cbn [track_all]; rewrite Htrack, (Hbad Hr); exact Htr|].
    exact Hinv.
Qed.

Lemma remove_one_single (x : Z) : remove_one x [x] = [].
Proof. simpl. now rewrite Z.eqb_refl. Qed.

Lemma close_tracked (once : bool) (self : iterator_object)
  (h : iter_history) (s : iter_resources) :
  in_step once self s ->
  exists evs s',
    snd (SubvolumeIterator_close L self h) = h ++ evs /\
    track_all s evs = Some s' /\
    in_step once (snd (fst (SubvolumeIterator_close L self h))) s' /\
    iter (snd (fst (SubvolumeIterator_close L self h))) = 0.
Proof.
  intros Hinv. pose proof Hinv as (Hp & Hh & Ho).
  unfold SubvolumeIterator_close, iter_lib.
  destruct (iter self =? 0) eqn:Hi; cbn [negb fst snd].
  { apply Z.eqb_eq in Hi. exists [], s. rewrite app_nil_r. auto. }
  apply Z.eqb_neq in Hi. destruct Hh as [Hh|Hh]; [contradiction|].
  eexists [_], {| live_handles := remove_one (iter self) (live_handles s);
                  live_paths := live_paths s |}.
  split; [reflexivity|].
  split; [cbn; rewrite Hh; reflexivity|].
  split; [|reflexivity].
  split; [exact Hp|]. cbn [iter live_handles].
  split; [now left|].
  intros H1. rewrite (Ho H1). cbn [Z.eqb]. apply remove_one_single.
Qed.

Lemma get_fd_tracked (once : bool) (self : iterator_object)
  (h : iter_history) (s : iter_resources) :
  in_step once self s ->
  exists evs,
    snd (SubvolumeIterator_get_fd L self h) = h ++ evs /\
    track_all s evs = Some s.
Proof.
  intros (Hp & Hh & _). unfold SubvolumeIterator_get_fd, iter_lib.
  destruct (iter self =? 0) eqn:Hi; cbn [snd].
  { exists []. rewrite app_nil_r. split; reflexivity. }
  apply Z.eqb_neq in Hi. destruct Hh as [Hh|Hh]; [contradiction|].
  eexists [_; _]. split; [rewrite <- app_assoc; reflexivity|].
  cbn. rewrite Hh. reflexivity.
Qed.

Lemma run_op_tracked (once : bool) (op : iter_op) (self : iterator_object)
  (h : iter_history) (s : iter_resources) :
  in_step once self s ->
  (once = true -> is_init op = true -> iter self = 0) ->
  exists evs s',
    snd (run_op L op self h) = h ++ evs /\
    track_all s evs = Some s' /\
    in_step once (snd (fst (run_op L op self h))) s'.
Proof.
  intros Hinv Hclosed. destruct op; cbn [run_op].
  - apply init_tracked; [exact Hinv|].
    intros H1. now apply Hclosed.
  - destruct (next_tracked once self h s Hinv) as (evs & s' & Heq & Htr & Hi).
    destruct (SubvolumeIterator_next L self h) as [o h1].
    exists evs, s'. auto.
  - destruct (close_tracked once self h s Hinv)
      as (evs & s' & Heq & Htr & Hi & _).
    exists evs, s'. auto.
  - exists [], s. cbn. rewrite app_nil_r. auto.
  - destruct (close_tracked once self h s Hinv)
      as (evs & s' & Heq & Htr & Hi & _).
    exists evs, s'. auto.
  - destruct (get_fd_tracked once self h s Hinv) as (evs & Heq & Htr).
    destruct (SubvolumeIterator_get_fd L self h) as [o h1].
    exists evs, s. auto.
Qed.

Lemma run_ops_tracked (once : bool) (ops : list iter_op) :
  forall (self : iterator_object) (h : iter_history) (s : iter_resources),
  in_step once self s ->
  (once = true -> forallb (fun op => negb (is_init op)) ops = true) ->
  exists evs s',
    snd (run_ops L ops self h) = h ++ evs /\
    track_all s evs = Some s' /\
    in_step once (snd (fst (run_ops L ops self h))) s'.
Proof.
  induction ops as [|op ops IH]; intros self h s Hinv Hno.
  - exists [], s. cbn. rewrite app_nil_r. auto.
  - cbn [run_ops].
    destruct (run_op_tracked once op self h s Hinv)
      as (e1 & s1 & Heq1 & Htr1 & Hi1).
    { intros H1 Hop. specialize (Hno H1). cbn in Hno.
      rewrite Hop in Hno. discriminate Hno. }
    destruct (run_op L op self h) as [[o self1] h1]. cbn [fst snd] in *.
    destruct (IH self1 h1 s1 Hi1) as (e2 & s2 & Heq2 & Htr2 & Hi2).
    { intros H1. specialize (Hno H1). cbn in Hno.
      now apply andb_true_iff in Hno. }
    destruct (run_ops L ops self1 h1) as [[os self2] h2].
    cbn [fst snd] in *.
    exists (e1 ++ e2), s2.
    split; [rewrite Heq2, Heq1, <- app_assoc; reflexivity|].
    split; [rewrite track_all_app, Htr1; exact Htr2 | exact Hi2].
Qed.

Lemma dealloc_tracked (once : bool) (self : iterator_object)
  (h : iter_history) (s : iter_resources) :
  in_step once self s ->
  exists evs s',
    SubvolumeIterator_dealloc L self h = h ++ evs /\
    track_all s evs = Some s' /\ live_paths s' = [] /\
    (once = true -> live_handles s' = []).
Proof.
  intros (Hp & Hh & Ho). unfold SubvolumeIterator_dealloc, iter_lib.
  destruct (iter self =? 0) eqn:Hi; cbn [negb snd].
  { exists [], s. rewrite app_nil_r. auto. }
  apply Z.eqb_neq in Hi. destruct Hh as [Hh|Hh]; [contradiction|].
  eexists [_], {| live_handles := remove_one (iter self) (live_handles s);
                  live_paths := live_paths s |}.
  split; [reflexivity|].
  split; [cbn; rewrite Hh; reflexivity|].
  split; [exact Hp|]. cbn [live_handles].
  intros H1. rewrite (Ho H1). apply remove_one_single.
Qed.

Lemma fresh_in_step (once : bool) : in_step once fresh_iterator no_resources.
Proof. repeat split; auto. Qed.

Lemma iterator_life_tracked (once : bool) (ops : list iter_op) :
  (once = true -> forallb (fun op => negb (is_init op)) (tl ops) = true) ->
  exists s,
    track_all no_resources (snd (iterator_life L ops [])) = Some s /\
    live_paths s = [] /\ (once = true -> live_handles s = []).
Proof.
  intros Hno. unfold iterator_life.
  assert (Hrun : exists evs s',
             snd (run_ops L ops fresh_iterator []) = [] ++ evs /\
             track_all no_resources evs = Some s' /\
             in_step once (snd (fst (run_ops L ops fresh_iterator []))) s').
  { destruct ops as [|op ops].
    - exists [], no_resources. cbn. repeat split; auto.
    - cbn [run_ops tl] in *.
      destruct (run_op_tracked once op fresh_iterator [] no_resources
                  (fresh_in_step once)) as (e1 & s1 & Heq1 & Htr1 & Hi1).
      { intros _ _. reflexivity. }
      destruct (run_op L op fresh_iterator []) as [[o self1] h1].
      cbn [fst snd] in *.
      destruct (run_ops_tracked once ops self1 h1 s1 Hi1 Hno)
        as (e2 & s2 & Heq2 & Htr2 & Hi2).
      destruct (run_ops L ops self1 h1) as [[os self2] h2].
      cbn [fst snd] in *.
      exists (e1 ++ e2), s2.
      split; [rewrite Heq2, Heq1, <- app_assoc; reflexivity|].
      split; [rewrite track_all_app, Htr1; exact Htr2 | exact Hi2]. }
  destruct Hrun as (evs & s' & Heq & Htr & Hinv).
  destruct (run_ops L ops fresh_iterator []) as [[os self] h].
  cbn [fst snd app] in *. subst h.
  destruct (dealloc_tracked once self evs s' Hinv)
    as (e3 & s3 & Heq3 & Htr3 & Hp3 & Hh3).
  exists s3. rewrite Heq3, track_all_app, Htr.
  split; [exact Htr3|]. split; [exact Hp3 | exact Hh3].
Qed.

(** X19.  With a library that stores a pointer exactly when it succeeds, any
    sequence of method calls on a new iterator, followed by its
    deallocation, uses the library soundly: a handle is stepped, asked for
    its descriptor or destroyed only while it is live, never destroyed
    twice, and every path that [next] received is decoded and freed once,
    whatever fails afterwards. When [__init__] is not called again after the
    first method call, no handle is left live at the end either. *)
Theorem subvolume_iterator_resources (ops : list iter_op) :
  exists s,
    track_all no_resources (snd (iterator_life L ops [])) = Some s /\
    live_paths s = [] /\
    (forallb (fun op => negb (is_init op)) (tl ops) = true ->
     live_handles s = []).
Proof.
  destruct (iterator_life_tracked false ops) as (s & Htr & Hp & _);
    [intros H; discriminate H|].
  exists s. split; [exact Htr|]. split; [exact Hp|].
  intros Hno.
  destruct (iterator_life_tracked true ops (fun _ => Hno))
    as (s' & Htr' & _ & Hh).
  rewrite Htr in Htr'. injection Htr' as <-. now apply Hh.
Qed.

End SubvolumeIteratorProofs.

Section ClosedIterator.

Context {U : btrfsutil_api}.
Variable L : iter_env.

Lemma closed_stays_closed (ops : list iter_op) :
  forall (self : iterator_object) (h : iter_history),
  iter self = 0 ->
  forallb (fun op => negb (is_init op)) ops = true ->
  run_ops L ops self h = (map closed_outcome ops, self, h).
Proof.
  induction ops as [|op ops IH]; intros self h Hi Hno; [reflexivity|].
  cbn [forallb] in Hno. apply andb_true_iff in Hno. destruct Hno as [Hop Hno].
  cbn [run_ops map].
  assert (Hone : run_op L op self h = (closed_outcome op, self, h)).
  { destruct op; cbn [is_init negb] in Hop; try discriminate Hop;
      cbn [run_op closed_outcome];
      unfold SubvolumeIterator_next, SubvolumeIterator_exit,
        SubvolumeIterator_close, SubvolumeIterator_enter,
        SubvolumeIterator_get_fd;
      rewrite ?Hi; reflexivity. }
  rewrite Hone, (IH self h Hi Hno). reflexivity.
Qed.

(** X20.  Once [close] or [__exit__] has run, and until [__init__] is called
    again, the iterator is inert: whatever methods are called, the library
    is not called any more, [next] and the [fd] getter raise [ValueError],
    and [close] and [__exit__] return [None] again. *)
Theorem closed_iterator_is_inert (ops : list iter_op)
  (self : iterator_object) (h : iter_history) :
  forallb (fun op => negb (is_init op)) ops = true ->
  let closed := SubvolumeIterator_close L self h in
  run_ops L (Op_close :: ops) self h
  = (Return_None :: map closed_outcome ops, snd (fst closed), snd closed) /\
  run_ops L (Op_exit :: ops) self h
  = (Return_None :: map closed_outcome ops, snd (fst closed), snd closed) /\
  iter (snd (fst closed)) = 0.
Proof.
  intros Hno. cbv zeta.
  assert (Hc : fst (fst (SubvolumeIterator_close L self h)) = Return_None /\
               iter (snd (fst (SubvolumeIterator_close L self h))) = 0).
  { unfold SubvolumeIterator_close, iter_lib.
    destruct (iter self =? 0) eqn:Hi; cbn [negb fst snd iter].
    - apply Z.eqb_eq in Hi. auto.
    - auto. }
  destruct Hc as [Ho Hi].
  cbn [run_ops run_op]. unfold SubvolumeIterator_exit.
  destruct (SubvolumeIterator_close L self h) as [[o self1] h1].
  cbn [fst snd] in *. subst o.
  rewrite (closed_stays_closed ops self1 h1 Hi Hno). auto.
Qed.

End ClosedIterator.

(** * The list of deleted subvolumes and the method table *)

Lemma frees_app (h1 h2 : list_history) :
  frees (h1 ++ h2) = (frees h1 + frees h2)%nat.
Proof. unfold frees. now rewrite filter_app, length_app. Qed.

Lemma lists_made_app (h1 h2 : list_history) :
  lists_made (h1 ++ h2) = (lists_made h1 + lists_made h2)%nat.
Proof. unfold lists_made. now rewrite filter_app, length_app. Qed.

Lemma lists_released_app (h1 h2 : list_history) :
  lists_released (h1 ++ h2) = (lists_released h1 + lists_released h2)%nat.
Proof. unfold lists_released. now rewrite filter_app, length_app. Qed.

Lemma values_made_app (h1 h2 : list_history) :
  values_made (h1 ++ h2) = values_made h1 ++ values_made h2.
Proof. apply flat_map_app. Qed.

Section DeletedSubvolumesProofs.

Variable D : list_history -> list_call -> list_answer.

(** What the loop adds to the history. *)
Lemma fill_list_events (ids : list Z) :
  forall (filled : list Z) (h : list_history) (o : option (list Z))
         (h' : list_history),
  fill_list D ids filled h = (o, h') ->
  exists evs,
    h' = h ++ evs /\
    lists_made evs = O /\
    match o with
    | Some l =>
        l = filled ++ ids /\ values_made evs = ids /\
        lists_released evs = O /\ frees evs = O
    | None =>
        (exists rest, rest <> [] /\ ids = values_made evs ++ rest) /\
        lists_released evs = 1%nat /\ frees evs = 1%nat /\
        exists evs' a, evs = evs' ++ [(FreeIds, a)]
    end.
Proof.
  induction ids as [|id ids IH]; intros filled h o h'; cbn [fill_list].
  - intros H; injection H as <- <-.
    exists []. cbn. rewrite !app_nil_r. repeat split.
  - unfold list_lib. cbv zeta.
    set (v := D h (LongFromUnsignedLongLong id)).
    set (h1 := h ++ [(LongFromUnsignedLongLong id, v)]).
    destruct (answer_code v =? 0) eqn:Hv; cbn [negb].
    + intros H. destruct (IH _ _ _ _ H) as (evs & Heq & Hm & Hcase).
      assert (Hone : values_made [(LongFromUnsignedLongLong id, v)] = [id])
        by (cbn; rewrite Hv; reflexivity).
      exists ([(LongFromUnsignedLongLong id, v)] ++ evs).
      split; [rewrite Heq; unfold h1; rewrite <- app_assoc; reflexivity|].
      rewrite lists_made_app, lists_released_app, frees_app, values_made_app,
        Hone, Hm.
      split; [reflexivity|].
      destruct o as [l|].
      * destruct Hcase as (Hl & Hvals & Hr & Hf).
        split; [rewrite Hl, <- app_assoc; reflexivity|].
        split; [rewrite Hvals; reflexivity|].
        split; [rewrite Hr; reflexivity | rewrite Hf; reflexivity].
      * destruct Hcase as ((rest & Hrest & Hids) & Hr & Hf & evs' & a & Hlast).
        split; [|split; [rewrite Hr; reflexivity
                        |split; [rewrite Hf; reflexivity|]]].
        -- exists rest. split; [exact Hrest|].
           rewrite Hids at 1. reflexivity.
        -- exists ((LongFromUnsignedLongLong id, v) :: evs'), a.
           rewrite Hlast. reflexivity.
    + intros H; injection H as <- <-.
      eexists [(LongFromUnsignedLongLong id, v); (DecrefList, _);
               (FreeIds, _)].
      split; [unfold h1; rewrite <- !app_assoc; reflexivity|].
      split; [reflexivity|].
      split; [|split; [reflexivity|split; [reflexivity|]]].
      * exists (id :: ids). split; [discriminate|].
        cbn. rewrite Hv. reflexivity.
      * eexists [_; _], _. reflexivity.
Qed.

(** X21.  [deleted_subvolumes] frees the id array of the library exactly
    once, as its last call, on every path on which the library succeeded,
    and never when it failed. It returns the ids in the order of the array,
    each made once; when a Python object cannot be made it raises, after
    releasing the list if it had made one. *)
Theorem deleted_subvolumes_frees_ids (path : string) (h : list_history) :
  let r := D h (DeletedSubvolumes path) in
  let t := mod_deleted_subvolumes D (Some path) h in
  exists evs,
    snd t = h ++ (DeletedSubvolumes path, r) :: evs /\
    (answer_code r <> 0 ->
     frees evs = O /\ lists_made evs = O /\
     (fst t = List_BtrfsUtilError (answer_code r) \/ fst t = List_Pending)) /\
    (answer_code r = 0 ->
     frees evs = 1%nat /\
     (exists evs' a, evs = evs' ++ [(FreeIds, a)]) /\
     ((fst t = Return_List (answer_ids r) /\
       values_made evs = answer_ids r /\
       lists_made evs = 1%nat /\ lists_released evs = O) \/
      (fst t = List_Pending /\ lists_released evs = lists_made evs))).
Proof.
  cbv zeta.
  destruct (mod_deleted_subvolumes D (Some path) h) as [o h'] eqn:Ht.
  cbn [fst snd]. revert Ht.
  unfold mod_deleted_subvolumes. unfold list_lib. cbv zeta.
  set (r := D h (DeletedSubvolumes path)).
  set (h1 := h ++ [(DeletedSubvolumes path, r)]).
  destruct (answer_code r =? 0) eqn:Hr; cbn [negb].
  - apply Z.eqb_eq in Hr.
    set (n := Z.of_nat (List.length (answer_ids r))).
    set (l := D h1 (ListNew n)).
    set (h2 := h1 ++ [(ListNew n, l)]).
    destruct (answer_code l =? 0) eqn:Hl; cbn [negb].
    + destruct (fill_list D (answer_ids r) [] h2) as [[filled|] h3] eqn:Hfill;
        apply fill_list_events in Hfill;
        destruct Hfill as (evs & Heq & Hm & Hcase).
      * destruct Hcase as (-> & Hvals & Hrel & Hf).
        intros H; injection H as <- <-.
        eexists ([(ListNew n, l)] ++ evs ++ [(FreeIds, _)]).
        split.
        { rewrite Heq. unfold h2, h1. rewrite <- !app_assoc. reflexivity. }
        split; [intros Hn; contradiction|]. intros _.
        split; [rewrite !frees_app, Hf; reflexivity|].
        split; [eexists (_ :: evs), _; reflexivity|].
        left. split; [reflexivity|].
        rewrite !values_made_app, !lists_made_app, !lists_released_app,
          Hvals, Hm, Hrel.
        cbn. rewrite Hl, app_nil_r. auto.
      * destruct Hcase as (_ & Hrel & Hf & evs' & a & Hlast).
        intros H; injection H as <- <-.
        exists ([(ListNew n, l)] ++ evs).
        split.
        { rewrite Heq. unfold h2, h1. rewrite <- !app_assoc. reflexivity. }
        split; [intros Hn; contradiction|]. intros _.
        split; [rewrite frees_app, Hf; reflexivity|].
        split.
        { exists ((ListNew n, l) :: evs'), a. rewrite Hlast. reflexivity. }
        right. split; [reflexivity|].
        rewrite lists_released_app, lists_made_app, Hrel, Hm.
        cbn. rewrite Hl. reflexivity.
    + intros H; injection H as <- <-.
      eexists [(ListNew n, l); (FreeIds, _)].
      split; [unfold h2, h1; rewrite <- !app_assoc; reflexivity|].
      split; [intros Hn; contradiction|]. intros _.
      split; [reflexivity|].
      split; [eexists [_], _; reflexivity|].
      right. split; [reflexivity|]. cbn. rewrite Hl. reflexivity.
  - apply Z.eqb_neq in Hr.
    intros H; injection H as <- <-.
    eexists [(RaiseError (answer_code r), _)].
    split; [unfold h1; rewrite <- !app_assoc; reflexivity|].
    split; [|intros Hz; contradiction]. intros _.
    split; [reflexivity|]. split; [reflexivity|].
    destruct (answer_code (D h1 (RaiseError (answer_code r))) =? 0);
      cbn [negb]; auto.
Qed.

End DeletedSubvolumesProofs.

Lemma count_methods_firstn (m : list py_method_def) :
  count_methods (firstn (count_methods m) m ++ [zeroed_method])
  = count_methods m.
Proof.
  induction m as [|e m IH]; [reflexivity|].
  cbn [count_methods]. destruct (ml_name e) eqn:He.
  - cbn [firstn app count_methods]. rewrite He, IH. reflexivity.
  - reflexivity.
Qed.

Lemma count_methods_le (m : list py_method_def) :
  (count_methods m <= List.length m)%nat.
Proof.
  induction m as [|e m IH]; cbn; [lia|]. destruct (ml_name e); lia.
Qed.

Lemma declared_named (m : list py_method_def) :
  Forall (fun e => ml_name e <> None) (declared m).
Proof.
  unfold declared. induction m as [|e m IH]; cbn; [constructor|].
  destruct (ml_name e) eqn:He; cbn; [|constructor].
  constructor; [rewrite He; discriminate | exact IH].
Qed.

Lemma count_methods_app (m1 m2 : list py_method_def) :
  Forall (fun e => ml_name e <> None) m1 ->
  count_methods (m1 ++ m2) = (List.length m1 + count_methods m2)%nat.
Proof.
  induction 1 as [|e m1 He _ IH]; [reflexivity|].
  cbn. destruct (ml_name e); [|contradiction]. now rewrite IH.
Qed.

Lemma skipn_repeat_more {A : Type} (x : A) (n k : nat) :
  skipn n (repeat x (n + k)) = repeat x k.
Proof. induction n as [|n IH]; [reflexivity | exact IH]. Qed.

Lemma copy_methods_at_end (named : list py_method_def)
  (src : list py_method_def) (n k : nat) :
  (n <= List.length src)%nat ->
  copy_methods (named ++ repeat zeroed_method (n + k)) (List.length named)
    src n
  = (named ++ firstn n src) ++ repeat zeroed_method k.
Proof.
  intros Hn. unfold copy_methods.
  rewrite firstn_app, Nat.sub_diag, firstn_O, app_nil_r, firstn_all.
  rewrite skipn_app, skipn_all2 by lia.
  replace (List.length named + n - List.length named)%nat with n by lia.
  rewrite skipn_repeat_more, <- app_assoc. reflexivity.
Qed.

(** X22.  When the allocation succeeds, the merged method table holds the
    methods that the first table declares, then those of the second, then
    one sentinel, and nothing else; counting its methods gives the sum of
    the two counts. *)
Theorem merge_methods_concatenates
  (sync_methods subvolume_methods : list py_method_def) :
  merge_methods true sync_methods subvolume_methods
  = Some (declared sync_methods ++ declared subvolume_methods
          ++ [zeroed_method]) /\
  count_methods (declared sync_methods ++ declared subvolume_methods
                 ++ [zeroed_method])
  = (count_methods sync_methods + count_methods subvolume_methods)%nat /\
  merge_methods false sync_methods subvolume_methods = None.
Proof.
  split; [|split; [|reflexivity]].
  - unfold merge_methods, declared. cbn [negb].
    set (ns := count_methods sync_methods).
    set (nv := count_methods subvolume_methods).
    f_equal.
    assert (Hs : List.length (firstn ns sync_methods) = ns).
    { apply firstn_length_le. apply count_methods_le. }
    replace (ns + nv + 1)%nat with (ns + (nv + 1))%nat by lia.
    pose proof (copy_methods_at_end [] sync_methods ns (nv + 1)
                  (count_methods_le sync_methods)) as H0.
    cbn [app List.length] in H0. rewrite H0. clear H0.
    rewrite <- Hs at 2.
    rewrite (copy_methods_at_end (firstn ns sync_methods) subvolume_methods
               nv 1) by apply count_methods_le.
    rewrite <- app_assoc. reflexivity.
  - rewrite count_methods_app by apply declared_named.
    rewrite count_methods_app by apply declared_named.
    unfold declared.
    rewrite !firstn_length_le by apply count_methods_le.
    cbn. lia.
Qed.

Lemma deleted_subvolumes_third_value_fails :
  mod_deleted_subvolumes three_deleted (Some "/mnt"%string) []
  = (List_Pending,
     [ (DeletedSubvolumes "/mnt",
        {| answer_code := 0; answer_ids := [256; 257; 300] |});
       (ListNew 3, {| answer_code := 0; answer_ids := [] |});
       (LongFromUnsignedLongLong 256,
        {| answer_code := 0; answer_ids := [] |});
       (LongFromUnsignedLongLong 257,
        {| answer_code := 0; answer_ids := [] |});
       (LongFromUnsignedLongLong 300,
        {| answer_code := 1; answer_ids := [] |});
       (DecrefList, {| answer_code := 0; answer_ids := [] |});
       (FreeIds, {| answer_code := 0; answer_ids := [] |}) ]).
Proof. vm_compute. reflexivity. Qed.

(** * The further statements on sample runs *)

Lemma vendored_env_parses (l : list item) :
  vendored_uuid_parse (vendored_env l).
Proof. intros h s. exists (repeat 0 16). reflexivity. Qed.

Lemma cleanup_keeps_other_items_witness :
  BTRFS_BLOCK_GROUP_ITEM_KEY (btrfs_uapi := linux_uapi) <> 0 /\
  well_formed_tree (K := linux_uapi) (items sample_world) /\
  (List.length (items sample_world) < 10)%nat /\
  exists r w',
    sample_cleanup = Some (r, w') /\
    (In (block_group (21 * MiB) (8 * MiB) (2 + 16) 16384) (items w')) /\
    (List.length (items w') <= 6)%nat.
Proof.
  assert (Hk : BTRFS_BLOCK_GROUP_ITEM_KEY (btrfs_uapi := linux_uapi) <> 0)
    by (simpl; discriminate).
  assert (Hlen : (List.length (items sample_world) < 10)%nat)
    by (simpl; lia).
  split; [exact Hk|]. split; [exact sample_groups_well_formed|].
  split; [exact Hlen|].
  destruct (cleanup_keeps_other_items (K := linux_uapi)
              (obliging_env sample_groups) 10 RAID1 RAID1 RAID1 true
              sample_world Hk sample_groups_well_formed Hlen)
    as (r & w' & Hrun & Hkeep & _ & Hle & _).
  exists r, w'. split; [exact Hrun|]. split; [|exact Hle].
  apply Hkeep; [simpl; pick_event | vm_compute; reflexivity].
Defined.

Lemma cleanup_twice_witness :
  BTRFS_BLOCK_GROUP_ITEM_KEY (btrfs_uapi := linux_uapi) <> 0 /\
  well_formed_tree (K := linux_uapi) (items sample_world) /\
  (List.length (items sample_world) < 10)%nat /\
  tree_ops_succeed (obliging_env sample_groups) /\
  sample_cleanup = Some (0, snd (run_of_cleaner sample_cleanup)) /\
  exists r w2 evs,
    cleanup_temp_chunks (K := linux_uapi) (obliging_env sample_groups) 10
      RAID1 RAID1 RAID1 false (snd (run_of_cleaner sample_cleanup))
    = Some (r, w2) /\
    items w2 = items (snd (run_of_cleaner sample_cleanup)) /\
    removed_groups evs = [].
Proof.
  assert (Hk : BTRFS_BLOCK_GROUP_ITEM_KEY (btrfs_uapi := linux_uapi) <> 0)
    by (simpl; discriminate).
  assert (Hlen : (List.length (items sample_world) < 10)%nat)
    by (simpl; lia).
  assert (Hrun : cleanup_temp_chunks (K := linux_uapi)
                   (obliging_env sample_groups) 10 RAID1 RAID1 RAID1 true
                   sample_world
                 = Some (0, snd (run_of_cleaner sample_cleanup)))
    by (vm_compute; reflexivity).
  split; [exact Hk|]. split; [exact sample_groups_well_formed|].
  split; [exact Hlen|].
  split; [exact (obliging_tree_ops_succeed sample_groups)|].
  split; [exact Hrun|].
  destruct (cleanup_twice (K := linux_uapi) (obliging_env sample_groups)
              10 RAID1 RAID1 RAID1 true false sample_world
              (snd (run_of_cleaner sample_cleanup))
              Hk sample_groups_well_formed Hlen
              (obliging_tree_ops_succeed sample_groups) Hrun)
    as (r & w2 & evs & Hrun2 & _ & Hi & _ & Hrg).
  exists r, w2, evs. split; [exact Hrun2|]. split; [exact Hi | exact Hrg].
Defined.

Lemma cleanup_returns_commit_code_witness :
  sample_cleanup = Some (0, snd (run_of_cleaner sample_cleanup)) /\
  exists t evs,
    trace (snd (run_of_cleaner sample_cleanup))
    = trace sample_world
      ++ Enter (CleanupTempChunks RAID1 RAID1 RAID1 true)
         :: Lib StartTransaction t :: evs /\
    (ret t = 0 ->
     exists loop c, evs = loop ++ [Lib CommitTransaction c] /\ 0 = ret c).
Proof.
  assert (Hrun : cleanup_temp_chunks (K := linux_uapi)
                   (obliging_env sample_groups) 10 RAID1 RAID1 RAID1 true
                   sample_world
                 = Some (0, snd (run_of_cleaner sample_cleanup)))
    by (vm_compute; reflexivity).
  split; [exact Hrun|].
  destruct (cleanup_returns_commit_code (K := linux_uapi)
              (obliging_env sample_groups) 10 RAID1 RAID1 RAID1 true
              sample_world 0 (snd (run_of_cleaner sample_cleanup)) Hrun)
    as (t & evs & Ht & _ & Hok).
  exists t, evs. split; [exact Ht|].
  intros Hz. destruct (Hok Hz) as (loop & c & He & Hr & _).
  exists loop, c. split; [exact He | exact Hr].
Defined.

Lemma launch_workers_failure_witness :
  thread_failure_launch = (inl (-11), snd thread_failure_launch) /\
  exists evs k c,
    trace (snd thread_failure_launch) = trace initial_world ++ evs /\
    (k < 2)%nat /\
    created evs = seq 0 (S k) /\
    joined evs = seq 0 k /\
    closed evs = opened evs /\
    ret c <> 0 /\ -11 = - ret c.
Proof.
  assert (Hrun : launch_workers (thread_failure_env sample_groups)
                   ["/dev/loop0"%string; "/dev/loop1"%string] O [] 0 true
                   initial_world
                 = (inl (-11), snd thread_failure_launch))
    by (vm_compute; reflexivity).
  split; [exact Hrun|].
  destruct (launch_workers_failure (thread_failure_env sample_groups) 0 true
              ["/dev/loop0"%string; "/dev/loop1"%string] initial_world
              (-11) (snd thread_failure_launch) Hrun)
    as (evs & k & c & Ht & Hk & Hc & Hj & _ & Hco & _ & Hne & He).
  exists evs, k, c. repeat split; assumption.
Defined.

Lemma mkfs_prepares_devices_as_asked_witness :
  mixed_run = Some (run_of mixed_run) /\
  device_paths (kw_devices mixed_args)
  = inr ["/dev/loop0"%string; "/dev/loop1"%string] /\
  In (Lib (PrepareDevice 4 "/dev/loop1" 0 true false false)
        (answer 0 GiB 0))
    (trace (snd (run_of mixed_run))) /\
  device_call mixed_args ["/dev/loop0"%string; "/dev/loop1"%string]
    (PrepareDevice 4 "/dev/loop1" 0 true false false).
Proof.
  assert (Hrun : pybtrfs_mkfs (K := linux_uapi)
                   (obliging_env sample_groups) 10 mixed_args initial_world
                 = Some (fst (run_of mixed_run), snd (run_of mixed_run)))
    by (vm_compute; reflexivity).
  assert (Hp : device_paths (kw_devices mixed_args)
               = inr ["/dev/loop0"%string; "/dev/loop1"%string])
    by reflexivity.
  assert (Hin : In (Lib (PrepareDevice 4 "/dev/loop1" 0 true false false)
                      (answer 0 GiB 0))
                  (trace (snd (run_of mixed_run))))
    by (vm_compute; pick_event).
  split; [vm_compute; reflexivity|]. split; [exact Hp|].
  split; [exact Hin|].
  exact (mkfs_prepares_devices_as_asked (K := linux_uapi)
           (obliging_env sample_groups) 10 mixed_args initial_world
           (fst (run_of mixed_run)) (snd (run_of mixed_run))
           (trace (snd (run_of mixed_run)))
           ["/dev/loop0"%string; "/dev/loop1"%string]
           Hrun (from_initial_world _) Hp _ _ Hin).
Defined.

Lemma mkfs_make_btrfs_geometry_witness :
  mixed_run = Some (run_of mixed_run) /\
  device_paths (kw_devices mixed_args)
  = inr ["/dev/loop0"%string; "/dev/loop1"%string] /\
  In (Lib (MakeBtrfs 3 GiB 4096 4096 3045 0) (answer 0 0 0))
    (trace (snd (run_of mixed_run))) /\
  geometry_call mixed_args ["/dev/loop0"%string; "/dev/loop1"%string]
    (MakeBtrfs 3 GiB 4096 4096 3045 0).
Proof.
  assert (Hrun : pybtrfs_mkfs (K := linux_uapi)
                   (obliging_env sample_groups) 10 mixed_args initial_world
                 = Some (fst (run_of mixed_run), snd (run_of mixed_run)))
    by (vm_compute; reflexivity).
  assert (Hp : device_paths (kw_devices mixed_args)
               = inr ["/dev/loop0"%string; "/dev/loop1"%string])
    by reflexivity.
  assert (Hin : In (Lib (MakeBtrfs 3 GiB 4096 4096 3045 0) (answer 0 0 0))
                  (trace (snd (run_of mixed_run))))
    by (vm_compute; pick_event).
  split; [vm_compute; reflexivity|]. split; [exact Hp|].
  split; [exact Hin|].
  exact (mkfs_make_btrfs_geometry (K := linux_uapi)
           (obliging_env sample_groups) 10 mixed_args initial_world
           (fst (run_of mixed_run)) (snd (run_of mixed_run))
           (trace (snd (run_of mixed_run)))
           ["/dev/loop0"%string; "/dev/loop1"%string]
           Hrun (from_initial_world _) Hp _ _ Hin).
Defined.

Lemma mkfs_argument_errors_touch_nothing_witness :
  malformed_uuid_run = Some (PyErr_ValueError, snd (run_of malformed_uuid_run))
  /\ opened (trace (snd (run_of malformed_uuid_run))) = [] /\
  Forall (fun e => mutation e = false)
    (trace (snd (run_of malformed_uuid_run))).
Proof.
  assert (Hrun : pybtrfs_mkfs (K := linux_uapi)
                   (vendored_env sample_groups) 10 malformed_uuid_args
                   initial_world
                 = Some (PyErr_ValueError,
                         snd (run_of malformed_uuid_run)))
    by (vm_compute; reflexivity).
  split; [exact Hrun|].
  destruct (mkfs_argument_errors_touch_nothing (K := linux_uapi)
              (vendored_env sample_groups) 10 malformed_uuid_args
              initial_world PyErr_ValueError
              (snd (run_of malformed_uuid_run))
              (trace (snd (run_of malformed_uuid_run)))
              Hrun (from_initial_world _)) as [_ Hq].
  destruct (Hq (or_introl eq_refl)) as (_ & Ho & Hm).
  split; [exact Ho | exact Hm].
Defined.

Lemma mkfs_rejects_malformed_uuid_witness :
  vendored_uuid_parse (vendored_env sample_groups) /\
  kw_uuid malformed_uuid_args <> EmptyString /\
  uuid_well_formed (kw_uuid malformed_uuid_args) = false /\
  exists res w' evs,
    pybtrfs_mkfs (K := linux_uapi) (vendored_env sample_groups) 10
      malformed_uuid_args initial_world = Some (res, w') /\
    trace w' = trace initial_world ++ evs /\
    argument_error res /\
    Forall checking_event evs.
Proof.
  assert (Hne : kw_uuid malformed_uuid_args <> EmptyString)
    by (simpl; discriminate).
  assert (Hbad : uuid_well_formed (kw_uuid malformed_uuid_args) = false)
    by (vm_compute; reflexivity).
  split; [exact (vendored_env_parses sample_groups)|].
  split; [exact Hne|]. split; [exact Hbad|].
  destruct (mkfs_rejects_malformed_uuid (K := linux_uapi)
              (vendored_env sample_groups) 10 malformed_uuid_args
              initial_world (vendored_env_parses sample_groups) Hne Hbad)
    as (res & w' & evs & Hrun & Ht & Harg & Hq & _).
  exists res, w', evs. repeat split; assumption.
Defined.

Lemma mkfs_success_means_all_prepared_witness :
  sample_run
  = Some (Py_BuildValue "0f0e0d0c-0b0a-0908-0706-050403020100" (2 * GiB),
          snd (run_of sample_run)) /\
  exists ctx,
    prepared (trace (snd (run_of sample_run)))
    = combine (seq O 2) ctx /\
    Forall (fun p => prepare_ret p = 0) ctx /\
    Exists (fun e => is_make_btrfs e = true)
      (trace (snd (run_of sample_run))).
Proof.
  assert (Hrun : pybtrfs_mkfs (K := linux_uapi)
                   (obliging_env sample_groups) 10
                   (sample_args two_devices) initial_world
                 = Some (Py_BuildValue
                           "0f0e0d0c-0b0a-0908-0706-050403020100" (2 * GiB),
                         snd (run_of sample_run)))
    by (vm_compute; reflexivity).
  split; [exact Hrun|].
  destruct (mkfs_success_means_all_prepared (K := linux_uapi)
              (obliging_env sample_groups) 10 (sample_args two_devices)
              initial_world (snd (run_of sample_run))
              (trace (snd (run_of sample_run))) _ _
              Hrun (from_initial_world _))
    as (ctx & Hprep & _ & Hall & _ & Hex).
  exists ctx. split; [exact Hprep|]. split; [exact Hall | exact Hex].
Defined.

(** * Further sample runs *)

Lemma two_subvolumes_stores_on_success : stores_on_success two_subvolumes.
Proof.
  intros h c. unfold two_subvolumes. destruct c; try exact I.
  - cbn [code stored]. split; [|intros H; contradiction]. intros _.
    eexists. split; [reflexivity|]. unfold count_calls. lia.
  - destruct (count_calls _ h <? 2); cbn [code stored].
    + split; [eauto | intros H; contradiction].
    + split; [intros H; discriminate H | reflexivity].
  - destruct (count_calls _ h <? 2); cbn [code stored].
    + split; [eauto | intros H; contradiction].
    + split; [intros H; discriminate H | reflexivity].
Qed.

Lemma subvolume_iterator_resources_witness :
  BTRFS_UTIL_ERROR_STOP_ITERATION (btrfsutil_api := libbtrfsutil) <> 0 /\
  stores_on_success two_subvolumes /\
  exists s,
    track_all no_resources
      (snd (iterator_life (U := libbtrfsutil) two_subvolumes
              sample_session []))
    = Some s /\
    live_paths s = [] /\ live_handles s = [].
Proof.
  assert (Hstop : BTRFS_UTIL_ERROR_STOP_ITERATION
                    (btrfsutil_api := libbtrfsutil) <> 0)
    by (simpl; discriminate).
  split; [exact Hstop|].
  split; [exact two_subvolumes_stores_on_success|].
  destruct (subvolume_iterator_resources (U := libbtrfsutil) two_subvolumes
              Hstop two_subvolumes_stores_on_success sample_session)
    as (s & Htr & Hp & Hh).
  exists s. split; [exact Htr|]. split; [exact Hp|].
  apply Hh. reflexivity.
Defined.

Lemma closed_iterator_is_inert_witness :
  forallb (fun op => negb (is_init op)) [Op_next; Op_fd; Op_exit] = true /\
  run_ops (U := libbtrfsutil) two_subvolumes
    (Op_close :: [Op_next; Op_fd; Op_exit])
    {| iter := 1; info_flag := true |} []
  = ([Return_None; Raise_ValueError; Raise_ValueError; Return_None],
     {| iter := 0; info_flag := true |},
     [(DestroySubvolumeIterator 1, {| code := 0; stored := None |})]).
Proof.
  split; [reflexivity|].
  exact (proj1 (closed_iterator_is_inert (U := libbtrfsutil) two_subvolumes
                  [Op_next; Op_fd; Op_exit]
                  {| iter := 1; info_flag := true |} [] eq_refl)).
Defined.

(** The second insertion fails: two trees were created, one root was
    inserted, and the transaction was aborted with the code returned. *)
Lemma create_global_roots_crowded :
  create_global_roots (T := linux_tree_ids) crowded_roots 3 []
  = (-17,
     [ (BtrfsCreateTree (root_key (T := linux_tree_ids) 2 1), 0);
       (GlobalRootInsert (root_key (T := linux_tree_ids) 2 1), 0);
       (BtrfsCreateTree (root_key (T := linux_tree_ids) 7 1), 0);
       (GlobalRootInsert (root_key (T := linux_tree_ids) 7 1), -17);
       (AbortTransaction (-17), 0) ]).
Proof. vm_compute. reflexivity. Qed.

Lemma mkfs_transactions_in_turn_witness :
  sample_run
  = Some (Py_BuildValue "0f0e0d0c-0b0a-0908-0706-050403020100" (2 * GiB),
          snd (run_of sample_run)) /\
  tx_run false (trace (snd (run_of sample_run))) = Some false.
Proof.
  assert (Hrun : pybtrfs_mkfs (K := linux_uapi)
                   (obliging_env sample_groups) 10
                   (sample_args two_devices) initial_world
                 = Some (Py_BuildValue
                           "0f0e0d0c-0b0a-0908-0706-050403020100" (2 * GiB),
                         snd (run_of sample_run)))
    by (vm_compute; reflexivity).
  split; [exact Hrun|].
  destruct (mkfs_transactions_in_turn (K := linux_uapi)
              (obliging_env sample_groups) 10 (sample_args two_devices)
              initial_world _ (snd (run_of sample_run))
              (trace (snd (run_of sample_run)))
              Hrun (from_initial_world _))
    as (open & Htx & Hv).
  rewrite Htx. f_equal. apply Hv. eexists _, _. reflexivity.
Defined.

Lemma mkfs_value_read_before_close_witness :
  sample_run
  = Some (Py_BuildValue "0f0e0d0c-0b0a-0908-0706-050403020100" (2 * GiB),
          snd (run_of sample_run)) /\
  value_read_before_close (K := linux_uapi) (obliging_env sample_groups)
    (sample_args two_devices) (trace initial_world)
    (trace (snd (run_of sample_run)))
    "0f0e0d0c-0b0a-0908-0706-050403020100" (2 * GiB).
Proof.
  assert (Hrun : pybtrfs_mkfs (K := linux_uapi)
                   (obliging_env sample_groups) 10
                   (sample_args two_devices) initial_world
                 = Some (Py_BuildValue
                           "0f0e0d0c-0b0a-0908-0706-050403020100" (2 * GiB),
                         snd (run_of sample_run)))
    by (vm_compute; reflexivity).
  split; [exact Hrun|].
  exact (mkfs_value_read_before_close (K := linux_uapi)
           (obliging_env sample_groups) 10 (sample_args two_devices)
           initial_world _ _ (snd (run_of sample_run))
           (trace (snd (run_of sample_run)))
           Hrun (from_initial_world _)).
Defined.

(** * The phases of a run *)

Lemma aside_refl (w : world) : aside w w [].
Proof.
  unfold aside. split; [now rewrite app_nil_r|]. split; [reflexivity|].
  constructor.
Qed.

Lemma aside_trans (w w1 w2 : world) (e1 e2 : list event) :
  aside w w1 e1 -> aside w1 w2 e2 -> aside w w2 (e1 ++ e2).
Proof.
  intros (H1 & H2 & H3) (H4 & H5 & H6). unfold aside.
  split; [rewrite H4, H1; now rewrite app_assoc|].
  split; [congruence | now apply Forall_app].
Qed.

Lemma quiet_outside (evs : list event) :
  Forall quiet evs -> Forall outside_trees evs.
Proof.
  apply Forall_impl. intros [c r|s|i p]; simpl; try tauto.
  destruct c; simpl; tauto.
Qed.

Lemma outside_no_cleaner (evs : list event) :
  Forall outside_trees evs -> Forall (fun e => cleaner_entry e = false) evs.
Proof.
  apply Forall_impl. intros [c r|s|i p]; simpl; try tauto; reflexivity.
Qed.

Section Phases.

Context {K : btrfs_uapi}.
Variable E : environment.

#[local] Arguments call : simpl never.

Lemma aside_call (c : lib_call) (w : world) (r : response) (w' : world) :
  call E c w = (r, w') -> tree_call c = false -> aside w w' [Lib c r].
Proof.
  intros Hc Ht. apply (call_inv E) in Hc.
  destruct Hc as (_ & Htr & _ & Ha).
  split; [exact Htr|]. split; [exact Ha|]. constructor; [exact Ht|].
  constructor.
Qed.

Lemma close_devices_aside (ctx : list prepare_device_progress) :
  forall w : world, exists evs, aside w (close_devices E ctx w) evs.
Proof.
  induction ctx as [|p ctx IH]; intros w; cbn [close_devices].
  - exists []. apply aside_refl.
  - destruct (0 <=? fd p); [|apply IH].
    destruct (call E (Close (fd p)) w) as [c w1] eqn:Hc. cbn [snd].
    destruct (IH w1) as (evs & H).
    exists ([Lib (Close (fd p)) c] ++ evs).
    eapply aside_trans; [|exact H]. now apply aside_call.
Qed.

Lemma join_and_close_aside (ctx : list prepare_device_progress) :
  forall (j : nat) (w : world),
  exists evs, aside w (join_and_close E ctx j w) evs.
Proof.
  induction ctx as [|p ctx IH]; intros j w; cbn [join_and_close].
  - exists []. apply aside_refl.
  - destruct (call E (PthreadJoin j) w) as [c0 w1] eqn:Hc0.
    apply aside_call in Hc0; [|reflexivity].
    destruct (0 <=? fd p).
    + destruct (call E (Close (fd p)) w1) as [c w2] eqn:Hc. cbn [snd].
      apply aside_call in Hc; [|reflexivity].
      destruct (IH (S j) w2) as (evs & H).
      exists ([Lib (PthreadJoin j) c0] ++ [Lib (Close (fd p)) c] ++ evs).
      eapply aside_trans; [exact Hc0|].
      eapply aside_trans; [exact Hc | exact H].
    + destruct (IH (S j) w1) as (evs & H).
      exists ([Lib (PthreadJoin j) c0] ++ evs).
      eapply aside_trans; [exact Hc0 | exact H].
Qed.

Lemma join_workers_aside (n : nat) :
  forall (i : nat) (w : world),
  exists evs, aside w (join_workers E n i w) evs /\ prepared evs = [].
Proof.
  induction n as [|n IH]; intros i w; cbn [join_workers].
  - exists []. split; [apply aside_refl | reflexivity].
  - destruct (call E (PthreadJoin i) w) as [c w1] eqn:Hc. cbn [snd].
    apply aside_call in Hc; [|reflexivity].
    destruct (IH (S i) w1) as (evs & H & Hp).
    exists ([Lib (PthreadJoin i) c] ++ evs).
    split; [eapply aside_trans; [exact Hc | exact H] | exact Hp].
Qed.

Lemma test_devices_aside (force : bool) (paths : list string) :
  forall w : world,
  exists evs,
    aside w (snd (test_devices E paths force w)) evs /\ prepared evs = [].
Proof.
  induction paths as [|p paths IH]; intros w; cbn [test_devices].
  - exists []. split; [apply aside_refl | reflexivity].
  - destruct (call E (TestDevForMkfs p force) w) as [t w1] eqn:Hc.
    apply aside_call in Hc; [|reflexivity].
    destruct (ret t =? 0); cbn [snd].
    + exists [Lib (TestDevForMkfs p force) t]. split; [exact Hc|reflexivity].
    + destruct (IH w1) as (evs & H & Hp).
      exists ([Lib (TestDevForMkfs p force) t] ++ evs).
      split; [eapply aside_trans; [exact Hc | exact H] | exact Hp].
Qed.

Lemma prepare_one_device_aside (p : prepare_device_progress) (w : world) :
  exists evs, aside w (snd (prepare_one_device E p w)) evs.
Proof.
  unfold prepare_one_device.
  destruct (call E (Open (file p)) w) as [o w1] eqn:Hc1.
  apply aside_call in Hc1; [|reflexivity].
  destruct (ret o <? 0); cbn [snd].
  - eexists. exact Hc1.
  - match goal with
    | |- context [call E ?c w1] => destruct (call E c w1) as [r w2] eqn:Hc2
    end.
    apply aside_call in Hc2; [|reflexivity]. cbn [snd].
    eexists. eapply aside_trans; [exact Hc1 | exact Hc2].
Qed.

Lemma launch_workers_aside (bc : Z) (dd : bool) (paths : list string) :
  forall (i : nat) (launched : list prepare_device_progress) (w : world),
  exists evs, aside w (snd (launch_workers E paths i launched bc dd w)) evs.
Proof.
  induction paths as [|path paths IH]; intros i launched w;
    cbn [launch_workers].
  - exists []. apply aside_refl.
  - destruct (call E (PthreadCreate i) w) as [c w1] eqn:Hc1.
    apply aside_call in Hc1; [|reflexivity].
    destruct (ret c =? 0); cbn [negb].
    + match goal with
      | |- context [prepare_one_device E ?p w1] =>
          destruct (prepare_one_device_aside p w1) as (evs1 & H1);
          destruct (prepare_one_device E p w1) as [p' w2]
      end.
      cbn [snd] in H1.
      destruct (IH (S i) (launched ++ [p']) (record (Prepared i p') w2))
        as (evs2 & H2).
      exists ([Lib (PthreadCreate i) c] ++ evs1 ++ [Prepared i p'] ++ evs2).
      eapply aside_trans; [exact Hc1|].
      eapply aside_trans; [exact H1|].
      eapply aside_trans; [|exact H2].
      split; [reflexivity|]. split; [reflexivity|].
      constructor; [exact I | constructor].
    + cbn [snd].
      destruct (join_and_close_aside launched O w1) as (evs & H).
      exists ([Lib (PthreadCreate i) c] ++ evs).
      eapply aside_trans; [exact Hc1 | exact H].
Qed.

Lemma out_free_aside (r : Z) (u : string) (n : Z) (w : world) :
  exists evs,
    aside w (snd (out_free E r u n w)) evs /\ prepared evs = [] /\
    fst (out_free E r u n w) = result_of r u n.
Proof.
  unfold out_free, result_of.
  destruct (call E CloseAllDevices w) as [c w1] eqn:Hc.
  apply aside_call in Hc; [|reflexivity].
  exists [Lib CloseAllDevices c].
  destruct (negb (r =? 0)); cbn [fst snd]; auto.
Qed.

Lemma out_close_aside (r : Z) (u : string) (n : Z)
  (ctx : list prepare_device_progress) (w : world) :
  exists evs,
    aside w (snd (out_close E r u n ctx w)) evs /\ prepared evs = [] /\
    fst (out_close E r u n ctx w) = result_of r u n.
Proof.
  unfold out_close.
  destruct (close_devices_aside ctx w) as (evs1 & H1).
  destruct (close_devices_spec E ctx w) as (evs1' & Heq & _ & Hp1 & _).
  destruct H1 as (Heq1 & Ha1 & Ho1).
  rewrite Heq1 in Heq. apply app_inv_head in Heq. subst evs1'.
  destruct (out_free_aside r u n (close_devices E ctx w))
    as (evs2 & H2 & Hp2 & Hres).
  exists (evs1 ++ evs2).
  split; [eapply aside_trans; [|exact H2]; repeat split; assumption|].
  split; [rewrite prepared_app, Hp1, Hp2; reflexivity | exact Hres].
Qed.

Lemma out_ctree_aside (r : Z) (u : string) (n : Z)
  (ctx : list prepare_device_progress) (w : world) :
  exists evs,
    aside w (snd (out_ctree E r u n ctx w)) evs /\ prepared evs = [] /\
    (r <> 0 -> fst (out_ctree E r u n ctx w) = PyErr_OSError (- r)).
Proof.
  unfold out_ctree.
  destruct (call E CloseCtree w) as [c w1] eqn:Hc.
  apply aside_call in Hc; [|reflexivity].
  match goal with
  | |- context [out_close E ?r' u n ctx w1] =>
      destruct (out_close_aside r' u n ctx w1) as (evs & H & Hp & Hres);
      set (r0 := r') in *
  end.
  exists ([Lib CloseCtree c] ++ evs).
  split; [eapply aside_trans; [exact Hc | exact H]|].
  split; [exact Hp|].
  intros Hr. rewrite Hres. unfold result_of, r0.
  apply Z.eqb_neq in Hr. rewrite Hr. cbn [andb negb]. now rewrite Hr.
Qed.

(** The run once the workers are joined: it stops before the filesystem is
    open, or it goes through [mkfs_trees] and on to [out_ctree]. *)
Lemma mkfs_prepared_inv (fuel : nat) (a : mkfs_args) (paths : list string)
  (fs_uuid : string) (mp dp inc ns : Z)
  (ctx : list prepare_device_progress) (w : world) (res : py_result)
  (w' : world) :
  mkfs_prepared E fuel a paths fs_uuid mp dp inc ns ctx w = Some (res, w') ->
  let p0 := nth O ctx default_progress in
  (exists evs,
      aside w w' evs /\ prepared evs = [] /\ raises res /\
      (prepare_ret p0 <> 0 \/
       (kw_byte_count a <> 0 /\ kw_byte_count a > dev_byte_count p0) \/
       forallb call_succeeded evs = false)) \/
  (exists pre w1 r w2 post,
      prepare_ret p0 = 0 /\
      ~ (kw_byte_count a <> 0 /\ kw_byte_count a > dev_byte_count p0) /\
      aside w w1 pre /\ prepared pre = [] /\
      mkfs_trees E fuel inc dp mp (kw_mixed a) (kw_sectorsize a)
        (negb (kw_no_discard a)) ctx w1 = Some (r, w2) /\
      aside w2 w' post /\ prepared post = [] /\
      (r <> 0 -> res = PyErr_OSError (- r))).
Proof.
  unfold mkfs_prepared. cbv zeta.
  set (p0 := nth O ctx default_progress).
  assert (Hexit : forall (r : Z) (w1 : world) (pre : list event),
    r <> 0 -> aside w w1 pre -> prepared pre = [] ->
    Some (out_close E r EmptyString 0 ctx w1) = Some (res, w') ->
    exists evs,
      aside w w' evs /\ prepared evs = [] /\ raises res /\
      exists post, evs = pre ++ post).
  { intros r w1 pre Hr Hpre Hp H.
    destruct (out_close_aside r EmptyString 0 ctx w1)
      as (evs & Ha & Hpe & Hres).
    destruct (out_close E r EmptyString 0 ctx w1) as [res0 w0].
    cbn [fst snd] in *. injection H as <- <-.
    exists (pre ++ evs).
    split; [eapply aside_trans; eauto|].
    split; [rewrite prepared_app, Hp, Hpe; reflexivity|].
    split; [rewrite Hres; now apply raises_result_of|].
    now exists evs. }
  destruct (prepare_ret p0 =? 0) eqn:Hp0; cbn [negb].
  2:{ apply Z.eqb_neq in Hp0. intros H. left.
      destruct (Hexit _ w [] Hp0 (aside_refl w) eq_refl H)
        as (evs & Ha & Hp & Hr & _).
      exists evs. split; [exact Ha|]. split; [exact Hp|].
      split; [exact Hr|]. left. exact Hp0. }
  apply Z.eqb_eq in Hp0.
  destruct (negb (kw_byte_count a =? 0)
            && (kw_byte_count a >? dev_byte_count p0)) eqn:Hbig.
  { apply andb_true_iff in Hbig. destruct Hbig as [Hb1 Hb2].
    apply negb_true_iff, Z.eqb_neq in Hb1. apply Z.gtb_gt in Hb2.
    intros H. left.
    assert (Hne : - ENOSPC <> 0) by discriminate.
    destruct (Hexit _ w [] Hne (aside_refl w) eq_refl H)
      as (evs & Ha & Hp & Hr & _).
    exists evs. split; [exact Ha|]. split; [exact Hp|]. split; [exact Hr|].
    right. left. split; assumption. }
  assert (Hfit : ~ (kw_byte_count a <> 0
                    /\ kw_byte_count a > dev_byte_count p0)).
  { intros [Hb1 Hb2]. apply andb_false_iff in Hbig.
    destruct Hbig as [Hb | Hb].
    - apply negb_false_iff, Z.eqb_eq in Hb. contradiction.
    - apply Z.gtb_gt in Hb2. congruence. }
  match goal with
  | |- context [call E ?c w] => destruct (call E c w) as [m w1] eqn:Hc1
  end.
  apply aside_call in Hc1; [|reflexivity].
  destruct (ret m =? 0) eqn:Hm; cbn [negb].
  2:{ intros H. left.
      assert (Hne : ret m <> 0) by now apply Z.eqb_neq.
      destruct (Hexit _ w1 _ Hne Hc1 eq_refl H)
        as (evs & Ha & Hp & Hr & post & ->).
      eexists. split; [exact Ha|]. split; [exact Hp|]. split; [exact Hr|].
      right. right. cbn [app forallb call_succeeded]. now rewrite Hm. }
  match goal with
  | |- context [call E ?c w1] => destruct (call E c w1) as [o w2] eqn:Hc2
  end.
  apply aside_call in Hc2; [|reflexivity].
  pose proof (aside_trans _ _ _ _ _ Hc1 Hc2) as Hpre.
  destruct (ret o =? 0) eqn:Ho.
  { intros H. left.
    assert (Hne : - EIO <> 0) by discriminate.
    destruct (Hexit _ w2 _ Hne Hpre eq_refl H)
      as (evs & Ha & Hp & Hr & post & ->).
    eexists. split; [exact Ha|]. split; [exact Hp|]. split; [exact Hr|].
    right. right. cbn [app forallb call_succeeded].
    rewrite Ho. cbn [negb andb]. apply andb_false_r. }
  destruct (mkfs_trees E fuel inc dp mp (kw_mixed a) (kw_sectorsize a)
              (negb (kw_no_discard a)) ctx w2) as [[r w3]|] eqn:Ht;
    [|intros H; discriminate H].
  intros H. right.
  destruct (r =? 0) eqn:Hr.
  - destruct (call E SuperTotalBytes w3) as [t w4] eqn:Hc4.
    apply aside_call in Hc4; [|reflexivity].
    match goal with
    | _ : Some (out_ctree E 0 ?u ?n ctx w4) = _ |- _ =>
        destruct (out_ctree_aside 0 u n ctx w4) as (evs & Ha & Hp & _);
        destruct (out_ctree E 0 u n ctx w4) as [res0 w0]
    end.
    cbn [fst snd] in *. injection H as <- <-.
    eexists _, w2, r, w3, ([Lib SuperTotalBytes t] ++ evs).
    split; [exact Hp0|]. split; [exact Hfit|]. split; [exact Hpre|].
    split; [reflexivity|]. split; [exact Ht|].
    split; [eapply aside_trans; eauto|]. split; [exact Hp|].
    intros Hne. apply Z.eqb_eq in Hr. contradiction.
  - apply Z.eqb_neq in Hr.
    destruct (out_ctree_aside r EmptyString 0 ctx w3)
      as (evs & Ha & Hp & Hres).
    destruct (out_ctree E r EmptyString 0 ctx w3) as [res0 w0].
    cbn [fst snd] in *. injection H as <- <-.
    eexists _, w2, r, w3, evs.
    split; [exact Hp0|]. split; [exact Hfit|]. split; [exact Hpre|].
    split; [reflexivity|]. split; [exact Ht|].
    split; [exact Ha|]. split; [exact Hp|]. exact Hres.
Qed.

End Phases.

Section PhasesOfRun.

Context {K : btrfs_uapi}.
Variable E : environment.

#[local] Arguments call : simpl never.

(** The part of the run with the GIL released: it stops before every worker
    has run, or the workers leave their contexts and [mkfs_prepared] takes
    over. *)
Lemma mkfs_released_inv (fuel : nat) (a : mkfs_args) (paths : list string)
  (fs_uuid : string) (mp dp inc ns : Z) (w : world) (res : py_result)
  (w' : world) :
  mkfs_released E fuel a paths fs_uuid mp dp inc ns w = Some (res, w') ->
  (exists evs,
      aside w w' evs /\ raises res /\
      ((List.length (prepared evs) < List.length paths)%nat \/
       prepared evs = []) /\
      (prepared evs = [] \/
       exists i c,
         In (Lib (PthreadCreate i) c) evs /\ ret c <> 0 /\
         res = PyErr_OSError (ret c))) \/
  (exists pre ctx w0,
      aside w w0 pre /\
      prepared pre = combine (seq O (List.length paths)) ctx /\
      List.length ctx = List.length paths /\
      mkfs_prepared E fuel a paths fs_uuid mp dp inc ns ctx w0
      = Some (res, w')).
Proof.
  unfold mkfs_released. cbv zeta.
  assert (Hstop : forall (r : Z) (w1 : world) (pre : list event),
    r <> 0 -> aside w w1 pre -> prepared pre = [] ->
    Some (out_free E r EmptyString 0 w1) = Some (res, w') ->
    exists evs,
      aside w w' evs /\ raises res /\
      ((List.length (prepared evs) < List.length paths)%nat \/
       prepared evs = []) /\
      (prepared evs = [] \/
       exists i c,
         In (Lib (PthreadCreate i) c) evs /\ ret c <> 0 /\
         res = PyErr_OSError (ret c))).
  { intros r w1 pre Hr Hpre Hp H.
    destruct (out_free_aside E r EmptyString 0 w1)
      as (evs & Ha & Hpe & Hres).
    destruct (out_free E r EmptyString 0 w1) as [res0 w0].
    cbn [fst snd] in *. injection H as <- <-.
    assert (Hnil : prepared (pre ++ evs) = [])
      by (rewrite prepared_app, Hp, Hpe; reflexivity).
    exists (pre ++ evs).
    split; [eapply aside_trans; eauto|].
    split; [rewrite Hres; now apply raises_result_of|].
    split; right + left; exact Hnil. }
  match goal with
  | |- context [if negb (kw_force a) then ?x else ?y] =>
      assert (Htest : exists evs1,
                 aside w (snd (if negb (kw_force a) then x else y)) evs1 /\
                 prepared evs1 = []);
      [ destruct (negb (kw_force a)); cbn [snd];
        [ apply test_devices_aside
        | exists []; split; [apply aside_refl | reflexivity] ]
      | destruct (if negb (kw_force a) then x else y) as [r w1] ]
  end.
  cbn [snd] in Htest. destruct Htest as (evs1 & Ha1 & Hp1).
  destruct (r =? 0) eqn:Hr; cbn [negb].
  2:{ intros H. left. apply Z.eqb_neq in Hr.
      exact (Hstop r w1 evs1 Hr Ha1 Hp1 H). }
  match goal with
  | |- context [call E ?c w1] => destruct (call E c w1) as [t0 w2] eqn:Hc2
  end.
  apply aside_call in Hc2; [|reflexivity].
  match goal with
  | |- context [call E ?c w2] => destruct (call E c w2) as [c3 w3] eqn:Hc3
  end.
  apply aside_call in Hc3; [|reflexivity].
  pose proof (aside_trans _ _ _ _ _ Ha1
                (aside_trans _ _ _ _ _ Hc2 Hc3)) as Ha3.
  match type of Ha3 with
  | aside _ _ ?l =>
      assert (Hp3 : prepared l = [])
        by (rewrite prepared_app, Hp1; reflexivity);
      set (evs3 := l) in *
  end.
  clearbody evs3. clear Hc2 Hc3 Ha1 Hp1.
  destruct (_ || _).
  { intros H. left.
    assert (Hne : - ENOMEM <> 0) by discriminate.
    exact (Hstop _ w3 evs3 Hne Ha3 Hp3 H). }
  clear Hstop.
  destruct (launch_workers_aside E (kw_byte_count a)
              (negb (kw_no_discard a)) paths O [] w3) as (evs4 & Ha4).
  destruct (launch_workers_spec E (kw_byte_count a) (negb (kw_no_discard a))
              paths O [] w3) as (evs4' & Heq4 & _ & Hcase).
  destruct (launch_workers_threads E (kw_byte_count a)
              (negb (kw_no_discard a)) paths O [] w3 eq_refl)
    as (evs4'' & Heq4' & Hthreads).
  pose proof Ha4 as (Heq & _ & _).
  rewrite Heq in Heq4, Heq4'.
  apply app_inv_head in Heq4. apply app_inv_head in Heq4'.
  subst evs4' evs4''. clear Heq.
  destruct (launch_workers E paths O [] (kw_byte_count a)
              (negb (kw_no_discard a)) w3) as [[e|ctx] w4];
    cbn [fst snd] in Ha4, Hcase, Hthreads.
  - (* a thread could not be created *)
    destruct Hcase as (He & Hlen & _).
    destruct Hthreads as (k & c & _ & _ & _ & _ & Hin & Hc & Hec).
    intros H. left.
    destruct (out_free_aside E e EmptyString 0 w4)
      as (evs5 & Ha5 & Hp5 & Hres).
    destruct (out_free E e EmptyString 0 w4) as [res0 w0].
    cbn [fst snd] in *. injection H as <- <-.
    exists (evs3 ++ evs4 ++ evs5).
    split; [eapply aside_trans; [exact Ha3|];
            eapply aside_trans; eauto|].
    split; [rewrite Hres; now apply raises_result_of|].
    split.
    { left. rewrite !prepared_app, Hp3, Hp5, app_nil_r. exact Hlen. }
    right. exists k, c.
    split; [apply in_or_app; right; apply in_or_app; left; exact Hin|].
    split; [exact Hc|].
    rewrite Hres. unfold result_of.
    replace (e =? 0) with false by (symmetry; now apply Z.eqb_neq).
    cbn [negb]. rewrite Hec, Z.opp_involutive. reflexivity.
  - destruct Hcase as (new & Hctx & Hlen & Hp & _).
    cbn [app] in Hctx. subst new.
    destruct (join_workers_aside E (List.length paths) O w4)
      as (evs5 & Ha5 & Hp5).
    intros H. right.
    exists (evs3 ++ evs4 ++ evs5), ctx, (join_workers E (List.length paths) O w4).
    split; [eapply aside_trans; [exact Ha3|];
            eapply aside_trans; eauto|].
    split.
    { rewrite !prepared_app, Hp3, Hp5, app_nil_r, Hp, Hlen. reflexivity. }
    split; [exact Hlen | exact H].
Qed.

(** The whole run: an argument is refused before anything is done, or
    [mkfs_released] runs on the plan made from the arguments. *)
Lemma pybtrfs_mkfs_inv (fuel : nat) (a : mkfs_args) (w : world)
  (res : py_result) (w' : world) :
  pybtrfs_mkfs E fuel a w = Some (res, w') ->
  (exists evs, aside w w' evs /\ prepared evs = [] /\ raises res) \/
  (exists paths pre w0 pg,
      device_paths (kw_devices a) = inr paths /\
      aside w w0 pre /\ prepared pre = [] /\
      mkfs_released E fuel a paths (requested_uuid a)
        (select_meta_profile (kw_metadata_profile a) (kw_mixed a)
           (Z.of_nat (List.length (kw_devices a))))
        (select_data_prof (kw_data_profile a) (kw_mixed a)
           (Z.of_nat (List.length (kw_devices a))))
        (mkfs_incompat_flags (kw_features a) (kw_mixed a)
           (select_data_prof (kw_data_profile a) (kw_mixed a)
              (Z.of_nat (List.length (kw_devices a))))
           (select_meta_profile (kw_metadata_profile a) (kw_mixed a)
              (Z.of_nat (List.length (kw_devices a))))
           (kw_nodesize a) pg)
        (effective_nodesize a) w0
      = Some (res, w')).
Proof.
  unfold pybtrfs_mkfs. cbv zeta.
  assert (Hearly : forall (res0 : py_result) (w1 : world) (evs : list event),
    aside w w1 evs -> prepared evs = [] -> raises res0 ->
    Some (res0, w1) = Some (res, w') ->
    (exists evs, aside w w' evs /\ prepared evs = [] /\ raises res) \/
    (exists paths pre w0 pg,
        device_paths (kw_devices a) = inr paths /\
        aside w w0 pre /\ prepared pre = [] /\
        mkfs_released E fuel a paths (requested_uuid a)
          (select_meta_profile (kw_metadata_profile a) (kw_mixed a)
             (Z.of_nat (List.length (kw_devices a))))
          (select_data_prof (kw_data_profile a) (kw_mixed a)
             (Z.of_nat (List.length (kw_devices a))))
          (mkfs_incompat_flags (kw_features a) (kw_mixed a)
             (select_data_prof (kw_data_profile a) (kw_mixed a)
                (Z.of_nat (List.length (kw_devices a))))
             (select_meta_profile (kw_metadata_profile a) (kw_mixed a)
                (Z.of_nat (List.length (kw_devices a))))
             (kw_nodesize a) pg)
          (effective_nodesize a) w0
        = Some (res, w'))).
  { intros res0 w1 evs Ha Hp Hr H. injection H as <- <-.
    left. exists evs. auto. }
  destruct (Z.of_nat (List.length (kw_devices a)) <? 1).
  { apply (Hearly _ _ []); [apply aside_refl | reflexivity | exact I]. }
  match goal with
  | |- context [call E ?cl w] => destruct (call E cl w) as [c w1] eqn:Hc1
  end.
  apply aside_call in Hc1; [|reflexivity].
  destruct (ret c =? 0).
  { eapply Hearly; [exact Hc1 | reflexivity | exact I]. }
  destruct (device_paths (kw_devices a)) as [e|paths] eqn:Hpaths.
  { eapply Hearly; [exact Hc1 | reflexivity|].
    exact (device_paths_raises (kw_devices a) _ Hpaths). }
  destruct (BTRFS_LABEL_SIZE <=? _).
  { eapply Hearly; [exact Hc1 | reflexivity | exact I]. }
  match goal with
  | |- context [match kw_uuid a with EmptyString => ?x | String _ _ => ?y end]
    =>
      assert (Huuid : exists evs2,
                 aside w1 (snd (match kw_uuid a with
                                | EmptyString => x
                                | String _ _ => y
                                end)) evs2 /\ prepared evs2 = []);
      [ destruct (kw_uuid a);
        [ exists []; split; [apply aside_refl | reflexivity]
        | match goal with
          | |- context [call E ?cl w1] =>
              destruct (call E cl w1) as [u w2] eqn:Hc2
          end;
          apply aside_call in Hc2; [|reflexivity]; cbn [snd];
          eexists; split; [exact Hc2 | reflexivity] ]
      | destruct (match kw_uuid a with
                  | EmptyString => x
                  | String _ _ => y
                  end) as [bad w2] ]
  end.
  cbn [snd] in Huuid. destruct Huuid as (evs2 & Ha2 & Hp2).
  pose proof (aside_trans _ _ _ _ _ Hc1 Ha2) as Ha2'.
  destruct bad.
  { eapply Hearly; [exact Ha2' | | exact I].
    rewrite prepared_app, Hp2. reflexivity. }
  clear Hearly.
  destruct (call E Sysconf_PAGE_SIZE w2) as [pg w3] eqn:Hc3.
  apply aside_call in Hc3; [|reflexivity].
  intros Hrun. right.
  exists paths, (([Lib (Calloc (Z.of_nat (List.length (kw_devices a)))) c]
                  ++ evs2) ++ [Lib Sysconf_PAGE_SIZE pg]), w3, (ret pg).
  split; [reflexivity|].
  split; [eapply aside_trans; eauto|].
  split; [rewrite !prepared_app, Hp2; reflexivity|].
  exact Hrun.
Qed.

End PhasesOfRun.

(** * The stages on the open filesystem *)

Lemma forallb_app_true {A : Type} (f : A -> bool) (l1 l2 : list A) :
  forallb f (l1 ++ l2) = true ->
  forallb f l1 = true /\ forallb f l2 = true.
Proof. rewrite forallb_app. apply andb_true_iff. Qed.

(** The outcome of the tests made on the way decides what the stage
    returns when every call in its events succeeded. *)
Ltac settle_gives :=
  cbn [fst snd update_allocation set_allocation trace];
  repeat match goal with
         | H : trace ?w = _ |- context [trace ?w] =>
             rewrite H;
             cbn [fst snd update_allocation set_allocation enter record
                  trace]
         end;
  rewrite <- ?app_assoc; cbn [app];
  eexists; split; [reflexivity|];
  cbn [forallb call_succeeded];
  intros Hall;
  repeat match goal with
         | H : _ && _ = true |- _ =>
             let H1 := fresh "Hs" in
             apply andb_true_iff in H; destruct H as [H1 H]
         end;
  repeat match goal with
         | H : (_ =? _) = true |- _ => apply Z.eqb_eq in H
         | H : (_ =? _) = false |- _ => apply Z.eqb_neq in H
         | H : (_ <? _) = true |- _ => apply Z.ltb_lt in H
         | H : (_ <? _) = false |- _ => apply Z.ltb_ge in H
         end;
  first [ reflexivity | assumption | lia | exfalso; lia | congruence ].

Section TreeStages.

Context {K : btrfs_uapi}.
Variable E : environment.

#[local] Arguments call : simpl never.

(** ** Reaching the cleaner *)




Lemma cleanup_temp_chunks_enters (fuel : nat) (dp mp sp : Z) (dd : bool)
  (w : world) (r : Z) (w' : world) :
  cleanup_temp_chunks E fuel dp mp sp dd w = Some (r, w') ->
  exists evs,
    trace w' = trace w ++ Enter (CleanupTempChunks dp mp sp dd) :: evs /\
    Forall (fun e => cleaner_entry e = false) evs.
Proof.
  unfold cleanup_temp_chunks.
  destruct (call E StartTransaction _) as [r1 w1] eqn:Hc1.
  apply call_trace in Hc1. simpl in Hc1.
  destruct (negb _).
  - intros H; inversion H; subst. rewrite Hc1, <- app_assoc.
    eexists. split; [reflexivity|]. repeat constructor.
  - destruct (cleanup_loop E fuel dp mp sp 0 w1) as [[r2 w2]|] eqn:Hl;
      [|discriminate].
    apply cleanup_loop_trace in Hl. destruct Hl as (evs & Hl & Hall).
    destruct (call E CommitTransaction w2) as [r3 w3] eqn:Hc3.
    apply call_trace in Hc3.
    intros H; inversion H; subst. rewrite Hc3, Hl, Hc1, <- !app_assoc.
    eexists. split; [reflexivity|].
    constructor; [reflexivity|].
    apply Forall_app; split; [|repeat constructor].
    eapply Forall_impl; [|exact Hall].
    intros [c r0|s|i p]; simpl; try tauto; reflexivity.
Qed.


(** ** What the stages return when no call fails *)

Lemma and_then_gives_zero (c : Z) (m k : step) :
  stage_gives 0 m -> stage_gives c k -> stage_gives c (and_then m k).
Proof.
  intros Hm Hk w r w'. unfold and_then.
  destruct (m w) as [[r1 w1]|] eqn:Hmw; [|discriminate].
  destruct (Hm _ _ _ Hmw) as (evs1 & Heq1 & H1).
  destruct (r1 =? 0) eqn:Hr1.
  - intros Hkw. destruct (Hk _ _ _ Hkw) as (evs2 & Heq2 & H2).
    exists (evs1 ++ evs2).
    split; [rewrite Heq2, Heq1; now rewrite app_assoc|].
    intros Hall. apply forallb_app_true in Hall. now apply H2.
  - intros H; inversion H; subst. exists evs1. split; [exact Heq1|].
    intros Hall. apply Z.eqb_neq in Hr1. specialize (H1 Hall).
    contradiction.
Qed.

Lemma and_then_gives_stop (c : Z) (m k : step) :
  c <> 0 -> stage_gives c m ->
  (forall w r w', k w = Some (r, w') ->
                  exists evs, trace w' = trace w ++ evs) ->
  stage_gives c (and_then m k).
Proof.
  intros Hc Hm Hk w r w'. unfold and_then.
  destruct (m w) as [[r1 w1]|] eqn:Hmw; [|discriminate].
  destruct (Hm _ _ _ Hmw) as (evs1 & Heq1 & H1).
  destruct (r1 =? 0) eqn:Hr1.
  - intros Hkw. destruct (Hk _ _ _ Hkw) as (evs2 & Heq2).
    exists (evs1 ++ evs2).
    split; [rewrite Heq2, Heq1; now rewrite app_assoc|].
    intros Hall. apply forallb_app_true in Hall.
    apply Z.eqb_eq in Hr1. destruct Hall as [Hall _].
    specialize (H1 Hall). congruence.
  - intros H; inversion H; subst. exists evs1. auto.
Qed.

Lemma when_gives (b : bool) (m : step) :
  stage_gives 0 m -> stage_gives 0 (when b m).
Proof.
  intros Hm. destruct b; [exact Hm|].
  intros w r w' H. unfold when, skip in H. inversion H; subst.
  exists []. split; [now rewrite app_nil_r | reflexivity].
Qed.

Lemma lib_gives (c : lib_call) :
  (forall r, call_succeeded (Lib c r) = true -> ret r = 0) ->
  stage_gives 0 (lib E c).
Proof.
  intros Hc w r w'. unfold lib.
  destruct (call E c w) as [r1 w1] eqn:Hcall. apply call_trace in Hcall.
  intros H; inversion H; subst. exists [Lib c r1]. split; [exact Hcall|].
  cbn [forallb]. rewrite andb_true_r. apply Hc.
Qed.

Lemma total_gives (c : Z) (f : world -> Z * world) :
  (forall w, exists evs,
      trace (snd (f w)) = trace w ++ evs /\
      (forallb call_succeeded evs = true -> fst (f w) = c)) ->
  stage_gives c (total f).
Proof.
  intros Hf w r w'. unfold total. intros H; inversion H as [H1].
  specialize (Hf w). rewrite H1 in Hf. exact Hf.
Qed.

Lemma create_metadata_block_groups_gives (inc mp : Z) (w : world) :
  exists evs,
    trace (snd (create_metadata_block_groups E inc mp w)) = trace w ++ evs /\
    (forallb call_succeeded evs = true ->
     fst (create_metadata_block_groups E inc mp w) = 0).
Proof.
  unfold create_metadata_block_groups. cbv zeta. run_tests; settle_gives.
Qed.

Lemma setup_tree_root_gives (objectid : Z) (w : world) :
  exists evs,
    trace (snd (setup_tree_root E objectid w)) = trace w ++ evs /\
    (forallb call_succeeded evs = true ->
     fst (setup_tree_root E objectid w) = 0).
Proof. unfold setup_tree_root. run_tests; settle_gives. Qed.

Lemma create_data_block_groups_gives (mixed : bool) (w : world) :
  exists evs,
    trace (snd (create_data_block_groups E mixed w)) = trace w ++ evs /\
    (forallb call_succeeded evs = true ->
     fst (create_data_block_groups E mixed w) = 0).
Proof. unfold create_data_block_groups. run_tests; settle_gives. Qed.

Lemma global_roots_gives :
  stage_gives 0
    (fun w => let (n, w0) := call E Sysconf_NPROCESSORS_ONLN w in
              lib E (CreateGlobalRoots (ret n)) w0).
Proof.
  intros w r w'. unfold lib. run_tests.
  intros H; inversion H; subst. settle_gives.
Qed.

(** The attach loop stops at the first context with a nonzero code and
    returns that code. *)
Lemma attach_devices_gives (sectorsize : Z)
  (ok : list prepare_device_progress) (p : prepare_device_progress)
  (rest : list prepare_device_progress) :
  Forall (fun q => prepare_ret q = 0) ok ->
  prepare_ret p <> 0 ->
  forall w : world,
  exists evs,
    trace (snd (attach_devices E (ok ++ p :: rest) sectorsize w))
    = trace w ++ evs /\
    (forallb call_succeeded evs = true ->
     fst (attach_devices E (ok ++ p :: rest) sectorsize w) = prepare_ret p).
Proof.
  intros Hok Hp. induction Hok as [|q ok Hq _ IH]; intros w;
    cbn [app attach_devices].
  - replace (prepare_ret p =? 0) with false
      by (symmetry; now apply Z.eqb_neq).
    cbn [negb fst snd]. exists []. split; [now rewrite app_nil_r|].
    reflexivity.
  - rewrite Hq. cbn [Z.eqb negb].
    match goal with
    | |- context [call E ?c w] => destruct (call E c w) as [r1 w1] eqn:Hc1
    end.
    apply call_trace in Hc1.
    destruct (ret r1 =? 0) eqn:Hr1; cbn [negb].
    + match goal with
      | |- context [call E ?c w1] =>
          destruct (call E c w1) as [r2 w2] eqn:Hc2
      end.
      apply call_trace in Hc2.
      destruct (ret r2 =? 0) eqn:Hr2; cbn [negb fst snd].
      * destruct (IH w2) as (evs & Heq & H).
        eexists ([_; _] ++ evs).
        split; [rewrite Heq, Hc2, Hc1, <- !app_assoc; reflexivity|].
        intros Hall. apply forallb_app_true in Hall. now apply H.
      * eexists [_; _].
        split; [rewrite Hc2, Hc1, <- !app_assoc; reflexivity|].
        cbn [forallb call_succeeded]. rewrite Hr2. intros H.
        discriminate H.
    + destruct (IH w1) as (evs & Heq & H).
      eexists ([_] ++ evs).
      split; [rewrite Heq, Hc1, <- !app_assoc; reflexivity|].
      intros Hall. apply forallb_app_true in Hall. now apply H.
Qed.

Lemma mkfs_trees_gives (fuel : nat) (inc dp mp : Z) (mixed : bool)
  (sectorsize : Z) (dd : bool) (ctx : list prepare_device_progress)
  (ok : list prepare_device_progress) (p : prepare_device_progress)
  (rest : list prepare_device_progress) :
  tl ctx = ok ++ p :: rest ->
  Forall (fun q => prepare_ret q = 0) ok ->
  prepare_ret p <> 0 ->
  stage_gives (prepare_ret p)
    (mkfs_trees E fuel inc dp mp mixed sectorsize dd ctx).
Proof.
  intros Htl Hok Hp. unfold mkfs_trees. rewrite Htl.
  do 9 (apply and_then_gives_zero;
        [ first [ apply when_gives | idtac ];
          first [ apply lib_gives; intros r0 H0;
                  cbn [call_succeeded] in H0; now apply Z.eqb_eq
                | apply global_roots_gives
                | apply total_gives; intros w0;
                  first [ apply create_metadata_block_groups_gives
                        | apply create_data_block_groups_gives
                        | apply setup_tree_root_gives ] ]
        | ]).
  apply and_then_gives_stop; [exact Hp| |].
  - apply total_gives. intros w0. now apply attach_devices_gives.
  - match goal with
    | |- forall w r w', ?k w = Some (r, w') -> _ =>
        assert (Hk : step_extends (tree_event inc dp mp mixed dd) k)
    end.
    { repeat first
        [ apply and_then_extends
        | apply when_extends
        | apply lib_extends; intros; reflexivity
        | apply total_extends; intros w;
          first [ apply create_raid_groups_trace ] ].
      intros w r w' H.
      apply (cleanup_temp_chunks_trace E inc dp mp mixed dd) in H.
      exact H. }
    intros w r w' H. apply Hk in H. destruct H as (evs & Heq & _).
    now exists evs.
Qed.

End TreeStages.

Section RunPhases.

Context {K : btrfs_uapi}.
Variable E : environment.

(** The three ways a run goes: it stops before every worker has run; the
    workers have all run and it stops before the filesystem is open; or it
    goes through [mkfs_trees], whose result decides the error raised. *)
Lemma pybtrfs_mkfs_phases (fuel : nat) (a : mkfs_args) (w : world)
  (res : py_result) (w' : world) :
  pybtrfs_mkfs E fuel a w = Some (res, w') ->
  let n := List.length (kw_devices a) in
  let mp := select_meta_profile (kw_metadata_profile a) (kw_mixed a)
              (Z.of_nat n) in
  let dp := select_data_prof (kw_data_profile a) (kw_mixed a)
              (Z.of_nat n) in
  (exists evs,
      aside w w' evs /\ raises res /\
      ((List.length (prepared evs) < n)%nat \/ prepared evs = []) /\
      (prepared evs = [] \/
       exists i c,
         In (Lib (PthreadCreate i) c) evs /\ ret c <> 0 /\
         res = PyErr_OSError (ret c))) \/
  (exists ctx evs,
      aside w w' evs /\ raises res /\
      prepared evs = combine (seq O n) ctx /\ List.length ctx = n /\
      (prepare_ret (nth O ctx default_progress) <> 0 \/
       (kw_byte_count a <> 0 /\
        kw_byte_count a > dev_byte_count (nth O ctx default_progress)) \/
       forallb call_succeeded evs = false)) \/
  (exists ctx pg pre w1 r w2 post,
      prepared pre = combine (seq O n) ctx /\ List.length ctx = n /\
      prepare_ret (nth O ctx default_progress) = 0 /\
      ~ (kw_byte_count a <> 0 /\
         kw_byte_count a > dev_byte_count (nth O ctx default_progress)) /\
      aside w w1 pre /\
      mkfs_trees E fuel
        (mkfs_incompat_flags (kw_features a) (kw_mixed a) dp mp
           (kw_nodesize a) pg)
        dp mp (kw_mixed a) (kw_sectorsize a) (negb (kw_no_discard a)) ctx w1
      = Some (r, w2) /\
      aside w2 w' post /\ prepared post = [] /\
      (r <> 0 -> res = PyErr_OSError (- r))).
Proof.
  intros Hrun. cbv zeta.
  apply pybtrfs_mkfs_inv in Hrun.
  destruct Hrun as [(evs & Ha & Hp & Hr)
                   |(paths & pre0 & w0 & pg & Hpaths & Ha0 & Hp0 & Hrun)].
  { left. exists evs. auto. }
  apply device_paths_length in Hpaths.
  apply mkfs_released_inv in Hrun. rewrite Hpaths in Hrun.
  destruct Hrun as [(evs & Ha & Hr & Hlen & Hth)
                   |(pre1 & ctx & w1 & Ha1 & Hp1 & Hlen & Hrun)].
  { left. exists (pre0 ++ evs).
    split; [eapply aside_trans; eauto|]. split; [exact Hr|].
    rewrite prepared_app, Hp0. cbn [app]. split; [exact Hlen|].
    destruct Hth as [Hnil|(i & c & Hin & Hc & Hres)]; [now left|].
    right. exists i, c. split; [apply in_or_app; now right | auto]. }
  pose proof (aside_trans _ _ _ _ _ Ha0 Ha1) as Ha01.
  assert (Hp01 : prepared (pre0 ++ pre1)
                 = combine (seq O (List.length (kw_devices a))) ctx)
    by (rewrite prepared_app, Hp0; exact Hp1).
  apply mkfs_prepared_inv in Hrun. cbv zeta in Hrun.
  destruct Hrun as [(evs & Ha & Hp & Hr & Hwhy)
                   |(pre2 & w2 & r & w3 & post & Hret & Hfit & Ha2 & Hp2
                     & Htrees & Ha3 & Hp3 & Hres)].
  - right. left. exists ctx, ((pre0 ++ pre1) ++ evs).
    split; [eapply aside_trans; eauto|]. split; [exact Hr|].
    split; [rewrite prepared_app, Hp, app_nil_r; exact Hp01|].
    split; [exact Hlen|].
    destruct Hwhy as [H|[H|H]]; [now left | right; now left|].
    right. right. rewrite forallb_app, H. apply andb_false_r.
  - right. right.
    exists ctx, pg, ((pre0 ++ pre1) ++ pre2), w2, r, w3, post.
    split; [rewrite prepared_app, Hp2, app_nil_r; exact Hp01|].
    split; [exact Hlen|]. split; [exact Hret|]. split; [exact Hfit|].
    split; [eapply aside_trans; eauto|].
    split; [exact Htrees|]. split; [exact Ha3|]. split; [exact Hp3|].
    exact Hres.
Qed.

End RunPhases.

(** * Lists of contexts and converted results *)

Lemma map_snd_combine_seq {A : Type} (l : list A) :
  forall i n, List.length l = n -> map snd (combine (seq i n) l) = l.
Proof.
  induction l as [|x l IH]; intros i n Hn; destruct n as [|n];
    try discriminate; [reflexivity|].
  simpl. f_equal. apply IH. now injection Hn.
Qed.

Lemma length_combine_seq {A : Type} (l : list A) (i n : nat) :
  List.length l = n -> List.length (combine (seq i n) l) = n.
Proof. intros H. rewrite length_combine, length_seq, H. apply Nat.min_id. Qed.

Lemma prepared_not_checking (i : nat) (p : prepare_device_progress)
  (evs : list event) :
  In (Prepared i p) evs -> Forall checking_event evs -> False.
Proof.
  intros Hin Hall. rewrite Forall_forall in Hall.
  exact (Hall _ Hin).
Qed.

Lemma raises_converted (res : py_result) :
  raises res -> converted_result res ->
  exists e, e <> 0 /\ res = PyErr_OSError e.
Proof.
  intros Hr [(e & ->)|(u & n & ->)]; [|destruct Hr].
  exists e. split; [exact Hr | reflexivity].
Qed.

Section ThroughTrees.

Context {K : btrfs_uapi}.
Variable E : environment.

(** The events of a run that went through [mkfs_trees], and the contexts
    that its workers left. *)
Lemma prepared_through_trees (fuel : nat) (inc dp mp : Z) (mixed : bool)
  (sectorsize : Z) (dd : bool) (ctx : list prepare_device_progress)
  (n : nat) (w w1 w2 w' : world) (r : Z) (pre post evs : list event) :
  prepared pre = combine (seq O n) ctx -> List.length ctx = n ->
  aside w w1 pre ->
  mkfs_trees E fuel inc dp mp mixed sectorsize dd ctx w1 = Some (r, w2) ->
  aside w2 w' post -> prepared post = [] ->
  trace w' = trace w ++ evs ->
  exists mid,
    trace w2 = trace w1 ++ mid /\ evs = pre ++ mid ++ post /\
    prepared evs = combine (seq O n) ctx.
Proof.
  intros Hp Hlen (Heq1 & _) Htrees (Heq2 & _) Hpost Ht.
  apply mkfs_trees_trace in Htrees. destruct Htrees as (mid & Heq & Hall).
  apply tree_event_silent in Hall. destruct Hall as (Hpm & _).
  exists mid. split; [exact Heq|].
  rewrite Heq2, Heq, Heq1, <- !app_assoc in Ht. apply app_inv_head in Ht.
  subst evs. split; [reflexivity|].
  rewrite !prepared_app, Hpm, Hpost, Hp, app_nil_r. reflexivity.
Qed.

End ThroughTrees.

(** * The ledger over a run *)

Lemma u64_range (x : Z) : is_u64 (x mod 2 ^ 64).
Proof. apply Z.mod_pos_bound. reflexivity. Qed.

Lemma u64_add_chain (x a b : Z) :
  ((x + a) mod 2 ^ 64 + b) mod 2 ^ 64 = (x + (a + b)) mod 2 ^ 64.
Proof. rewrite Zplus_mod_idemp_l. f_equal. lia. Qed.

Lemma ledger_ok_add_data (n : Z) (a : mkfs_allocation) :
  ledger_ok a -> ledger_ok (add_data n a).
Proof.
  intros (Hd & Hm & Hx & Hs & Hr).
  split; [|split; [|split; [|split]]];
    cbn [add_data add_metadata add_mixed add_system add_remap
         data metadata mixed system remap]; try assumption;
    apply u64_range.
Qed.

Lemma ledger_ok_add_metadata (n : Z) (a : mkfs_allocation) :
  ledger_ok a -> ledger_ok (add_metadata n a).
Proof.
  intros (Hd & Hm & Hx & Hs & Hr).
  split; [|split; [|split; [|split]]];
    cbn [add_data add_metadata add_mixed add_system add_remap
         data metadata mixed system remap]; try assumption;
    apply u64_range.
Qed.

Lemma ledger_ok_add_mixed (n : Z) (a : mkfs_allocation) :
  ledger_ok a -> ledger_ok (add_mixed n a).
Proof.
  intros (Hd & Hm & Hx & Hs & Hr).
  split; [|split; [|split; [|split]]];
    cbn [add_data add_metadata add_mixed add_system add_remap
         data metadata mixed system remap]; try assumption;
    apply u64_range.
Qed.

Lemma ledger_ok_add_system (n : Z) (a : mkfs_allocation) :
  ledger_ok a -> ledger_ok (add_system n a).
Proof.
  intros (Hd & Hm & Hx & Hs & Hr).
  split; [|split; [|split; [|split]]];
    cbn [add_data add_metadata add_mixed add_system add_remap
         data metadata mixed system remap]; try assumption;
    apply u64_range.
Qed.

Lemma ledger_ok_add_remap (n : Z) (a : mkfs_allocation) :
  ledger_ok a -> ledger_ok (add_remap n a).
Proof.
  intros (Hd & Hm & Hx & Hs & Hr).
  split; [|split; [|split; [|split]]];
    cbn [add_data add_metadata add_mixed add_system add_remap
         data metadata mixed system remap]; try assumption;
    apply u64_range.
Qed.

Lemma ledger_ok_field (f : ledger_field) (a : mkfs_allocation) :
  ledger_ok a -> is_u64 (field f a).
Proof. intros (Hd & Hm & Hx & Hs & Hr). destruct f; assumption. Qed.

(** One field changes, by addition on [u64]; the others stay. *)
Ltac one_field :=
  let f := fresh "f" in
  intros [? [? [? [? ?]]]] f; destruct f;
  cbn [field field_eqb add_data add_metadata add_mixed add_system add_remap
       sub_data sub_metadata sub_mixed sub_system
       data metadata mixed system remap];
  unfold u64_add, u64_sub, u64_modulus;
  first [ reflexivity
        | rewrite ?Z.add_0_r, ?Z.sub_0_r; symmetry; apply Z.mod_small;
          assumption ].

Lemma field_add_data (n : Z) (a : mkfs_allocation) :
  ledger_ok a ->
  forall f, field f (add_data n a)
            = (field f a + (if field_eqb f Data_field then n else 0))
              mod 2 ^ 64.
Proof. one_field. Qed.

Lemma field_add_metadata (n : Z) (a : mkfs_allocation) :
  ledger_ok a ->
  forall f, field f (add_metadata n a)
            = (field f a + (if field_eqb f Metadata_field then n else 0))
              mod 2 ^ 64.
Proof. one_field. Qed.

Lemma field_add_mixed (n : Z) (a : mkfs_allocation) :
  ledger_ok a ->
  forall f, field f (add_mixed n a)
            = (field f a + (if field_eqb f Mixed_field then n else 0))
              mod 2 ^ 64.
Proof. one_field. Qed.

Lemma field_add_system (n : Z) (a : mkfs_allocation) :
  ledger_ok a ->
  forall f, field f (add_system n a)
            = (field f a + (if field_eqb f System_field then n else 0))
              mod 2 ^ 64.
Proof. one_field. Qed.

Lemma field_add_remap (n : Z) (a : mkfs_allocation) :
  ledger_ok a ->
  forall f, field f (add_remap n a)
            = (field f a + (if field_eqb f Remap_field then n else 0))
              mod 2 ^ 64.
Proof. one_field. Qed.

Lemma field_sub_data (n : Z) (a : mkfs_allocation) :
  ledger_ok a ->
  forall f, field f (sub_data n a)
            = (field f a - (if field_eqb f Data_field then n else 0))
              mod 2 ^ 64.
Proof. one_field. Qed.

Lemma field_sub_metadata (n : Z) (a : mkfs_allocation) :
  ledger_ok a ->
  forall f, field f (sub_metadata n a)
            = (field f a - (if field_eqb f Metadata_field then n else 0))
              mod 2 ^ 64.
Proof. one_field. Qed.

Lemma field_sub_mixed (n : Z) (a : mkfs_allocation) :
  ledger_ok a ->
  forall f, field f (sub_mixed n a)
            = (field f a - (if field_eqb f Mixed_field then n else 0))
              mod 2 ^ 64.
Proof. one_field. Qed.

Lemma field_sub_system (n : Z) (a : mkfs_allocation) :
  ledger_ok a ->
  forall f, field f (sub_system n a)
            = (field f a - (if field_eqb f System_field then n else 0))
              mod 2 ^ 64.
Proof. one_field. Qed.

Lemma ledger_ok_sub (n : Z) (a : mkfs_allocation) :
  ledger_ok a ->
  ledger_ok (sub_data n a) /\ ledger_ok (sub_metadata n a) /\
  ledger_ok (sub_mixed n a) /\ ledger_ok (sub_system n a).
Proof.
  intros (Hd & Hm & Hx & Hs & Hr).
  repeat match goal with
         | |- ledger_ok _ /\ _ => split
         | |- ledger_ok _ =>
             split; [|split; [|split; [|split]]];
             cbn [sub_data sub_metadata sub_mixed sub_system
                  data metadata mixed system remap]; try assumption;
             apply u64_range
         end.
Qed.

Section LedgerArithmetic.

Context {K : btrfs_uapi}.

Lemma credited_app (f : ledger_field) (h1 h2 : history) :
  credited f (h1 ++ h2) = credited f h1 + credited f h2.
Proof.
  induction h1 as [|e h1 IH]; cbn [app credited fold_right];
    [reflexivity|].
  fold (credited f (h1 ++ h2)). fold (credited f h1). rewrite IH. lia.
Qed.

Lemma credited_silent (f : ledger_field) (evs : list event) :
  Forall (fun e => credit_of f e = 0) evs -> credited f evs = 0.
Proof.
  induction 1 as [|e evs He _ IH]; cbn [credited fold_right];
    [reflexivity|].
  fold (credited f evs). rewrite He, IH. reflexivity.
Qed.

Lemma grown_refl (a : mkfs_allocation) : ledger_ok a -> grown a [] a.
Proof.
  intros Hok. split; [exact Hok|]. intros f. cbn [credited fold_right].
  rewrite Z.add_0_r. symmetry. apply Z.mod_small.
  now apply ledger_ok_field.
Qed.

Lemma grown_trans (a a1 a2 : mkfs_allocation) (e1 e2 : list event) :
  grown a e1 a1 -> grown a1 e2 a2 -> grown a (e1 ++ e2) a2.
Proof.
  intros (_ & H1) (Hok & H2). split; [exact Hok|]. intros f.
  rewrite H2, H1, credited_app, Zplus_mod_idemp_l. f_equal. lia.
Qed.

Lemma grown_silent (a : mkfs_allocation) (evs : list event) :
  ledger_ok a ->
  (forall f, Forall (fun e => credit_of f e = 0) evs) ->
  grown a evs a.
Proof.
  intros Hok Hs. split; [exact Hok|]. intros f.
  rewrite (credited_silent f evs (Hs f)), Z.add_0_r. symmetry.
  apply Z.mod_small. now apply ledger_ok_field.
Qed.

(** The classification of [create_one_raid_group] credits the field of the
    type mask. *)
Lemma account_chunk_grows (m n : Z) (a a' : mkfs_allocation) :
  ledger_ok a ->
  account_chunk m n a = Some a' ->
  ledger_ok a' /\
  forall f, field f a' = (field f a + amount_for f m n) mod 2 ^ 64.
Proof.
  intros Hok. unfold account_chunk, amount_for, field_of_mask.
  destruct (m =? BTRFS_BLOCK_GROUP_DATA).
  { intros H; injection H as <-.
    split; [now apply ledger_ok_add_data | now apply field_add_data]. }
  destruct (m =? BTRFS_BLOCK_GROUP_METADATA).
  { intros H; injection H as <-.
    split; [now apply ledger_ok_add_metadata
           | now apply field_add_metadata]. }
  destruct (m =? BTRFS_BLOCK_GROUP_SYSTEM).
  { intros H; injection H as <-.
    split; [now apply ledger_ok_add_system | now apply field_add_system]. }
  destruct (m =? Z.lor BTRFS_BLOCK_GROUP_METADATA BTRFS_BLOCK_GROUP_DATA).
  { intros H; injection H as <-.
    split; [now apply ledger_ok_add_mixed | now apply field_add_mixed]. }
  intros H; discriminate H.
Qed.

(** The update that follows a removal debits the field of the type mask of
    a temporary group. *)
Lemma unaccount_chunk_shrinks (dp mp sp : Z) (g : item)
  (a : mkfs_allocation) :
  temporary dp mp sp g = true ->
  ledger_ok a ->
  ledger_ok (unaccount_chunk (flags (bgi g)) (offset (key g)) a) /\
  forall f,
    field f (unaccount_chunk (flags (bgi g)) (offset (key g)) a)
    = (field f a
       - amount_for f
           (Z.land (flags (bgi g)) BTRFS_BLOCK_GROUP_TYPE_MASK)
           (offset (key g))) mod 2 ^ 64.
Proof.
  intros Ht Hok.
  destruct (ledger_ok_sub (offset (key g)) a Hok) as (O1 & O2 & O3 & O4).
  pose proof (removed_group_decrement dp mp sp g a Ht) as Hcase.
  cbv zeta in Hcase.
  unfold unaccount_chunk, amount_for, field_of_mask. cbv zeta.
  set (m := Z.land (flags (bgi g)) BTRFS_BLOCK_GROUP_TYPE_MASK) in *.
  destruct (m =? BTRFS_BLOCK_GROUP_DATA) eqn:H1;
    [split; [exact O1 | now apply field_sub_data]|].
  destruct (m =? BTRFS_BLOCK_GROUP_METADATA) eqn:H2;
    [split; [exact O2 | now apply field_sub_metadata]|].
  destruct (m =? BTRFS_BLOCK_GROUP_SYSTEM) eqn:H3;
    [split; [exact O4 | now apply field_sub_system]|].
  destruct (m =? Z.lor BTRFS_BLOCK_GROUP_METADATA BTRFS_BLOCK_GROUP_DATA)
    eqn:H4; [split; [exact O3 | now apply field_sub_mixed]|].
  exfalso. apply Z.eqb_neq in H1, H2, H3, H4.
  destruct Hcase as [(Hm & _)|[(Hm & _)|[(Hm & _)|(Hm & _)]]];
    contradiction.
Qed.

End LedgerArithmetic.

(** Symbolic execution that keeps, for every call, what it adds to the trace
    and that it leaves the ledger alone, and the outcome of every test. *)
Ltac run_ledger E :=
  repeat match goal with
         | |- context [call E ?c ?w] =>
             let r := fresh "r" in
             let w' := fresh "w" in
             let Hc := fresh "Hc" in
             let Ht := fresh "Ht" in
             let Ha := fresh "Ha" in
             destruct (call E c w) as [r w'] eqn:Hc;
             apply (call_inv E) in Hc;
             destruct Hc as (_ & Ht & _ & Ha);
             cbn [update_allocation set_allocation enter record trace
                  allocation] in Ht, Ha
         | |- context [if negb ?b then _ else _] =>
             destruct b eqn:?; cbn [negb]
         | |- context [if ?b then _ else _] => destruct b eqn:?
         end.

Ltac chain_ledger :=
  cbn [fst snd update_allocation set_allocation enter record trace
       allocation];
  repeat match goal with
         | H : trace ?w = _ |- context [trace ?w] => rewrite H
         | H : allocation ?w = _ |- context [allocation ?w] => rewrite H
         end;
  rewrite <- ?app_assoc; cbn [app].

Ltac tests_to_facts :=
  repeat match goal with
         | H : (_ =? _) = true |- _ => apply Z.eqb_eq in H
         | H : (_ =? _) = false |- _ => apply Z.eqb_neq in H
         | H : (_ <? _) = true |- _ => apply Z.ltb_lt in H
         | H : (_ <? _) = false |- _ => apply Z.ltb_ge in H
         end.

Section LedgerStages.

Context {K : btrfs_uapi}.
Variable E : environment.
Hypothesis Hmasks : type_masks_ok.

#[local] Arguments call : simpl never.

Lemma amount_for_data (f : ledger_field) (n : Z) :
  amount_for f (Z.land BTRFS_BLOCK_GROUP_DATA BTRFS_BLOCK_GROUP_TYPE_MASK) n
  = if field_eqb f Data_field then n else 0.
Proof.
  destruct Hmasks as (_ & H & _). unfold amount_for, field_of_mask.
  rewrite H, Z.eqb_refl. reflexivity.
Qed.

Lemma amount_for_metadata (f : ledger_field) (n : Z) :
  amount_for f
    (Z.land BTRFS_BLOCK_GROUP_METADATA BTRFS_BLOCK_GROUP_TYPE_MASK) n
  = if field_eqb f Metadata_field then n else 0.
Proof.
  destruct Hmasks as ((D1 & _) & _ & H & _).
  unfold amount_for, field_of_mask. rewrite H, Z.eqb_refl.
  replace (BTRFS_BLOCK_GROUP_METADATA =? BTRFS_BLOCK_GROUP_DATA) with false
    by (symmetry; apply Z.eqb_neq; congruence).
  reflexivity.
Qed.

Lemma amount_for_mixed (f : ledger_field) (n : Z) :
  amount_for f
    (Z.land (Z.lor BTRFS_BLOCK_GROUP_METADATA BTRFS_BLOCK_GROUP_DATA)
       BTRFS_BLOCK_GROUP_TYPE_MASK) n
  = if field_eqb f Mixed_field then n else 0.
Proof.
  destruct Hmasks as ((_ & _ & D3 & _ & D5 & D6) & _ & _ & _ & H & _).
  unfold amount_for, field_of_mask. rewrite H, Z.eqb_refl.
  replace (Z.lor BTRFS_BLOCK_GROUP_METADATA BTRFS_BLOCK_GROUP_DATA
           =? BTRFS_BLOCK_GROUP_DATA) with false
    by (symmetry; apply Z.eqb_neq; congruence).
  replace (Z.lor BTRFS_BLOCK_GROUP_METADATA BTRFS_BLOCK_GROUP_DATA
           =? BTRFS_BLOCK_GROUP_METADATA) with false
    by (symmetry; apply Z.eqb_neq; congruence).
  replace (Z.lor BTRFS_BLOCK_GROUP_METADATA BTRFS_BLOCK_GROUP_DATA
           =? BTRFS_BLOCK_GROUP_SYSTEM) with false
    by (symmetry; apply Z.eqb_neq; congruence).
  reflexivity.
Qed.

Lemma amount_for_remap (f : ledger_field) (n : Z) :
  amount_for f
    (Z.land BTRFS_BLOCK_GROUP_METADATA_REMAP BTRFS_BLOCK_GROUP_TYPE_MASK) n
  = if field_eqb f Remap_field then n else 0.
Proof.
  destruct Hmasks as (_ & _ & _ & _ & _ & H & R1 & R2 & R3 & R4).
  unfold amount_for, field_of_mask. rewrite H, Z.eqb_refl.
  replace (BTRFS_BLOCK_GROUP_METADATA_REMAP =? BTRFS_BLOCK_GROUP_DATA)
    with false by (symmetry; now apply Z.eqb_neq).
  replace (BTRFS_BLOCK_GROUP_METADATA_REMAP =? BTRFS_BLOCK_GROUP_METADATA)
    with false by (symmetry; now apply Z.eqb_neq).
  replace (BTRFS_BLOCK_GROUP_METADATA_REMAP =? BTRFS_BLOCK_GROUP_SYSTEM)
    with false by (symmetry; now apply Z.eqb_neq).
  replace (BTRFS_BLOCK_GROUP_METADATA_REMAP
           =? Z.lor BTRFS_BLOCK_GROUP_METADATA BTRFS_BLOCK_GROUP_DATA)
    with false by (symmetry; now apply Z.eqb_neq).
  reflexivity.
Qed.

(** The ledger after a stage that returned 0 is the one of the bootstrap:
    the fields are rewritten one addition at a time and compared with what
    the events credit. *)
Ltac settle_ledger Hok :=
  chain_ledger;
  eexists; split; [reflexivity|];
  split; [repeat constructor|];
  intros Hz;
  first
    [ exfalso; tests_to_facts; lia
    | split;
      [ repeat first [ apply ledger_ok_add_data | apply ledger_ok_add_metadata
                     | apply ledger_ok_add_mixed | apply ledger_ok_add_system
                     | apply ledger_ok_add_remap ]; exact Hok
      | let f := fresh "f" in
        intros f;
        repeat first
          [ rewrite field_add_data | rewrite field_add_metadata
          | rewrite field_add_mixed | rewrite field_add_system
          | rewrite field_add_remap ];
        try (repeat first [ apply ledger_ok_add_data
                          | apply ledger_ok_add_metadata
                          | apply ledger_ok_add_mixed
                          | apply ledger_ok_add_system
                          | apply ledger_ok_add_remap ]; exact Hok);
        cbn [credited fold_right credit_of];
        rewrite ?amount_for_data, ?amount_for_metadata, ?amount_for_mixed,
          ?amount_for_remap;
        repeat match goal with
               | H : (_ =? _) = _ |- _ => rewrite H
               end;
        cbn [negb];
        first
          [ rewrite ?u64_add_chain; f_equal; lia
          | rewrite <- (Z.mod_small (field f _) (2 ^ 64)) at 1
              by (apply ledger_ok_field; exact Hok);
            f_equal; lia ] ] ].

Lemma create_data_block_groups_grows (mixed : bool) (w : world) :
  ledger_ok (allocation w) ->
  exists evs,
    trace (snd (create_data_block_groups E mixed w)) = trace w ++ evs /\
    Forall (fun e => cleaner_entry e = false) evs /\
    (fst (create_data_block_groups E mixed w) = 0 ->
     grown (allocation w) evs
       (allocation (snd (create_data_block_groups E mixed w)))).
Proof.
  intros Hok. unfold create_data_block_groups. cbv zeta.
  run_ledger E; settle_ledger Hok.
Qed.

Lemma create_metadata_block_groups_grows (inc mp : Z) (w : world) :
  ledger_ok (allocation w) ->
  exists evs,
    trace (snd (create_metadata_block_groups E inc mp w)) = trace w ++ evs /\
    Forall (fun e => cleaner_entry e = false) evs /\
    (fst (create_metadata_block_groups E inc mp w) = 0 ->
     grown (allocation w) evs
       (allocation (snd (create_metadata_block_groups E inc mp w)))).
Proof.
  intros Hok. unfold create_metadata_block_groups. cbv zeta.
  run_ledger E; settle_ledger Hok.
Qed.

Lemma setup_tree_root_grows (objectid : Z) (w : world) :
  ledger_ok (allocation w) ->
  exists evs,
    trace (snd (setup_tree_root E objectid w)) = trace w ++ evs /\
    Forall (fun e => cleaner_entry e = false) evs /\
    (fst (setup_tree_root E objectid w) = 0 ->
     grown (allocation w) evs (allocation (snd (setup_tree_root E objectid
                                                  w)))).
Proof.
  intros Hok. unfold setup_tree_root. run_ledger E; settle_ledger Hok.
Qed.

Lemma create_one_raid_group_grows (ty : Z) (w : world) :
  ledger_ok (allocation w) ->
  exists evs,
    trace (snd (create_one_raid_group E ty w)) = trace w ++ evs /\
    Forall (fun e => cleaner_entry e = false) evs /\
    (fst (create_one_raid_group E ty w) = 0 ->
     grown (allocation w) evs
       (allocation (snd (create_one_raid_group E ty w)))).
Proof.
  intros Hok. unfold create_one_raid_group.
  destruct (call E (AllocChunk ty) w) as [r1 w1] eqn:Hc1.
  apply (call_inv E) in Hc1. destruct Hc1 as (_ & Ht1 & _ & Ha1).
  destruct (ret r1 =? - ENOSPC) eqn:H1.
  { exists [Lib (AllocChunk ty) r1]. split; [exact Ht1|].
    split; [repeat constructor|]. intros Hz. discriminate Hz. }
  destruct (ret r1 =? 0) eqn:H2; cbn [negb].
  2:{ exists [Lib (AllocChunk ty) r1]. split; [exact Ht1|].
      split; [repeat constructor|]. cbn [fst]. intros Hz.
      apply Z.eqb_neq in H2. contradiction. }
  destruct (call E (MakeBlockGroup ty (out1 r1) (out2 r1)) w1)
    as [r2 w2] eqn:Hc2.
  apply (call_inv E) in Hc2. destruct Hc2 as (_ & Ht2 & _ & Ha2).
  destruct (account_chunk _ _ (allocation w2)) as [a|] eqn:Hacc;
    cbn [fst snd set_allocation trace allocation].
  - eexists [_; _].
    split; [rewrite Ht2, Ht1, <- app_assoc; reflexivity|].
    split; [repeat constructor|]. intros _.
    rewrite Ha2, Ha1 in Hacc.
    destruct (account_chunk_grows _ _ _ _ Hok Hacc) as (Hok' & Hf).
    split; [exact Hok'|]. intros f. rewrite Hf.
    cbn [credited fold_right credit_of]. f_equal. lia.
  - eexists [_; _].
    split; [rewrite Ht2, Ht1, <- app_assoc; reflexivity|].
    split; [repeat constructor|]. intros Hz. discriminate Hz.
Qed.

Lemma create_raid_groups_grows (dp mp : Z) (mixed : bool) (w : world) :
  ledger_ok (allocation w) ->
  exists evs,
    trace (snd (create_raid_groups E dp mp mixed w)) = trace w ++ evs /\
    Forall (fun e => cleaner_entry e = false) evs /\
    (fst (create_raid_groups E dp mp mixed w) = 0 ->
     grown (allocation w) evs
       (allocation (snd (create_raid_groups E dp mp mixed w)))).
Proof.
  intros Hok. unfold create_raid_groups. cbv zeta.
  set (w0 := enter (CreateRaidGroups dp mp mixed) w).
  assert (Hlast : forall (w1 : world) (pre : list event),
    trace w1 = trace w ++ pre ->
    Forall (fun e => cleaner_entry e = false) pre ->
    grown (allocation w) pre (allocation w1) ->
    let t := if negb mixed && negb (dp =? 0)
             then create_one_raid_group E (Z.lor BTRFS_BLOCK_GROUP_DATA dp) w1
             else (0, w1) in
    exists evs,
      trace (snd t) = trace w ++ evs /\
      Forall (fun e => cleaner_entry e = false) evs /\
      (fst t = 0 -> grown (allocation w) evs (allocation (snd t)))).
  { intros w1 pre Ht Hne Hg. cbv zeta.
    destruct (negb mixed && negb (dp =? 0)).
    - destruct (create_one_raid_group_grows
                  (Z.lor BTRFS_BLOCK_GROUP_DATA dp) w1 (proj1 Hg))
        as (evs & Ht' & Hne' & Hg').
      exists (pre ++ evs).
      split; [rewrite Ht', Ht, <- app_assoc; reflexivity|].
      split; [now apply Forall_app|].
      intros Hz. eapply grown_trans; [exact Hg | exact (Hg' Hz)].
    - exists pre. cbn [fst snd]. auto. }
  assert (Hw0 : grown (allocation w) [Enter (CreateRaidGroups dp mp mixed)]
                  (allocation w0)).
  { apply grown_silent; [exact Hok|]. intros f. repeat constructor. }
  assert (Hn0 : Forall (fun e => cleaner_entry e = false)
                  [Enter (CreateRaidGroups dp mp mixed)])
    by (repeat constructor).
  destruct (negb (mp =? 0)); [|exact (Hlast w0 _ eq_refl Hn0 Hw0)].
  destruct (create_one_raid_group_grows
              (Z.lor BTRFS_BLOCK_GROUP_SYSTEM mp) w0 (proj1 Hw0))
    as (evs1 & Ht1 & Hne1 & Hg1).
  destruct (create_one_raid_group E (Z.lor BTRFS_BLOCK_GROUP_SYSTEM mp) w0)
    as [c1 w1]. cbn [fst snd] in Ht1, Hg1.
  destruct (c1 =? 0) eqn:Hc1; cbn [negb].
  2:{ cbn [fst snd].
      exists ([Enter (CreateRaidGroups dp mp mixed)] ++ evs1).
      split; [rewrite Ht1; unfold w0; cbn [enter record trace];
              now rewrite <- app_assoc|].
      split; [now apply Forall_app|]. intros Hz.
      apply Z.eqb_neq in Hc1. contradiction. }
  apply Z.eqb_eq in Hc1.
  assert (Hg01 : grown (allocation w)
                   ([Enter (CreateRaidGroups dp mp mixed)] ++ evs1)
                   (allocation w1))
    by (eapply grown_trans; [exact Hw0 | exact (Hg1 Hc1)]).
  match goal with
  | |- context [create_one_raid_group E ?ty w1] =>
      destruct (create_one_raid_group_grows ty w1 (proj1 Hg01))
        as (evs2 & Ht2 & Hne2 & Hg2);
      destruct (create_one_raid_group E ty w1) as [c2 w2]
  end.
  cbn [fst snd] in Ht2, Hg2.
  assert (Ht02 : trace w2
                 = trace w ++ ([Enter (CreateRaidGroups dp mp mixed)]
                               ++ evs1) ++ evs2).
  { rewrite Ht2, Ht1. unfold w0. cbn [enter record trace].
    now rewrite <- !app_assoc. }
  assert (Hn02 : Forall (fun e => cleaner_entry e = false)
                   (([Enter (CreateRaidGroups dp mp mixed)] ++ evs1)
                    ++ evs2))
    by (repeat (apply Forall_app; split); assumption).
  destruct (c2 =? 0) eqn:Hc2; cbn [negb].
  2:{ cbn [fst snd]. eexists. split; [exact Ht02|]. split; [exact Hn02|].
      intros Hz. apply Z.eqb_neq in Hc2. contradiction. }
  apply Z.eqb_eq in Hc2.
  apply (Hlast w2 _ Ht02 Hn02).
  eapply grown_trans; [exact Hg01 | exact (Hg2 Hc2)].
Qed.

Lemma attach_devices_grows (sectorsize : Z)
  (ctx : list prepare_device_progress) :
  forall w : world,
  ledger_ok (allocation w) ->
  exists evs,
    trace (snd (attach_devices E ctx sectorsize w)) = trace w ++ evs /\
    Forall (fun e => cleaner_entry e = false) evs /\
    (fst (attach_devices E ctx sectorsize w) = 0 ->
     grown (allocation w) evs
       (allocation (snd (attach_devices E ctx sectorsize w)))).
Proof.
  induction ctx as [|p ctx IH]; intros w Hok; cbn [attach_devices].
  - exists []. cbn [fst snd]. split; [now rewrite app_nil_r|].
    split; [constructor|]. intros _. now apply grown_refl.
  - destruct (prepare_ret p =? 0) eqn:Hp; cbn [negb].
    2:{ exists []. cbn [fst snd]. split; [now rewrite app_nil_r|].
        split; [constructor|]. intros Hz. apply Z.eqb_neq in Hp.
        contradiction. }
    match goal with
    | |- context [call E ?c w] => destruct (call E c w) as [r1 w1] eqn:Hc1
    end.
    apply (call_inv E) in Hc1. destruct Hc1 as (_ & Ht1 & _ & Ha1).
    assert (Hok1 : ledger_ok (allocation w1)) by (rewrite Ha1; exact Hok).
    destruct (ret r1 =? 0) eqn:Hr1; cbn [negb].
    + match goal with
      | |- context [call E ?c w1] =>
          destruct (call E c w1) as [r2 w2] eqn:Hc2
      end.
      apply (call_inv E) in Hc2. destruct Hc2 as (_ & Ht2 & _ & Ha2).
      assert (Hok2 : ledger_ok (allocation w2)) by (rewrite Ha2; exact Hok1).
      destruct (ret r2 =? 0) eqn:Hr2; cbn [negb].
      * destruct (IH w2 Hok2) as (evs & Heq & Hne & Hg).
        eexists ([_; _] ++ evs).
        split; [rewrite Heq, Ht2, Ht1, <- !app_assoc; reflexivity|].
        split; [apply Forall_app; split; [repeat constructor | exact Hne]|].
        intros Hz. pose proof (Hg Hz) as Hg'. rewrite Ha2, Ha1 in Hg'.
        eapply grown_trans; [|exact Hg'].
        apply grown_silent; [exact Hok|]. intros f. repeat constructor.
      * eexists [_; _]. cbn [fst snd].
        split; [rewrite Ht2, Ht1, <- !app_assoc; reflexivity|].
        split; [repeat constructor|]. intros Hz. apply Z.eqb_neq in Hr2.
        contradiction.
    + destruct (IH w1 Hok1) as (evs & Heq & Hne & Hg).
      eexists ([_] ++ evs).
      split; [rewrite Heq, Ht1, <- !app_assoc; reflexivity|].
      split; [apply Forall_app; split; [repeat constructor | exact Hne]|].
      intros Hz. pose proof (Hg Hz) as Hg'. rewrite Ha1 in Hg'.
      eapply grown_trans; [|exact Hg'].
      apply grown_silent; [exact Hok|]. intros f. repeat constructor.
Qed.

End LedgerStages.

Section LedgerComposition.

Context {K : btrfs_uapi}.
Variable E : environment.
Hypothesis Hmasks : type_masks_ok.
Hypothesis Hkey : BTRFS_BLOCK_GROUP_ITEM_KEY <> 0.

#[local] Arguments call : simpl never.

Lemma total_ledger (f : world -> Z * world) :
  (forall w, ledger_ok (allocation w) ->
             exists evs,
               trace (snd (f w)) = trace w ++ evs /\
               Forall (fun e => cleaner_entry e = false) evs /\
               (fst (f w) = 0 ->
                grown (allocation w) evs (allocation (snd (f w))))) ->
  ledger_stage (total f).
Proof.
  intros Hf w r w' Hok. unfold total. intros H; inversion H as [H1].
  specialize (Hf w Hok). rewrite H1 in Hf. exact Hf.
Qed.

Lemma lib_ledger (c : lib_call) :
  (forall f r, credit_of f (Lib c r) = 0) -> ledger_stage (lib E c).
Proof.
  intros Hc w r w' Hok. unfold lib.
  destruct (call E c w) as [r1 w1] eqn:Hcall.
  apply (call_inv E) in Hcall. destruct Hcall as (_ & Ht & _ & Ha).
  intros H; inversion H; subst. exists [Lib c r1]. split; [exact Ht|].
  split; [repeat constructor|]. intros _. rewrite Ha.
  apply grown_silent; [exact Hok|]. intros f. repeat constructor.
  apply Hc.
Qed.

Lemma when_ledger (b : bool) (m : step) :
  ledger_stage m -> ledger_stage (when b m).
Proof.
  intros Hm. destruct b; [exact Hm|].
  intros w r w' Hok H. unfold when, skip in H. inversion H; subst.
  exists []. split; [now rewrite app_nil_r|]. split; [constructor|].
  intros _. now apply grown_refl.
Qed.

Lemma global_roots_ledger :
  ledger_stage
    (fun w => let (n, w0) := call E Sysconf_NPROCESSORS_ONLN w in
              lib E (CreateGlobalRoots (ret n)) w0).
Proof.
  intros w r w' Hok.
  destruct (call E Sysconf_NPROCESSORS_ONLN w) as [n w1] eqn:Hc.
  apply (call_inv E) in Hc. destruct Hc as (_ & Ht & _ & Ha).
  intros H.
  assert (Hok1 : ledger_ok (allocation w1)) by (rewrite Ha; exact Hok).
  apply (lib_ledger (CreateGlobalRoots (ret n))) in H;
    [|intros; reflexivity | exact Hok1].
  destruct H as (evs & Heq & Hne & Hg).
  exists ([Lib Sysconf_NPROCESSORS_ONLN n] ++ evs).
  split; [rewrite Heq, Ht, <- app_assoc; reflexivity|].
  split; [apply Forall_app; split; [repeat constructor | exact Hne]|].
  intros Hz. pose proof (Hg Hz) as Hg'. rewrite Ha in Hg'.
  eapply grown_trans; [|exact Hg'].
  apply grown_silent; [exact Hok|]. intros f. repeat constructor.
Qed.

Lemma and_then_tail (fuel : nat) (dp mp sp : Z) (m k : step) :
  ledger_stage m -> ledger_tail E fuel dp mp sp k ->
  ledger_tail E fuel dp mp sp (and_then m k).
Proof.
  intros Hm Hk w r w' Hok. unfold and_then.
  destruct (m w) as [[r1 w1]|] eqn:Hmw; [|discriminate].
  destruct (Hm _ _ _ Hok Hmw) as (evs1 & Heq1 & Hne1 & Hg1).
  destruct (r1 =? 0) eqn:Hr1.
  2:{ intros H; inversion H; subst. exists evs1. auto. }
  apply Z.eqb_eq in Hr1. destruct (Hg1 Hr1) as (Hok1 & Hf1).
  intros Hkw. destruct (Hk _ _ _ Hok1 Hkw) as (evs2 & Heq2 & Hcase).
  exists (evs1 ++ evs2).
  split; [rewrite Heq2, Heq1; now rewrite app_assoc|].
  destruct Hcase as [Hne2|(before & dd & after & He & Hb & Ha & Hleaf)].
  { left. now apply Forall_app. }
  right. exists (evs1 ++ before), dd, after.
  split; [rewrite He, <- app_assoc; reflexivity|].
  split; [now apply Forall_app|]. split; [exact Ha|].
  cbv zeta in *. rewrite Heq1, <- app_assoc in Hleaf.
  intros Hwf Hfuel.
  destruct (Hleaf Hwf Hfuel) as (pre & post & Hpp & Hrg & Hok' & Hf).
  exists pre, post. split; [exact Hpp|]. split; [exact Hrg|].
  split; [exact Hok'|]. intros f.
  rewrite Hf, Hf1, credited_app.
  rewrite <- Z.add_sub_assoc, Zplus_mod_idemp_l. f_equal. lia.
Qed.

Lemma debited_cons (f : ledger_field) (g : item) (l : list item) :
  debited f (g :: l)
  = amount_for f (Z.land (flags (bgi g)) BTRFS_BLOCK_GROUP_TYPE_MASK)
      (offset (key g)) + debited f l.
Proof. reflexivity. Qed.

Lemma unaccount_all_fields (dp mp sp : Z) (l : list item) :
  forall a : mkfs_allocation,
  ledger_ok a ->
  Forall (fun g => temporary dp mp sp g = true) l ->
  ledger_ok (unaccount_all l a) /\
  forall f, field f (unaccount_all l a)
            = (field f a - debited f l) mod 2 ^ 64.
Proof.
  induction l as [|g l IH]; intros a Hok Hall.
  - split; [exact Hok|]. intros f. cbn [unaccount_all fold_left debited
                                         fold_right].
    rewrite Z.sub_0_r. symmetry. apply Z.mod_small.
    now apply ledger_ok_field.
  - inversion Hall as [|? ? Hg Hl]; subst.
    destruct (unaccount_chunk_shrinks dp mp sp g a Hg Hok) as (Hok1 & Hf1).
    destruct (IH _ Hok1 Hl) as (Hok2 & Hf2).
    change (unaccount_all (g :: l) a)
      with (unaccount_all l
              (unaccount_chunk (flags (bgi g)) (offset (key g)) a)).
    split; [exact Hok2|]. intros f.
    rewrite Hf2, Hf1, debited_cons, Zminus_mod_idemp_l. f_equal. lia.
Qed.

Lemma cleaner_tail (fuel : nat) (dp mp sp : Z) (dd : bool) :
  ledger_tail E fuel dp mp sp
    (fun w =>
       cleanup_temp_chunks E fuel dp mp sp dd
         (set_items (block_groups_on_disk E (calls (trace w))) w)).
Proof.
  intros w r w' Hok H.
  set (w0 := set_items (block_groups_on_disk E (calls (trace w))) w) in *.
  pose proof (cleanup_temp_chunks_enters E fuel dp mp sp dd w0 r w' H)
    as (rest & Heq & Hne).
  change (trace w0) with (trace w) in Heq.
  exists (Enter (CleanupTempChunks dp mp sp dd) :: rest).
  split; [exact Heq|]. right.
  exists [], dd, rest. split; [reflexivity|]. split; [constructor|].
  split; [exact Hne|]. cbv zeta. rewrite app_nil_r.
  intros Hwf Hfuel.
  destruct (cleanup_temp_chunks_spec E dp mp sp Hkey fuel dd w0 Hwf Hfuel)
    as (r0 & w1 & pre & post & evs & Hrun & Hpp & _ & Ha & Ht & Hrg & _).
  rewrite H in Hrun. injection Hrun as <- <-.
  change (trace w0) with (trace w) in Ht.
  rewrite Heq in Ht. apply app_inv_head in Ht. subst evs.
  exists pre, post. split; [exact Hpp|]. split; [exact Hrg|].
  change (allocation w0) with (allocation w) in Ha.
  destruct (unaccount_all_fields dp mp sp
              (filter (temporary dp mp sp) pre) (allocation w) Hok)
    as (Hok' & Hf).
  { apply Forall_forall. intros g Hg. apply filter_In in Hg. tauto. }
  rewrite Ha. split; [exact Hok'|]. intros f. rewrite Hf.
  cbn [credited fold_right]. f_equal. lia.
Qed.

(** The run on the open filesystem stops before the cleaner, or enters it
    with a ledger that holds what the bootstrap and the planner recorded
    for the groups they made, and leaves it with the sizes of the removed
    groups taken off. *)
Lemma mkfs_trees_ledger (fuel : nat) (inc dp mp : Z) (mixed : bool)
  (sectorsize : Z) (dd : bool) (ctx : list prepare_device_progress) :
  ledger_tail E fuel dp mp mp
    (mkfs_trees E fuel inc dp mp mixed sectorsize dd ctx).
Proof.
  unfold mkfs_trees.
  repeat (apply and_then_tail;
          [ first [ apply when_ledger | idtac ];
            first [ apply lib_ledger; intros; reflexivity
                  | apply global_roots_ledger
                  | apply total_ledger; intros w0 Hok0;
                    first [ now apply create_metadata_block_groups_grows
                          | now apply create_data_block_groups_grows
                          | now apply create_raid_groups_grows
                          | now apply setup_tree_root_grows
                          | now apply attach_devices_grows ] ]
          | ]).
  apply cleaner_tail.
Qed.

End LedgerComposition.

Lemma outside_no_credit (f : ledger_field) {K : btrfs_uapi}
  (evs : list event) :
  Forall outside_trees evs -> credited f evs = 0.
Proof.
  intros H. apply credited_silent. eapply Forall_impl; [|exact H].
  intros [c r|s|i p]; simpl; try tauto; try reflexivity.
  destruct c; simpl; try reflexivity; intros Hc; discriminate Hc.
Qed.

Lemma outside_no_removal (evs : list event) :
  Forall outside_trees evs -> removed_groups evs = [].
Proof.
  induction 1 as [|e evs He _ IH]; [reflexivity|].
  destruct e as [c r|s|i p]; simpl in *; try exact IH.
  destruct c; simpl in *; try exact IH. discriminate He.
Qed.

Section LedgerOfRun.

Context {K : btrfs_uapi}.
Variable E : environment.
Hypothesis Hmasks : type_masks_ok.
Hypothesis Hkey : BTRFS_BLOCK_GROUP_ITEM_KEY <> 0.

(** A run of [mkfs] stops before the cleaner, or enters it once, with the
    selected profiles, and its ledger is as [cleaned] says. *)
Lemma pybtrfs_mkfs_ledger (fuel : nat) (a : mkfs_args) (w : world)
  (res : py_result) (w' : world) :
  ledger_ok (allocation w) ->
  pybtrfs_mkfs E fuel a w = Some (res, w') ->
  exists evs,
    trace w' = trace w ++ evs /\
    (Forall (fun e => cleaner_entry e = false) evs \/
     cleaned E fuel
       (select_data_prof (kw_data_profile a) (kw_mixed a)
          (Z.of_nat (List.length (kw_devices a))))
       (select_meta_profile (kw_metadata_profile a) (kw_mixed a)
          (Z.of_nat (List.length (kw_devices a))))
       (select_meta_profile (kw_metadata_profile a) (kw_mixed a)
          (Z.of_nat (List.length (kw_devices a))))
       w evs w').
Proof.
  intros Hok Hrun. apply pybtrfs_mkfs_phases in Hrun. cbv zeta in Hrun.
  destruct Hrun as [(evs & (Heq & _ & Hout) & _)
                   |[(ctx & evs & (Heq & _ & Hout) & _)
                    |(ctx & pg & pre & w1 & r & w2 & post & _ & _ & _ & _
                      & (Heq1 & Ha1 & Hout1) & Htrees
                      & (Heq2 & Ha2 & Hout2) & _)]].
  - exists evs. split; [exact Heq|]. left. now apply outside_no_cleaner.
  - exists evs. split; [exact Heq|]. left. now apply outside_no_cleaner.
  - assert (Hok1 : ledger_ok (allocation w1)) by (rewrite Ha1; exact Hok).
    destruct (mkfs_trees_ledger E Hmasks Hkey _ _ _ _ _ _ _ _ _ _ _ Hok1
                Htrees) as (mid & Heq & Hcase).
    exists (pre ++ mid ++ post).
    split; [rewrite Heq2, Heq, Heq1, <- !app_assoc; reflexivity|].
    destruct Hcase as [Hne|(before & dd & after & He & Hb & Ha & Hleaf)].
    { left. repeat (apply Forall_app; split);
        [now apply outside_no_cleaner | exact Hne
        | now apply outside_no_cleaner]. }
    right. exists (pre ++ before), dd, (after ++ post).
    split; [rewrite He, <- !app_assoc; reflexivity|].
    split; [apply Forall_app; split;
            [now apply outside_no_cleaner | exact Hb]|].
    split; [apply Forall_app; split;
            [exact Ha | now apply outside_no_cleaner]|].
    cbv zeta in *. rewrite Heq1, <- app_assoc in Hleaf.
    intros Hwf Hfuel.
    destruct (Hleaf Hwf Hfuel) as (pre0 & post0 & Hpp & Hrg & Hok' & Hf).
    exists pre0, post0. split; [exact Hpp|].
    split.
    { rewrite removed_groups_app, (outside_no_removal post Hout2),
        app_nil_r. exact Hrg. }
    rewrite Ha2. split; [exact Hok'|]. intros f.
    rewrite Hf, Ha1, credited_app, (outside_no_credit f pre Hout1).
    f_equal.
Qed.

End LedgerOfRun.

(** * Failures of the preparation *)

Section PreparationFailures.

Context {K : btrfs_uapi}.
Variable E : environment.

(** C2.  In a run of [mkfs], every descriptor that was opened is closed,
    and a worker that recorded a nonzero code makes the call raise an
    [OSError] with a nonzero code.  When that worker is the first one,
    [make_btrfs] is not called and nothing is committed, and, every worker
    having been started, the error raised is the one it recorded; from the
    test of that code on, the code always returns, with that error.  When
    the first worker succeeded and the size fits, [make_btrfs] is called
    whatever the later workers recorded; and then, when no library call
    fails on the way to the attach loop or in it, the error raised is the
    code of the first later worker that recorded one. *)
Theorem mkfs_prepare_failure (fuel : nat) (a : mkfs_args) (w : world)
  (res : py_result) (w' : world) (evs : list event) :
  pybtrfs_mkfs E fuel a w = Some (res, w') ->
  trace w' = trace w ++ evs ->
  incl (opened evs) (closed evs) /\
  (forall i p, In (Prepared i p) evs -> prepare_ret p <> 0 ->
               exists e, e <> 0 /\ res = PyErr_OSError e) /\
  (forall p0,
      In (Prepared O p0) evs -> prepare_ret p0 <> 0 ->
      Forall (fun e => mutation e = false) evs /\
      (List.length (prepared evs) = List.length (kw_devices a) ->
       res = PyErr_OSError (- prepare_ret p0)) /\
      (forall (paths : list string) (fs_uuid : string) (mp dp inc ns : Z)
              (ctx : list prepare_device_progress) (w0 : world),
          nth O ctx default_progress = p0 ->
          exists w1,
            mkfs_prepared E fuel a paths fs_uuid mp dp inc ns ctx w0
            = Some (PyErr_OSError (- prepare_ret p0), w1))) /\
  (forall p0,
      In (Prepared O p0) evs -> prepare_ret p0 = 0 ->
      List.length (prepared evs) = List.length (kw_devices a) ->
      ~ (kw_byte_count a <> 0 /\ kw_byte_count a > dev_byte_count p0) ->
      Exists (fun e => is_make_btrfs e = true) evs) /\
  (forall p0 ok p rest,
      map snd (prepared evs) = p0 :: ok ++ p :: rest ->
      List.length (prepared evs) = List.length (kw_devices a) ->
      prepare_ret p0 = 0 ->
      ~ (kw_byte_count a <> 0 /\ kw_byte_count a > dev_byte_count p0) ->
      Forall (fun q => prepare_ret q = 0) ok ->
      prepare_ret p <> 0 ->
      forallb call_succeeded evs = true ->
      res = PyErr_OSError (- prepare_ret p)).
Proof.
  intros Hrun Ht.
  destruct (run_plan E fuel a w res w' evs Hrun Ht)
    as (ps & _ & Hcl & Hshape).
  split; [exact Hcl|]. split; [|split; [|split]].
  - intros i p Hin Hp.
    destruct (pybtrfs_mkfs_run E fuel a w res w' Hrun)
      as (evs' & Ht' & _ & _ & Hres).
    rewrite Ht in Ht'. apply app_inv_head in Ht'. subst evs'.
    apply raises_converted.
    + apply In_prepared in Hin.
      destruct Hshape as [(_ & Hraise & _)
                         |(ctx & evs1 & evs2 & He & Hprep & Hlen & Hm1
                           & Hout)];
        [exact Hraise|].
      rewrite Hprep in Hin. apply in_combine_r in Hin.
      destruct Hout as (_ & _ & _ & H4).
      destruct H4 as (e & He0 & Hr).
      { apply Exists_exists. exists p. auto. }
      rewrite Hr. exact He0.
    + destruct Hres as [(_ & Hall)|Hc]; [|exact Hc].
      exfalso. exact (prepared_not_checking i p evs Hin Hall).
  - intros p0 Hin Hp. apply In_prepared in Hin.
    assert (Hseg : forall (paths : list string) (fs_uuid : string)
                          (mp dp inc ns : Z)
                          (ctx : list prepare_device_progress) (w0 : world),
               nth O ctx default_progress = p0 ->
               exists w1,
                 mkfs_prepared E fuel a paths fs_uuid mp dp inc ns ctx w0
                 = Some (PyErr_OSError (- prepare_ret p0), w1)).
    { intros paths fs_uuid mp dp inc ns ctx w0 Hn.
      destruct (mkfs_prepared_stops E fuel a paths fs_uuid mp dp inc ns ctx
                  w0) as [H _].
      cbv zeta in H. rewrite Hn in H. now apply H. }
    destruct Hshape as [([Hlen|Hnil] & Hraise & Hmut)
                       |(ctx & evs1 & evs2 & He & Hprep & Hlen & Hm1 & Hout)].
    + repeat split; auto. intros Hall. lia.
    + rewrite Hnil in Hin. destruct Hin.
    + rewrite Hprep in Hin. apply combine_seq_first in Hin.
      destruct Hout as (H1 & _). rewrite Hin in H1.
      destruct (H1 Hp) as [Hres Hm2].
      split; [rewrite He; now apply Forall_app|].
      split; [intros _; exact Hres | exact Hseg].
  - intros p0 Hin Hp Hall Hfit. apply In_prepared in Hin.
    destruct Hshape as [([Hlen|Hnil] & Hraise & Hmut)
                       |(ctx & evs1 & evs2 & He & Hprep & Hlen & Hm1 & Hout)].
    + lia.
    + rewrite Hnil in Hin. destruct Hin.
    + rewrite Hprep in Hin. apply combine_seq_first in Hin.
      destruct Hout as (_ & _ & H3 & _). rewrite Hin in H3.
      rewrite He. apply Exists_app. right. now apply H3.
  - intros p0 ok p rest Hctx Hlen Hp0 Hfit Hok Hp Hall.
    clear Hshape Hcl.
    apply pybtrfs_mkfs_phases in Hrun. cbv zeta in Hrun.
    destruct Hrun as [(evs0 & (Heq & _) & _ & Hshort & _)
                     |[(ctx & evs0 & (Heq & _) & _ & Hprep & Hl & Hwhy)
                      |(ctx & pg & pre & w1 & r & w2 & post & Hprep & Hl
                        & Hret & _ & Ha1 & Htrees & Ha2 & Hpost & Hres)]].
    + rewrite Ht in Heq. apply app_inv_head in Heq. subst evs0.
      destruct Hshort as [Hshort|Hnil]; [lia|].
      rewrite Hnil in Hctx. discriminate Hctx.
    + rewrite Ht in Heq. apply app_inv_head in Heq. subst evs0.
      rewrite Hprep, (map_snd_combine_seq ctx O _ Hl) in Hctx.
      subst ctx. cbn [nth] in Hwhy.
      destruct Hwhy as [H|[H|H]]; [contradiction | contradiction|].
      rewrite H in Hall. discriminate Hall.
    + destruct (prepared_through_trees E _ _ _ _ _ _ _ _ _ _ _ _ _ _ _ _ _
                  Hprep Hl Ha1 Htrees Ha2 Hpost Ht)
        as (mid & Heq & -> & Hall').
      rewrite Hall', (map_snd_combine_seq ctx O _ Hl) in Hctx.
      assert (Htl : tl ctx = ok ++ p :: rest) by (rewrite Hctx; reflexivity).
      destruct (mkfs_trees_gives E fuel _ _ _ _ _ _ ctx ok p rest Htl Hok Hp
                  _ _ _ Htrees) as (mid' & Heq' & Hgives).
      rewrite Heq in Heq'. apply app_inv_head in Heq'. subst mid'.
      apply forallb_app_true in Hall. destruct Hall as [_ Hall].
      apply forallb_app_true in Hall. destruct Hall as [Hall _].
      specialize (Hgives Hall). subst r. exact (Hres Hp).
Qed.

End PreparationFailures.

Lemma mkfs_prepare_failure_witness :
  late_failure_run = Some (run_of late_failure_run) /\
  incl (opened (trace (snd (run_of late_failure_run))))
       (closed (trace (snd (run_of late_failure_run)))) /\
  map (fun q => prepare_ret (snd q))
    (prepared (trace (snd (run_of late_failure_run)))) = [0; -2] /\
  forallb call_succeeded (trace (snd (run_of late_failure_run))) = true /\
  fst (run_of late_failure_run) = PyErr_OSError 2.
Proof.
  assert (Hrun : pybtrfs_mkfs (K := linux_uapi)
                   (late_failure_env sample_groups) 10
                   (sample_args two_devices) initial_world
                 = Some (fst (run_of late_failure_run),
                         snd (run_of late_failure_run)))
    by (vm_compute; reflexivity).
  assert (Hall : forallb call_succeeded
                   (trace (snd (run_of late_failure_run))) = true)
    by (vm_compute; reflexivity).
  split; [vm_compute; reflexivity|].
  destruct (mkfs_prepare_failure (K := linux_uapi)
              (late_failure_env sample_groups) 10 (sample_args two_devices)
              initial_world (fst (run_of late_failure_run))
              (snd (run_of late_failure_run))
              (trace (snd (run_of late_failure_run)))
              Hrun (from_initial_world _))
    as (Hcl & _ & _ & _ & Hlate).
  split; [exact Hcl|].
  split; [vm_compute; reflexivity|].
  split; [exact Hall|].
  apply (Hlate
           {| fd := 3; file := "/dev/loop0"; dev_byte_count := GiB;
              byte_count := 0; zero_end := true; discard := true;
              zoned := false; prepare_ret := 0 |}
           []
           {| fd := -1; file := "/dev/loop1"; dev_byte_count := 0;
              byte_count := 0; zero_end := true; discard := true;
              zoned := false; prepare_ret := -2 |}
           []).
  - vm_compute. reflexivity.
  - vm_compute. reflexivity.
  - reflexivity.
  - intros [Hz _]. apply Hz. reflexivity.
  - constructor.
  - intros Hz. discriminate Hz.
  - exact Hall.
Defined.

(** * A requested size larger than the device *)

Section RequestedSize.

Context {K : btrfs_uapi}.
Variable E : environment.

(** C3.  In a run of [mkfs] where the first worker recorded a successful
    probe and the requested [byte_count] is nonzero and larger than the
    size it probed, [make_btrfs] is not called and nothing is committed,
    and the call raises an [OSError] with a nonzero code: [ENOSPC] when
    every worker was started, and otherwise the code of the
    [pthread_create] that failed.  From the test of [byte_count] on, the
    code always returns, with [ENOSPC]. *)
Theorem mkfs_byte_count_too_large (fuel : nat) (a : mkfs_args) (w : world)
  (res : py_result) (w' : world) (evs : list event)
  (p0 : prepare_device_progress) :
  pybtrfs_mkfs E fuel a w = Some (res, w') ->
  trace w' = trace w ++ evs ->
  In (Prepared O p0) evs ->
  prepare_ret p0 = 0 ->
  kw_byte_count a <> 0 ->
  kw_byte_count a > dev_byte_count p0 ->
  Forall (fun e => mutation e = false) evs /\
  (exists e, e <> 0 /\ res = PyErr_OSError e) /\
  (List.length (prepared evs) = List.length (kw_devices a) ->
   res = PyErr_OSError ENOSPC) /\
  ((List.length (prepared evs) < List.length (kw_devices a))%nat ->
   exists i c,
     In (Lib (PthreadCreate i) c) evs /\ ret c <> 0 /\
     res = PyErr_OSError (ret c)) /\
  (forall (paths : list string) (fs_uuid : string) (mp dp inc ns : Z)
          (ctx : list prepare_device_progress) (w0 : world),
      nth O ctx default_progress = p0 ->
      exists w1,
        mkfs_prepared E fuel a paths fs_uuid mp dp inc ns ctx w0
        = Some (PyErr_OSError ENOSPC, w1)).
Proof.
  intros Hrun Ht Hin Hp Hbc Hgt.
  destruct (run_plan E fuel a w res w' evs Hrun Ht) as (ps & _ & _ & Hshape).
  assert (Hseg : forall (paths : list string) (fs_uuid : string)
                        (mp dp inc ns : Z)
                        (ctx : list prepare_device_progress) (w0 : world),
             nth O ctx default_progress = p0 ->
             exists w1,
               mkfs_prepared E fuel a paths fs_uuid mp dp inc ns ctx w0
               = Some (PyErr_OSError ENOSPC, w1)).
  { intros paths fs_uuid mp dp inc ns ctx w0 Hn.
    destruct (mkfs_prepared_stops E fuel a paths fs_uuid mp dp inc ns ctx w0)
      as [_ H].
    cbv zeta in H. rewrite Hn in H. now apply H. }
  assert (Hthread :
            (List.length (prepared evs) < List.length (kw_devices a))%nat ->
            exists i c,
              In (Lib (PthreadCreate i) c) evs /\ ret c <> 0 /\
              res = PyErr_OSError (ret c)).
  { intros Hshort.
    pose proof Hrun as Hph. apply pybtrfs_mkfs_phases in Hph.
    cbv zeta in Hph.
    destruct Hph as [(evs0 & (Heq & _) & _ & _ & Hth)
                    |[(ctx & evs0 & (Heq & _) & _ & Hprep & Hl & _)
                     |(ctx & pg & pre & w1 & r & w2 & post & Hprep & Hl
                       & _ & _ & Ha1 & Htrees & Ha2 & Hpost & _)]].
    - rewrite Ht in Heq. apply app_inv_head in Heq. subst evs0.
      destruct Hth as [Hnil|Hth]; [|exact Hth].
      apply In_prepared in Hin. rewrite Hnil in Hin. destruct Hin.
    - rewrite Ht in Heq. apply app_inv_head in Heq. subst evs0.
      rewrite Hprep, (length_combine_seq ctx O _ Hl) in Hshort. lia.
    - destruct (prepared_through_trees E _ _ _ _ _ _ _ _ _ _ _ _ _ _ _ _ _
                  Hprep Hl Ha1 Htrees Ha2 Hpost Ht)
        as (mid & _ & _ & Hall).
      rewrite Hall, (length_combine_seq ctx O _ Hl) in Hshort. lia. }
  assert (Herr : raises res -> exists e, e <> 0 /\ res = PyErr_OSError e).
  { intros Hraise.
    destruct (pybtrfs_mkfs_run E fuel a w res w' Hrun)
      as (evs' & Ht' & _ & _ & Hres).
    rewrite Ht in Ht'. apply app_inv_head in Ht'. subst evs'.
    apply raises_converted; [exact Hraise|].
    destruct Hres as [(_ & Hall)|Hc]; [|exact Hc].
    exfalso. exact (prepared_not_checking O p0 evs Hin Hall). }
  apply In_prepared in Hin.
  destruct Hshape as [([Hlen|Hnil] & Hraise & Hmut)
                     |(ctx & evs1 & evs2 & He & Hprep & Hlen & Hm1 & Hout)].
  - split; [exact Hmut|]. split; [exact (Herr Hraise)|].
    split; [intros Hall; lia|]. split; [exact Hthread | exact Hseg].
  - rewrite Hnil in Hin. destruct Hin.
  - rewrite Hprep in Hin. apply combine_seq_first in Hin.
    destruct Hout as (_ & H2 & _). rewrite Hin in H2.
    destruct (H2 Hp Hbc Hgt) as [Hres Hm2].
    split; [rewrite He; now apply Forall_app|].
    split; [apply Herr; rewrite Hres; simpl; unfold ENOSPC; lia|].
    split; [intros _; exact Hres|]. split; [exact Hthread | exact Hseg].
Qed.

End RequestedSize.

(** C3, when a thread cannot be created: the first device is probed at
    1 GiB while 2 GiB are requested, [pthread_create] fails with [EAGAIN]
    for the second device, and the run raises [OSError] with [EAGAIN], not
    with [ENOSPC]. *)
Lemma mkfs_oversized_thread_failure :
  oversized_thread_failure_run
  = Some (PyErr_OSError 11, snd (run_of oversized_thread_failure_run)) /\
  In (Prepared O
        {| fd := 3; file := "/dev/loop0"; dev_byte_count := GiB;
           byte_count := 2 * GiB; zero_end := false; discard := true;
           zoned := false; prepare_ret := 0 |})
    (trace (snd (run_of oversized_thread_failure_run))) /\
  kw_byte_count oversized_args = 2 * GiB /\
  2 * GiB > GiB /\
  In (Lib (PthreadCreate 1) (answer 11 0 0))
    (trace (snd (run_of oversized_thread_failure_run))) /\
  PyErr_OSError 11 <> PyErr_OSError ENOSPC.
Proof.
  split; [vm_compute; reflexivity|].
  split; [vm_compute; pick_event|].
  split; [reflexivity|]. split; [reflexivity|].
  split; [vm_compute; pick_event|].
  intros H. discriminate H.
Qed.

Lemma mkfs_byte_count_too_large_witness :
  oversized_run = Some (run_of oversized_run) /\
  kw_byte_count oversized_args <> 0 /\
  kw_byte_count oversized_args > GiB /\
  fst (run_of oversized_run) = PyErr_OSError ENOSPC /\
  Forall (fun e => mutation e = false) (trace (snd (run_of oversized_run))).
Proof.
  assert (Hrun : pybtrfs_mkfs (K := linux_uapi)
                   (obliging_env sample_groups) 10 oversized_args
                   initial_world
                 = Some (fst (run_of oversized_run),
                         snd (run_of oversized_run)))
    by (vm_compute; reflexivity).
  assert (Hbc : kw_byte_count oversized_args <> 0)
    by (vm_compute; discriminate).
  assert (Hgt : kw_byte_count oversized_args > GiB)
    by (vm_compute; reflexivity).
  assert (Hin : In (Prepared O
                      {| fd := 3; file := "/dev/loop0";
                         dev_byte_count := GiB; byte_count := 2 * GiB;
                         zero_end := false; discard := true;
                         zoned := false; prepare_ret := 0 |})
                  (trace (snd (run_of oversized_run))))
    by (vm_compute; pick_event).
  split; [vm_compute; reflexivity|].
  split; [exact Hbc|]. split; [exact Hgt|].
  destruct (mkfs_byte_count_too_large (K := linux_uapi)
              (obliging_env sample_groups) 10 oversized_args initial_world
              (fst (run_of oversized_run)) (snd (run_of oversized_run))
              (trace (snd (run_of oversized_run)))
              _ Hrun (from_initial_world _) Hin eq_refl Hbc Hgt)
    as (Hmut & _ & Hres & _).
  split; [apply Hres; vm_compute; reflexivity | exact Hmut].
Defined.

(** * The planner's ledger *)

Section PlannerLedger.

Context {K : btrfs_uapi}.
Variable E : environment.

(** C5.  When the chunk allocation succeeds, [create_one_raid_group] adds
    the chunk size, on [u64], to the ledger field of the type mask and
    leaves the four other fields as they were: [data] for DATA, [metadata]
    for METADATA, [system] for SYSTEM, [mixed] for METADATA|DATA.  With any
    other type mask it returns [-EINVAL] and leaves the ledger as it was;
    [create_raid_groups] then returns [-EINVAL] too, and the stages that
    follow it are not run. *)
Theorem create_one_raid_group_ledger (ty : Z) (w : world) :
  switch_labels_distinct ->
  ret (respond E (calls (trace w)) (AllocChunk ty)) = 0 ->
  let size := out2 (respond E (calls (trace w)) (AllocChunk ty)) in
  let m := Z.land ty BTRFS_BLOCK_GROUP_TYPE_MASK in
  let t := create_one_raid_group E ty w in
  let a := allocation w in
  (m = BTRFS_BLOCK_GROUP_DATA ->
   allocation (snd t)
   = {| data := (data a + size) mod 2 ^ 64; metadata := metadata a;
        mixed := mixed a; system := system a; remap := remap a |}) /\
  (m = BTRFS_BLOCK_GROUP_METADATA ->
   allocation (snd t)
   = {| data := data a; metadata := (metadata a + size) mod 2 ^ 64;
        mixed := mixed a; system := system a; remap := remap a |}) /\
  (m = BTRFS_BLOCK_GROUP_SYSTEM ->
   allocation (snd t)
   = {| data := data a; metadata := metadata a; mixed := mixed a;
        system := (system a + size) mod 2 ^ 64; remap := remap a |}) /\
  (m = Z.lor BTRFS_BLOCK_GROUP_METADATA BTRFS_BLOCK_GROUP_DATA ->
   allocation (snd t)
   = {| data := data a; metadata := metadata a;
        mixed := (mixed a + size) mod 2 ^ 64; system := system a;
        remap := remap a |}) /\
  (~ recognized m ->
   fst t = - EINVAL /\ allocation (snd t) = allocation w) /\
  (forall (dp mp : Z) (mixed : bool) (w0 : world) (evs : list event)
          (ty' : Z) (r' : response) (k : step),
      trace (snd (create_raid_groups E dp mp mixed w0)) = trace w0 ++ evs ->
      In (ty', r') (alloc_calls evs) ->
      ret r' = 0 ->
      ~ recognized (Z.land ty' BTRFS_BLOCK_GROUP_TYPE_MASK) ->
      fst (create_raid_groups E dp mp mixed w0) = - EINVAL /\
      and_then (total (create_raid_groups E dp mp mixed)) k w0
      = Some (create_raid_groups E dp mp mixed w0)).
Proof.
  intros Hd Hret. cbv zeta.
  assert (Hrun : create_one_raid_group E ty w
                 = let r := respond E (calls (trace w)) (AllocChunk ty) in
                   let w1 := record (Lib (AllocChunk ty) r) w in
                   let r2 := respond E (calls (trace w1))
                               (MakeBlockGroup ty (out1 r) (out2 r)) in
                   let w2 := record (Lib (MakeBlockGroup ty (out1 r) (out2 r))
                                       r2) w1 in
                   match account_chunk
                           (Z.land ty BTRFS_BLOCK_GROUP_TYPE_MASK) (out2 r)
                           (allocation w) with
                   | Some a => (ret r2, set_allocation a w2)
                   | None => (- EINVAL, w2)
                   end).
  { unfold create_one_raid_group, call. cbv zeta. rewrite Hret.
    reflexivity. }
  rewrite Hrun. cbv zeta.
  set (size := out2 (respond E (calls (trace w)) (AllocChunk ty))).
  destruct (account_chunk_recognized
              (Z.land ty BTRFS_BLOCK_GROUP_TYPE_MASK) size (allocation w) Hd)
    as (H1 & H2 & H3 & H4 & H5 & _).
  split; [intros Hm; rewrite (H1 Hm); reflexivity|].
  split; [intros Hm; rewrite (H2 Hm); reflexivity|].
  split; [intros Hm; rewrite (H3 Hm); reflexivity|].
  split; [intros Hm; rewrite (H4 Hm); reflexivity|].
  split; [intros Hm; rewrite (H5 Hm); split; reflexivity|].
  intros dp mp mixed w0 evs ty' r' k Ht Hin Hr' Hn.
  destruct (create_raid_groups_events E dp mp mixed w0)
    as (evs' & Ht' & _ & _ & Hbad).
  rewrite Ht in Ht'. apply app_inv_head in Ht'. subst evs'.
  pose proof (Hbad ty' r' Hin Hr' Hn) as Hr.
  split; [exact Hr|].
  unfold and_then, total.
  destruct (create_raid_groups E dp mp mixed w0) as [c w1].
  simpl in Hr. subst c. reflexivity.
Qed.

End PlannerLedger.

Lemma create_one_raid_group_ledger_witness :
  switch_labels_distinct (K := linux_uapi) /\
  ret (respond (obliging_env []) (calls (trace initial_world))
         (AllocChunk (Z.lor 1 RAID1))) = 0 /\
  allocation (snd (create_one_raid_group (K := linux_uapi) (obliging_env [])
                     (Z.lor 1 RAID1) initial_world))
  = {| data := 8388608; metadata := 0; mixed := 0; system := 0;
       remap := 0 |}.
Proof.
  split; [exact linux_switch_labels_distinct|].
  split; [reflexivity|].
  apply (create_one_raid_group_ledger (K := linux_uapi) (obliging_env [])
           (Z.lor 1 RAID1) initial_world linux_switch_labels_distinct
           eq_refl).
  reflexivity.
Defined.

(** * The cleaner's order and the ledger *)

Lemma filter_app_none {A : Type} (f g : A -> bool) (l1 l2 : list A) :
  Forall (fun x => g x = false) l2 ->
  (forall x, f x = true -> g x = true) ->
  filter f (l1 ++ l2) = filter f l1.
Proof.
  intros Hall Hfg. rewrite filter_app.
  replace (filter f l2) with (@nil A); [now rewrite app_nil_r|].
  symmetry. apply filter_none. eapply Forall_impl; [|exact Hall].
  intros x Hx. destruct (f x) eqn:Hf; [|reflexivity].
  apply Hfg in Hf. congruence.
Qed.

Section CleanerLedger.

Context {K : btrfs_uapi}.
Variable E : environment.

(** C6.  On a well-formed leaf the cleaner returns.  It goes through a
    part [pre] of the leaf, in the order of the leaf, and the groups it
    removed are the temporary groups of that part, each once and in that
    order; its removal calls go up strictly in the chunk start; and when no
    search, step or removal fails and it returns 0, that part holds every
    temporary group of the leaf.  For a removed group the ledger field of
    its type mask is decreased, on [u64], by the size of the group (the
    offset of its key) and the other fields stay; so each field of the
    ledger ends as it was, minus the sizes of the removed groups of that
    field.  In a run of [mkfs], the ledger that the cleaner starts from is
    the one the run started from plus, for each field, the system
    reservation of the bootstrap and the chunk size given to each
    [btrfs_make_block_group]; and the decrease for a removed group is the
    increase recorded for the call that made it whenever the leaf item
    carries the type mask and the size of that call. *)
Theorem cleanup_removes_in_ascending_order (fuel : nat) (dp mp sp : Z)
  (dd : bool) (w : world) :
  BTRFS_BLOCK_GROUP_ITEM_KEY <> 0 ->
  well_formed_tree (items w) ->
  (List.length (items w) < fuel)%nat ->
  exists r w' evs pre post,
    cleanup_temp_chunks E fuel dp mp sp dd w = Some (r, w') /\
    trace w' = trace w ++ evs /\
    items w = pre ++ post /\
    removed_groups evs = map range (filter (temporary dp mp sp) pre) /\
    StronglySorted Z.lt (map fst (removal_calls evs)) /\
    items w' = filter (fun it => negb (temporary dp mp sp it)) pre ++ post /\
    (tree_ops_succeed E -> r = 0 ->
     removed_groups evs
     = map range (filter (temporary dp mp sp) (items w)) /\
     Forall (fun it => temporary dp mp sp it = false) (items w')) /\
    (forall g a,
        temporary dp mp sp g = true ->
        let m := Z.land (flags (bgi g)) BTRFS_BLOCK_GROUP_TYPE_MASK in
        let len := offset (key g) in
        let a' := unaccount_chunk (flags (bgi g)) len a in
        (m = BTRFS_BLOCK_GROUP_DATA /\
         a' = {| data := (data a - len) mod 2 ^ 64; metadata := metadata a;
                 mixed := mixed a; system := system a;
                 remap := remap a |}) \/
        (m = BTRFS_BLOCK_GROUP_METADATA /\
         a' = {| data := data a;
                 metadata := (metadata a - len) mod 2 ^ 64;
                 mixed := mixed a; system := system a;
                 remap := remap a |}) \/
        (m = BTRFS_BLOCK_GROUP_SYSTEM /\
         a' = {| data := data a; metadata := metadata a; mixed := mixed a;
                 system := (system a - len) mod 2 ^ 64;
                 remap := remap a |}) \/
        (m = Z.lor BTRFS_BLOCK_GROUP_METADATA BTRFS_BLOCK_GROUP_DATA /\
         a' = {| data := data a; metadata := metadata a;
                 mixed := (mixed a - len) mod 2 ^ 64; system := system a;
                 remap := remap a |})) /\
    (ledger_ok (allocation w) ->
     forall f,
       field f (allocation w')
       = (field f (allocation w)
          - debited f (filter (temporary dp mp sp) pre)) mod 2 ^ 64) /\
    (type_masks_ok ->
     forall (fuel0 : nat) (a : mkfs_args) (w0 : world) (res : py_result)
            (w1 : world),
       ledger_ok (allocation w0) ->
       pybtrfs_mkfs E fuel0 a w0 = Some (res, w1) ->
       exists evs0,
         trace w1 = trace w0 ++ evs0 /\
         (Forall (fun e => cleaner_entry e = false) evs0 \/
          cleaned E fuel0
            (select_data_prof (kw_data_profile a) (kw_mixed a)
               (Z.of_nat (List.length (kw_devices a))))
            (select_meta_profile (kw_metadata_profile a) (kw_mixed a)
               (Z.of_nat (List.length (kw_devices a))))
            (select_meta_profile (kw_metadata_profile a) (kw_mixed a)
               (Z.of_nat (List.length (kw_devices a))))
            w0 evs0 w1)) /\
    (forall f ty chunk_start chunk_size c g,
        Z.land (flags (bgi g)) BTRFS_BLOCK_GROUP_TYPE_MASK
        = Z.land ty BTRFS_BLOCK_GROUP_TYPE_MASK ->
        offset (key g) = chunk_size ->
        debited f [g]
        = credited f [Lib (MakeBlockGroup ty chunk_start chunk_size) c]) /\
    (type_masks_ok ->
     forall f z g,
       Z.land (flags (bgi g)) BTRFS_BLOCK_GROUP_TYPE_MASK
       = BTRFS_BLOCK_GROUP_SYSTEM ->
       offset (key g)
       = (if negb (ret z =? 0) then out1 z
          else BTRFS_MKFS_SYSTEM_GROUP_SIZE) ->
       debited f [g] = credited f [Lib IsZoned z]).
Proof.
  intros Hkey Hwf Hfuel.
  destruct (cleanup_temp_chunks_spec E dp mp sp Hkey fuel dd w Hwf Hfuel)
    as (r & w' & pre & post & evs & Hrun & Hpp & Hi & Ha & Ht & Hrg & Hso
        & Hpost).
  exists r, w', evs, pre, post.
  split; [exact Hrun|]. split; [exact Ht|]. split; [exact Hpp|].
  split; [exact Hrg|]. split; [exact Hso|]. split; [exact Hi|].
  split.
  { intros Hsucc Hr. specialize (Hpost Hsucc Hr). split.
    - rewrite Hrg, Hpp. f_equal. symmetry.
      apply (filter_app_none _ is_block_group); [exact Hpost|].
      intros x Hx. unfold temporary in Hx.
      apply andb_true_iff in Hx. tauto.
    - rewrite Hi. apply Forall_app; split.
      + apply Forall_forall. intros it Hin. apply filter_In in Hin.
        destruct Hin as [_ Hk]. now apply negb_true_iff in Hk.
      + eapply Forall_impl; [|exact Hpost].
        intros it Hbg. unfold temporary. now rewrite Hbg. }
  split.
  { intros g a Htemp. cbv zeta.
    destruct (removed_group_decrement dp mp sp g a Htemp)
      as [(Hm & ->)|[(Hm & ->)|[(Hm & ->)|(Hm & ->)]]].
    - left. split; [exact Hm | reflexivity].
    - right; left. split; [exact Hm | reflexivity].
    - right; right; left. split; [exact Hm | reflexivity].
    - right; right; right. split; [exact Hm | reflexivity]. }
  split.
  { intros Hok f. rewrite Ha.
    apply (unaccount_all_fields dp mp sp); [exact Hok|].
    apply Forall_forall. intros g Hg. apply filter_In in Hg. tauto. }
  split.
  { intros Hmasks fuel0 a w0 res w1 Hok Hmkfs.
    exact (pybtrfs_mkfs_ledger E Hmasks Hkey fuel0 a w0 res w1 Hok Hmkfs). }
  split.
  { intros f ty chunk_start chunk_size c g Hm Hn.
    cbn [debited credited fold_right credit_of]. now rewrite Hm, Hn. }
  intros (Hd & _ & _ & Hsys & _) f z g Hm Hn.
  cbn [debited credited fold_right credit_of]. rewrite Hm, Hn.
  unfold amount_for, field_of_mask.
  destruct Hd as (_ & D2 & _ & D4 & _).
  replace (BTRFS_BLOCK_GROUP_SYSTEM =? BTRFS_BLOCK_GROUP_DATA) with false
    by (symmetry; apply Z.eqb_neq; congruence).
  replace (BTRFS_BLOCK_GROUP_SYSTEM =? BTRFS_BLOCK_GROUP_METADATA)
    with false by (symmetry; apply Z.eqb_neq; congruence).
  rewrite Z.eqb_refl. reflexivity.
Qed.

End CleanerLedger.

Lemma linux_type_masks_ok : type_masks_ok (K := linux_uapi).
Proof.
  split; [exact linux_switch_labels_distinct|].
  repeat split; try reflexivity; intros H; discriminate H.
Qed.

(** The cleaner on the sample leaf, and a run on a library whose
    block-group root holds what was made: the bootstrap credits 4 MiB to
    [system] and 8 MiB each to [metadata] and [data], the planner 8 MiB
    each to [system] and [metadata], and the cleaner takes the bootstrap
    SYSTEM and METADATA groups away. *)
Lemma cleanup_removes_in_ascending_order_witness :
  BTRFS_BLOCK_GROUP_ITEM_KEY (btrfs_uapi := linux_uapi) <> 0 /\
  well_formed_tree (K := linux_uapi) (items sample_world) /\
  (List.length (items sample_world) < 10)%nat /\
  (exists r w' evs pre post,
      cleanup_temp_chunks (K := linux_uapi) (obliging_env sample_groups) 10
        RAID1 RAID1 RAID1 true sample_world = Some (r, w') /\
      trace w' = trace sample_world ++ evs /\
      items sample_world = pre ++ post /\
      removed_groups evs
      = map range (filter (temporary (K := linux_uapi) RAID1 RAID1 RAID1)
                     pre) /\
      StronglySorted Z.lt (map fst (removal_calls evs))) /\
  removed_groups (trace (snd (run_of_cleaner sample_cleanup)))
  = [(1 * MiB, 4 * MiB); (5 * MiB, 8 * MiB); (13 * MiB, 8 * MiB)] /\
  allocation (snd (run_of faithful_run))
  = {| data := 8 * MiB; metadata := 8 * MiB; mixed := 0;
       system := 8 * MiB; remap := 0 |} /\
  removed_groups (trace (snd (run_of faithful_run)))
  = [(1 * MiB, 4 * MiB); (16 * MiB, 8 * MiB)].
Proof.
  assert (Hk : BTRFS_BLOCK_GROUP_ITEM_KEY (btrfs_uapi := linux_uapi) <> 0)
    by (simpl; discriminate).
  assert (Hl : (List.length (items sample_world) < 10)%nat)
    by (simpl; lia).
  split; [exact Hk|]. split; [exact sample_groups_well_formed|].
  split; [exact Hl|].
  split.
  { destruct (cleanup_removes_in_ascending_order (K := linux_uapi)
                (obliging_env sample_groups) 10 RAID1 RAID1 RAID1 true
                sample_world Hk sample_groups_well_formed Hl)
      as (r & w' & evs & pre & post & H1 & H2 & H3 & H4 & H5 & _).
    exists r, w', evs, pre, post. auto. }
  split; [vm_compute; reflexivity|].
  split; vm_compute; reflexivity.
Defined.

(** The same run in numbers: what the events before the cleaner credit to
    each field, what the removed groups debit, and the ledger at the end,
    for the fields [data], [metadata], [mixed], [system], [remap]. *)
Lemma faithful_run_ledger :
  let evs := trace (snd (run_of faithful_run)) in
  let before := firstn 44 evs in
  let leaf := block_groups_on_disk faithful_env (calls before) in
  let removed := filter (temporary (K := linux_uapi) 0 RAID1 RAID1) leaf in
  let fields := [Data_field; Metadata_field; Mixed_field; System_field;
                 Remap_field] in
  faithful_run
  = Some (Py_BuildValue "0f0e0d0c-0b0a-0908-0706-050403020100" (2 * GiB),
          snd (run_of faithful_run)) /\
  evs = before ++ Enter (CleanupTempChunks 0 RAID1 RAID1 true)
               :: skipn 45 evs /\
  well_formed_tree (K := linux_uapi) leaf /\
  (List.length leaf < 10)%nat /\
  removed_groups evs = map range removed /\
  map (fun f => credited (K := linux_uapi) f before) fields
  = [8 * MiB; 16 * MiB; 0; 12 * MiB; 0] /\
  map (fun f => debited (K := linux_uapi) f removed) fields
  = [0; 8 * MiB; 0; 4 * MiB; 0] /\
  map (fun f => field f (allocation (snd (run_of faithful_run)))) fields
  = [8 * MiB; 8 * MiB; 0; 8 * MiB; 0].
Proof.
  cbv zeta.
  split; [vm_compute; reflexivity|].
  split; [vm_compute; reflexivity|].
  split.
  { assert (Hleaf : block_groups_on_disk faithful_env
                      (calls (firstn 44 (trace (snd (run_of faithful_run)))))
                    = [ block_group (1 * MiB) (4 * MiB) 2 0;
                        block_group (16 * MiB) (8 * MiB) 4 0;
                        block_group (24 * MiB) (8 * MiB) 1 0;
                        block_group (32 * MiB) (8 * MiB) 18 0;
                        block_group (40 * MiB) (8 * MiB) 20 0 ])
      by (vm_compute; reflexivity).
    rewrite Hleaf. split.
    - sorted_leaf.
    - unfold group_ok, group_end, u64_modulus, MiB.
      repeat constructor; simpl; lia. }
  split; [vm_compute; lia|].
  repeat split; vm_compute; reflexivity.
Qed.

(** * The cleaner within a run *)

Section CleanerInRun.

Context {K : btrfs_uapi}.
Variable E : environment.


End CleanerInRun.


(** * Descriptors *)

Section RunDescriptors.

Context {K : btrfs_uapi}.
Variable E : environment.

(** X12.  In every run, whatever fails, the descriptors given to [close]
    are those that [open] returned, each as many times as it was returned:
    the one list is a permutation of the other, whatever the order in which
    the workers opened them. *)
Theorem mkfs_closes_what_it_opened (fuel : nat) (a : mkfs_args) (w : world)
  (res : py_result) (w' : world) (evs : list event) :
  pybtrfs_mkfs E fuel a w = Some (res, w') ->
  trace w' = trace w ++ evs ->
  Permutation (closed evs) (opened evs).
Proof.
  intros Hrun Ht.
  destruct (pybtrfs_mkfs_run E fuel a w res w' Hrun)
    as (evs' & Ht' & Hco & _).
  rewrite Ht in Ht'. apply app_inv_head in Ht'. subst evs'.
  rewrite Hco. apply Permutation_refl.
Qed.

End RunDescriptors.

Lemma mkfs_closes_what_it_opened_witness :
  thread_failure_run = Some (run_of thread_failure_run) /\
  Permutation (closed (trace (snd (run_of thread_failure_run))))
    (opened (trace (snd (run_of thread_failure_run)))).
Proof.
  assert (Hrun : pybtrfs_mkfs (K := linux_uapi)
                   (thread_failure_env sample_groups) 10
                   (sample_args two_devices) initial_world
                 = Some (fst (run_of thread_failure_run),
                         snd (run_of thread_failure_run)))
    by (vm_compute; reflexivity).
  split; [vm_compute; reflexivity|].
  exact (mkfs_closes_what_it_opened (K := linux_uapi)
           (thread_failure_env sample_groups) 10 (sample_args two_devices)
           initial_world (fst (run_of thread_failure_run))
           (snd (run_of thread_failure_run))
           (trace (snd (run_of thread_failure_run)))
           Hrun (from_initial_world _)).
Defined.
